(* ===== verification/_CoqProject ===== *)
-Q . S2P
Prelude.v
SymFns.v
Registry.v
Render.v
State.v
Sample.v
Install.v
Proxy.v
Query.v
Lifecycle.v
Machine.v
Refine.v
Command.v
Trace.v
Bre.v
Configure.v
