(* ===== verification/Prelude.v ===== *)
(** * Symfile debug logging (gdb/symfile-debug.c): a verification development

    ** The program

    [src/gdb/symfile-debug.c] is GDB's tracing layer for symbol readers
    (lines 1-626; the lines after it are the autoconf input of another
    directory, see [Configure] below).
    Every objfile owns a pointer [sf] to a table of optional function
    pointers ([struct sym_fns]: sym_new_init, sym_init, sym_read, sym_finish,
    sym_offsets, sym_segments, sym_read_linetable, sym_relocate, and a pointer
    to a nested [struct sym_probe_fns]).  When the user setting
    [debug_symfile] is on, the layer swaps the table of each objfile for a
    heap-allocated shadow table whose populated slots are logging proxies
    ([debug_sym_*]) and whose absent slots stay absent; the proxies print a
    line to [gdb_stdlog] and forward to the saved real table.  The pieces:

    - the per-objfile record [debug_sym_fns_data] (real table pointer and
      shadow table) and the registry key that attaches it to an objfile;
    - [symfile_debug_installed], [install_symfile_debug_logging],
      [uninstall_symfile_debug_logging];
    - [objfile_set_sym_fns], the only writer of [objfile->sf];
    - [set_debug_symfile], the command hook that walks every objfile of every
      program space after the flag changed;
    - the proxies [debug_sym_new_init] ... [debug_sym_relocate],
      [debug_sym_get_probes] and the template tables [debug_sym_fns],
      [debug_sym_probe_fns];
    - the [objfile::...] methods that forward symbol queries to the objfile's
      quick-symbol functions [qf], logging when [debug_symfile] is on.

    ** The files

    - [Prelude] (this file): the outcome type of a C++ call (normal return,
      a GDB exception, a failed [gdb_assert], undefined behaviour, the
      model's fuel running out), the state-and-outcome monad [M] with its
      notation (scope [gdb_scope]), the loop combinator [for_each], specs
      [spec] in pre/post form, invariants [preserves], frames [steps],
      computations that need no fuel ([fuel_free]) and that always return
      ([returns]), each with the rules for the monad's operations, and
      the tactics ([solve_steps], [solve_returns]) and hint databases of
      the development.
    - [SymFns]: the operation tables.  Pointers to tables ([sf_ptr]) and to
      functions ([fn_ptr]) are values with identity; [sym_fns] is the struct;
      [debug_sym_fns] and [debug_sym_probe_fns] are the templates of lines
      380-383 and 494-505; [Backend] is the interface to the symbol readers
      (their static tables and the behaviour of their functions on an opaque
      [world]), [BackendOk] its laws.
    - [Registry]: the registry key ([objfile_key]) as an interface with its
      laws, implemented by a finite map.  Modelled from the contract the
      specification gives (the registry is not part of the source file).
    - [Render]: the text of the log lines ([%d], [0x%x], [%s]), the
      readers that take a printed number back ([read_d], [read_0x]: both
      conversions are injective on their range), the prefix test
      [starts_with], and the interface [Display] to the renderers GDB
      supplies.
    - [State]: the objfile, [debug_sym_fns_data], the heap of shadow records,
      the global state [gdb_state], the primitive actions (reading and
      writing [objfile->sf], [new], [fprintf_filtered], a reader's call), the
      well-formedness invariant [wf], the equivalence of states and the
      frame [io_step] of output and calls.
    - [Sample]: one symbol reader, one set of renderers and a few states, on
      which the definitions evaluate; the theorems with hypotheses are
      applied there.
    - [Install]: [symfile_debug_installed], install, uninstall,
      [objfile_set_sym_fns], [set_debug_symfile] (lines 56-61 and 507-604).
      Theorems: absence preservation, round trip, the guard's and the
      hook's postconditions, preservation of [wf] by each operation, every
      failure case (assertions, the null table), and that the table built
      by the eight conditional copies is the template restricted to the
      populated slots.
    - [Proxy]: the nine proxies (lines 363-487), the call through a function
      pointer [invoke] and the call through an objfile's table [call_sf].
      Theorems: each proxy logs and forwards (in the order of its code),
      transparency of the instrumentation for callers and readers, the
      proxy of [sym_segments] stops GDB, one unit of fuel is enough, calls
      change the log and the readers only, a value returned has the type of
      its slot (a vector of probes for [sym_get_probes]), a proxy finds
      its record by the objfile in its argument and dereferences null
      when that objfile has none.
    - [Query]: the sixteen [objfile::...] forwarders (lines 62-358) against
      the interface [Quick] to the quick-symbol functions.  Theorems: every
      query equals a one-step reference ([reference_query]); the flag affects
      the log only; the defaults without [qf]; the cases of
      [has_partial_symbols] by the flag [OBJF_PSYMTABS_READ], an
      enumerator of objfile-flags.h whose value is a field of [Quick]
      (the source file names it and does not say its value); what is
      logged.
    - [Lifecycle]: objfiles come and go.  The source registers no observer
      for new objfiles and relies on the loader calling
      [objfile_set_sym_fns] (comment at lines 623-624); [new_objfile],
      [load_objfile] and [free_objfile] model what objfiles.c and symfile.c
      do to the layer's state, from that comment and section 5 of the
      specification.  Theorems: a loaded objfile is instrumented exactly
      when the flag is set; a destroyed objfile leaves no entry and no
      record; both keep [wf] and touch no other objfile; loading and then
      destroying gives back a state equivalent to the first.
    - [Machine]: the events by which the rest of GDB acts on the layer
      (lines 606-626 bind the command to the flag and the hook; loading
      and destruction come from [Lifecycle]), the reachable states, the
      invariant that every live objfile is instrumented exactly when the
      flag is set, the evolution of the logical tables, the round trip of
      turning logging on and off, the number of records (one per objfile
      with the flag set, none without), that logging can always be
      turned off, and that no run ends for lack of fuel
      ([events_terminate]).
    - [Refine]: a specification of the same events that has no shadow
      table, registry or heap (a call prints the line of its slot when the
      flag is set and reaches the reader's function), the abstraction
      [erase] from the states of the layer to those of the specification,
      and the theorems that every event commutes with it
      ([layer_refines_spec]) and, by the invariant of [Machine], that
      every run does ([runs_refine_spec]).
    - [Command]: [_initialize_symfile_debug] (lines 613-626) registers the
      setting [symfile] with its variable, hooks and documentation in the
      lists of [set debug] and [show debug]; what GDB does with a
      registered boolean setting is modelled from its interface.
      Theorems: the registered [set] command is the command event of
      [Machine]; [show] prints the value [set] stored.
    - [Trace]: the log read back.  [kind_of_line] recognises a line by how
      it begins (the slot of a proxy, the probes, a query); [trace_of] is
      the sequence of lines a run of events has to print, given the flag
      at its start.  Theorems: the events fall into those that only print
      and call readers and those that only do bookkeeping
      ([event_frames]); the lines a run appends are the trace of its
      calls, in order ([log_is_trace]); a run without [set debug symfile
      on] from a state with logging off prints nothing
      ([silent_when_off]); the scenario of section 8 of the
      specification, step by step ([spec_scenario]).
    - [Configure]: lines 627-724, the input of autoconf for the directory
      [intl] that follows the C++ code in the source file.  The shell
      text is a computation on the shell's variables in the monad of this
      file, one definition per group of statements ([config_header] for
      line 630, [intl_defines], [maintainer_tools], [maintainer_mode],
      [included_libintl], [picflag_of_host], [bison3], [host_options],
      [choose_picflag], [output]; [configure_ac] is the sequence of those
      of lines 635-724 and [configure_intl] puts line 630 before it).
      The macros are modelled from the manual of autoconf and the shell
      from POSIX: an unquoted expansion is split into fields and matched
      against the pathnames of the directory, [test] compares two strings,
      [echo] writes its operands, sed edits line by line.  The machine is
      the interface [Host]: the programs found, the lines Bison prints,
      the pathnames that match a pattern, and what [test] and [echo] do
      where POSIX leaves it to the implementation.  No statement leaves
      the script, so its monad has no error and every run returns
      ([configure_run]).  Theorems: what each part may assign (frames)
      and what it decides; what the whole script substitutes in the
      output files when it asks nothing of the directory
      ([configure_decides]); that [DEFS] names the header and no entry
      ([configure_intl_DEFS]); that a value of [--enable-host-shared]
      with a pattern character makes [PICFLAG] depend on a file name
      ([picflag_reads_directory]); which versions count as Bison 3
      ([bison3_one_digit_major]) and that the test reads the version a
      line of Bison ends in ([bison3_reads_version]).  It shares only the
      monad with the other files.
    - [Bre]: the sed command of line 686, which extracts the version from
      the lines Bison prints.  Its basic regular expression is a list of
      pieces (a set of characters, once or repeated), [match_pieces] is a
      matcher that tries the longest repetition first and backs off, and
      [sed_bison] is the command on a line.  Theorems: the matcher finds
      a match exactly when the relation [Matches] has one and returns the
      match POSIX prescribes ([match_pieces_posix]); what the command
      prints is a version that stands in the line ([sed_bison_sound]); on
      a line that ends in a blank and a version it prints that version
      ([sed_bison_version]).  [Configure] requires it.

    ** Modelling choices

    - Pointers.  [objfile *] is an [objfile_id] (a key of the objfile map;
      a pointer that is no key is a wild pointer and faults).  A
      [const sym_fns *] is [SfNull], [SfStatic t] (the address of a symbol
      reader's static table [t]) or [SfDebug a] (the address of the
      [debug_sf] member of the [debug_sym_fns_data] allocated at [a]).
      Reference equality of tables is equality of these values.
    - Allocation.  [new] returns an address that is not live, chosen by
      stdpp's [fresh]; theorems use only freshness.  The same holds for
      the address of a new objfile; the address of a destroyed objfile may
      be used again.
    - Lifecycle.  An objfile is created with [sf == NULL] and given its
      table by the guard in one event ([Ev_load_objfile]): no command runs
      between the two in GDB.  The calls its destructor makes through the
      table ([sym_finish]) are call events that precede
      [Ev_free_objfile].
    - Outcomes.  [gdb_assert] failing is [Abort] with the state at that
      point; a null or dangling dereference is [Fault]; an exception thrown
      by a symbol reader is [Throw] with the state at the throw, so the
      lines logged before it are kept.
    - Symbol readers act on an opaque [world] and do not re-enter this
      layer: the specification (section 5) excludes interleaving of table
      replacement with calls.
    - Fuel.  Only [Proxy.invoke] takes fuel: a shadow table whose saved real
      table is itself a shadow table recurses in C.  In a well-formed state
      the saved table is a reader's static table and one unit of fuel
      suffices ([Proxy.invoke_fuel_enough]: more fuel gives the same outcome,
      and the outcome is not [OutOfFuel]); the events of [Machine] use that
      fuel, and [Machine.events_terminate] shows that it is enough for
      every run from a state of the invariant: no run ends in
      [OutOfFuel], and a call has the same outcome with any larger
      amount.  The loops of [set_debug_symfile] run over the lists of
      the state by [for_each] and need no fuel.
    - The log.  [gdb_stdlog] is the list of the texts printed, one entry
      per call of [fprintf_filtered]; a format string with its arguments
      is the concatenation of its pieces and conversions.  The theorems
      about the log of a run ([Trace]) hold for every instance of
      [Display]: a line is recognised by the literal text the format
      string begins with, never by what a renderer returns.
    - Typing.  The arguments and the value of a call through a slot are
      untyped in the model ([sf_args], [sf_val]); a call that C's types rule
      out is the fault [BadSignature], and [BackendOk] states that a reader's
      function returns a value of its slot's type.

    ** Not modelled

    The parsing of the command line and the matching of abbreviated
    command names; what the stream [gdb_stdlog] does with a text after
    [fprintf_filtered] received it (paging, wrapping, redirection: code
    of utils.c); the text the external renderers [objfile_debug_name],
    [host_address_to_string], [domain_name] produce (the interface
    [Display]: the source file only calls them); what
    creating and destroying an objfile does outside this layer (reading the
    file, the other keys of the registry, observers); objfiles that other
    parts of GDB create with logging on and never give symbol functions
    (the hook dereferences their null [sf], see
    [Install.set_debug_symfile_faults_iff]); symbol readers that call back
    into this layer.  Of the configure input: the macros of lines 627-633
    but [AC_CONFIG_HEADER] ([AC_INIT] and the parsing of the command
    line, [AM_GNU_GETTEXT]), which are code of autoconf and gettext and
    leave the state the model starts from; the cache of
    [AC_CHECK_PROGS]; what Bison prints, which pathnames a pattern
    matches, and what [test] and [echo] do with operands POSIX leaves to
    the implementation (inputs of [Host]); what [config.status] does with
    the values substituted. *)

From stdpp Require Import base tactics option list strings gmap.
From Stdlib Require Import ZArith Lia.

(** ** Outcomes of a call *)

(** What C leaves undefined and the model makes observable. *)
Inductive fault : Set :=
| NullDereference   (* a null pointer is dereferenced or called *)
| DanglingPointer   (* a pointer to storage that is not live *)
| BadSignature.     (* a function called with arguments of another signature *)

#[export] Instance fault_eq_dec : EqDecision fault.
Proof. solve_decision. Defined.

(** The outcome of running a piece of the program from a state of type [S]:
    [E] is the type of GDB exceptions, [A] the type of the returned value. *)
Inductive outcome (S E A : Type) : Type :=
| Ret (a : A) (s : S)             (* normal return *)
| Throw (e : E) (s : S)           (* an exception unwinds through the caller *)
| Abort (msg : string) (s : S)    (* gdb_assert failed: internal_error *)
| Fault (f : fault)               (* undefined behaviour *)
| OutOfFuel.                      (* the model stopped, not the program *)

Arguments Ret {S E A} a s.
Arguments Throw {S E A} e s.
Arguments Abort {S E A} msg s.
Arguments Fault {S E A} f.
Arguments OutOfFuel {S E A}.

(** An outcome seen through a view of the state. *)
Definition outcome_map {S S' E A} (f : S -> S') (o : outcome S E A) : outcome S' E A :=
  match o with
  | Ret a s => Ret a (f s)
  | Throw e s => Throw e (f s)
  | Abort msg s => Abort msg (f s)
  | Fault x => Fault x
  | OutOfFuel => OutOfFuel
  end.

(** The monad of the development: a state transformer with outcomes. *)
Definition M (S E A : Type) : Type := S -> outcome S E A.

Section Monad.
Context {S E : Type}.

Definition ret {A} (a : A) : M S E A := fun s => Ret a s.

Definition bind {A B} (m : M S E A) (f : A -> M S E B) : M S E B :=
  fun s =>
    match m s with
    | Ret a s' => f a s'
    | Throw e s' => Throw e s'
    | Abort msg s' => Abort msg s'
    | Fault f => Fault f
    | OutOfFuel => OutOfFuel
    end.

Definition get_state : M S E S := fun s => Ret s s.
Definition put_state (s : S) : M S E unit := fun _ => Ret tt s.
Definition gets {A} (f : S -> A) : M S E A := fun s => Ret (f s) s.
Definition modify (f : S -> S) : M S E unit := fun s => Ret tt (f s).
Definition throw {A} (e : E) : M S E A := fun s => Throw e s.
Definition abort {A} (msg : string) : M S E A := fun s => Abort msg s.
Definition crash {A} (f : fault) : M S E A := fun _ => Fault f.
Definition out_of_fuel {A} : M S E A := fun _ => OutOfFuel.

(** [gdb_assert (expr)]: continue when [expr] holds, otherwise
    internal_error with the text of the assertion. *)
Definition gdb_assert (expr : bool) (msg : string) : M S E unit :=
  if expr then ret tt else abort msg.

(** A pointer dereference: [None] is the null (or dead) pointer. *)
Definition deref {A} (f : fault) (p : option A) : M S E A :=
  match p with
  | Some a => ret a
  | None => crash f
  end.

(** [if (c) body;] *)
Definition when (c : bool) (body : M S E unit) : M S E unit :=
  if c then body else ret tt.

(** [for (x : l) body (x);] *)
Fixpoint for_each {X} (l : list X) (body : X -> M S E unit) : M S E unit :=
  match l with
  | [] => ret tt
  | x :: l' => bind (body x) (fun _ => for_each l' body)
  end.

(** The state an outcome leaves behind, when it leaves one. *)
Definition final_state {A} (o : outcome S E A) : option S :=
  match o with
  | Ret _ s | Throw _ s | Abort _ s => Some s
  | Fault _ | OutOfFuel => None
  end.

(** The returned value of a normal return. *)
Definition returned {A} (o : outcome S E A) : option A :=
  match o with
  | Ret a _ => Some a
  | _ => None
  end.

(** [spec P m Q]: from a state satisfying [P], [m] returns normally, with a
    value and a state related to the initial state by [Q].  Total: a throw,
    an abort, a fault or running out of fuel falsify it. *)
Definition spec {A} (P : S -> Prop) (m : M S E A) (Q : S -> A -> S -> Prop) : Prop :=
  forall s, P s -> exists a s', m s = Ret a s' /\ Q s a s'.

(** [preserves I m]: whenever [m] leaves a state behind (normal return,
    throw or abort), that state satisfies [I] if the initial one did. *)
Definition preserves {A} (I : S -> Prop) (m : M S E A) : Prop :=
  forall s s', I s -> final_state (m s) = Some s' -> I s'.

(** [steps T m]: whenever [m] leaves a state behind, that state is related
    to the initial one by [T]: a frame for what [m] may change. *)
Definition steps {A} (T : relation S) (m : M S E A) : Prop :=
  forall s s', final_state (m s) = Some s' -> T s s'.

(** [fuel_free m]: [m] never stops for lack of fuel. *)
Definition fuel_free {A} (m : M S E A) : Prop := forall s, m s <> OutOfFuel.

(** [returns m]: [m] returns normally from every state. *)
Definition returns {A} (m : M S E A) : Prop := forall s, exists a s', m s = Ret a s'.

End Monad.

Arguments M : clear implicits.

Declare Scope gdb_scope.
Delimit Scope gdb_scope with gdb.
Notation "x <- c1 ;; c2" := (bind c1 (fun x => c2))
  (at level 100, c1 at next level, right associativity) : gdb_scope.
Notation "c1 ;; c2" := (bind c1 (fun _ => c2))
  (at level 100, right associativity) : gdb_scope.

(** ** Hint databases and tactics *)

Create HintDb gdb discriminated.
Create Rewrite HintDb gdb_rw.

(** Unfold the monad's operations in the goal and in the hypotheses. *)
Ltac munfold :=
  unfold gdb_assert, when, deref, gets, modify, get_state, put_state,
    throw, abort, crash, out_of_fuel, bind, ret in *.

(** Case analysis on the outcome scrutinised by the goal or a hypothesis. *)
Ltac case_outcome :=
  match goal with
  | |- context [match ?m ?s with Ret _ _ => _ | _ => _ end] =>
      let E := fresh "Hrun" in destruct (m s) eqn:E
  | H : context [match ?m ?s with Ret _ _ => _ | _ => _ end] |- _ =>
      let E := fresh "Hrun" in destruct (m s) eqn:E
  end.

(** Close a goal by computation on closed terms. *)
Ltac by_compute := vm_compute; reflexivity.

(** ** Laws of the monad *)

Section MonadLaws.
Context {S E : Type}.
Implicit Types s : S.

Lemma bind_ret_l {A B} (a : A) (f : A -> M S E B) s :
  bind (ret a) f s = f a s.
Proof. reflexivity. Qed.

Lemma bind_ret_r {A} (m : M S E A) s : bind m ret s = m s.
Proof. unfold bind, ret. by destruct (m s). Qed.

Lemma bind_assoc {A B C} (m : M S E A) (f : A -> M S E B) (g : B -> M S E C) s :
  bind (bind m f) g s = bind m (fun a => bind (f a) g) s.
Proof. unfold bind. by destruct (m s). Qed.

Lemma bind_Ret {A B} (m : M S E A) (f : A -> M S E B) s a s' :
  m s = Ret a s' -> bind m f s = f a s'.
Proof. unfold bind. by intros ->. Qed.

Lemma bind_ext_l {A B} (m m' : M S E A) (f : A -> M S E B) s :
  m s = m' s -> bind m f s = bind m' f s.
Proof. unfold bind. by intros ->. Qed.

(** Inversion of a normal return of a bind. *)
Lemma bind_Ret_inv {A B} (m : M S E A) (f : A -> M S E B) s b s2 :
  bind m f s = Ret b s2 ->
  exists a s1, m s = Ret a s1 /\ f a s1 = Ret b s2.
Proof. unfold bind. destruct (m s); naive_solver. Qed.

Lemma gdb_assert_true msg s : gdb_assert (E:=E) true msg s = Ret tt s.
Proof. reflexivity. Qed.

Lemma gdb_assert_false msg s : gdb_assert (E:=E) false msg s = Abort msg s.
Proof. reflexivity. Qed.

Lemma gdb_assert_Ret expr msg s u s' :
  gdb_assert (E:=E) expr msg s = Ret u s' -> expr = true /\ s' = s.
Proof. destruct expr; cbv; intros; by simplify_eq. Qed.

Lemma for_each_app {X} (l1 l2 : list X) (body : X -> M S E unit) s :
  for_each (l1 ++ l2) body s = bind (for_each l1 body) (fun _ => for_each l2 body) s.
Proof.
  revert s. induction l1 as [|x l1 IH]; intros s; cbn; [done|].
  unfold bind in *. destruct (body x s); auto.
Qed.

(** The loop rule: a body that returns normally and keeps [I] on every
    element makes the loop return normally and keep [I]. *)
Lemma for_each_spec {X} (I : S -> Prop) (l : list X) (body : X -> M S E unit) :
  (forall x, x ∈ l -> spec I (body x) (fun _ _ s' => I s')) ->
  spec I (for_each l body) (fun _ _ s' => I s').
Proof.
  induction l as [|x l IH]; intros Hbody s Hs; cbn.
  - by exists tt, s.
  - destruct (Hbody x (list_elem_of_here _ _) s Hs) as ([] & s1 & Hx & Hs1).
    rewrite (bind_Ret _ _ _ _ _ Hx). apply IH; [|done].
    intros y Hy. apply Hbody. by apply list_elem_of_further.
Qed.

(** The loop rule with the elements done so far: [I done] holds before the
    element that follows [done], and the body moves it one element on. *)
Lemma for_each_progress {X} (I : list X -> S -> Prop) (l : list X)
    (body : X -> M S E unit) :
  (forall done x rest, l = done ++ x :: rest ->
     spec (I done) (body x) (fun _ _ s' => I (done ++ [x]) s')) ->
  spec (I []) (for_each l body) (fun _ _ s' => I l s').
Proof.
  intros Hbody.
  enough (forall done rest, l = done ++ rest ->
            spec (I done) (for_each rest body) (fun _ _ s' => I l s')) as Hgen
    by (by apply (Hgen [] l)).
  intros done rest. revert done.
  induction rest as [|x rest IH]; intros done Hl s Hs; cbn.
  - exists tt, s. by rewrite Hl, app_nil_r.
  - destruct (Hbody done x rest Hl s Hs) as ([] & s1 & Hx & Hs1).
    rewrite (bind_Ret _ _ _ _ _ Hx). apply (IH (done ++ [x])); [|done].
    by rewrite <- app_assoc.
Qed.

(** Nested loops over a list of lists visit the concatenation. *)
Lemma for_each_concat {X} (ls : list (list X)) (body : X -> M S E unit) s :
  for_each ls (fun l => for_each l body) s = for_each (concat ls) body s.
Proof.
  revert s. induction ls as [|l ls IH]; intros s; cbn; [done|].
  rewrite for_each_app. unfold bind. destruct (for_each l body s); auto.
Qed.

(** A loop stops at the first element whose body does not return. *)
Lemma for_each_stops {X} (l1 l2 : list X) (x : X) (body : X -> M S E unit) s s1 :
  for_each l1 body s = Ret tt s1 ->
  (forall u s2, body x s1 <> Ret u s2) ->
  for_each (l1 ++ x :: l2) body s = bind (body x) (fun _ => ret tt) s1.
Proof.
  intros H1 Hx. rewrite for_each_app, (bind_Ret _ _ _ _ _ H1). cbn.
  unfold bind. destruct (body x s1) as [u s2| | | |] eqn:Hrun; try done.
  by destruct (Hx u s2).
Qed.

(** A loop whose body leaves every state where it is keeps it. *)
Lemma for_each_skip {X} (l : list X) (body : X -> M S E unit) s :
  (forall x, x ∈ l -> body x s = Ret tt s) -> for_each l body s = Ret tt s.
Proof.
  induction l as [|x l IH]; intros Hbody; cbn; [done|].
  rewrite (bind_Ret _ _ _ _ _ (Hbody x (list_elem_of_here _ _))).
  apply IH. intros y Hy. apply Hbody. by apply list_elem_of_further.
Qed.

Lemma spec_weaken {A} (P P' : S -> Prop) (Q Q' : S -> A -> S -> Prop) (m : M S E A) :
  (forall s, P' s -> P s) -> (forall s a s', P' s -> Q s a s' -> Q' s a s') ->
  spec P m Q -> spec P' m Q'.
Proof.
  intros HP HQ Hm s Hs. destruct (Hm s (HP s Hs)) as (a & s' & ? & ?). eauto.
Qed.

Lemma spec_preserves {A} (I : S -> Prop) (m : M S E A) (Q : S -> A -> S -> Prop) :
  spec I m Q -> (forall s a s', I s -> Q s a s' -> I s') -> preserves I m.
Proof.
  intros Hm HQ s s' Hs Hfin. destruct (Hm s Hs) as (a & s1 & Hrun & HQ1).
  rewrite Hrun in Hfin. cbn in Hfin. simplify_eq. eauto.
Qed.

(** *** Frames: the rules of [steps] for a preorder *)

Section Steps.
Context (T : relation S) `{!PreOrder T}.

Lemma steps_ret {A} (a : A) : steps T (ret (E:=E) a).
Proof. intros s s' [= <-]. reflexivity. Qed.

Lemma steps_bind {A B} (m : M S E A) (f : A -> M S E B) :
  steps T m -> (forall a, steps T (f a)) -> steps T (bind m f).
Proof.
  intros Hm Hf s s'. unfold bind. destruct (m s) as [a s1| | | |] eqn:Hrun; cbn;
    try (intros [= <-]; apply Hm; by rewrite Hrun); [|done..].
  intros Hfin. etrans; [apply Hm; by rewrite Hrun|]. by eapply Hf.
Qed.

Lemma steps_gets {A} (f : S -> A) : steps T (gets (E:=E) f).
Proof. intros s s' [= <-]. reflexivity. Qed.

Lemma steps_modify (f : S -> S) : (forall s, T s (f s)) -> steps T (modify (E:=E) f).
Proof. intros Hf s s' [= <-]. apply Hf. Qed.

Lemma steps_throw {A} (e : E) : steps T (throw (A:=A) e).
Proof. intros s s' [= <-]. reflexivity. Qed.

Lemma steps_abort {A} msg : steps T (abort (E:=E) (A:=A) msg).
Proof. intros s s' [= <-]. reflexivity. Qed.

Lemma steps_crash {A} f : steps T (crash (S:=S) (E:=E) (A:=A) f).
Proof. intros s s' [=]. Qed.

Lemma steps_out_of_fuel {A} : steps T (out_of_fuel (S:=S) (E:=E) (A:=A)).
Proof. intros s s' [=]. Qed.

Lemma steps_deref {A} f (o : option A) : steps T (deref (E:=E) f o).
Proof. destruct o; [apply steps_ret|apply steps_crash]. Qed.

Lemma steps_gdb_assert b msg : steps T (gdb_assert (E:=E) b msg).
Proof. destruct b; [apply steps_ret|apply steps_abort]. Qed.

Lemma steps_when c (body : M S E unit) : steps T body -> steps T (when c body).
Proof. destruct c; [done|intros _; apply steps_ret]. Qed.

Lemma steps_for_each {X} (l : list X) (body : X -> M S E unit) :
  (forall x, steps T (body x)) -> steps T (for_each l body).
Proof.
  intros Hbody. induction l as [|x l IH]; [apply steps_ret|].
  apply steps_bind; [apply Hbody|done].
Qed.

(** A frame that respects an invariant makes the invariant preserved. *)
Lemma steps_preserves {A} (I : S -> Prop) (m : M S E A) :
  (forall s s', T s s' -> I s -> I s') -> steps T m -> preserves I m.
Proof. intros HT Hm s s' Hs Hfin. eapply HT; [by apply Hm|done]. Qed.

End Steps.

(** *** Computations that use no fuel *)

Lemma fuel_free_bind {A B} (m : M S E A) (f : A -> M S E B) :
  fuel_free m -> (forall a, fuel_free (f a)) -> fuel_free (bind m f).
Proof.
  intros Hm Hf s. unfold bind. specialize (Hm s).
  destruct (m s); try done. apply Hf.
Qed.

Lemma fuel_free_ret {A} (a : A) : fuel_free (ret (S:=S) (E:=E) a).
Proof. done. Qed.

Lemma fuel_free_gets {A} (f : S -> A) : fuel_free (gets (E:=E) f).
Proof. done. Qed.

Lemma fuel_free_modify (f : S -> S) : fuel_free (modify (E:=E) f).
Proof. done. Qed.

Lemma fuel_free_abort {A} msg : fuel_free (abort (S:=S) (E:=E) (A:=A) msg).
Proof. done. Qed.

Lemma fuel_free_crash {A} f : fuel_free (crash (S:=S) (E:=E) (A:=A) f).
Proof. done. Qed.

Lemma fuel_free_deref {A} f (o : option A) : fuel_free (deref (S:=S) (E:=E) f o).
Proof. by destruct o. Qed.

Lemma fuel_free_gdb_assert b msg : fuel_free (gdb_assert (S:=S) (E:=E) b msg).
Proof. by destruct b. Qed.

Lemma fuel_free_when c (body : M S E unit) : fuel_free body -> fuel_free (when c body).
Proof. by destruct c. Qed.

Lemma fuel_free_for_each {X} (l : list X) (body : X -> M S E unit) :
  (forall x, fuel_free (body x)) -> fuel_free (for_each l body).
Proof.
  intros Hbody. induction l as [|x l IH]; [done|]. by apply fuel_free_bind.
Qed.

(** *** Computations that always return *)

Lemma returns_ret {A} (a : A) : returns (ret (S:=S) (E:=E) a).
Proof. intros s. by eexists _, _. Qed.

Lemma returns_bind {A B} (m : M S E A) (f : A -> M S E B) :
  returns m -> (forall a, returns (f a)) -> returns (bind m f).
Proof.
  intros Hm Hf s. destruct (Hm s) as (a & s1 & Hrun). unfold bind. rewrite Hrun. apply Hf.
Qed.

Lemma returns_gets {A} (f : S -> A) : returns (gets (E:=E) f).
Proof. intros s. by eexists _, _. Qed.

Lemma returns_modify (f : S -> S) : returns (modify (E:=E) f).
Proof. intros s. by eexists _, _. Qed.

Lemma returns_when c (body : M S E unit) : returns body -> returns (when c body).
Proof. destruct c; [done|]. intros _. apply returns_ret. Qed.

Lemma returns_for_each {X} (l : list X) (body : X -> M S E unit) :
  (forall x, returns (body x)) -> returns (for_each l body).
Proof.
  intros Hbody. induction l as [|x l IH]; [apply returns_ret|]. by apply returns_bind.
Qed.

(** A computation that always returns within a frame. *)
Lemma returns_steps {A} (T : relation S) (m : M S E A) s :
  returns m -> steps T m -> exists a s', m s = Ret a s' /\ T s s'.
Proof.
  intros Hm HT. destruct (Hm s) as (a & s' & Hrun). exists a, s'. split; [done|].
  apply HT. by rewrite Hrun.
Qed.


End MonadLaws.

#[export] Hint Rewrite @bind_ret_l @bind_ret_r @bind_assoc : gdb_rw.
#[export] Hint Resolve gdb_assert_true gdb_assert_false : gdb.

(** The rules of [steps], for [eauto with steps]. *)
Create HintDb steps discriminated.
#[export] Hint Resolve steps_ret steps_bind steps_gets steps_throw steps_abort steps_crash
  steps_out_of_fuel steps_deref steps_gdb_assert steps_when steps_for_each : steps.
#[export] Hint Extern 0 (PreOrder _) => apply _ : steps.
#[export] Hint Resolve fuel_free_bind fuel_free_ret fuel_free_gets fuel_free_modify
  fuel_free_abort fuel_free_crash fuel_free_deref fuel_free_gdb_assert : steps.

(** The rules of [returns], for [eauto with returns]. *)
Create HintDb returns discriminated.
#[export] Hint Resolve returns_ret returns_gets returns_modify : returns.

(** Prove a [returns] goal by the structure of the computation. *)
Ltac solve_returns :=
  intros;
  repeat first
    [ solve [eauto 2 with returns]
    | apply returns_bind; [|intros ?]
    | apply returns_when
    | apply returns_for_each; intros ? ].

(** Decompose a sequence of binds and close the leaves with the rules. *)
Ltac solve_steps :=
  intros;
  repeat first
    [ solve [eauto 3 with steps]
    | apply steps_bind; [apply _| |intros ?]
    | apply steps_when; [apply _|]
    | apply steps_for_each; [apply _|intros ?]
    | apply fuel_free_bind; [|intros ?]
    | apply fuel_free_when
    | apply fuel_free_for_each; intros ? ].

(** ** Shared lemmas on integers, options, lists and maps *)

Lemma not_elem_of_concat {A} (x : A) (ls : list (list A)) :
  x ∉ concat ls <-> forall l, l ∈ ls -> x ∉ l.
Proof.
  rewrite list_elem_of_In, in_concat. split.
  - intros Hn l Hl Hx. apply Hn. exists l.
    by rewrite <- !list_elem_of_In.
  - intros Hn (l & Hl & Hx). apply (Hn l); by rewrite list_elem_of_In.
Qed.

(** The first element of a list with a decidable property. *)
Lemma first_such {X} (P : X -> Prop) `{!forall x, Decision (P x)} (l : list X) x :
  x ∈ l -> P x ->
  exists l1 y l2, l = l1 ++ y :: l2 /\ P y /\ forall z, z ∈ l1 -> ~ P z.
Proof.
  induction l as [|z l IH]; intros Hin HP; [by apply elem_of_nil in Hin|].
  destruct (decide (P z)) as [Hz|Hz].
  - exists [], z, l. split_and!; [done..|]. by intros ? ?%elem_of_nil.
  - apply elem_of_cons in Hin as [->|Hin]; [done|].
    destruct (IH Hin HP) as (l1 & y & l2 & -> & Hy & Hl1).
    exists (z :: l1), y, l2. split_and!; [done..|].
    intros w [->|Hw]%elem_of_cons; auto.
Qed.

Lemma fresh_not_in_dom `{Countable K, Infinite K} {V} (m : gmap K V) :
  m !! fresh (dom m) = None.
Proof. apply not_elem_of_dom, is_fresh. Qed.

(** A list of lists with one element appended to one of them. *)
Lemma concat_insert_snoc {A} (ls : list (list A)) i l x :
  ls !! i = Some l -> concat (<[i := l ++ [x]]> ls) ≡ₚ x :: concat ls.
Proof.
  revert i. induction ls as [|l0 ls IH]; intros [|i] Hi; simplify_eq/=.
  - rewrite <- app_assoc. symmetry. apply Permutation_middle.
  - rewrite (IH i Hi). symmetry. apply Permutation_middle.
Qed.

(** Filtering each list of a list of lists. *)
Lemma concat_map_filter {A} (P : A -> Prop) `{!forall x, Decision (P x)} (ls : list (list A)) :
  concat (map (filter P) ls) = filter P (concat ls).
Proof. induction ls as [|l ls IH]; [done|]. cbn. by rewrite filter_app, IH. Qed.

(** A finite map has at most as many entries as another when its keys are
    related one-to-one to keys of the other. *)
Lemma map_size_le_injection `{Countable K1, Countable K2} {V1 V2}
    (R : K1 -> K2 -> Prop) (m1 : gmap K1 V1) (m2 : gmap K2 V2) :
  (forall k v, m1 !! k = Some v -> exists k2, R k k2 /\ is_Some (m2 !! k2)) ->
  (forall k k' k2, is_Some (m1 !! k) -> is_Some (m1 !! k') -> R k k2 -> R k' k2 -> k = k') ->
  size m1 <= size m2.
Proof.
  revert m2. induction m1 as [|k v m1 Hk _ IH] using map_first_key_ind; intros m2 Hto Hinj.
  { rewrite map_size_empty. lia. }
  destruct (Hto k v) as (k2 & HR & [v2 Hk2]); [apply lookup_insert_eq|].
  rewrite map_size_insert_None by done.
  specialize (IH (delete k2 m2)). rewrite map_size_delete_Some in IH by eauto.
  assert (size m2 <> 0) by (apply map_size_ne_0_lookup; eauto).
  enough (size m1 <= pred (size m2)) by lia. apply IH.
  - intros k' v' Hk'. assert (k' <> k) as Hne by congruence.
    destruct (Hto k' v') as (k2' & HR' & Hk2'); [by rewrite lookup_insert_ne|].
    exists k2'. split; [done|]. rewrite lookup_delete_is_Some. split; [|done].
    intros <-. apply Hne. apply (Hinj k' k k2); try done.
    + rewrite lookup_insert_ne by done. eauto.
    + rewrite lookup_insert_eq. eauto.
  - intros k1 k1' k0 [? Hk1] [? Hk1']. apply Hinj.
    + rewrite lookup_insert_ne; [eauto|congruence].
    + rewrite lookup_insert_ne; [eauto|congruence].
Qed.
