(* ===== verification/SymFns.v ===== *)
(** * SymFns: the operation tables of symbol readers

    [struct sym_fns] is a table of optional function pointers, one per
    operation of a symbol reader, and a pointer to a nested table
    [struct sym_probe_fns].  This file holds the tables as data: pointers
    with identity ([sf_ptr], [fn_ptr], [probe_ptr]), the struct [sym_fns]
    with access by slot name (what the macro COPY_SF_PTR of
    [install_symfile_debug_logging] needs), the arguments and results of a
    call through a slot, the two template tables of the debug layer
    ([debug_sym_probe_fns], lines 380-383; [debug_sym_fns], lines 494-505),
    and [Backend], the interface to the symbol readers themselves. *)

From stdpp Require Import base tactics option list strings gmap finite.
From Stdlib Require Import ZArith.
From S2P Require Import Prelude.

(** ** Addresses *)

(** [struct objfile *]: the identity of an objfile. *)
Abbreviation objfile_id := positive (only parsing).
(** A host address, as [host_address_to_string] prints it. *)
Abbreviation host_addr := N (only parsing).
(** The address of a symbol reader's static [sym_fns] table. *)
Abbreviation table_id := N (only parsing).
(** The address of a symbol reader's static [sym_probe_fns] table. *)
Abbreviation probe_table_id := N (only parsing).
(** The address of a function of a symbol reader. *)
Abbreviation code_id := N (only parsing).
(** The address of a heap-allocated [debug_sym_fns_data]. *)
Abbreviation data_addr := positive (only parsing).
(** A non-null [struct symtab *]. *)
Abbreviation symtab_id := N (only parsing).
(** A non-null [struct compunit_symtab *]. *)
Abbreviation cust_id := N (only parsing).
(** The address of a [quick_symbol_functions] object. *)
Abbreviation quick_id := N (only parsing).

(** ** Slots and function pointers *)

(** The function slots of [struct sym_fns], in declaration order. *)
Inductive sf_slot : Set :=
| Sym_new_init
| Sym_init
| Sym_read
| Sym_finish
| Sym_offsets
| Sym_segments
| Sym_read_linetable
| Sym_relocate.

(** The static functions of symfile-debug.c that tables can point to. *)
Inductive debug_fn : Set :=
| Debug_sym_get_probes
| Debug_sym_new_init
| Debug_sym_init
| Debug_sym_read
| Debug_sym_finish
| Debug_sym_offsets
| Debug_sym_segments
| Debug_sym_read_linetable
| Debug_sym_relocate.

(** A non-null function pointer: a function of a symbol reader, or one of
    the proxies.  The null pointer is [None] in a slot. *)
Inductive fn_ptr : Set :=
| FnNative (c : code_id)
| FnDebug (d : debug_fn).

(** A non-null [const struct sym_probe_fns *]: a reader's table, or
    [&debug_sym_probe_fns]. *)
Inductive probe_ptr : Set :=
| ProbeNative (p : probe_table_id)
| ProbeDebug.

(** [struct sym_probe_fns]. *)
Record sym_probe_fns_t : Set := {
  sym_get_probes : option fn_ptr
}.

(** [struct sym_fns]. *)
Record sym_fns : Set := {
  sym_new_init : option fn_ptr;
  sym_init : option fn_ptr;
  sym_read : option fn_ptr;
  sym_finish : option fn_ptr;
  sym_offsets : option fn_ptr;
  sym_segments : option fn_ptr;
  sym_read_linetable : option fn_ptr;
  sym_relocate : option fn_ptr;
  sym_probe_fns : option probe_ptr
}.

(** A [const struct sym_fns *]. *)
Inductive sf_ptr : Set :=
| SfNull
| SfStatic (t : table_id)       (* a symbol reader's table *)
| SfDebug (a : data_addr).      (* &d->debug_sf, d the debug_sym_fns_data at a *)

#[export] Instance sf_slot_eq_dec : EqDecision sf_slot.
Proof. solve_decision. Defined.
#[export] Instance debug_fn_eq_dec : EqDecision debug_fn.
Proof. solve_decision. Defined.
#[export] Instance fn_ptr_eq_dec : EqDecision fn_ptr.
Proof. solve_decision. Defined.
#[export] Instance probe_ptr_eq_dec : EqDecision probe_ptr.
Proof. solve_decision. Defined.
#[export] Instance sym_probe_fns_eq_dec : EqDecision sym_probe_fns_t.
Proof. solve_decision. Defined.
#[export] Instance sym_fns_eq_dec : EqDecision sym_fns.
Proof. solve_decision. Defined.
#[export] Instance sf_ptr_eq_dec : EqDecision sf_ptr.
Proof. solve_decision. Defined.

(** The slots, in the order install copies them. *)
Definition all_slots : list sf_slot :=
  [Sym_new_init; Sym_init; Sym_read; Sym_finish; Sym_offsets; Sym_segments;
   Sym_read_linetable; Sym_relocate].

#[export] Program Instance sf_slot_finite : Finite sf_slot := {| enum := all_slots |}.
Next Obligation. by apply (bool_decide_unpack _). Qed.
Next Obligation. intros []; set_solver. Qed.

(** [(t)->name]: the slot of a table, by name. *)
Definition sf_get (name : sf_slot) (t : sym_fns) : option fn_ptr :=
  match name with
  | Sym_new_init => sym_new_init t
  | Sym_init => sym_init t
  | Sym_read => sym_read t
  | Sym_finish => sym_finish t
  | Sym_offsets => sym_offsets t
  | Sym_segments => sym_segments t
  | Sym_read_linetable => sym_read_linetable t
  | Sym_relocate => sym_relocate t
  end.

(** [(t)->name = f]. *)
Definition sf_set (name : sf_slot) (f : option fn_ptr) (t : sym_fns) : sym_fns :=
  match name with
  | Sym_new_init =>
      {| sym_new_init := f; sym_init := sym_init t; sym_read := sym_read t;
         sym_finish := sym_finish t; sym_offsets := sym_offsets t;
         sym_segments := sym_segments t;
         sym_read_linetable := sym_read_linetable t;
         sym_relocate := sym_relocate t; sym_probe_fns := sym_probe_fns t |}
  | Sym_init =>
      {| sym_new_init := sym_new_init t; sym_init := f; sym_read := sym_read t;
         sym_finish := sym_finish t; sym_offsets := sym_offsets t;
         sym_segments := sym_segments t;
         sym_read_linetable := sym_read_linetable t;
         sym_relocate := sym_relocate t; sym_probe_fns := sym_probe_fns t |}
  | Sym_read =>
      {| sym_new_init := sym_new_init t; sym_init := sym_init t; sym_read := f;
         sym_finish := sym_finish t; sym_offsets := sym_offsets t;
         sym_segments := sym_segments t;
         sym_read_linetable := sym_read_linetable t;
         sym_relocate := sym_relocate t; sym_probe_fns := sym_probe_fns t |}
  | Sym_finish =>
      {| sym_new_init := sym_new_init t; sym_init := sym_init t;
         sym_read := sym_read t; sym_finish := f; sym_offsets := sym_offsets t;
         sym_segments := sym_segments t;
         sym_read_linetable := sym_read_linetable t;
         sym_relocate := sym_relocate t; sym_probe_fns := sym_probe_fns t |}
  | Sym_offsets =>
      {| sym_new_init := sym_new_init t; sym_init := sym_init t;
         sym_read := sym_read t; sym_finish := sym_finish t; sym_offsets := f;
         sym_segments := sym_segments t;
         sym_read_linetable := sym_read_linetable t;
         sym_relocate := sym_relocate t; sym_probe_fns := sym_probe_fns t |}
  | Sym_segments =>
      {| sym_new_init := sym_new_init t; sym_init := sym_init t;
         sym_read := sym_read t; sym_finish := sym_finish t;
         sym_offsets := sym_offsets t; sym_segments := f;
         sym_read_linetable := sym_read_linetable t;
         sym_relocate := sym_relocate t; sym_probe_fns := sym_probe_fns t |}
  | Sym_read_linetable =>
      {| sym_new_init := sym_new_init t; sym_init := sym_init t;
         sym_read := sym_read t; sym_finish := sym_finish t;
         sym_offsets := sym_offsets t; sym_segments := sym_segments t;
         sym_read_linetable := f;
         sym_relocate := sym_relocate t; sym_probe_fns := sym_probe_fns t |}
  | Sym_relocate =>
      {| sym_new_init := sym_new_init t; sym_init := sym_init t;
         sym_read := sym_read t; sym_finish := sym_finish t;
         sym_offsets := sym_offsets t; sym_segments := sym_segments t;
         sym_read_linetable := sym_read_linetable t;
         sym_relocate := f; sym_probe_fns := sym_probe_fns t |}
  end.

(** [(t)->sym_probe_fns = p]. *)
Definition sf_set_probe_fns (p : option probe_ptr) (t : sym_fns) : sym_fns :=
  {| sym_new_init := sym_new_init t; sym_init := sym_init t;
     sym_read := sym_read t; sym_finish := sym_finish t;
     sym_offsets := sym_offsets t; sym_segments := sym_segments t;
     sym_read_linetable := sym_read_linetable t;
     sym_relocate := sym_relocate t; sym_probe_fns := p |}.

(** [struct sym_fns debug_sf {}]: every slot null. *)
Definition sym_fns_zero : sym_fns :=
  {| sym_new_init := None; sym_init := None; sym_read := None;
     sym_finish := None; sym_offsets := None; sym_segments := None;
     sym_read_linetable := None; sym_relocate := None; sym_probe_fns := None |}.

(** The proxy that stands for a slot. *)
Definition proxy_of (name : sf_slot) : debug_fn :=
  match name with
  | Sym_new_init => Debug_sym_new_init
  | Sym_init => Debug_sym_init
  | Sym_read => Debug_sym_read
  | Sym_finish => Debug_sym_finish
  | Sym_offsets => Debug_sym_offsets
  | Sym_segments => Debug_sym_segments
  | Sym_read_linetable => Debug_sym_read_linetable
  | Sym_relocate => Debug_sym_relocate
  end.

(** [static const struct sym_probe_fns debug_sym_probe_fns]. *)
Definition debug_sym_probe_fns : sym_probe_fns_t :=
  {| sym_get_probes := Some (FnDebug Debug_sym_get_probes) |}.

(** [static const struct sym_fns debug_sym_fns]: the template. *)
Definition debug_sym_fns : sym_fns :=
  {| sym_new_init := Some (FnDebug Debug_sym_new_init);
     sym_init := Some (FnDebug Debug_sym_init);
     sym_read := Some (FnDebug Debug_sym_read);
     sym_finish := Some (FnDebug Debug_sym_finish);
     sym_offsets := Some (FnDebug Debug_sym_offsets);
     sym_segments := Some (FnDebug Debug_sym_segments);
     sym_read_linetable := Some (FnDebug Debug_sym_read_linetable);
     sym_relocate := Some (FnDebug Debug_sym_relocate);
     sym_probe_fns := Some ProbeDebug |}.

(** A slot is populated (callable) or absent. *)
Definition populated (name : sf_slot) (t : sym_fns) : bool :=
  bool_decide (is_Some (sf_get name t)).

(** The template restricted to the slots a table populates: what a shadow
    of [real] must be. *)
Definition shadow_of (real : sym_fns) : sym_fns :=
  let keep {A} (r : option fn_ptr) (d : option A) : option A :=
    match r with Some _ => d | None => None end in
  {| sym_new_init := keep (sym_new_init real) (sym_new_init debug_sym_fns);
     sym_init := keep (sym_init real) (sym_init debug_sym_fns);
     sym_read := keep (sym_read real) (sym_read debug_sym_fns);
     sym_finish := keep (sym_finish real) (sym_finish debug_sym_fns);
     sym_offsets := keep (sym_offsets real) (sym_offsets debug_sym_fns);
     sym_segments := keep (sym_segments real) (sym_segments debug_sym_fns);
     sym_read_linetable :=
       keep (sym_read_linetable real) (sym_read_linetable debug_sym_fns);
     sym_relocate := keep (sym_relocate real) (sym_relocate debug_sym_fns);
     sym_probe_fns :=
       match sym_probe_fns real with
       | Some _ => sym_probe_fns debug_sym_fns
       | None => None
       end |}.

(** ** Calls through a slot *)

(** The arguments of a call, by C signature. *)
Inductive sf_args : Set :=
| Args_objfile (objfile : objfile_id)
    (* void f (struct objfile * ) *)
| Args_read (objfile : objfile_id) (symfile_flags : Z)
    (* void f (struct objfile *, symfile_add_flags) *)
| Args_offsets (objfile : objfile_id) (info : host_addr)
    (* void f (struct objfile *, const section_addr_info & ) *)
| Args_segments (abfd : host_addr)
    (* symfile_segment_data_up f (bfd * ) *)
| Args_relocate (objfile : objfile_id) (sectp buf : host_addr)
    (* bfd_byte *f (struct objfile *, asection *, bfd_byte * ) *)
| Args_probes (objfile : objfile_id).
    (* const std::vector<std::unique_ptr<probe>> &f (struct objfile * ) *)

(** The value a call returns. *)
Inductive sf_val : Set :=
| Val_void
| Val_ptr (p : host_addr)        (* bfd_byte *, symfile_segment_data_up *)
| Val_probes (data : host_addr). (* a vector, by the address of its data () *)

#[export] Instance sf_args_eq_dec : EqDecision sf_args.
Proof. solve_decision. Defined.
#[export] Instance sf_val_eq_dec : EqDecision sf_val.
Proof. solve_decision. Defined.

(** The signature a slot's arguments have. *)
Definition args_fit (name : sf_slot) (args : sf_args) : bool :=
  match name, args with
  | (Sym_new_init | Sym_init | Sym_finish | Sym_read_linetable), Args_objfile _
  | Sym_read, Args_read _ _
  | Sym_offsets, Args_offsets _ _
  | Sym_segments, Args_segments _
  | Sym_relocate, Args_relocate _ _ _ => true
  | _, _ => false
  end.

(** The return type a slot's value has: [void], or a pointer for
    [sym_segments] and [sym_relocate]. *)
Definition val_fits (name : sf_slot) (v : sf_val) : bool :=
  match name, v with
  | (Sym_segments | Sym_relocate), Val_ptr _ => true
  | (Sym_segments | Sym_relocate), _ => false
  | _, Val_void => true
  | _, _ => false
  end.

(** The value is a vector of probes. *)
Definition is_probes (v : sf_val) : bool :=
  match v with Val_probes _ => true | _ => false end.

(** ** The symbol readers *)

(** What a reader's function does: return a value or throw, acting on the
    reader's side of the world. *)
Inductive native_result (W E : Type) : Type :=
| NReturn (v : sf_val) (w : W)
| NThrow (e : E) (w : W).
Arguments NReturn {W E} v w.
Arguments NThrow {W E} e w.

(** The interface to the symbol readers linked into GDB: the state they act
    on, the exceptions they throw, their static tables, and the behaviour of
    their functions. *)
Class Backend : Type := {
  world : Type;
  gdb_exception : Type;
  sf_table : table_id -> sym_fns;
  probe_table : probe_table_id -> sym_probe_fns_t;
  native : code_id -> sf_args -> world -> native_result world gdb_exception
}.

(** A function pointer of a reader, not a proxy of this layer. *)
Definition is_native (f : fn_ptr) : bool :=
  match f with FnNative _ => true | FnDebug _ => false end.

(** No proxy occurs in a table: the proxies are [static] in symfile-debug.c,
    so no table of another file can name them. *)
Definition native_table (t : sym_fns) : bool :=
  forallb (fun name => from_option is_native true (sf_get name t)) all_slots
  && bool_decide (sym_probe_fns t <> Some ProbeDebug).

Definition native_probe_table (t : sym_probe_fns_t) : bool :=
  from_option is_native true (sym_get_probes t).

(** The readers' tables hold readers' functions, and a function in a slot
    has the slot's C type: called with the slot's arguments it returns a
    value of the slot's return type. *)
Class BackendOk (B : Backend) : Prop := {
  sf_table_native : forall t, native_table (sf_table t) = true;
  probe_table_native : forall p, native_probe_table (probe_table p) = true;
  sf_table_typed : forall t name c args w v w',
    sf_get name (sf_table t) = Some (FnNative c) -> args_fit name args = true ->
    native c args w = NReturn v w' -> val_fits name v = true;
  probe_table_typed : forall p c objfile w v w',
    sym_get_probes (probe_table p) = Some (FnNative c) ->
    native c (Args_probes objfile) w = NReturn v w' -> is_probes v = true
}.

(** [p->sym_get_probes], [p] a non-null probe table pointer. *)
Definition probe_fns_at `{Backend} (p : probe_ptr) : sym_probe_fns_t :=
  match p with
  | ProbeNative t => probe_table t
  | ProbeDebug => debug_sym_probe_fns
  end.

(** ** Lemmas *)

Lemma sf_get_set_eq name f t : sf_get name (sf_set name f t) = f.
Proof. by destruct name. Qed.

Lemma sf_get_set_ne name name' f t :
  name <> name' -> sf_get name' (sf_set name f t) = sf_get name' t.
Proof. by destruct name, name'. Qed.

Lemma sf_get_set name name' f t :
  sf_get name' (sf_set name f t) = if decide (name = name') then f else sf_get name' t.
Proof.
  case_decide as Hn; [subst; apply sf_get_set_eq | by apply sf_get_set_ne].
Qed.

Lemma sym_probe_fns_set name f t : sym_probe_fns (sf_set name f t) = sym_probe_fns t.
Proof. by destruct name. Qed.

Lemma sf_get_set_probe_fns name p t : sf_get name (sf_set_probe_fns p t) = sf_get name t.
Proof. by destruct name. Qed.

Lemma sf_get_zero name : sf_get name sym_fns_zero = None.
Proof. by destruct name. Qed.

(** Two tables with the same slots and the same probe pointer are equal. *)
Lemma sym_fns_ext t1 t2 :
  (forall name, sf_get name t1 = sf_get name t2) ->
  sym_probe_fns t1 = sym_probe_fns t2 -> t1 = t2.
Proof.
  intros Hs Hp. destruct t1, t2; cbn in *.
  pose proof (Hs Sym_new_init). pose proof (Hs Sym_init). pose proof (Hs Sym_read).
  pose proof (Hs Sym_finish). pose proof (Hs Sym_offsets). pose proof (Hs Sym_segments).
  pose proof (Hs Sym_read_linetable). pose proof (Hs Sym_relocate).
  cbn in *. congruence.
Qed.

Lemma sf_get_debug_sym_fns name : sf_get name debug_sym_fns = Some (FnDebug (proxy_of name)).
Proof. by destruct name. Qed.

Lemma sf_get_shadow_of name real :
  sf_get name (shadow_of real) =
  if populated name real then Some (FnDebug (proxy_of name)) else None.
Proof. unfold populated. destruct name, real; cbn; by case_match. Qed.

Lemma sym_probe_fns_shadow_of real :
  sym_probe_fns (shadow_of real) =
  match sym_probe_fns real with Some _ => Some ProbeDebug | None => None end.
Proof. reflexivity. Qed.

Lemma populated_shadow_of name real : populated name (shadow_of real) = populated name real.
Proof.
  unfold populated at 1. rewrite sf_get_shadow_of. unfold populated.
  by destruct (sf_get name real).
Qed.

Lemma proxy_of_inj : Inj (=) (=) proxy_of.
Proof. intros [] []; by intros [=]. Qed.

Lemma native_table_slot `{Backend} t name f :
  native_table t = true -> sf_get name t = Some f -> is_native f = true.
Proof.
  unfold native_table. rewrite andb_true_iff, forallb_forall.
  intros [Hall _] Hf. specialize (Hall name). rewrite Hf in Hall.
  apply Hall. destruct name; cbn; tauto.
Qed.

Lemma native_table_probe t :
  native_table t = true -> sym_probe_fns t <> Some ProbeDebug.
Proof.
  unfold native_table. rewrite andb_true_iff, bool_decide_eq_true. tauto.
Qed.

#[export] Hint Rewrite sf_get_set_eq sym_probe_fns_set sf_get_set_probe_fns
  sf_get_zero sf_get_debug_sym_fns sf_get_shadow_of populated_shadow_of : gdb_rw.
#[export] Hint Resolve native_table_probe : gdb.
