(* ===== verification/Registry.v ===== *)
(** * Registry: per-object attachment of data by a key

    [static const struct objfile_key<debug_sym_fns_data>
    symfile_debug_objfile_data_key] attaches at most one datum to each
    objfile, by the objfile's identity and independently of its fields.  The
    registry itself is not part of symfile-debug.c; this file states the
    contract the layer relies on ([set] fails when an entry exists, [get]
    never fails, [clear] fails when there is none) as the class [Registry],
    derives the lemmas clients use from its laws, and implements it with a
    finite map (the instance the development uses). *)

From stdpp Require Import base tactics option list gmap.
From S2P Require Import Prelude.

(** The contract of a registry key for data of type [D] on objects
    identified by [K]. *)
Class Registry (K D : Type) `{EqDecision K} : Type := {
  registry : Type;
  (** no object has a datum *)
  reg_empty : registry;
  (** [key.get (obj)]: the datum, or the absence marker *)
  reg_get : K -> registry -> option D;
  (** [key.set (obj, d)]: [None] when [obj] has a datum already *)
  reg_set : K -> D -> registry -> option registry;
  (** [key.clear (obj)]: [None] when [obj] has no datum *)
  reg_clear : K -> registry -> option registry;
  reg_get_empty k : reg_get k reg_empty = None;
  reg_set_fails k d r : reg_set k d r = None <-> is_Some (reg_get k r);
  reg_get_set k d r r' k' :
    reg_set k d r = Some r' ->
    reg_get k' r' = if decide (k = k') then Some d else reg_get k' r;
  reg_clear_fails k r : reg_clear k r = None <-> reg_get k r = None;
  reg_get_clear k r r' k' :
    reg_clear k r = Some r' ->
    reg_get k' r' = if decide (k = k') then None else reg_get k' r
}.

Arguments registry K D {_ _}.

(** The finite-map implementation. *)
Definition gmap_set `{Countable K} {D} (k : K) (d : D) (r : gmap K D) : option (gmap K D) :=
  match r !! k with
  | Some _ => None
  | None => Some (<[k:=d]> r)
  end.

Definition gmap_clear `{Countable K} {D} (k : K) (r : gmap K D) : option (gmap K D) :=
  match r !! k with
  | Some _ => Some (delete k r)
  | None => None
  end.

#[export] Program Instance gmap_registry `{Countable K} {D} : Registry K D := {|
  registry := gmap K D;
  reg_empty := ∅;
  reg_get k r := r !! k;
  reg_set := gmap_set;
  reg_clear := gmap_clear
|}.
Next Obligation. intros. apply lookup_empty. Qed.
Next Obligation.
  intros K ? ? D k d r. unfold gmap_set.
  destruct (r !! k) eqn:E; [split; eauto | split; [done | by intros [? ?]]].
Qed.
Next Obligation.
  intros K ? ? D k d r r' k'. unfold gmap_set. destruct (r !! k) eqn:E; [done|].
  intros [= <-]. apply lookup_insert.
Qed.
Next Obligation.
  intros K ? ? D k r. unfold gmap_clear. by destruct (r !! k).
Qed.
Next Obligation.
  intros K ? ? D k r r' k'. unfold gmap_clear. destruct (r !! k) eqn:E; [|done].
  intros [= <-]. apply lookup_delete.
Qed.

(** ** What clients use, from the laws alone *)

Section RegistryFacts.
Context {K D : Type} `{Registry K D}.
Implicit Types (k : K) (d : D) (r : registry K D).

Lemma reg_set_succeeds k d r :
  reg_get k r = None -> exists r', reg_set k d r = Some r'.
Proof.
  intros Hk. destruct (reg_set k d r) eqn:E; [eauto|].
  apply reg_set_fails in E. rewrite Hk in E. by destruct E.
Qed.

Lemma reg_set_Some_inv k d r r' : reg_set k d r = Some r' -> reg_get k r = None.
Proof.
  intros Hs. destruct (reg_get k r) eqn:E; [|done].
  assert (reg_set k d r = None) as Hn by (apply reg_set_fails; eauto).
  congruence.
Qed.

Lemma reg_get_set_eq k d r r' : reg_set k d r = Some r' -> reg_get k r' = Some d.
Proof. intros Hs. rewrite (reg_get_set _ _ _ _ k Hs). by rewrite decide_True. Qed.

Lemma reg_get_set_ne k d r r' k' :
  reg_set k d r = Some r' -> k <> k' -> reg_get k' r' = reg_get k' r.
Proof. intros Hs Hne. rewrite (reg_get_set _ _ _ _ k' Hs). by rewrite decide_False. Qed.

Lemma reg_clear_succeeds k r :
  is_Some (reg_get k r) -> exists r', reg_clear k r = Some r'.
Proof.
  intros [d Hk]. destruct (reg_clear k r) eqn:E; [eauto|].
  apply reg_clear_fails in E. congruence.
Qed.

Lemma reg_clear_Some_inv k r r' : reg_clear k r = Some r' -> is_Some (reg_get k r).
Proof.
  intros Hc. destruct (reg_get k r) eqn:E; [eauto|].
  apply reg_clear_fails in E. congruence.
Qed.

Lemma reg_get_clear_eq k r r' : reg_clear k r = Some r' -> reg_get k r' = None.
Proof. intros Hc. rewrite (reg_get_clear _ _ _ k Hc). by rewrite decide_True. Qed.

Lemma reg_get_clear_ne k r r' k' :
  reg_clear k r = Some r' -> k <> k' -> reg_get k' r' = reg_get k' r.
Proof. intros Hc Hne. rewrite (reg_get_clear _ _ _ k' Hc). by rewrite decide_False. Qed.

(** Round trip: an entry set and cleared again leaves every lookup as it
    was. *)
Lemma reg_set_clear_get k d r r1 r2 k' :
  reg_set k d r = Some r1 -> reg_clear k r1 = Some r2 ->
  reg_get k' r2 = reg_get k' r.
Proof.
  intros Hs Hc. rewrite (reg_get_clear _ _ _ k' Hc), (reg_get_set _ _ _ _ k' Hs).
  case_decide; [subst; symmetry; eauto using reg_set_Some_inv | done].
Qed.

(** A cleared entry can be set again. *)
Lemma reg_clear_set k d r r1 :
  reg_clear k r = Some r1 -> exists r2, reg_set k d r1 = Some r2.
Proof. intros Hc. eapply reg_set_succeeds, reg_get_clear_eq, Hc. Qed.

End RegistryFacts.

#[export] Hint Resolve reg_get_set_eq reg_get_clear_eq reg_set_Some_inv
  reg_clear_Some_inv : gdb.

(** In the finite-map implementation a set followed by a clear gives the
    registry back, not only its lookups. *)
Lemma gmap_set_clear `{Countable K} {D} (k : K) (d : D) (r r1 : gmap K D) :
  gmap_set k d r = Some r1 -> gmap_clear k r1 = Some r.
Proof.
  unfold gmap_set, gmap_clear. destruct (r !! k) eqn:E; [done|]. intros [= <-].
  rewrite lookup_insert_eq. f_equal. by rewrite delete_insert_eq, delete_id.
Qed.
