(* ===== verification/Render.v ===== *)
(** * Render: the text of the log lines

    What the [printf] conversions of symfile-debug.c produce, and the
    interface [Display] to the functions of other files that turn an objfile
    or a host address into text ([objfile_debug_name],
    [host_address_to_string], [symtab_to_filename_for_display],
    [domain_name], [search_domain_name], [hex_string]).  The conversions are
    computed: [%d] prints a
    signed decimal, [0x%x] of [(unsigned) x] prints the hexadecimal digits of
    [x] wrapped to 32 bits.  Both texts can be read back ([read_d],
    [read_0x]): [%d] loses nothing, [0x%x] of [(unsigned) x] loses exactly
    the multiples of 2^32.  The lemmas on [+:+] and [starts_with] are what
    [Trace] reads the lines of the log with. *)

From Stdlib Require Import ZArith String HexString DecimalString DecimalZ Ascii.
From stdpp Require Import base tactics strings.
From S2P Require Import Prelude SymFns.

(** The newline that ends every line of the log. *)
Definition nl : string := String "010"%char EmptyString.

(** [%d] of an [int]. *)
Definition fmt_d (z : Z) : string := NilZero.string_of_int (Z.to_int z).

(** [%d] of a [bool], promoted to [int]. *)
Definition fmt_bool (b : bool) : string := fmt_d (if b then 1 else 0).

(** [(unsigned) x], [unsigned] of 32 bits. *)
Definition to_unsigned (x : Z) : Z := x mod 2 ^ 32.

(** [0x%x] of [(unsigned) x]. *)
Definition fmt_0x (x : Z) : string := HexString.of_Z (to_unsigned x).

(** A double quote, for the arguments printed between quotes. *)
Definition dq : string := String "034"%char EmptyString.

(** [\"%s\"]: a string between quotes. *)
Definition quoted (s : string) : string := dq +:+ s +:+ dq.

(** [%s] of a [const char *] that may be null: the C library prints
    [(null)]. *)
Definition fmt_s (s : option string) : string :=
  match s with
  | Some s => s
  | None => "(null)"
  end.

(** The number a reader of the log gets from the text of a [%d]. *)
Definition read_d (text : string) : option Z := Z.of_int <$> NilZero.int_of_string text.

(** The number a reader of the log gets from the text of a [0x%x]. *)
Definition read_0x (text : string) : Z := HexString.to_Z text.

(** The text begins with [head]. *)
Fixpoint starts_with (head text : string) : bool :=
  match head, text with
  | EmptyString, _ => true
  | String c head', String c' text' => Ascii.eqb c c' && starts_with head' text'
  | String _ _, EmptyString => false
  end.

(** The renderers of other files. *)
Class Display : Type := {
  (** [objfile_debug_name (objfile)] (objfiles.c) *)
  objfile_debug_name : objfile_id -> string;
  (** [host_address_to_string (p)] (utils.c) *)
  host_address_to_string : host_addr -> string;
  (** [symtab_to_filename_for_display (symtab)] (source.c) *)
  symtab_to_filename_for_display : symtab_id -> string;
  (** [domain_name (domain)] (symtab.c) *)
  domain_name : Z -> string;
  (** [search_domain_name (kind)] (symtab.c) *)
  search_domain_name : Z -> string;
  (** [hex_string (addr)] (utils.c) *)
  hex_string : N -> string
}.

Lemma to_unsigned_range x : (0 <= to_unsigned x < 2 ^ 32)%Z.
Proof. apply Z.mod_pos_bound. done. Qed.

Lemma to_unsigned_small x : (0 <= x < 2 ^ 32)%Z -> to_unsigned x = x.
Proof. apply Z.mod_small. Qed.

Lemma to_unsigned_idemp x : to_unsigned (to_unsigned x) = to_unsigned x.
Proof. apply to_unsigned_small, to_unsigned_range. Qed.

Lemma to_unsigned_wrap x k : to_unsigned (x + k * 2 ^ 32) = to_unsigned x.
Proof. apply Z.mod_add. done. Qed.

Lemma fmt_0x_wrap x k : fmt_0x (x + k * 2 ^ 32) = fmt_0x x.
Proof. unfold fmt_0x. by rewrite to_unsigned_wrap. Qed.

Lemma fmt_bool_cases b : fmt_bool b = if b then "1" else "0".
Proof. by destruct b. Qed.

(** ** Strings *)

Lemma string_app_cons c (s1 s2 : string) : String c s1 +:+ s2 = String c (s1 +:+ s2).
Proof. reflexivity. Qed.

Lemma string_app_assoc (s1 s2 s3 : string) : (s1 +:+ s2) +:+ s3 = s1 +:+ (s2 +:+ s3).
Proof. induction s1 as [|c s1 IH]; [done|]. by rewrite !string_app_cons, IH. Qed.

Lemma starts_with_app head rest : starts_with head (head +:+ rest) = true.
Proof.
  induction head as [|c head IH]; [done|].
  rewrite string_app_cons. cbn. by rewrite Ascii.eqb_refl.
Qed.

Lemma starts_with_inv head text :
  starts_with head text = true -> exists rest, text = head +:+ rest.
Proof.
  revert text. induction head as [|c head IH]; intros text; [by exists text|].
  destruct text as [|c' text]; [done|]. cbn. rewrite andb_true_iff, Ascii.eqb_eq.
  intros [<- [rest ->]%IH]. exists rest. by rewrite string_app_cons.
Qed.

Lemma list_ascii_of_string_app (s1 s2 : string) :
  list_ascii_of_string (s1 +:+ s2) = list_ascii_of_string s1 ++ list_ascii_of_string s2.
Proof. induction s1 as [|c s1 IH]; [done|]. rewrite string_app_cons. cbn. by rewrite IH. Qed.

#[export] Instance list_ascii_of_string_inj : Inj (=) (=) list_ascii_of_string.
Proof.
  intros s1 s2 Heq.
  by rewrite <- (string_of_list_ascii_of_string s1), Heq, string_of_list_ascii_of_string.
Qed.

(** A text is determined by what precedes a given tail. *)
#[export] Instance string_app_inj_r (tail : string) : Inj (=) (=) (fun s => s +:+ tail).
Proof.
  intros s1 s2 Heq. apply (inj list_ascii_of_string).
  apply (f_equal list_ascii_of_string) in Heq. rewrite !list_ascii_of_string_app in Heq.
  by apply app_inv_tail in Heq.
Qed.

(** ** The numbers read back *)

Lemma to_int_not_nil z :
  Z.to_int z <> Decimal.Pos Decimal.Nil /\ Z.to_int z <> Decimal.Neg Decimal.Nil.
Proof.
  pose proof (DecimalZ.to_of (Z.to_int z)) as Hn. rewrite DecimalZ.of_to in Hn.
  split; intros Heq; rewrite Heq in Hn; discriminate Hn.
Qed.

Lemma read_d_fmt_d z : read_d (fmt_d z) = Some z.
Proof.
  unfold read_d, fmt_d. destruct (to_int_not_nil z) as [Hp Hn].
  rewrite NilZero.isi by done. cbn. by rewrite DecimalZ.of_to.
Qed.

#[export] Instance fmt_d_inj : Inj (=) (=) fmt_d.
Proof.
  intros x y Heq. apply (f_equal read_d) in Heq. rewrite !read_d_fmt_d in Heq. by simplify_eq.
Qed.

Lemma read_0x_fmt_0x x : read_0x (fmt_0x x) = to_unsigned x.
Proof. apply HexString.to_Z_of_Z. Qed.

Lemma fmt_0x_eq x y : fmt_0x x = fmt_0x y <-> to_unsigned x = to_unsigned y.
Proof.
  split; [|unfold fmt_0x; by intros ->].
  intros Heq. apply (f_equal read_0x) in Heq. by rewrite !read_0x_fmt_0x in Heq.
Qed.
