(* ===== verification/State.v ===== *)
(** * State: the objfiles, the shadow records and the primitive actions

    The state the debug layer reads and writes: the objfiles with their
    [sf] pointer, the program spaces that list them, the registry key
    [symfile_debug_objfile_data_key] (line 48), the heap of
    [debug_sym_fns_data] records (lines 40-44) the key's entries point to,
    the flag [debug_symfile] (line 52), the log [gdb_stdlog], and the symbol
    readers' own state.  The primitive actions are the memory accesses and
    calls the functions of symfile-debug.c are made of; [wf] is the
    well-formedness of the layer's part of the state; [≡] relates states
    that agree on every field and on every lookup of the key; [io_step]
    is the frame of output and readers' calls.  The actions that only
    read are shown to leave the state alone for every preorder. *)

From stdpp Require Import base tactics option list strings gmap.
From Stdlib Require Import ZArith.
From S2P Require Import Prelude SymFns Registry.

(** [struct debug_sym_fns_data]. *)
Record debug_sym_fns_data : Set := {
  real_sf : sf_ptr;
  debug_sf : sym_fns
}.

(** The fields of [struct objfile] the layer touches: the active table, the
    quick-symbol functions (null or an object), the flags. *)
Record struct_objfile : Set := {
  sf : sf_ptr;
  qf : option N;
  flags : Z
}.

#[export] Instance debug_sym_fns_data_eq_dec : EqDecision debug_sym_fns_data.
Proof. solve_decision. Defined.
#[export] Instance struct_objfile_eq_dec : EqDecision struct_objfile.
Proof. solve_decision. Defined.

(** [objfile->sf = p]. *)
Definition objfile_with_sf (p : sf_ptr) (ob : struct_objfile) : struct_objfile :=
  {| sf := p; qf := qf ob; flags := flags ob |}.

Lemma objfile_with_sf_twice p q ob :
  objfile_with_sf p (objfile_with_sf q ob) = objfile_with_sf p ob.
Proof. reflexivity. Qed.

Lemma objfile_with_sf_id ob : objfile_with_sf (sf ob) ob = ob.
Proof. by destruct ob. Qed.

#[export] Hint Rewrite objfile_with_sf_twice objfile_with_sf_id : gdb_rw.

Section State.
Context `{B : Backend} `{R : !Registry objfile_id data_addr}.

Record gdb_state : Type := {
  (** the live objfiles, by identity *)
  objfiles : gmap objfile_id struct_objfile;
  (** [program_spaces], each with its [objfiles ()] in order *)
  program_spaces : list (list objfile_id);
  (** the registry key's storage *)
  symfile_debug_objfile_data_key : registry objfile_id data_addr;
  (** the live [debug_sym_fns_data] records *)
  debug_heap : gmap data_addr debug_sym_fns_data;
  (** [static bool debug_symfile] *)
  debug_symfile : bool;
  (** what was printed to [gdb_stdlog], one entry per call *)
  gdb_stdlog : list string;
  (** the symbol readers' state *)
  readers : world
}.

Definition with_objfiles (m : gmap objfile_id struct_objfile) (s : gdb_state) : gdb_state :=
  {| objfiles := m; program_spaces := program_spaces s;
     symfile_debug_objfile_data_key := symfile_debug_objfile_data_key s;
     debug_heap := debug_heap s; debug_symfile := debug_symfile s;
     gdb_stdlog := gdb_stdlog s; readers := readers s |}.

Definition with_program_spaces (l : list (list objfile_id)) (s : gdb_state) : gdb_state :=
  {| objfiles := objfiles s; program_spaces := l;
     symfile_debug_objfile_data_key := symfile_debug_objfile_data_key s;
     debug_heap := debug_heap s; debug_symfile := debug_symfile s;
     gdb_stdlog := gdb_stdlog s; readers := readers s |}.

Definition with_key (r : registry objfile_id data_addr) (s : gdb_state) : gdb_state :=
  {| objfiles := objfiles s; program_spaces := program_spaces s;
     symfile_debug_objfile_data_key := r;
     debug_heap := debug_heap s; debug_symfile := debug_symfile s;
     gdb_stdlog := gdb_stdlog s; readers := readers s |}.

Definition with_heap (h : gmap data_addr debug_sym_fns_data) (s : gdb_state) : gdb_state :=
  {| objfiles := objfiles s; program_spaces := program_spaces s;
     symfile_debug_objfile_data_key := symfile_debug_objfile_data_key s;
     debug_heap := h; debug_symfile := debug_symfile s;
     gdb_stdlog := gdb_stdlog s; readers := readers s |}.

Definition with_debug_symfile (b : bool) (s : gdb_state) : gdb_state :=
  {| objfiles := objfiles s; program_spaces := program_spaces s;
     symfile_debug_objfile_data_key := symfile_debug_objfile_data_key s;
     debug_heap := debug_heap s; debug_symfile := b;
     gdb_stdlog := gdb_stdlog s; readers := readers s |}.

Definition with_log (l : list string) (s : gdb_state) : gdb_state :=
  {| objfiles := objfiles s; program_spaces := program_spaces s;
     symfile_debug_objfile_data_key := symfile_debug_objfile_data_key s;
     debug_heap := debug_heap s; debug_symfile := debug_symfile s;
     gdb_stdlog := l; readers := readers s |}.

Definition with_readers (w : world) (s : gdb_state) : gdb_state :=
  {| objfiles := objfiles s; program_spaces := program_spaces s;
     symfile_debug_objfile_data_key := symfile_debug_objfile_data_key s;
     debug_heap := debug_heap s; debug_symfile := debug_symfile s;
     gdb_stdlog := gdb_stdlog s; readers := w |}.

(** The monad of the layer. *)
Definition G (A : Type) : Type := M gdb_state gdb_exception A.

(** ** Primitive actions *)

(** [*objfile]: the objfile a pointer designates. *)
Definition read_objfile (objfile : objfile_id) : G struct_objfile :=
  fun s => deref DanglingPointer (objfiles s !! objfile) s.

(** [objfile->sf]. *)
Definition objfile_sf (objfile : objfile_id) : G sf_ptr :=
  bind (read_objfile objfile) (fun ob => ret (sf ob)).

(** [objfile->sf = p;] *)
Definition set_objfile_sf (objfile : objfile_id) (p : sf_ptr) : G unit :=
  bind (read_objfile objfile) (fun ob =>
  modify (fun s => with_objfiles (<[objfile := objfile_with_sf p ob]> (objfiles s)) s)).

(** [symfile_debug_objfile_data_key.get (objfile)]. *)
Definition key_get (objfile : objfile_id) : G (option data_addr) :=
  gets (fun s => reg_get objfile (symfile_debug_objfile_data_key s)).

(** [symfile_debug_objfile_data_key.set (objfile, d)]. *)
Definition key_set (objfile : objfile_id) (d : data_addr) : G unit :=
  fun s =>
    match reg_set objfile d (symfile_debug_objfile_data_key s) with
    | Some r => Ret tt (with_key r s)
    | None => Abort "registry: set of an entry that exists" s
    end.

(** [symfile_debug_objfile_data_key.clear (objfile)]: the entry is removed
    and the key, which owns its data, deletes the datum. *)
Definition key_clear (objfile : objfile_id) : G unit :=
  fun s =>
    match reg_get objfile (symfile_debug_objfile_data_key s),
          reg_clear objfile (symfile_debug_objfile_data_key s) with
    | Some d, Some r => Ret tt (with_heap (delete d (debug_heap s)) (with_key r s))
    | _, _ => Abort "registry: clear of an entry that does not exist" s
    end.

(** [new struct debug_sym_fns_data]: a record at an address that was not
    live, with its default member initialisers. *)
Definition new_debug_sym_fns_data : G data_addr :=
  fun s =>
    let a := fresh (dom (debug_heap s)) in
    Ret a (with_heap (<[a := {| real_sf := SfNull; debug_sf := sym_fns_zero |}]>
                        (debug_heap s)) s).

(** [*d], [d] a non-null pointer to a [debug_sym_fns_data]. *)
Definition load_debug_data (d : data_addr) : G debug_sym_fns_data :=
  fun s => deref DanglingPointer (debug_heap s !! d) s.

(** [*d], [d] as [key.get] returned it: null faults. *)
Definition debug_data_at (d : option data_addr) : G debug_sym_fns_data :=
  match d with
  | Some a => load_debug_data a
  | None => crash NullDereference
  end.

(** [*d = v], [d] live. *)
Definition store_debug_data (d : data_addr) (v : debug_sym_fns_data) : G unit :=
  bind (load_debug_data d) (fun _ =>
  modify (fun s => with_heap (<[d := v]> (debug_heap s)) s)).

(** [*p], [p] a [const struct sym_fns *]. *)
Definition load_sf (p : sf_ptr) : G sym_fns :=
  match p with
  | SfNull => crash NullDereference
  | SfStatic t => ret (sf_table t)
  | SfDebug a => bind (load_debug_data a) (fun d => ret (debug_sf d))
  end.

(** [fprintf_filtered (gdb_stdlog, ...)], the text already formatted. *)
Definition fprintf_filtered (text : string) : G unit :=
  modify (fun s => with_log (gdb_stdlog s ++ [text]) s).

(** A call of a symbol reader's function. *)
Definition call_native (c : code_id) (args : sf_args) : G sf_val :=
  fun s =>
    match native c args (readers s) with
    | NReturn v w => Ret v (with_readers w s)
    | NThrow e w => Throw e (with_readers w s)
    end.

(** ** Well-formedness *)

(** The layer's part of the state is consistent: an objfile has a registry
    entry exactly when its [sf] points into that entry's record; entries
    point to live records, one objfile each; every live record is some
    objfile's; a record saves a reader's table and shadows it slot by slot;
    the program spaces list exactly the live objfiles, once. *)
Record wf (s : gdb_state) : Prop := {
  wf_key_sf : forall o a,
    reg_get o (symfile_debug_objfile_data_key s) = Some a ->
    exists ob, objfiles s !! o = Some ob /\ sf ob = SfDebug a;
  wf_sf_key : forall o ob a,
    objfiles s !! o = Some ob -> sf ob = SfDebug a ->
    reg_get o (symfile_debug_objfile_data_key s) = Some a;
  wf_key_live : forall o a,
    reg_get o (symfile_debug_objfile_data_key s) = Some a ->
    is_Some (debug_heap s !! a);
  wf_heap_owned : forall a d,
    debug_heap s !! a = Some d ->
    exists o, reg_get o (symfile_debug_objfile_data_key s) = Some a;
  wf_key_inj : forall o1 o2 a,
    reg_get o1 (symfile_debug_objfile_data_key s) = Some a ->
    reg_get o2 (symfile_debug_objfile_data_key s) = Some a -> o1 = o2;
  wf_shadow : forall a d,
    debug_heap s !! a = Some d ->
    exists t, real_sf d = SfStatic t /\ debug_sf d = shadow_of (sf_table t);
  wf_listed : forall o,
    o ∈ concat (program_spaces s) <-> is_Some (objfiles s !! o);
  wf_nodup : NoDup (concat (program_spaces s))
}.

(** Two states are equivalent when they agree on every field, the registry
    being compared by its lookups: the registry's contract says nothing of
    its representation. *)
Record state_equiv (s1 s2 : gdb_state) : Prop := {
  equiv_objfiles : objfiles s1 = objfiles s2;
  equiv_program_spaces : program_spaces s1 = program_spaces s2;
  equiv_key : forall o,
    reg_get o (symfile_debug_objfile_data_key s1) =
    reg_get o (symfile_debug_objfile_data_key s2);
  equiv_heap : debug_heap s1 = debug_heap s2;
  equiv_debug_symfile : debug_symfile s1 = debug_symfile s2;
  equiv_stdlog : gdb_stdlog s1 = gdb_stdlog s2;
  equiv_readers : readers s1 = readers s2
}.

#[export] Instance gdb_state_equiv : Equiv gdb_state := state_equiv.

(** A state in which no objfile is instrumented: what GDB starts from, and
    what loading objfiles with the flag off gives. *)
Definition plain_state (obs : list (objfile_id * table_id)) (w : world) : gdb_state :=
  {| objfiles :=
       list_to_map (map (fun '(o, t) => (o, {| sf := SfStatic t; qf := None; flags := 0 |})) obs);
     program_spaces := [map fst obs];
     symfile_debug_objfile_data_key := reg_empty;
     debug_heap := ∅;
     debug_symfile := false;
     gdb_stdlog := [];
     readers := w |}.

(** [s'] is [s] after output and calls of the readers: the log has grown,
    the readers' world has moved, and nothing else has changed. *)
Record io_step (s s' : gdb_state) : Prop := {
  io_objfiles : objfiles s' = objfiles s;
  io_program_spaces : program_spaces s' = program_spaces s;
  io_key : symfile_debug_objfile_data_key s' = symfile_debug_objfile_data_key s;
  io_heap : debug_heap s' = debug_heap s;
  io_debug_symfile : debug_symfile s' = debug_symfile s;
  io_stdlog : exists lines, gdb_stdlog s' = gdb_stdlog s ++ lines
}.

(** The state after the readers moved to [w] and [lines] were printed. *)
Definition touched (w : world) (lines : list string) (s : gdb_state) : gdb_state :=
  with_readers w (with_log (gdb_stdlog s ++ lines) s).

(** What a call shows to its caller and to the readers: the outcome with
    the readers' world in place of the state. *)
Definition observe {A} (o : outcome gdb_state gdb_exception A) : outcome world gdb_exception A :=
  match o with
  | Ret v s => Ret v (readers s)
  | Throw e s => Throw e (readers s)
  | Abort msg s => Abort msg (readers s)
  | Fault f => Fault f
  | OutOfFuel => OutOfFuel
  end.

(** ** Lemmas on the primitive actions *)

Lemma read_objfile_Some objfile ob s :
  objfiles s !! objfile = Some ob -> read_objfile objfile s = Ret ob s.
Proof. unfold read_objfile. by intros ->. Qed.

Lemma read_objfile_None objfile s :
  objfiles s !! objfile = None -> read_objfile objfile s = Fault DanglingPointer.
Proof. unfold read_objfile. by intros ->. Qed.

Lemma objfile_sf_Some objfile ob s :
  objfiles s !! objfile = Some ob -> objfile_sf objfile s = Ret (sf ob) s.
Proof. intros Hob. unfold objfile_sf. by rewrite (bind_Ret _ _ _ _ _ (read_objfile_Some _ _ _ Hob)). Qed.

Lemma set_objfile_sf_Some objfile ob p s :
  objfiles s !! objfile = Some ob ->
  set_objfile_sf objfile p s =
  Ret tt (with_objfiles (<[objfile := objfile_with_sf p ob]> (objfiles s)) s).
Proof. intros Hob. unfold set_objfile_sf. by rewrite (bind_Ret _ _ _ _ _ (read_objfile_Some _ _ _ Hob)). Qed.

Lemma load_debug_data_Some d v s :
  debug_heap s !! d = Some v -> load_debug_data d s = Ret v s.
Proof. unfold load_debug_data. by intros ->. Qed.

Lemma store_debug_data_Some d v v' s :
  debug_heap s !! d = Some v ->
  store_debug_data d v' s = Ret tt (with_heap (<[d := v']> (debug_heap s)) s).
Proof. intros Hd. unfold store_debug_data. by rewrite (bind_Ret _ _ _ _ _ (load_debug_data_Some _ _ _ Hd)). Qed.

Lemma load_sf_static t s : load_sf (SfStatic t) s = Ret (sf_table t) s.
Proof. reflexivity. Qed.

Lemma load_sf_debug a d s :
  debug_heap s !! a = Some d -> load_sf (SfDebug a) s = Ret (debug_sf d) s.
Proof. intros Hd. cbn. by rewrite (bind_Ret _ _ _ _ _ (load_debug_data_Some _ _ _ Hd)). Qed.

Lemma load_sf_null s : load_sf SfNull s = Fault NullDereference.
Proof. reflexivity. Qed.

#[export] Instance state_equiv_equivalence : Equivalence (≡@{gdb_state}).
Proof.
  split.
  - by intros s.
  - intros s1 s2 [? ? ? ? ? ? ?]. by split.
  - intros s1 s2 s3 [? ? Hk ? ? ? ?] [? ? Hk' ? ? ? ?].
    split; try congruence; intros o; by rewrite Hk.
Qed.

(** Every field but the registry is the same in equivalent states, and so
    are the registry's lookups. *)
#[export] Instance objfiles_proper : Proper ((≡) ==> (=)) objfiles.
Proof. intros s1 s2 Hs. apply Hs. Qed.
#[export] Instance program_spaces_proper : Proper ((≡) ==> (=)) program_spaces.
Proof. intros s1 s2 Hs. apply Hs. Qed.
#[export] Instance debug_heap_proper : Proper ((≡) ==> (=)) debug_heap.
Proof. intros s1 s2 Hs. apply Hs. Qed.
#[export] Instance debug_symfile_proper : Proper ((≡) ==> (=)) debug_symfile.
Proof. intros s1 s2 Hs. apply Hs. Qed.
#[export] Instance gdb_stdlog_proper : Proper ((≡) ==> (=)) gdb_stdlog.
Proof. intros s1 s2 Hs. apply Hs. Qed.
#[export] Instance readers_proper : Proper ((≡) ==> (=)) readers.
Proof. intros s1 s2 Hs. apply Hs. Qed.

(** Well-formedness does not see the registry's representation. *)
#[export] Instance wf_proper : Proper ((≡) ==> iff) wf.
Proof.
  enough (forall s1 s2, s1 ≡ s2 -> wf s1 -> wf s2) as Himp.
  { intros s1 s2 Hs. split; [apply (Himp s1 s2 Hs)|apply (Himp s2 s1)]. by symmetry. }
  intros s1 s2 [Ho Hp Hk Hh _ _ _] [H1 H2 H3 H4 H5 H6 H7 H8].
  split; intros *; rewrite <- ?Hk, <- ?Ho, <- ?Hh, <- ?Hp; eauto.
  intros Hd. destruct (H4 _ _ Hd) as [o Hg]. exists o. by rewrite <- Hk.
Qed.

(** A state with no entry and no record, whose objfiles hold no shadow
    pointer and are listed exactly once, is well formed. *)
Lemma wf_uninstrumented s :
  (forall o, reg_get o (symfile_debug_objfile_data_key s) = None) ->
  debug_heap s = ∅ ->
  (forall o ob a, objfiles s !! o = Some ob -> sf ob <> SfDebug a) ->
  (forall o, o ∈ concat (program_spaces s) <-> is_Some (objfiles s !! o)) ->
  NoDup (concat (program_spaces s)) ->
  wf s.
Proof.
  intros Hkey Hheap Hsf Hl Hnd.
  split; try done; intros *; rewrite ?Hkey, ?Hheap, ?lookup_empty; try done.
  intros Hob Hs. by destruct (Hsf _ _ _ Hob Hs).
Qed.

Lemma plain_state_lookup obs w o ob :
  objfiles (plain_state obs w) !! o = Some ob -> exists t, sf ob = SfStatic t.
Proof.
  cbn. intros Hl. apply elem_of_list_to_map_2, list_elem_of_fmap in Hl
    as ([o' t] & [= -> ->] & _). eauto.
Qed.

Lemma wf_plain_state obs w : NoDup (map fst obs) -> wf (plain_state obs w).
Proof.
  intros Hnd. apply wf_uninstrumented; cbn.
  - intros o. apply reg_get_empty.
  - done.
  - intros o ob a Hob Hs. destruct (plain_state_lookup obs w o ob Hob) as [t Ht]. congruence.
  - intros o. rewrite app_nil_r. rewrite <- elem_of_dom, dom_list_to_map_L.
    rewrite elem_of_list_to_set. rewrite <- !list_fmap_compose.
    assert ((fst ∘ (fun '(o, t) => (o, {| sf := SfStatic t; qf := None; flags := 0 |})))
            <$> obs = map fst obs) as ->; [|done].
    apply list_fmap_ext. by intros ? [? ?].
  - by rewrite app_nil_r.
Qed.

(** The flag, the log and the readers' state are no part of [wf]. *)
Lemma wf_with_debug_symfile b s : wf s -> wf (with_debug_symfile b s).
Proof. by intros []. Qed.

Lemma wf_with_log l s : wf s -> wf (with_log l s).
Proof. by intros []. Qed.

Lemma wf_with_readers w s : wf s -> wf (with_readers w s).
Proof. by intros []. Qed.

(** ** The frame of output and calls *)

#[export] Instance io_step_preorder : PreOrder io_step.
Proof.
  split.
  - intros s. split; try done. exists []. by rewrite app_nil_r.
  - intros s1 s2 s3 [? ? ? ? ? [l1 Hl1]] [? ? ? ? ? [l2 Hl2]]. split; try congruence.
    exists (l1 ++ l2). by rewrite Hl2, Hl1, app_assoc.
Qed.

Lemma io_step_eq s s' :
  io_step s s' ->
  exists lines, s' = with_readers (readers s') (with_log (gdb_stdlog s ++ lines) s).
Proof.
  intros [? ? ? ? ? [lines Hl]]. exists lines.
  destruct s, s'; cbn in *. by subst.
Qed.

Lemma wf_io_step s s' : io_step s s' -> wf s -> wf s'.
Proof.
  intros [lines ->]%io_step_eq Hwf. by apply wf_with_readers, wf_with_log.
Qed.

Lemma steps_fprintf_filtered text : steps io_step (fprintf_filtered text).
Proof. apply steps_modify. intros s. split; try done. by exists [text]. Qed.

Lemma steps_call_native c args : steps io_step (call_native c args).
Proof.
  intros s s'. unfold call_native.
  destruct (native c args (readers s)); intros [= <-]; split; try done;
    exists []; by rewrite app_nil_r.
Qed.

(** The reads of the state keep every frame. *)
Section Reads.
Context {T : relation gdb_state} `{!PreOrder T}.

Lemma steps_read_objfile objfile : steps T (read_objfile objfile).
Proof. intros s. apply steps_deref; apply _. Qed.

Lemma steps_key_get objfile : steps T (key_get objfile).
Proof. apply steps_gets; apply _. Qed.

Lemma steps_load_debug_data d : steps T (load_debug_data d).
Proof. intros s. apply steps_deref; apply _. Qed.

Lemma steps_debug_data_at d : steps T (debug_data_at d).
Proof. destruct d; [apply steps_load_debug_data|apply steps_crash; apply _]. Qed.

Lemma steps_load_sf p : steps T (load_sf p).
Proof.
  destruct p; cbn; [apply steps_crash|apply steps_ret|]; try apply _.
  apply steps_bind; [apply _|apply steps_load_debug_data|intros; apply steps_ret; apply _].
Qed.

Lemma steps_objfile_sf objfile : steps T (objfile_sf objfile).
Proof.
  apply steps_bind; [apply _|apply steps_read_objfile|intros; apply steps_ret; apply _].
Qed.

End Reads.

(** ** States after output and calls *)

Lemma touched_touched w1 l1 w2 l2 s :
  touched w2 l2 (touched w1 l1 s) = touched w2 (l1 ++ l2) s.
Proof. unfold touched, with_readers, with_log; cbn. by rewrite app_assoc. Qed.

Lemma touched_id s : touched (readers s) [] s = s.
Proof. destruct s. unfold touched, with_readers, with_log; cbn. by rewrite app_nil_r. Qed.

Lemma io_step_touched w lines s : io_step s (touched w lines s).
Proof. split; try done. by exists lines. Qed.

(** ** Fuel: the primitive actions use none *)

Lemma call_native_run c args s :
  call_native c args s =
  match native c args (readers s) with
  | NReturn v w => Ret v (with_readers w s)
  | NThrow e w => Throw e (with_readers w s)
  end.
Proof. reflexivity. Qed.

Lemma fuel_free_call_native c args : fuel_free (call_native c args).
Proof. intros s. unfold call_native. by destruct (native c args (readers s)). Qed.

Lemma fuel_free_load_debug_data d : fuel_free (load_debug_data d).
Proof. intros s. apply fuel_free_deref. Qed.

Lemma fuel_free_load_sf p : fuel_free (load_sf p).
Proof.
  destruct p; cbn; [done..|].
  apply fuel_free_bind; [apply fuel_free_load_debug_data|done].
Qed.

Lemma fuel_free_debug_data_at d : fuel_free (debug_data_at d).
Proof. destruct d; [apply fuel_free_load_debug_data|done]. Qed.

Lemma fuel_free_key_get o : fuel_free (key_get o).
Proof. done. Qed.

Lemma fuel_free_fprintf_filtered text : fuel_free (fprintf_filtered text).
Proof. done. Qed.

End State.

#[export] Hint Resolve fuel_free_call_native fuel_free_load_debug_data fuel_free_load_sf
  fuel_free_debug_data_at fuel_free_key_get fuel_free_fprintf_filtered : steps.
#[export] Hint Resolve steps_fprintf_filtered steps_call_native steps_read_objfile steps_key_get
  steps_load_debug_data steps_debug_data_at steps_load_sf steps_objfile_sf : steps.
#[export] Hint Resolve wf_plain_state wf_with_debug_symfile wf_with_log wf_with_readers : gdb.
#[export] Hint Rewrite @load_sf_static @load_sf_null : gdb_rw.
