(* ===== verification/Sample.v ===== *)
(** * Sample: a concrete symbol reader and concrete states

    One instance of the [Backend] interface and a few states built from it,
    on which the definitions of the development evaluate.  The reader's
    world is the trace of the calls made to it, so a run shows which of the
    reader's functions were reached, with which arguments and in which
    order.  The scenario of the specification's section 8 (a table with
    [sym_read] populated and [sym_finish] absent) is table [1]. *)

From stdpp Require Import base tactics option list strings gmap.
From Stdlib Require Import ZArith HexString.
From S2P Require Import Prelude SymFns Registry Render State.

(** Table 1: [sym_read] and [sym_relocate] populated, a probe table; the
    other slots absent.  Table 2: every slot populated, no probe table.
    Any other address holds a table with no slot. *)
Definition sample_sf_table (t : table_id) : sym_fns :=
  match t with
  | 1%N =>
      {| sym_new_init := None; sym_init := None;
         sym_read := Some (FnNative 10); sym_finish := None;
         sym_offsets := None; sym_segments := None;
         sym_read_linetable := None; sym_relocate := Some (FnNative 17);
         sym_probe_fns := Some (ProbeNative 1) |}
  | 2%N =>
      {| sym_new_init := Some (FnNative 20); sym_init := Some (FnNative 21);
         sym_read := Some (FnNative 22); sym_finish := Some (FnNative 23);
         sym_offsets := Some (FnNative 24); sym_segments := Some (FnNative 25);
         sym_read_linetable := Some (FnNative 26);
         sym_relocate := Some (FnNative 27); sym_probe_fns := None |}
  | _ => sym_fns_zero
  end.

Definition sample_probe_table (p : probe_table_id) : sym_probe_fns_t :=
  {| sym_get_probes := Some (FnNative 30) |}.

(** A reader's function records its call; function 23 throws, functions 17
    and 27 return their buffer moved by 8 or as it is, function 25 returns
    no segment data, function 30 returns a vector whose data is at 4096, the
    others return nothing. *)
Definition sample_native (c : code_id) (args : sf_args) (w : list (N * sf_args)) :
    native_result (list (N * sf_args)) string :=
  let w' := w ++ [(c, args)] in
  match c, args with
  | 23%N, _ => NThrow "sym_finish failed" w'
  | 17%N, Args_relocate _ _ buf => NReturn (Val_ptr (buf + 8)) w'
  | 27%N, Args_relocate _ _ buf => NReturn (Val_ptr buf) w'
  | 25%N, Args_segments _ => NReturn (Val_ptr 0) w'
  | 30%N, _ => NReturn (Val_probes 4096) w'
  | _, _ => NReturn Val_void w'
  end.

#[export] Instance sample_backend : Backend := {|
  world := list (N * sf_args);
  gdb_exception := string;
  sf_table := sample_sf_table;
  probe_table := sample_probe_table;
  native := sample_native
|}.

(** The names of the sample objfiles and host addresses in hexadecimal. *)
#[export] Instance sample_display : Display := {|
  objfile_debug_name o :=
    match o with
    | 1%positive => "a.out"
    | 2%positive => "libc.so.6"
    | _ => "<unnamed>"
    end;
  host_address_to_string := HexString.of_N;
  symtab_to_filename_for_display st :=
    match st with
    | 1%N => "main.c"
    | _ => "util.c"
    end;
  domain_name d :=
    match d with
    | 0%Z => "UNDEF_DOMAIN"
    | 1%Z => "VAR_DOMAIN"
    | _ => "STRUCT_DOMAIN"
    end;
  search_domain_name k :=
    match k with
    | 0%Z => "VARIABLES_DOMAIN"
    | _ => "FUNCTIONS_DOMAIN"
    end;
  hex_string := HexString.of_N
|}.

(** The state of the scenario: objfile 1 with table 1, objfile 2 with
    table 2, the flag off, nothing logged, no call made. *)
Definition sample_state : gdb_state := plain_state [(1%positive, 1%N); (2%positive, 2%N)] [].

(** Objfile 1 as [sample_state] holds it. *)
Definition sample_ob1 : struct_objfile := {| sf := SfStatic 1; qf := None; flags := 0 |}.

(** The same with an objfile 3 that has no symbol table functions
    ([sf == NULL]), as for a file format without symbols. *)
Definition sample_state_null : gdb_state :=
  with_objfiles (<[3%positive := {| sf := SfNull; qf := None; flags := 0 |}]>
                   (objfiles sample_state))
    {| objfiles := objfiles sample_state;
       program_spaces := [[1%positive; 2%positive; 3%positive]];
       symfile_debug_objfile_data_key := symfile_debug_objfile_data_key sample_state;
       debug_heap := debug_heap sample_state;
       debug_symfile := debug_symfile sample_state;
       gdb_stdlog := gdb_stdlog sample_state;
       readers := readers sample_state |}.

Lemma sample_backend_ok : BackendOk sample_backend.
Proof.
  split.
  - intros t. cbn. unfold sample_sf_table.
    repeat (case_match; try reflexivity).
  - intros p. reflexivity.
  - intros t name c args w v w' Hc Hfit. cbn in *. unfold sample_sf_table in Hc.
    repeat case_match; destruct name; simplify_eq/=; destruct args; simplify_eq/=;
      by intros [= <- _].
  - intros p c objfile w v w' [= <-]. by intros [= <- _].
Qed.

Lemma sample_state_wf : wf sample_state.
Proof. apply wf_plain_state. cbn. repeat constructor; set_solver. Qed.

Lemma sample_state_null_wf : wf sample_state_null.
Proof.
  apply wf_uninstrumented.
  - intros o. apply lookup_empty.
  - reflexivity.
  - intros o ob a. cbn. unfold sample_state. cbn.
    rewrite !lookup_insert. repeat case_decide; try done; intros [= <-]; done.
  - intros o. cbn. rewrite <- elem_of_dom.
    rewrite !dom_insert_L, dom_empty_L. set_solver.
  - cbn. repeat constructor; set_solver.
Qed.

#[export] Existing Instance sample_backend_ok.
#[export] Hint Resolve sample_state_wf sample_state_null_wf : gdb.
