(* ===== verification/Install.v ===== *)
(** * Install: installing and removing the shadow tables

    The functions of symfile-debug.c that change which table an objfile
    uses: [symfile_debug_installed] (lines 56-61), the macro COPY_SF_PTR
    (lines 524-528), [install_symfile_debug_logging] (lines 510-547),
    [uninstall_symfile_debug_logging] (lines 552-564),
    [objfile_set_sym_fns] (lines 569-585) and [set_debug_symfile]
    (lines 587-604), each as one definition in the monad [G], statement by
    statement.  The theorems give the behaviour of each on every branch
    (normal return, failed assertion, fault), absence preservation, the
    round trip install/uninstall, preservation of [wf], and what the guard
    and the command hook establish. *)

From stdpp Require Import base tactics option list strings gmap.
From Stdlib Require Import ZArith.
From S2P Require Import Prelude SymFns Registry State Sample.

Section Install.
Context `{B : Backend} `{R : !Registry objfile_id data_addr}.
Local Open Scope gdb_scope.

(** [symfile_debug_installed (objfile)]: the conjunction short-circuits, so
    the key is consulted only when [objfile->sf] is not null. *)
Definition symfile_debug_installed (objfile : objfile_id) : G bool :=
  p <- objfile_sf objfile ;;
  if bool_decide (p <> SfNull)
  then d <- key_get objfile ;; ret (bool_decide (d <> None))
  else ret false.

(** [COPY_SF_PTR (from, to, name, func)]:
    [if ((from)->name) (to)->debug_sf.name = func;] *)
Definition COPY_SF_PTR (from : sf_ptr) (to : data_addr) (name : sf_slot)
    (func : debug_fn) : G unit :=
  real <- load_sf from ;;
  when (bool_decide (is_Some (sf_get name real)))
    (d <- load_debug_data to ;;
     store_debug_data to
       {| real_sf := real_sf d;
          debug_sf := sf_set name (Some (FnDebug func)) (debug_sf d) |}).

(** [if (real_sf->sym_probe_fns)
      debug_data->debug_sf.sym_probe_fns = &debug_sym_probe_fns;] *)
Definition copy_sym_probe_fns (from : sf_ptr) (to : data_addr) : G unit :=
  real <- load_sf from ;;
  when (bool_decide (is_Some (sym_probe_fns real)))
    (d <- load_debug_data to ;;
     store_debug_data to
       {| real_sf := real_sf d;
          debug_sf := sf_set_probe_fns (Some ProbeDebug) (debug_sf d) |}).

(** [debug_data->real_sf = real_sf;] *)
Definition set_real_sf (to : data_addr) (p : sf_ptr) : G unit :=
  d <- load_debug_data to ;;
  store_debug_data to {| real_sf := p; debug_sf := debug_sf d |}.

(** [install_symfile_debug_logging (objfile)]. *)
Definition install_symfile_debug_logging (objfile : objfile_id) : G unit :=
  installed <- symfile_debug_installed objfile ;;
  gdb_assert (negb installed) "!symfile_debug_installed (objfile)" ;;
  real_sf <- objfile_sf objfile ;;
  debug_data <- new_debug_sym_fns_data ;;
  COPY_SF_PTR real_sf debug_data Sym_new_init Debug_sym_new_init ;;
  COPY_SF_PTR real_sf debug_data Sym_init Debug_sym_init ;;
  COPY_SF_PTR real_sf debug_data Sym_read Debug_sym_read ;;
  COPY_SF_PTR real_sf debug_data Sym_finish Debug_sym_finish ;;
  COPY_SF_PTR real_sf debug_data Sym_offsets Debug_sym_offsets ;;
  COPY_SF_PTR real_sf debug_data Sym_segments Debug_sym_segments ;;
  COPY_SF_PTR real_sf debug_data Sym_read_linetable Debug_sym_read_linetable ;;
  COPY_SF_PTR real_sf debug_data Sym_relocate Debug_sym_relocate ;;
  copy_sym_probe_fns real_sf debug_data ;;
  set_real_sf debug_data real_sf ;;
  key_set objfile debug_data ;;
  set_objfile_sf objfile (SfDebug debug_data).

(** [uninstall_symfile_debug_logging (objfile)]. *)
Definition uninstall_symfile_debug_logging (objfile : objfile_id) : G unit :=
  installed <- symfile_debug_installed objfile ;;
  gdb_assert installed "symfile_debug_installed (objfile)" ;;
  debug_data <- key_get objfile ;;
  d <- debug_data_at debug_data ;;
  set_objfile_sf objfile (real_sf d) ;;
  key_clear objfile.

(** [objfile_set_sym_fns (objfile, sf)]. *)
Definition objfile_set_sym_fns (objfile : objfile_id) (sf : sf_ptr) : G unit :=
  installed <- symfile_debug_installed objfile ;;
  when installed
    (flag <- gets debug_symfile ;;
     gdb_assert flag "debug_symfile" ;;
     uninstall_symfile_debug_logging objfile) ;;
  set_objfile_sf objfile sf ;;
  flag <- gets debug_symfile ;;
  when flag (install_symfile_debug_logging objfile).

(** The body of the loops of [set_debug_symfile], for one objfile. *)
Definition set_debug_symfile_1 (objfile : objfile_id) : G unit :=
  flag <- gets debug_symfile ;;
  if flag
  then installed <- symfile_debug_installed objfile ;;
       when (negb installed) (install_symfile_debug_logging objfile)
  else installed <- symfile_debug_installed objfile ;;
       when installed (uninstall_symfile_debug_logging objfile).

(** [set_debug_symfile (args, from_tty, c)]: the three parameters are not
    used by the body. *)
Definition set_debug_symfile : G unit :=
  pspaces <- gets program_spaces ;;
  for_each pspaces (fun pspace =>
    for_each pspace set_debug_symfile_1).

(** ** Pure views of the state, for the statements *)

(** What [symfile_debug_installed] computes, read off the state. *)
Definition is_installed (s : gdb_state) (objfile : objfile_id) : bool :=
  match objfiles s !! objfile with
  | Some ob =>
      bool_decide (sf ob <> SfNull)
      && bool_decide (reg_get objfile (symfile_debug_objfile_data_key s) <> None)
  | None => false
  end.

(** The table a call through [objfile->sf] uses, when the pointer can be
    dereferenced. *)
Definition active_table (s : gdb_state) (objfile : objfile_id) : option sym_fns :=
  ob ← objfiles s !! objfile;
  match sf ob with
  | SfNull => None
  | SfStatic t => Some (sf_table t)
  | SfDebug a => debug_sf <$> debug_heap s !! a
  end.

(** What one COPY_SF_PTR does to the shadow table under construction. *)
Definition copy_slot (real : sym_fns) (name : sf_slot) (func : debug_fn)
    (shadow : sym_fns) : sym_fns :=
  if populated name real then sf_set name (Some (FnDebug func)) shadow else shadow.

(** The shadow table as install builds it: eight copies and the probe
    table, from the zeroed table. *)
Definition built_shadow (real : sym_fns) : sym_fns :=
  let t := copy_slot real Sym_new_init Debug_sym_new_init sym_fns_zero in
  let t := copy_slot real Sym_init Debug_sym_init t in
  let t := copy_slot real Sym_read Debug_sym_read t in
  let t := copy_slot real Sym_finish Debug_sym_finish t in
  let t := copy_slot real Sym_offsets Debug_sym_offsets t in
  let t := copy_slot real Sym_segments Debug_sym_segments t in
  let t := copy_slot real Sym_read_linetable Debug_sym_read_linetable t in
  let t := copy_slot real Sym_relocate Debug_sym_relocate t in
  if bool_decide (is_Some (sym_probe_fns real))
  then sf_set_probe_fns (Some ProbeDebug) t else t.

(** [*a = v] on the state. *)
Definition poke (a : data_addr) (v : debug_sym_fns_data) (s : gdb_state) : gdb_state :=
  with_heap (<[a := v]> (debug_heap s)) s.

(** The state install leaves: the record at [a] saves the objfile's table
    pointer and shadows the table [real] it points to, the key has the
    entry [r'], and the objfile's [sf] points into the record. *)
Definition installed_state (objfile : objfile_id) (ob : struct_objfile) (a : data_addr)
    (real : sym_fns) (r' : registry objfile_id data_addr) (s : gdb_state) : gdb_state :=
  with_objfiles (<[objfile := objfile_with_sf (SfDebug a) ob]> (objfiles s))
    (with_key r' (poke a {| real_sf := sf ob; debug_sf := shadow_of real |} s)).

(** The state uninstall leaves: the objfile's [sf] is the saved pointer,
    the key has lost the entry ([r']) and the record at [a] is gone. *)
Definition uninstalled_state (objfile : objfile_id) (ob : struct_objfile) (a : data_addr)
    (d : debug_sym_fns_data) (r' : registry objfile_id data_addr) (s : gdb_state) : gdb_state :=
  with_heap (delete a (debug_heap s))
    (with_key r' (with_objfiles (<[objfile := objfile_with_sf (real_sf d) ob]> (objfiles s)) s)).

(** The table an objfile uses as far as the rest of GDB is concerned: its
    [sf] when that is a reader's table (or null), the saved pointer when
    [sf] is a shadow. *)
Definition real_table (s : gdb_state) (objfile : objfile_id) : option sf_ptr :=
  ob ← objfiles s !! objfile;
  match sf ob with
  | SfDebug a => real_sf <$> debug_heap s !! a
  | p => Some p
  end.

(** The objfile is instrumented around the reader's table [t]. *)
Definition shadowed (s : gdb_state) (objfile : objfile_id) (t : table_id) : Prop :=
  exists ob a,
    objfiles s !! objfile = Some ob /\ sf ob = SfDebug a /\
    reg_get objfile (symfile_debug_objfile_data_key s) = Some a /\
    debug_heap s !! a =
      Some {| real_sf := SfStatic t; debug_sf := shadow_of (sf_table t) |}.

(** The objfile uses [p], not a shadow, directly and has no entry. *)
Definition plain (s : gdb_state) (objfile : objfile_id) (p : sf_ptr) : Prop :=
  exists ob,
    objfiles s !! objfile = Some ob /\ sf ob = p /\ (forall a, p <> SfDebug a) /\
    reg_get objfile (symfile_debug_objfile_data_key s) = None.

(** [s'] differs from [s] at most in the instrumentation of [objfile]: the
    other objfiles, their entries and their records, and every global, are
    as they were; [objfile] is still live, with its other fields. *)
Record same_except (objfile : objfile_id) (s s' : gdb_state) : Prop := {
  se_objfiles : forall o, o <> objfile -> objfiles s' !! o = objfiles s !! o;
  se_self : forall ob, objfiles s !! objfile = Some ob ->
    exists p, objfiles s' !! objfile = Some (objfile_with_sf p ob);
  se_self_inv : is_Some (objfiles s' !! objfile) -> is_Some (objfiles s !! objfile);
  se_key : forall o, o <> objfile ->
    reg_get o (symfile_debug_objfile_data_key s') =
    reg_get o (symfile_debug_objfile_data_key s);
  se_heap : forall o a, o <> objfile ->
    reg_get o (symfile_debug_objfile_data_key s) = Some a ->
    debug_heap s' !! a = debug_heap s !! a;
  se_program_spaces : program_spaces s' = program_spaces s;
  se_debug_symfile : debug_symfile s' = debug_symfile s;
  se_stdlog : gdb_stdlog s' = gdb_stdlog s;
  se_readers : readers s' = readers s
}.

(** No objfile's logical table has changed, nor any of its other fields,
    nor any global. *)
Record same_tables (s s' : gdb_state) : Prop := {
  st_real_table : forall o, real_table s' o = real_table s o;
  st_valid : forall o, is_Some (objfiles s' !! o) <-> is_Some (objfiles s !! o);
  st_fields : forall o ob, objfiles s !! o = Some ob ->
    exists p, objfiles s' !! o = Some (objfile_with_sf p ob);
  st_program_spaces : program_spaces s' = program_spaces s;
  st_debug_symfile : debug_symfile s' = debug_symfile s;
  st_stdlog : gdb_stdlog s' = gdb_stdlog s;
  st_readers : readers s' = readers s
}.

(** The state of the loops of [set_debug_symfile] after the objfiles
    [done]: they are in the state the flag asks for, the others are as they
    were, and no objfile's logical table has changed. *)
Definition toggle_progress (s : gdb_state) (done : list objfile_id) (s' : gdb_state) : Prop :=
  wf s' /\ same_tables s s' /\
  (forall o, o ∈ done -> is_installed s' o = debug_symfile s) /\
  (forall o, o ∉ done ->
     objfiles s' !! o = objfiles s !! o /\ is_installed s' o = is_installed s o).

(** ** The views respect the equivalence of states *)

#[export] Instance is_installed_proper : Proper ((≡) ==> (=) ==> (=)) is_installed.
Proof.
  intros s1 s2 Hs o ? <-. unfold is_installed.
  by rewrite (equiv_objfiles _ _ Hs), (equiv_key _ _ Hs).
Qed.

#[export] Instance real_table_proper : Proper ((≡) ==> (=) ==> (=)) real_table.
Proof.
  intros s1 s2 Hs o ? <-. unfold real_table.
  by rewrite (equiv_objfiles _ _ Hs), (equiv_heap _ _ Hs).
Qed.

#[export] Instance active_table_proper : Proper ((≡) ==> (=) ==> (=)) active_table.
Proof.
  intros s1 s2 Hs o ? <-. unfold active_table.
  by rewrite (equiv_objfiles _ _ Hs), (equiv_heap _ _ Hs).
Qed.

(** ** The status test *)

Lemma symfile_debug_installed_run objfile ob s :
  objfiles s !! objfile = Some ob ->
  symfile_debug_installed objfile s = Ret (is_installed s objfile) s.
Proof.
  intros Hob. unfold symfile_debug_installed, is_installed.
  rewrite (bind_Ret _ _ _ _ _ (objfile_sf_Some _ _ _ Hob)), Hob.
  by case_bool_decide.
Qed.

Lemma symfile_debug_installed_dangling objfile s :
  objfiles s !! objfile = None ->
  symfile_debug_installed objfile s = Fault DanglingPointer.
Proof.
  intros Hob. unfold symfile_debug_installed, objfile_sf, bind.
  by rewrite (read_objfile_None _ _ Hob).
Qed.

Lemma is_installed_true s objfile :
  is_installed s objfile = true <->
  exists ob a, objfiles s !! objfile = Some ob /\ sf ob <> SfNull /\
    reg_get objfile (symfile_debug_objfile_data_key s) = Some a.
Proof.
  unfold is_installed. destruct (objfiles s !! objfile) as [ob|]; [|naive_solver].
  rewrite andb_true_iff, !bool_decide_eq_true.
  destruct (reg_get objfile _) as [a|]; naive_solver.
Qed.

Lemma is_installed_false s objfile ob :
  objfiles s !! objfile = Some ob ->
  is_installed s objfile = false <->
  sf ob = SfNull \/ reg_get objfile (symfile_debug_objfile_data_key s) = None.
Proof.
  intros Hob. unfold is_installed. rewrite Hob, andb_false_iff, !bool_decide_eq_false.
  destruct (decide (sf ob = SfNull)), (reg_get objfile _); naive_solver.
Qed.

(** In a well-formed state, installed means that [sf] points into the
    objfile's own record. *)
Lemma wf_is_installed s objfile :
  wf s ->
  is_installed s objfile = true <->
  exists ob a, objfiles s !! objfile = Some ob /\ sf ob = SfDebug a.
Proof.
  intros Hwf. rewrite is_installed_true. split.
  - intros (ob & a & Hob & _ & Hk).
    destruct (wf_key_sf s Hwf _ _ Hk) as (ob' & Hob' & Hsf). naive_solver.
  - intros (ob & a & Hob & Hsf). exists ob, a. split_and!; [done|congruence|].
    eapply wf_sf_key; eauto.
Qed.

(** ** Building the shadow table *)

Lemma with_heap_id s : with_heap (debug_heap s) s = s.
Proof. by destruct s. Qed.

Lemma poke_poke a v v' s : poke a v' (poke a v s) = poke a v' s.
Proof. unfold poke, with_heap; cbn. by rewrite insert_insert_eq. Qed.

Lemma poke_lookup a v s : debug_heap (poke a v s) !! a = Some v.
Proof. apply lookup_insert_eq. Qed.

Lemma poke_lookup_ne a a' v s : a <> a' -> debug_heap (poke a v s) !! a' = debug_heap s !! a'.
Proof. apply lookup_insert_ne. Qed.

Lemma load_poke a v s : load_debug_data a (poke a v s) = Ret v (poke a v s).
Proof. apply load_debug_data_Some, poke_lookup. Qed.

Lemma store_poke a v v' s : store_debug_data a v' (poke a v s) = Ret tt (poke a v' s).
Proof.
  rewrite (store_debug_data_Some a v v' _ (poke_lookup a v s)).
  f_equal. apply (poke_poke a v v' s).
Qed.

Lemma load_sf_Ret_inv p s real s' :
  load_sf p s = Ret real s' ->
  s' = s /\ match p with
            | SfNull => False
            | SfStatic t => real = sf_table t
            | SfDebug a => exists d, debug_heap s !! a = Some d /\ real = debug_sf d
            end.
Proof.
  destruct p as [|t|a]; cbn; munfold; [done|by intros [= <- <-]|].
  unfold load_debug_data. destruct (debug_heap s !! a) eqn:E; cbn; [|done].
  intros [= <- <-]. eauto.
Qed.

Lemma load_sf_poke p a v real s :
  p <> SfDebug a -> load_sf p s = Ret real s ->
  load_sf p (poke a v s) = Ret real (poke a v s).
Proof.
  intros Hne Hl. apply load_sf_Ret_inv in Hl as [_ Hp].
  destruct p as [|t|a']; [done|by subst|]. destruct Hp as (d & Hd & ->).
  apply load_sf_debug. rewrite poke_lookup_ne; [done|congruence].
Qed.

Lemma COPY_SF_PTR_run from to name func real d s :
  from <> SfDebug to -> load_sf from s = Ret real s ->
  COPY_SF_PTR from to name func (poke to d s) =
  Ret tt (poke to {| real_sf := real_sf d;
                     debug_sf := copy_slot real name func (debug_sf d) |} s).
Proof.
  intros Hne Hl. unfold COPY_SF_PTR, copy_slot, populated.
  rewrite (bind_Ret _ _ _ _ _ (load_sf_poke _ _ _ _ _ Hne Hl)).
  case_bool_decide; cbn; [|by destruct d].
  by rewrite (bind_Ret _ _ _ _ _ (load_poke _ _ _)), store_poke.
Qed.

Lemma copy_sym_probe_fns_run from to real d s :
  from <> SfDebug to -> load_sf from s = Ret real s ->
  copy_sym_probe_fns from to (poke to d s) =
  Ret tt (poke to {| real_sf := real_sf d;
                     debug_sf := if bool_decide (is_Some (sym_probe_fns real))
                                 then sf_set_probe_fns (Some ProbeDebug) (debug_sf d)
                                 else debug_sf d |} s).
Proof.
  intros Hne Hl. unfold copy_sym_probe_fns.
  rewrite (bind_Ret _ _ _ _ _ (load_sf_poke _ _ _ _ _ Hne Hl)).
  case_bool_decide; cbn; [|by destruct d].
  by rewrite (bind_Ret _ _ _ _ _ (load_poke _ _ _)), store_poke.
Qed.

Lemma set_real_sf_run to p d s :
  set_real_sf to p (poke to d s) = Ret tt (poke to {| real_sf := p; debug_sf := debug_sf d |} s).
Proof.
  unfold set_real_sf.
  by rewrite (bind_Ret _ _ _ _ _ (load_poke _ _ _)), store_poke.
Qed.

Lemma sf_get_copy_slot real name func name' shadow :
  sf_get name' (copy_slot real name func shadow) =
  if decide (name = name') then
    (if populated name real then Some (FnDebug func) else sf_get name' shadow)
  else sf_get name' shadow.
Proof.
  unfold copy_slot. destruct (populated name real); [apply sf_get_set|].
  by case_decide.
Qed.

Lemma sym_probe_fns_copy_slot real name func shadow :
  sym_probe_fns (copy_slot real name func shadow) = sym_probe_fns shadow.
Proof. unfold copy_slot. case_match; [apply sym_probe_fns_set|done]. Qed.

(** The table the copies build is the template [debug_sym_fns] restricted
    to the slots the real table populates. *)
Lemma built_shadow_eq real : built_shadow real = shadow_of real.
Proof.
  apply sym_fns_ext.
  - intros name. rewrite sf_get_shadow_of. unfold built_shadow.
    case_bool_decide; rewrite ?sf_get_set_probe_fns, !sf_get_copy_slot, sf_get_zero;
      destruct name; cbn; by case_match.
  - unfold built_shadow. rewrite sym_probe_fns_shadow_of.
    case_bool_decide as Hp.
    + destruct Hp as [p ->]. reflexivity.
    + rewrite !sym_probe_fns_copy_slot. destruct (sym_probe_fns real); [|done].
      destruct Hp. eauto.
Qed.

(** ** Install *)

Lemma load_sf_not_fresh p s real :
  load_sf p s = Ret real s -> p <> SfDebug (fresh (dom (debug_heap s))).
Proof.
  intros Hl ->. apply load_sf_Ret_inv in Hl as [_ (d & Hd & _)].
  by rewrite fresh_not_in_dom in Hd.
Qed.

Lemma key_set_run objfile a r' s :
  reg_set objfile a (symfile_debug_objfile_data_key s) = Some r' ->
  key_set objfile a s = Ret tt (with_key r' s).
Proof. unfold key_set. by intros ->. Qed.

Lemma key_set_exists objfile a s :
  is_Some (reg_get objfile (symfile_debug_objfile_data_key s)) ->
  key_set objfile a s = Abort "registry: set of an entry that exists" s.
Proof. intros Hk. unfold key_set. by rewrite (proj2 (reg_set_fails _ _ _) Hk). Qed.

(** The steps of install after the assertion, from the allocation on. *)
Lemma install_body_run objfile ob real a r' s :
  objfiles s !! objfile = Some ob ->
  load_sf (sf ob) s = Ret real s ->
  sf ob <> SfDebug a ->
  reg_set objfile a (symfile_debug_objfile_data_key s) = Some r' ->
  (COPY_SF_PTR (sf ob) a Sym_new_init Debug_sym_new_init ;;
   COPY_SF_PTR (sf ob) a Sym_init Debug_sym_init ;;
   COPY_SF_PTR (sf ob) a Sym_read Debug_sym_read ;;
   COPY_SF_PTR (sf ob) a Sym_finish Debug_sym_finish ;;
   COPY_SF_PTR (sf ob) a Sym_offsets Debug_sym_offsets ;;
   COPY_SF_PTR (sf ob) a Sym_segments Debug_sym_segments ;;
   COPY_SF_PTR (sf ob) a Sym_read_linetable Debug_sym_read_linetable ;;
   COPY_SF_PTR (sf ob) a Sym_relocate Debug_sym_relocate ;;
   copy_sym_probe_fns (sf ob) a ;;
   set_real_sf a (sf ob) ;;
   key_set objfile a ;;
   set_objfile_sf objfile (SfDebug a))
    (poke a {| real_sf := SfNull; debug_sf := sym_fns_zero |} s)
  = Ret tt (installed_state objfile ob a real r' s).
Proof.
  intros Hob Hl Hne Hs.
  do 8 rewrite (bind_Ret _ _ _ _ _ (COPY_SF_PTR_run _ _ _ _ _ _ _ Hne Hl)); cbn [debug_sf State.real_sf].
  rewrite (bind_Ret _ _ _ _ _ (copy_sym_probe_fns_run _ _ _ _ _ Hne Hl)); cbn [debug_sf State.real_sf].
  rewrite (bind_Ret _ _ _ _ _ (set_real_sf_run _ _ _ _)); cbn [debug_sf State.real_sf].
  rewrite (bind_Ret _ _ _ _ _ (key_set_run objfile a r' (poke a _ s) Hs)).
  rewrite (set_objfile_sf_Some objfile ob) by done.
  unfold installed_state. by rewrite <- built_shadow_eq.
Qed.

(** [install_symfile_debug_logging] on an objfile whose table pointer can
    be dereferenced and which has no registry entry. *)
Lemma install_run objfile ob real s :
  objfiles s !! objfile = Some ob ->
  load_sf (sf ob) s = Ret real s ->
  reg_get objfile (symfile_debug_objfile_data_key s) = None ->
  exists r',
    reg_set objfile (fresh (dom (debug_heap s))) (symfile_debug_objfile_data_key s) = Some r' /\
    install_symfile_debug_logging objfile s =
    Ret tt (installed_state objfile ob (fresh (dom (debug_heap s))) real r' s).
Proof.
  intros Hob Hl Hk.
  destruct (reg_set_succeeds objfile (fresh (dom (debug_heap s))) _ Hk) as [r' Hs].
  exists r'. split; [done|]. unfold install_symfile_debug_logging.
  rewrite (bind_Ret _ _ _ _ _ (symfile_debug_installed_run _ _ _ Hob)).
  rewrite (proj2 (is_installed_false _ _ _ Hob)) by auto. cbn [negb].
  rewrite (bind_Ret _ _ _ _ _ (gdb_assert_true _ _)).
  rewrite (bind_Ret _ _ _ _ _ (objfile_sf_Some _ _ _ Hob)).
  erewrite bind_Ret by reflexivity.
  apply install_body_run; eauto using load_sf_not_fresh.
Qed.

(** The assertion of install: an objfile that is installed already. *)
Lemma install_installed objfile s :
  is_installed s objfile = true ->
  install_symfile_debug_logging objfile s =
  Abort "!symfile_debug_installed (objfile)" s.
Proof.
  intros Hi. pose proof Hi as (ob & a & Hob & _)%is_installed_true.
  unfold install_symfile_debug_logging.
  rewrite (bind_Ret _ _ _ _ _ (symfile_debug_installed_run _ _ _ Hob)), Hi.
  reflexivity.
Qed.

(** Install on an objfile without symbol functions ([objfile->sf == NULL])
    passes the assertion and dereferences the null pointer in the first
    COPY_SF_PTR. *)
Lemma install_null objfile ob s :
  objfiles s !! objfile = Some ob -> sf ob = SfNull ->
  install_symfile_debug_logging objfile s = Fault NullDereference.
Proof.
  intros Hob Hsf. unfold install_symfile_debug_logging.
  rewrite (bind_Ret _ _ _ _ _ (symfile_debug_installed_run _ _ _ Hob)).
  rewrite (proj2 (is_installed_false _ _ _ Hob)) by auto. cbn [negb].
  rewrite (bind_Ret _ _ _ _ _ (gdb_assert_true _ _)).
  rewrite (bind_Ret _ _ _ _ _ (objfile_sf_Some _ _ _ Hob)), Hsf.
  reflexivity.
Qed.

Lemma install_dangling objfile s :
  objfiles s !! objfile = None ->
  install_symfile_debug_logging objfile s = Fault DanglingPointer.
Proof.
  intros Hob. unfold install_symfile_debug_logging, bind at 1.
  by rewrite symfile_debug_installed_dangling.
Qed.

(** ** Uninstall *)

Lemma key_clear_run objfile a r' s :
  reg_get objfile (symfile_debug_objfile_data_key s) = Some a ->
  reg_clear objfile (symfile_debug_objfile_data_key s) = Some r' ->
  key_clear objfile s = Ret tt (with_heap (delete a (debug_heap s)) (with_key r' s)).
Proof. unfold key_clear. by intros -> ->. Qed.

Lemma key_clear_absent objfile s :
  reg_get objfile (symfile_debug_objfile_data_key s) = None ->
  key_clear objfile s = Abort "registry: clear of an entry that does not exist" s.
Proof. unfold key_clear. by intros ->. Qed.

Lemma key_get_run objfile s :
  key_get objfile s = Ret (reg_get objfile (symfile_debug_objfile_data_key s)) s.
Proof. reflexivity. Qed.

(** [uninstall_symfile_debug_logging] on an objfile with a non-null table
    pointer and a registry entry whose record is live. *)
Lemma uninstall_run objfile ob a d s :
  objfiles s !! objfile = Some ob -> sf ob <> SfNull ->
  reg_get objfile (symfile_debug_objfile_data_key s) = Some a ->
  debug_heap s !! a = Some d ->
  exists r',
    reg_clear objfile (symfile_debug_objfile_data_key s) = Some r' /\
    uninstall_symfile_debug_logging objfile s =
    Ret tt (uninstalled_state objfile ob a d r' s).
Proof.
  intros Hob Hsf Hk Hd.
  destruct (reg_clear_succeeds objfile (symfile_debug_objfile_data_key s)) as [r' Hc]; [eauto|].
  exists r'. split; [done|]. unfold uninstall_symfile_debug_logging.
  rewrite (bind_Ret _ _ _ _ _ (symfile_debug_installed_run _ _ _ Hob)).
  rewrite (proj2 (is_installed_true s objfile)) by eauto 6.
  rewrite (bind_Ret _ _ _ _ _ (gdb_assert_true _ _)).
  rewrite (bind_Ret _ _ _ _ _ (key_get_run _ _)), Hk. cbn [debug_data_at].
  rewrite (bind_Ret _ _ _ _ _ (load_debug_data_Some _ _ _ Hd)).
  rewrite (bind_Ret _ _ _ _ _ (set_objfile_sf_Some _ _ _ _ Hob)).
  by rewrite (key_clear_run objfile a r' (with_objfiles _ s) Hk Hc).
Qed.

(** The assertion of uninstall: an objfile that is not installed. *)
Lemma uninstall_not_installed objfile ob s :
  objfiles s !! objfile = Some ob ->
  is_installed s objfile = false ->
  uninstall_symfile_debug_logging objfile s =
  Abort "symfile_debug_installed (objfile)" s.
Proof.
  intros Hob Hi. unfold uninstall_symfile_debug_logging.
  by rewrite (bind_Ret _ _ _ _ _ (symfile_debug_installed_run _ _ _ Hob)), Hi.
Qed.

(** ** Well-formedness of the states install and uninstall leave *)

Lemma installed_state_wf objfile ob a t r' s :
  wf s ->
  objfiles s !! objfile = Some ob ->
  sf ob = SfStatic t ->
  debug_heap s !! a = None ->
  reg_set objfile a (symfile_debug_objfile_data_key s) = Some r' ->
  wf (installed_state objfile ob a (sf_table t) r' s).
Proof.
  intros Hwf Hob Hsf Ha Hs.
  pose proof (reg_set_Some_inv _ _ _ _ Hs) as Hk.
  assert (forall o', reg_get o' (symfile_debug_objfile_data_key s) <> Some a) as Hfresh.
  { intros o' Ho'. apply (wf_key_live s Hwf) in Ho' as [? ?]. congruence. }
  split; unfold installed_state; cbn; intros *; rewrite ?(reg_get_set _ _ _ _ _ Hs).
  - case_decide as Ho; [subst|]; intros Hg.
    + simplify_eq. rewrite lookup_insert_eq. eauto.
    + rewrite lookup_insert_ne by done. by apply (wf_key_sf s Hwf).
  - case_decide as Ho; [subst|].
    + rewrite lookup_insert_eq. by intros [= <-] [= <-].
    + rewrite lookup_insert_ne by done. apply (wf_sf_key s Hwf).
  - case_decide as Ho; [subst|]; intros Hg.
    + simplify_eq. rewrite lookup_insert_eq. eauto.
    + apply lookup_insert_is_Some'. right. by apply (wf_key_live s Hwf _ _ Hg).
  - rewrite lookup_insert. case_decide as Ha'; [subst|]; intros Hd.
    + exists objfile. by rewrite (reg_get_set _ _ _ _ _ Hs), decide_True.
    + destruct (wf_heap_owned s Hwf _ _ Hd) as [o' Ho']. exists o'.
      rewrite (reg_get_set _ _ _ _ _ Hs), decide_False; [done|congruence].
  - repeat case_decide; subst; intros H1 H2; simplify_eq; try done.
    + by destruct (Hfresh _ H2).
    + by destruct (Hfresh _ H1).
    + by apply (wf_key_inj s Hwf _ _ _ H1 H2).
  - rewrite lookup_insert. case_decide as Ha'; [subst|]; intros Hd.
    + simplify_eq. cbn. eauto.
    + by apply (wf_shadow s Hwf _ _ Hd).
  - rewrite (wf_listed s Hwf), lookup_insert_is_Some.
    destruct (decide (objfile = o)); naive_solver.
  - apply (wf_nodup s Hwf).
Qed.

Lemma uninstalled_state_wf objfile ob a d r' s :
  wf s ->
  objfiles s !! objfile = Some ob ->
  reg_get objfile (symfile_debug_objfile_data_key s) = Some a ->
  debug_heap s !! a = Some d ->
  reg_clear objfile (symfile_debug_objfile_data_key s) = Some r' ->
  wf (uninstalled_state objfile ob a d r' s).
Proof.
  intros Hwf Hob Hk Hd Hc.
  destruct (wf_shadow s Hwf _ _ Hd) as (t & Hreal & _).
  split; unfold uninstalled_state; cbn; intros *; rewrite ?(reg_get_clear _ _ _ _ Hc).
  - case_decide as Ho; [done|]. rewrite lookup_insert_ne by done. apply (wf_key_sf s Hwf).
  - case_decide as Ho; [subst|].
    + rewrite lookup_insert_eq. intros [= <-]. cbn. congruence.
    + rewrite lookup_insert_ne by done. apply (wf_sf_key s Hwf).
  - case_decide as Ho; [done|]. intros Hg. rewrite lookup_delete_ne.
    + by apply (wf_key_live s Hwf _ _ Hg).
    + intros <-. by destruct Ho; apply (wf_key_inj s Hwf _ _ _ Hk Hg).
  - intros [Hne Hd']%lookup_delete_Some.
    destruct (wf_heap_owned s Hwf _ _ Hd') as [o' Ho']. exists o'.
    rewrite (reg_get_clear _ _ _ _ Hc), decide_False; [done|]. congruence.
  - repeat case_decide; try done. apply (wf_key_inj s Hwf).
  - intros [Hne Hd']%lookup_delete_Some. by apply (wf_shadow s Hwf _ _ Hd').
  - rewrite (wf_listed s Hwf), lookup_insert_is_Some.
    destruct (decide (objfile = o)); naive_solver.
  - apply (wf_nodup s Hwf).
Qed.

Lemma same_except_refl objfile s : same_except objfile s s.
Proof.
  split; try done. intros ob Hob. exists (sf ob). by rewrite objfile_with_sf_id.
Qed.

Lemma same_except_trans objfile s1 s2 s3 :
  same_except objfile s1 s2 -> same_except objfile s2 s3 -> same_except objfile s1 s3.
Proof.
  intros [Ho Hs Hi Hk Hh Hp Hf Hl Hr] [Ho' Hs' Hi' Hk' Hh' Hp' Hf' Hl' Hr'].
  split; try congruence.
  - intros o Hne. by rewrite Ho', Ho.
  - intros ob Hob. destruct (Hs ob Hob) as [p Hob2].
    destruct (Hs' _ Hob2) as [q Hob3]. exists q. by rewrite Hob3.
  - auto.
  - intros o Hne. by rewrite Hk', Hk.
  - intros o a Hne Hg. rewrite (Hh' o a), (Hh o a); try done. by rewrite Hk.
Qed.

Lemma shadowed_is_installed s objfile t : shadowed s objfile t -> is_installed s objfile = true.
Proof.
  intros (ob & a & Hob & Hsf & Hk & _). apply is_installed_true.
  exists ob, a. split_and!; [done|congruence|done].
Qed.

Lemma plain_is_installed s objfile p : plain s objfile p -> is_installed s objfile = false.
Proof. intros (ob & Hob & _ & _ & Hk). apply (is_installed_false _ _ _ Hob). auto. Qed.

Lemma wf_cases s objfile ob :
  wf s -> objfiles s !! objfile = Some ob ->
  (exists t, shadowed s objfile t) \/ plain s objfile (sf ob).
Proof.
  intros Hwf Hob. destruct (sf ob) as [|t|a] eqn:Hsf.
  - right. exists ob. split_and!; try done.
    destruct (reg_get objfile _) as [a|] eqn:Hk; [|done].
    destruct (wf_key_sf s Hwf _ _ Hk) as (ob' & ? & ?). congruence.
  - right. exists ob. split_and!; try done.
    destruct (reg_get objfile _) as [a|] eqn:Hk; [|done].
    destruct (wf_key_sf s Hwf _ _ Hk) as (ob' & ? & ?). congruence.
  - left. pose proof (wf_sf_key s Hwf _ _ _ Hob Hsf) as Hk.
    destruct (wf_key_live s Hwf _ _ Hk) as [d Hd].
    destruct (wf_shadow s Hwf _ _ Hd) as (t & Hr & Hsh). exists t, ob, a.
    split_and!; try done. rewrite Hd. f_equal. destruct d; cbn in *; congruence.
Qed.

Lemma shadowed_real_table s objfile t : shadowed s objfile t -> real_table s objfile = Some (SfStatic t).
Proof. intros (ob & a & Hob & Hsf & _ & Hd). unfold real_table. rewrite Hob; cbn. by rewrite Hsf, Hd. Qed.

Lemma plain_real_table s objfile p : plain s objfile p -> real_table s objfile = Some p.
Proof.
  intros (ob & Hob & Hsf & Hp & _). unfold real_table. rewrite Hob; cbn. rewrite Hsf.
  destruct p; try done. by destruct (Hp a).
Qed.

Lemma shadowed_active_table s objfile t :
  shadowed s objfile t -> active_table s objfile = Some (shadow_of (sf_table t)).
Proof. intros (ob & a & Hob & Hsf & _ & Hd). unfold active_table. rewrite Hob; cbn. by rewrite Hsf, Hd. Qed.

Lemma install_spec objfile t s :
  wf s -> plain s objfile (SfStatic t) ->
  exists s', install_symfile_debug_logging objfile s = Ret tt s' /\
    wf s' /\ shadowed s' objfile t /\ same_except objfile s s'.
Proof.
  intros Hwf (ob & Hob & Hsf & _ & Hk).
  destruct (install_run objfile ob (sf_table t) s Hob) as (r' & Hs & Hrun);
    [by rewrite Hsf|done|].
  eexists; split; [exact Hrun|].
  pose proof (fresh_not_in_dom (debug_heap s)) as Ha.
  split_and!.
  - apply installed_state_wf; auto.
  - exists (objfile_with_sf (SfDebug (fresh (dom (debug_heap s)))) ob), (fresh (dom (debug_heap s))).
    unfold installed_state; cbn.
    rewrite !lookup_insert_eq, Hsf. split_and!; eauto using reg_get_set_eq.
  - split; unfold installed_state; cbn; [| | | | |done..].
    + intros o Hne. by rewrite lookup_insert_ne.
    + intros ob' Hob'. simplify_eq. rewrite lookup_insert_eq. eauto.
    + eauto.
    + intros o Hne. by rewrite (reg_get_set_ne _ _ _ _ _ Hs).
    + intros o a' Hne Hg. rewrite lookup_insert_ne; [done|]. intros <-.
      apply (wf_key_live s Hwf) in Hg as [? ?]. congruence.
Qed.

Lemma uninstall_spec objfile t s :
  wf s -> shadowed s objfile t ->
  exists s', uninstall_symfile_debug_logging objfile s = Ret tt s' /\
    wf s' /\ plain s' objfile (SfStatic t) /\ same_except objfile s s'.
Proof.
  intros Hwf (ob & a & Hob & Hsf & Hk & Hd).
  destruct (uninstall_run objfile ob a _ s Hob ltac:(congruence) Hk Hd) as (r' & Hc & Hrun).
  eexists; split; [exact Hrun|]. split_and!.
  - by apply uninstalled_state_wf.
  - exists (objfile_with_sf (SfStatic t) ob). unfold uninstalled_state; cbn.
    rewrite lookup_insert_eq. split_and!; eauto using reg_get_clear_eq.
  - split; unfold uninstalled_state; cbn; [| | | | |done..].
    + intros o Hne. by rewrite lookup_insert_ne.
    + intros ob' Hob'. simplify_eq. rewrite lookup_insert_eq. eauto.
    + eauto.
    + intros o Hne. by rewrite (reg_get_clear_ne _ _ _ _ Hc).
    + intros o a' Hne Hg. rewrite lookup_delete_ne; [done|]. intros <-.
      by destruct Hne; apply (wf_key_inj s Hwf _ _ _ Hg Hk).
Qed.

Lemma set_objfile_sf_spec objfile p p' s :
  wf s -> plain s objfile p -> (forall a, p' <> SfDebug a) ->
  exists s', set_objfile_sf objfile p' s = Ret tt s' /\
    wf s' /\ plain s' objfile p' /\ same_except objfile s s'.
Proof.
  intros Hwf (ob & Hob & Hsf & Hp & Hk) Hp'.
  eexists; split; [by apply set_objfile_sf_Some|]. split_and!.
  - split; cbn; intros *; try apply Hwf.
    + intros Hg. destruct (wf_key_sf s Hwf _ _ Hg) as (ob' & Hob' & Hsf').
      rewrite lookup_insert_ne; [eauto|]. intros <-. congruence.
    + rewrite lookup_insert. case_decide; [subst|apply (wf_sf_key s Hwf)].
      intros [= <-]. cbn. intros ->. by destruct (Hp' a).
    + rewrite (wf_listed s Hwf), lookup_insert_is_Some.
      destruct (decide (objfile = o)); naive_solver.
  - exists (objfile_with_sf p' ob). cbn. by rewrite lookup_insert_eq.
  - split; cbn; [| | |done..].
    + intros o Hne. by rewrite lookup_insert_ne.
    + intros ob' Hob'. simplify_eq. rewrite lookup_insert_eq. eauto.
    + eauto.
Qed.

Lemma gets_run {A} (f : gdb_state -> A) s : gets (E:=gdb_exception) f s = Ret (f s) s.
Proof. reflexivity. Qed.

Lemma plain_valid s objfile p : plain s objfile p -> is_Some (objfiles s !! objfile).
Proof. intros (ob & Hob & _). eauto. Qed.

Lemma shadowed_valid s objfile t : shadowed s objfile t -> is_Some (objfiles s !! objfile).
Proof. intros (ob & a & Hob & _). eauto. Qed.

(** The guard with logging on, from an objfile that is not instrumented. *)
Lemma objfile_set_sym_fns_on_plain objfile p t s :
  wf s -> debug_symfile s = true -> plain s objfile p ->
  exists s', objfile_set_sym_fns objfile (SfStatic t) s = Ret tt s' /\
    wf s' /\ shadowed s' objfile t /\ same_except objfile s s'.
Proof.
  intros Hwf Hflag Hp. pose proof Hp as [ob Hob]%plain_valid.
  destruct (set_objfile_sf_spec objfile p (SfStatic t) s Hwf Hp) as (s1 & Hset & Hwf1 & Hp1 & Hse1);
    [done|].
  destruct (install_spec objfile t s1 Hwf1 Hp1) as (s2 & Hins & Hwf2 & Hsh2 & Hse2).
  exists s2. split_and!; eauto using same_except_trans.
  unfold objfile_set_sym_fns.
  rewrite (bind_Ret _ _ _ _ _ (symfile_debug_installed_run _ _ _ Hob)).
  rewrite (plain_is_installed _ _ _ Hp). cbn [when].
  rewrite bind_ret_l, (bind_Ret _ _ _ _ _ Hset), (bind_Ret _ _ _ _ _ (gets_run _ _)).
  by rewrite (se_debug_symfile _ _ _ Hse1), Hflag.
Qed.

(** With logging on, the guard on an instrumented objfile first removes the
    shadow: it continues as from the uninstalled state. *)
Lemma objfile_set_sym_fns_after_uninstall objfile p t0 s :
  wf s -> debug_symfile s = true -> shadowed s objfile t0 ->
  exists s0, wf s0 /\ plain s0 objfile (SfStatic t0) /\ same_except objfile s s0 /\
    objfile_set_sym_fns objfile p s = objfile_set_sym_fns objfile p s0.
Proof.
  intros Hwf Hflag Hsh. pose proof Hsh as [ob Hob]%shadowed_valid.
  destruct (uninstall_spec objfile t0 s Hwf Hsh) as (s0 & Hun & Hwf0 & Hp0 & Hse0).
  exists s0. split_and!; try done. unfold objfile_set_sym_fns.
  rewrite (bind_Ret _ _ _ _ _ (symfile_debug_installed_run _ _ _ Hob)).
  rewrite (shadowed_is_installed _ _ _ Hsh). cbn [when].
  pose proof Hp0 as [ob0 Hob0]%plain_valid.
  rewrite (bind_Ret _ _ _ _ _ (symfile_debug_installed_run _ _ _ Hob0)).
  rewrite (plain_is_installed _ _ _ Hp0). cbn [when]. rewrite bind_ret_l.
  rewrite bind_assoc, (bind_Ret _ _ _ _ _ (gets_run _ _)), Hflag.
  rewrite bind_assoc, (bind_Ret _ _ _ _ _ (gdb_assert_true _ _)).
  by rewrite (bind_Ret _ _ _ _ _ Hun).
Qed.

(** The guard with logging on, from an instrumented objfile: the stale
    shadow is removed and a new one is built around the new table. *)
Lemma objfile_set_sym_fns_on_shadowed objfile t0 t s :
  wf s -> debug_symfile s = true -> shadowed s objfile t0 ->
  exists s', objfile_set_sym_fns objfile (SfStatic t) s = Ret tt s' /\
    wf s' /\ shadowed s' objfile t /\ same_except objfile s s'.
Proof.
  intros Hwf Hflag Hsh.
  destruct (objfile_set_sym_fns_after_uninstall objfile (SfStatic t) t0 s)
    as (s0 & Hwf0 & Hp0 & Hse0 & ->); [done..|].
  destruct (objfile_set_sym_fns_on_plain objfile (SfStatic t0) t s0)
    as (s2 & Hrun & Hwf2 & Hsh2 & Hse2); [done|by rewrite (se_debug_symfile _ _ _ Hse0)|done|].
  exists s2. split_and!; eauto using same_except_trans.
Qed.

Lemma objfile_set_sym_fns_off objfile ob p s :
  objfiles s !! objfile = Some ob ->
  is_installed s objfile = false -> debug_symfile s = false ->
  objfile_set_sym_fns objfile p s =
  Ret tt (with_objfiles (<[objfile := objfile_with_sf p ob]> (objfiles s)) s).
Proof.
  intros Hob Hi Hflag. unfold objfile_set_sym_fns.
  rewrite (bind_Ret _ _ _ _ _ (symfile_debug_installed_run _ _ _ Hob)), Hi. cbn [when].
  rewrite bind_ret_l, (bind_Ret _ _ _ _ _ (set_objfile_sf_Some _ _ _ _ Hob)).
  rewrite (bind_Ret _ _ _ _ _ (gets_run _ _)). cbn. by rewrite Hflag.
Qed.

Lemma objfile_set_sym_fns_stale objfile p s :
  is_installed s objfile = true -> debug_symfile s = false ->
  objfile_set_sym_fns objfile p s = Abort "debug_symfile" s.
Proof.
  intros Hi Hflag. pose proof Hi as (ob & a & Hob & _)%is_installed_true.
  unfold objfile_set_sym_fns.
  rewrite (bind_Ret _ _ _ _ _ (symfile_debug_installed_run _ _ _ Hob)), Hi. cbn [when].
  rewrite bind_assoc, (bind_Ret _ _ _ _ _ (gets_run _ _)), Hflag. reflexivity.
Qed.

Lemma objfile_set_sym_fns_null_plain objfile p s :
  wf s -> debug_symfile s = true -> plain s objfile p ->
  objfile_set_sym_fns objfile SfNull s = Fault NullDereference.
Proof.
  intros Hwf Hflag Hp. pose proof Hp as [ob Hob]%plain_valid.
  destruct (set_objfile_sf_spec objfile p SfNull s Hwf Hp) as (s1 & Hset & _ & Hp1 & Hse1);
    [done|].
  unfold objfile_set_sym_fns.
  rewrite (bind_Ret _ _ _ _ _ (symfile_debug_installed_run _ _ _ Hob)).
  rewrite (plain_is_installed _ _ _ Hp). cbn [when].
  rewrite bind_ret_l, (bind_Ret _ _ _ _ _ Hset), (bind_Ret _ _ _ _ _ (gets_run _ _)).
  rewrite (se_debug_symfile _ _ _ Hse1), Hflag. cbn [when].
  destruct Hp1 as (ob1 & Hob1 & Hsf1 & _). by apply (install_null _ ob1).
Qed.

Lemma objfile_set_sym_fns_null objfile ob s :
  wf s -> debug_symfile s = true -> objfiles s !! objfile = Some ob ->
  objfile_set_sym_fns objfile SfNull s = Fault NullDereference.
Proof.
  intros Hwf Hflag Hob. destruct (wf_cases s objfile ob Hwf Hob) as [[t0 Hsh]|Hp];
    [|by apply (objfile_set_sym_fns_null_plain _ (sf ob))].
  destruct (objfile_set_sym_fns_after_uninstall objfile SfNull t0 s)
    as (s0 & Hwf0 & Hp0 & Hse0 & ->); [done..|].
  apply (objfile_set_sym_fns_null_plain _ (SfStatic t0)); try done.
  by rewrite (se_debug_symfile _ _ _ Hse0).
Qed.

(** ** The command hook *)

(** What instrumentation does not change about the other objfiles. *)
Lemma same_except_is_installed objfile s s' o :
  same_except objfile s s' -> o <> objfile -> is_installed s' o = is_installed s o.
Proof.
  intros Hse Hne. unfold is_installed.
  by rewrite (se_objfiles _ _ _ Hse o Hne), (se_key _ _ _ Hse o Hne).
Qed.

Lemma same_except_real_table objfile s s' o :
  wf s -> same_except objfile s s' -> o <> objfile -> real_table s' o = real_table s o.
Proof.
  intros Hwf Hse Hne. unfold real_table. rewrite (se_objfiles _ _ _ Hse o Hne).
  destruct (objfiles s !! o) as [ob|] eqn:Hob; [cbn|done].
  destruct (sf ob) as [| |a] eqn:Hsf; try done.
  by rewrite (se_heap _ _ _ Hse o a Hne (wf_sf_key s Hwf _ _ _ Hob Hsf)).
Qed.

Lemma same_except_valid objfile s s' o :
  same_except objfile s s' -> is_Some (objfiles s' !! o) <-> is_Some (objfiles s !! o).
Proof.
  intros Hse. destruct (decide (o = objfile)) as [->|Hne];
    [|by rewrite (se_objfiles _ _ _ Hse o Hne)].
  split; [apply (se_self_inv _ _ _ Hse)|].
  intros [ob Hob]. destruct (se_self _ _ _ Hse ob Hob) as [p ->]. eauto.
Qed.

(** In a well-formed state the logical table of a live objfile is null
    exactly when its [sf] is. *)
Lemma real_table_null s objfile ob :
  wf s -> objfiles s !! objfile = Some ob ->
  real_table s objfile = Some SfNull <-> sf ob = SfNull.
Proof.
  intros Hwf Hob. unfold real_table. rewrite Hob; cbn.
  destruct (sf ob) as [| |a] eqn:Hsf; [by split|split; congruence|].
  pose proof (wf_sf_key s Hwf _ _ _ Hob Hsf) as Hk.
  destruct (wf_key_live s Hwf _ _ Hk) as [d Hd].
  destruct (wf_shadow s Hwf _ _ Hd) as (t & Hr & _). rewrite Hd; cbn.
  split; congruence.
Qed.

(** One iteration of the loops of [set_debug_symfile]. *)
Lemma set_debug_symfile_1_spec objfile s :
  wf s -> is_Some (objfiles s !! objfile) ->
  (debug_symfile s = true -> real_table s objfile <> Some SfNull) ->
  exists s', set_debug_symfile_1 objfile s = Ret tt s' /\
    wf s' /\ is_installed s' objfile = debug_symfile s /\
    same_except objfile s s' /\ real_table s' objfile = real_table s objfile.
Proof.
  intros Hwf [ob Hob] Hnull. unfold set_debug_symfile_1.
  rewrite (bind_Ret _ _ _ _ _ (gets_run _ _)).
  destruct (wf_cases s objfile ob Hwf Hob) as [[t Hsh]|Hp]; destruct (debug_symfile s) eqn:Hflag;
    rewrite (bind_Ret _ _ _ _ _ (symfile_debug_installed_run _ _ _ Hob)),
      ?(shadowed_is_installed _ _ _ Hsh), ?(plain_is_installed _ _ _ Hp); cbn [negb when].
  - exists s. split_and!; eauto using shadowed_is_installed, same_except_refl.
  - destruct (uninstall_spec objfile t s Hwf Hsh) as (s' & Hrun & Hwf' & Hp' & Hse).
    exists s'. split_and!; eauto using plain_is_installed.
    by rewrite (shadowed_real_table _ _ _ Hsh), (plain_real_table _ _ _ Hp').
  - destruct (sf ob) as [|t|a] eqn:Hsf.
    + destruct Hnull; [done|]. by apply (real_table_null s objfile ob).
    + destruct (install_spec objfile t s Hwf Hp) as (s' & Hrun & Hwf' & Hsh' & Hse).
      exists s'. split_and!; eauto using shadowed_is_installed.
      by rewrite (shadowed_real_table _ _ _ Hsh'), (plain_real_table _ _ _ Hp).
    + destruct Hp as (? & ? & ? & Hd & ?). by destruct (Hd a).
  - exists s. split_and!; eauto using plain_is_installed, same_except_refl.
Qed.

(** One iteration on an objfile already in the state the flag asks for. *)
Lemma set_debug_symfile_1_skip objfile s :
  is_Some (objfiles s !! objfile) ->
  is_installed s objfile = debug_symfile s ->
  set_debug_symfile_1 objfile s = Ret tt s.
Proof.
  intros [ob Hob] Hi. unfold set_debug_symfile_1.
  rewrite (bind_Ret _ _ _ _ _ (gets_run _ _)).
  destruct (debug_symfile s);
    by rewrite (bind_Ret _ _ _ _ _ (symfile_debug_installed_run _ _ _ Hob)), Hi.
Qed.

(** One iteration with logging on, on an objfile without symbol functions. *)
Lemma set_debug_symfile_1_null objfile ob s :
  debug_symfile s = true -> objfiles s !! objfile = Some ob -> sf ob = SfNull ->
  set_debug_symfile_1 objfile s = Fault NullDereference.
Proof.
  intros Hflag Hob Hsf. unfold set_debug_symfile_1.
  rewrite (bind_Ret _ _ _ _ _ (gets_run _ _)), Hflag.
  rewrite (bind_Ret _ _ _ _ _ (symfile_debug_installed_run _ _ _ Hob)).
  rewrite (proj2 (is_installed_false _ _ _ Hob)) by auto. cbn [negb when].
  by apply (install_null _ ob).
Qed.

Lemma same_tables_refl s : same_tables s s.
Proof.
  split; try done. intros o ob Hob. exists (sf ob). by rewrite objfile_with_sf_id.
Qed.

Lemma same_tables_step objfile s s1 s2 :
  wf s1 -> same_tables s s1 -> same_except objfile s1 s2 ->
  real_table s2 objfile = real_table s1 objfile -> same_tables s s2.
Proof.
  intros Hwf [Hr Hv Hfl Hp Hf Hl Hw] Hse Hx. split.
  - intros o. rewrite <- Hr. destruct (decide (o = objfile)) as [->|Hne]; [done|].
    by apply (same_except_real_table objfile).
  - intros o. by rewrite (same_except_valid _ _ _ o Hse).
  - intros o ob Hob. destruct (Hfl o ob Hob) as [p Hp1].
    destruct (decide (o = objfile)) as [->|Hne].
    + destruct (se_self _ _ _ Hse _ Hp1) as [p' Hp2]. exists p'.
      by rewrite Hp2, objfile_with_sf_twice.
    + exists p. by rewrite (se_objfiles _ _ _ Hse o Hne).
  - by rewrite (se_program_spaces _ _ _ Hse).
  - by rewrite (se_debug_symfile _ _ _ Hse).
  - by rewrite (se_stdlog _ _ _ Hse).
  - by rewrite (se_readers _ _ _ Hse).
Qed.

Lemma toggle_progress_step s done x s1 :
  x ∉ done -> is_Some (objfiles s !! x) ->
  (debug_symfile s = true -> real_table s x <> Some SfNull) ->
  toggle_progress s done s1 ->
  exists s2, set_debug_symfile_1 x s1 = Ret tt s2 /\ toggle_progress s (done ++ [x]) s2.
Proof.
  intros Hx Hvalid Hnull (Hwf1 & Hst & Hdone & Hrest).
  destruct (set_debug_symfile_1_spec x s1) as (s2 & Hrun & Hwf2 & Hi & Hse & Hr); [done|..].
  { by apply (st_valid _ _ Hst). }
  { by rewrite (st_debug_symfile _ _ Hst), (st_real_table _ _ Hst). }
  exists s2. split; [done|]. split_and!; [done|by apply (same_tables_step x s s1 s2)|..].
  - intros o [Ho| ->%list_elem_of_singleton]%elem_of_app.
    + rewrite (same_except_is_installed x s1 s2 o Hse); [auto|]. by intros ->.
    + by rewrite Hi, (st_debug_symfile _ _ Hst).
  - intros o [Ho Hne%not_elem_of_cons]%not_elem_of_app. destruct Hne as [Hne _].
    rewrite (se_objfiles _ _ _ Hse o Hne), (same_except_is_installed x s1 s2 o Hse Hne).
    by apply Hrest.
Qed.

Lemma set_debug_symfile_loop l s :
  wf s -> NoDup l ->
  (forall o, o ∈ l -> is_Some (objfiles s !! o)) ->
  (debug_symfile s = true -> forall o, o ∈ l -> real_table s o <> Some SfNull) ->
  exists s', for_each l set_debug_symfile_1 s = Ret tt s' /\ toggle_progress s l s'.
Proof.
  intros Hwf Hnd Hvalid Hnull.
  destruct (for_each_progress (toggle_progress s) l set_debug_symfile_1) with (s := s)
    as ([] & s' & Hrun & Hs'); [|by split_and!; try apply same_tables_refl; set_solver|by eauto].
  intros done x rest -> s1 Hs1.
  destruct (toggle_progress_step s done x s1) as (s2 & Hrun & Hs2); try done.
  - apply NoDup_app in Hnd as (_ & Hnd & _). intros Hin. apply (Hnd x Hin). by left.
  - apply Hvalid. set_solver.
  - intros Hf. apply Hnull; [done|set_solver].
  - by exists tt, s2.
Qed.

Lemma set_debug_symfile_run s :
  set_debug_symfile s = for_each (concat (program_spaces s)) set_debug_symfile_1 s.
Proof.
  unfold set_debug_symfile. rewrite (bind_Ret _ _ _ _ _ (gets_run _ _)).
  apply for_each_concat.
Qed.

(** The hook with logging on stops with a null dereference at the first
    objfile that has no symbol functions. *)
Lemma set_debug_symfile_null objfile ob s :
  wf s -> debug_symfile s = true ->
  objfiles s !! objfile = Some ob -> sf ob = SfNull ->
  set_debug_symfile s = Fault NullDereference.
Proof.
  intros Hwf Hflag Hob Hsf. rewrite set_debug_symfile_run.
  destruct (first_such (fun o => real_table s o = Some SfNull)
              (concat (program_spaces s)) objfile)
    as (l1 & x & l2 & Hl & Hx & Hl1).
  { apply (wf_listed s Hwf). eauto. }
  { by apply (real_table_null s objfile ob). }
  pose proof (wf_nodup s Hwf) as Hnd. rewrite Hl in Hnd |- *.
  assert (forall o, o ∈ l1 ++ x :: l2 -> is_Some (objfiles s !! o)) as Hvalid.
  { intros o Ho. apply (wf_listed s Hwf). by rewrite Hl. }
  destruct (set_debug_symfile_loop l1 s) as (s1 & Hrun & Hwf1 & Hst & _ & Hrest); auto.
  { by apply NoDup_app in Hnd as (? & _). }
  { intros o Ho. apply Hvalid. set_solver. }
  destruct (Hvalid x) as [obx Hobx]; [set_solver|].
  destruct (Hrest x) as [Hobx1 _].
  { apply NoDup_app in Hnd as (_ & Hnd & _). intros Hin. apply (Hnd x Hin). by left. }
  rewrite for_each_app, (bind_Ret _ _ _ _ _ Hrun). cbn [for_each]. unfold bind at 1.
  rewrite (set_debug_symfile_1_null x obx); [done|..].
  - by rewrite (st_debug_symfile _ _ Hst).
  - by rewrite Hobx1.
  - by apply (real_table_null s x obx).
Qed.

Lemma active_table_installed_state objfile ob a real r' s :
  active_table (installed_state objfile ob a real r' s) objfile = Some (shadow_of real).
Proof.
  unfold active_table, installed_state. cbn.
  rewrite lookup_insert_eq. cbn. by rewrite lookup_insert_eq.
Qed.

(** C1. Absence preservation.  Install on an objfile whose table can be
    read and which has no registry entry returns normally, and the table
    the objfile then uses has, for every slot of the slot enumeration, the
    proxy of that slot where the real table has a function and nothing where
    the real table has nothing; the nested probe table likewise. *)
Theorem install_preserves_absence objfile ob real s :
  objfiles s !! objfile = Some ob ->
  load_sf (sf ob) s = Ret real s ->
  reg_get objfile (symfile_debug_objfile_data_key s) = None ->
  exists s' shadow,
    install_symfile_debug_logging objfile s = Ret tt s' /\
    active_table s' objfile = Some shadow /\
    (forall name, sf_get name shadow =
                  if populated name real then Some (FnDebug (proxy_of name)) else None) /\
    sym_probe_fns shadow =
      match sym_probe_fns real with Some _ => Some ProbeDebug | None => None end.
Proof.
  intros Hob Hl Hk. destruct (install_run _ _ _ _ Hob Hl Hk) as (r' & _ & Hrun).
  eexists _, (shadow_of real). split_and!; [done|apply active_table_installed_state|..].
  - intros name. apply sf_get_shadow_of.
  - apply sym_probe_fns_shadow_of.
Qed.

(** C3. Round trip.  Install followed by uninstall returns normally and
    gives back the state it started from: the objfile's [sf] is again the
    pointer it was (reference equality), the registry has no entry for the
    objfile, the record is freed, and nothing else has changed. *)
Theorem install_uninstall_roundtrip objfile ob real s :
  objfiles s !! objfile = Some ob ->
  load_sf (sf ob) s = Ret real s ->
  reg_get objfile (symfile_debug_objfile_data_key s) = None ->
  exists s',
    (install_symfile_debug_logging objfile ;;
     uninstall_symfile_debug_logging objfile) s = Ret tt s' /\
    s' ≡ s /\
    objfile_sf objfile s' = Ret (sf ob) s'.
Proof.
  intros Hob Hl Hk. destruct (install_run _ _ _ _ Hob Hl Hk) as (r1 & Hs & Hrun).
  rewrite (bind_Ret _ _ _ _ _ Hrun).
  pose proof (fresh_not_in_dom (debug_heap s)) as Ha.
  edestruct (uninstall_run objfile) as (r2 & Hc & ->).
  { unfold installed_state; cbn. apply lookup_insert_eq. }
  { done. }
  { unfold installed_state; cbn. eapply reg_get_set_eq, Hs. }
  { unfold installed_state; cbn. apply lookup_insert_eq. }
  assert (objfiles (uninstalled_state objfile (objfile_with_sf (SfDebug (fresh (dom (debug_heap s)))) ob)
            (fresh (dom (debug_heap s))) {| real_sf := sf ob; debug_sf := shadow_of real |} r2
            (installed_state objfile ob (fresh (dom (debug_heap s))) real r1 s)) = objfiles s) as Hobjs.
  { unfold uninstalled_state, installed_state; cbn.
    rewrite insert_insert_eq. apply insert_id. rewrite Hob. by destruct ob. }
  eexists. split; [done|]. split.
  - split; try done.
    + intros o. unfold uninstalled_state, installed_state; cbn.
      apply (reg_set_clear_get _ _ _ _ _ _ Hs Hc).
    + unfold uninstalled_state, installed_state; cbn.
      by rewrite delete_insert_eq, delete_id.
  - apply objfile_sf_Some. by rewrite Hobjs.
Qed.

(** C8. The guard with logging on.  After [objfile_set_sym_fns (objfile,
    T2)] in a well-formed state with [debug_symfile] set, whatever table the
    objfile used before and whether or not it was instrumented, the objfile
    is instrumented, its saved real table is T2 (not the table it had), its
    active table is the shadow of T2, the state is well formed and no other
    objfile has changed. *)
Theorem objfile_set_sym_fns_enabled objfile ob t s :
  wf s -> debug_symfile s = true -> objfiles s !! objfile = Some ob ->
  exists s', objfile_set_sym_fns objfile (SfStatic t) s = Ret tt s' /\
    wf s' /\ is_installed s' objfile = true /\
    real_table s' objfile = Some (SfStatic t) /\
    active_table s' objfile = Some (shadow_of (sf_table t)) /\
    same_except objfile s s'.
Proof.
  intros Hwf Hflag Hob.
  assert (exists s', objfile_set_sym_fns objfile (SfStatic t) s = Ret tt s' /\
            wf s' /\ shadowed s' objfile t /\ same_except objfile s s')
    as (s' & Hrun & Hwf' & Hsh & Hse).
  { destruct (wf_cases s objfile ob Hwf Hob) as [[t0 Hsh]|Hp];
      eauto using objfile_set_sym_fns_on_shadowed, objfile_set_sym_fns_on_plain. }
  exists s'. split_and!;
    eauto using shadowed_is_installed, shadowed_real_table, shadowed_active_table.
Qed.

(** C39. The guard with logging off.  After [objfile_set_sym_fns (objfile,
    T2)] on an objfile that is not instrumented, with [debug_symfile] clear,
    [objfile->sf] is exactly T2, the objfile is not instrumented, the state
    is well formed and nothing else has changed. *)
Theorem objfile_set_sym_fns_disabled objfile p p' s :
  wf s -> debug_symfile s = false -> plain s objfile p ->
  (forall a, p' <> SfDebug a) ->
  exists s', objfile_set_sym_fns objfile p' s = Ret tt s' /\
    wf s' /\ is_installed s' objfile = false /\
    objfile_sf objfile s' = Ret p' s' /\ same_except objfile s s'.
Proof.
  intros Hwf Hflag Hp Hp'. pose proof Hp as [ob Hob]%plain_valid.
  destruct (set_objfile_sf_spec objfile p p' s Hwf Hp Hp') as (s' & Hset & Hwf' & Hpl & Hse).
  exists s'. split_and!; eauto using plain_is_installed.
  - rewrite (objfile_set_sym_fns_off objfile ob) by eauto using plain_is_installed.
    by rewrite <- Hset, (set_objfile_sf_Some _ _ _ _ Hob).
  - destruct Hpl as (ob' & Hob' & <- & _). by apply objfile_sf_Some.
Qed.

(** The hook in a well-formed state where, if logging is on, no listed
    objfile lacks symbol functions. *)
Lemma set_debug_symfile_ok s :
  wf s ->
  (debug_symfile s = true -> forall o, real_table s o <> Some SfNull) ->
  exists s', set_debug_symfile s = Ret tt s' /\
    toggle_progress s (concat (program_spaces s)) s'.
Proof.
  intros Hwf Hnull. rewrite set_debug_symfile_run.
  apply set_debug_symfile_loop; auto using wf_nodup.
  intros o Ho. by apply (wf_listed s Hwf).
Qed.

(** C7. The toggle.  In a well-formed state in which, if [debug_symfile]
    is set, every objfile has symbol functions, [set_debug_symfile] returns
    normally; afterwards every live objfile is instrumented exactly when
    [debug_symfile] is set, no objfile's logical table has changed, nothing
    was logged, and the state is well formed. *)
Theorem set_debug_symfile_establishes s :
  wf s ->
  (debug_symfile s = true -> forall o, real_table s o <> Some SfNull) ->
  exists s', set_debug_symfile s = Ret tt s' /\ wf s' /\ same_tables s s' /\
    forall o, is_Some (objfiles s' !! o) -> is_installed s' o = debug_symfile s'.
Proof.
  intros Hwf Hnull.
  destruct (set_debug_symfile_ok s Hwf Hnull) as (s' & Hrun & Hwf' & Hst & Hdone & _).
  exists s'. split_and!; try done. intros o Ho.
  rewrite (st_debug_symfile _ _ Hst). apply Hdone, (wf_listed s Hwf).
  by apply (st_valid _ _ Hst).
Qed.

(** A state in which every listed objfile is live and in the state the flag
    asks for is left as it is by the hook. *)
Lemma set_debug_symfile_skip s :
  (forall o, o ∈ concat (program_spaces s) ->
     is_Some (objfiles s !! o) /\ is_installed s o = debug_symfile s) ->
  set_debug_symfile s = Ret tt s.
Proof.
  intros Hall. rewrite set_debug_symfile_run. apply for_each_skip.
  intros o Ho. destruct (Hall o Ho). by apply set_debug_symfile_1_skip.
Qed.

(** Idempotent toggle.  Running the hook a second time with the flag
    unchanged (enabling when enabled, disabling when disabled) changes
    nothing: the second run returns the state of the first. *)
Theorem set_debug_symfile_idempotent s :
  wf s ->
  (debug_symfile s = true -> forall o, real_table s o <> Some SfNull) ->
  exists s', set_debug_symfile s = Ret tt s' /\ set_debug_symfile s' = Ret tt s'.
Proof.
  intros Hwf Hnull.
  destruct (set_debug_symfile_ok s Hwf Hnull) as (s' & Hrun & Hwf' & Hst & Hdone & _).
  exists s'. split; [done|]. apply set_debug_symfile_skip.
  rewrite (st_program_spaces _ _ Hst), (st_debug_symfile _ _ Hst). intros o Ho.
  split; [|by apply Hdone]. by apply (st_valid _ _ Hst), (wf_listed s Hwf).
Qed.

(** In a well-formed state a live objfile that is not instrumented uses a
    reader's table or none. *)
Lemma plain_wf_cases s objfile p :
  plain s objfile p -> p = SfNull \/ exists t, p = SfStatic t.
Proof. intros (ob & _ & _ & Hd & _). destruct p as [|t|a]; eauto. by destruct (Hd a). Qed.

(** Install keeps the state well formed, whatever the outcome: a
    normal return leaves a well-formed state, a failed assertion leaves the
    state it found, and a fault leaves none. *)
Theorem install_preserves_wf objfile :
  preserves wf (install_symfile_debug_logging objfile).
Proof.
  intros s s' Hwf Hfin. destruct (objfiles s !! objfile) as [ob|] eqn:Hob;
    [|by rewrite install_dangling in Hfin].
  destruct (wf_cases s objfile ob Hwf Hob) as [[t0 Hsh]|Hp].
  - rewrite install_installed in Hfin by eauto using shadowed_is_installed.
    cbn in Hfin. by simplify_eq.
  - destruct (plain_wf_cases _ _ _ Hp) as [Hsf|[t Hsf]].
    + by rewrite (install_null _ ob) in Hfin.
    + rewrite Hsf in Hp. destruct (install_spec objfile t s Hwf Hp) as (s1 & Hrun & Hwf1 & _).
      rewrite Hrun in Hfin. cbn in Hfin. by simplify_eq.
Qed.

(** Uninstall keeps the state well formed, whatever the outcome. *)
Theorem uninstall_preserves_wf objfile :
  preserves wf (uninstall_symfile_debug_logging objfile).
Proof.
  intros s s' Hwf Hfin. destruct (objfiles s !! objfile) as [ob|] eqn:Hob.
  - destruct (wf_cases s objfile ob Hwf Hob) as [[t0 Hsh]|Hp].
    + destruct (uninstall_spec objfile t0 s Hwf Hsh) as (s1 & Hrun & Hwf1 & _).
      rewrite Hrun in Hfin. cbn in Hfin. by simplify_eq.
    + rewrite (uninstall_not_installed _ ob) in Hfin by eauto using plain_is_installed.
      cbn in Hfin. by simplify_eq.
  - unfold uninstall_symfile_debug_logging, bind in Hfin.
    by rewrite symfile_debug_installed_dangling in Hfin.
Qed.

(** The guard keeps the state well formed, whatever the outcome, when
    the new table is a reader's table or null. *)
Theorem objfile_set_sym_fns_preserves_wf objfile p :
  (forall a, p <> SfDebug a) -> preserves wf (objfile_set_sym_fns objfile p).
Proof.
  intros Hp s s' Hwf Hfin. destruct (objfiles s !! objfile) as [ob|] eqn:Hob.
  - destruct (debug_symfile s) eqn:Hflag.
    + destruct p as [|t|a]; [|clear Hp|by destruct (Hp a)].
      * by rewrite (objfile_set_sym_fns_null _ ob) in Hfin.
      * destruct (wf_cases s objfile ob Hwf Hob) as [[t0 Hsh]|Hpl];
          [destruct (objfile_set_sym_fns_on_shadowed objfile t0 t s) as (s1 & Hrun & ? & _)
          |destruct (objfile_set_sym_fns_on_plain objfile (sf ob) t s) as (s1 & Hrun & ? & _)];
          try done; rewrite Hrun in Hfin; cbn in Hfin; by simplify_eq.
    + destruct (wf_cases s objfile ob Hwf Hob) as [[t0 Hsh]|Hpl].
      * rewrite objfile_set_sym_fns_stale in Hfin by eauto using shadowed_is_installed.
        cbn in Hfin. by simplify_eq.
      * destruct (set_objfile_sf_spec objfile (sf ob) p s Hwf Hpl Hp) as (s1 & Hset & Hwf1 & _).
        rewrite (objfile_set_sym_fns_off objfile ob) in Hfin by eauto using plain_is_installed.
        rewrite (set_objfile_sf_Some _ _ _ _ Hob) in Hset. cbn in Hfin. by simplify_eq.
  - unfold objfile_set_sym_fns, bind in Hfin.
    by rewrite symfile_debug_installed_dangling in Hfin.
Qed.

(** The two ways the hook can end in a well-formed state. *)
Lemma set_debug_symfile_cases s :
  wf s ->
  (debug_symfile s = true /\
   (exists o ob, objfiles s !! o = Some ob /\ sf ob = SfNull) /\
   set_debug_symfile s = Fault NullDereference) \/
  (~ (debug_symfile s = true /\ exists o ob, objfiles s !! o = Some ob /\ sf ob = SfNull) /\
   exists s', set_debug_symfile s = Ret tt s' /\
     toggle_progress s (concat (program_spaces s)) s').
Proof.
  intros Hwf.
  destruct (decide (debug_symfile s = true /\
              Exists (fun o => real_table s o = Some SfNull) (concat (program_spaces s))))
    as [[Hflag (o & Ho & Hnull)%Exists_exists]|Hok].
  - left. apply (wf_listed s Hwf) in Ho as [ob Hob].
    pose proof (proj1 (real_table_null s o ob Hwf Hob) Hnull) as Hsf.
    split_and!; eauto using set_debug_symfile_null.
  - right. split.
    + intros (Hflag & o & ob & Hob & Hsf). apply Hok. split; [done|].
      apply Exists_exists. exists o.
      split; [apply (wf_listed s Hwf); eauto|by apply (real_table_null s o ob)].
    + apply set_debug_symfile_ok; [done|]. intros Hflag o Hnull. apply Hok.
      split; [done|]. apply Exists_exists. exists o. split; [|done].
      apply (wf_listed s Hwf). unfold real_table in Hnull. by destruct (objfiles s !! o).
Qed.

(** The command hook keeps the state well formed, whatever the
    outcome. *)
Theorem set_debug_symfile_preserves_wf : preserves wf set_debug_symfile.
Proof.
  intros s s' Hwf Hfin.
  destruct (set_debug_symfile_cases s Hwf) as [(_ & _ & Hrun)|(_ & s1 & Hrun & Hwf1 & _)];
    rewrite Hrun in Hfin; cbn in Hfin; by simplify_eq.
Qed.

(** C37. Install on every branch.  In a well-formed state install on a
    dangling objfile pointer faults; on an instrumented objfile it fails the
    assertion and leaves the state as it found it (a double install is never
    carried out); on an objfile whose [sf] is null it passes the assertion and
    dereferences the null pointer; otherwise it returns normally with the
    objfile instrumented. *)
Theorem install_outcomes objfile s :
  wf s ->
  match objfiles s !! objfile with
  | None => install_symfile_debug_logging objfile s = Fault DanglingPointer
  | Some ob =>
      if is_installed s objfile
      then install_symfile_debug_logging objfile s =
           Abort "!symfile_debug_installed (objfile)" s
      else match sf ob with
           | SfNull => install_symfile_debug_logging objfile s = Fault NullDereference
           | _ => exists s', install_symfile_debug_logging objfile s = Ret tt s' /\
                             is_installed s' objfile = true
           end
  end.
Proof.
  intros Hwf. destruct (objfiles s !! objfile) as [ob|] eqn:Hob; [|by apply install_dangling].
  destruct (is_installed s objfile) eqn:Hi; [by apply install_installed|].
  destruct (wf_cases s objfile ob Hwf Hob) as [[t0 Hsh]|Hp].
  { apply shadowed_is_installed in Hsh. congruence. }
  destruct (plain_wf_cases _ _ _ Hp) as [Hsf|[t Hsf]]; rewrite Hsf in Hp |- *.
  - by apply (install_null _ ob).
  - destruct (install_spec objfile t s Hwf Hp) as (s' & Hrun & _ & Hsh & _).
    eauto using shadowed_is_installed.
Qed.

(** C38. Uninstall on every branch.  In a well-formed state uninstall on
    an objfile that is not instrumented fails the assertion and leaves the
    state as it found it; on an instrumented objfile it returns normally,
    the objfile is no longer instrumented and its [sf] is the table it had
    before install. *)
Theorem uninstall_outcomes objfile s :
  wf s ->
  match objfiles s !! objfile with
  | None => uninstall_symfile_debug_logging objfile s = Fault DanglingPointer
  | Some ob =>
      if is_installed s objfile
      then exists s' p, uninstall_symfile_debug_logging objfile s = Ret tt s' /\
             is_installed s' objfile = false /\
             real_table s objfile = Some p /\ objfile_sf objfile s' = Ret p s'
      else uninstall_symfile_debug_logging objfile s =
           Abort "symfile_debug_installed (objfile)" s
  end.
Proof.
  intros Hwf. destruct (objfiles s !! objfile) as [ob|] eqn:Hob.
  - destruct (is_installed s objfile) eqn:Hi; [|by apply (uninstall_not_installed _ ob)].
    destruct (wf_cases s objfile ob Hwf Hob) as [[t0 Hsh]|Hp].
    + destruct (uninstall_spec objfile t0 s Hwf Hsh) as (s' & Hrun & _ & Hp & _).
      exists s', (SfStatic t0). split_and!; eauto using plain_is_installed, shadowed_real_table.
      destruct Hp as (ob' & Hob' & <- & _). by apply objfile_sf_Some.
    + apply plain_is_installed in Hp. congruence.
  - unfold uninstall_symfile_debug_logging, bind.
    by rewrite symfile_debug_installed_dangling.
Qed.

(** C36. The guard's assertion.  With [debug_symfile] clear, the guard on
    an instrumented objfile fails [gdb_assert (debug_symfile)] and leaves the
    state as it found it; with [debug_symfile] set and a null new table it
    dereferences the null pointer. *)
Theorem objfile_set_sym_fns_failures objfile ob p s :
  wf s -> objfiles s !! objfile = Some ob ->
  (debug_symfile s = false -> is_installed s objfile = true ->
   objfile_set_sym_fns objfile p s = Abort "debug_symfile" s) /\
  (debug_symfile s = true ->
   objfile_set_sym_fns objfile SfNull s = Fault NullDereference).
Proof.
  intros Hwf Hob. split.
  - intros. by apply objfile_set_sym_fns_stale.
  - intros. by apply (objfile_set_sym_fns_null _ ob).
Qed.

(** C25. The hook and objfiles without symbol functions.  In a well-formed
    state [set_debug_symfile] dereferences a null pointer exactly when
    [debug_symfile] is set and some live objfile has [sf == NULL]; it never
    fails an assertion. *)
Theorem set_debug_symfile_faults_iff s :
  wf s ->
  (set_debug_symfile s = Fault NullDereference <->
   debug_symfile s = true /\
   exists o ob, objfiles s !! o = Some ob /\ sf ob = SfNull) /\
  (forall msg s', set_debug_symfile s <> Abort msg s').
Proof.
  intros Hwf.
  destruct (set_debug_symfile_cases s Hwf) as [(? & ? & ->)|(Hok & s1 & -> & _)];
    (split; [|done]); by split.
Qed.

(** The shadow table install builds by its eight conditional copies
    and the probe-table test is the template [debug_sym_fns] restricted to
    the slots the real table populates. *)
Theorem built_shadow_is_template real :
  (forall name, sf_get name (built_shadow real) =
     if populated name real then sf_get name debug_sym_fns else None) /\
  sym_probe_fns (built_shadow real) =
    match sym_probe_fns real with
    | Some _ => sym_probe_fns debug_sym_fns
    | None => None
    end.
Proof.
  rewrite built_shadow_eq. split; [|done]. intros name.
  by rewrite sf_get_shadow_of, sf_get_debug_sym_fns.
Qed.

End Install.

(** ** Witnesses on the sample states *)

Lemma install_preserves_absence_witness :
  exists s' shadow,
    install_symfile_debug_logging 1%positive sample_state = Ret tt s' /\
    active_table s' 1%positive = Some shadow /\
    (forall name, sf_get name shadow =
                  if populated name (sample_sf_table 1)
                  then Some (FnDebug (proxy_of name)) else None) /\
    sym_probe_fns shadow =
      match sym_probe_fns (sample_sf_table 1) with
      | Some _ => Some ProbeDebug | None => None end.
Proof.
  apply (install_preserves_absence (B:=sample_backend) 1%positive
           {| sf := SfStatic 1; qf := None; flags := 0 |}); reflexivity.
Defined.

Local Open Scope gdb_scope.

Lemma sample_plain_1 : plain sample_state 1%positive (SfStatic 1).
Proof. exists sample_ob1. by split_and!. Qed.

Lemma sample_no_null b o :
  real_table (with_debug_symfile b sample_state) o <> Some SfNull.
Proof.
  unfold real_table. cbn. rewrite !lookup_insert. repeat case_decide; by cbn.
Qed.

Lemma install_uninstall_roundtrip_witness :
  exists s',
    (install_symfile_debug_logging 1%positive ;;
     uninstall_symfile_debug_logging 1%positive) sample_state = Ret tt s' /\
    s' ≡ sample_state /\
    objfile_sf 1%positive s' = Ret (SfStatic 1) s'.
Proof.
  apply (install_uninstall_roundtrip (B:=sample_backend) 1%positive sample_ob1
           (sample_sf_table 1)); reflexivity.
Defined.

Lemma objfile_set_sym_fns_enabled_witness :
  exists s', objfile_set_sym_fns 1%positive (SfStatic 2) (with_debug_symfile true sample_state)
             = Ret tt s' /\
    wf s' /\ is_installed s' 1%positive = true /\
    real_table s' 1%positive = Some (SfStatic 2) /\
    active_table s' 1%positive = Some (shadow_of (sample_sf_table 2)) /\
    same_except 1%positive (with_debug_symfile true sample_state) s'.
Proof.
  apply (objfile_set_sym_fns_enabled (B:=sample_backend) 1%positive sample_ob1 2);
    [apply wf_with_debug_symfile, sample_state_wf|reflexivity|reflexivity].
Defined.

Lemma objfile_set_sym_fns_disabled_witness :
  exists s', objfile_set_sym_fns 1%positive (SfStatic 2) sample_state = Ret tt s' /\
    wf s' /\ is_installed s' 1%positive = false /\
    objfile_sf 1%positive s' = Ret (SfStatic 2) s' /\
    same_except 1%positive sample_state s'.
Proof.
  apply (objfile_set_sym_fns_disabled (B:=sample_backend) 1%positive (SfStatic 1));
    [apply sample_state_wf|reflexivity|apply sample_plain_1|discriminate].
Defined.

Lemma set_debug_symfile_establishes_witness :
  exists s', set_debug_symfile (with_debug_symfile true sample_state) = Ret tt s' /\
    wf s' /\ same_tables (with_debug_symfile true sample_state) s' /\
    forall o, is_Some (objfiles s' !! o) -> is_installed s' o = debug_symfile s'.
Proof.
  apply (set_debug_symfile_establishes (B:=sample_backend));
    [apply wf_with_debug_symfile, sample_state_wf|intros _; apply sample_no_null].
Defined.

Lemma set_debug_symfile_idempotent_witness :
  exists s', set_debug_symfile (with_debug_symfile true sample_state) = Ret tt s' /\
    set_debug_symfile s' = Ret tt s'.
Proof.
  apply (set_debug_symfile_idempotent (B:=sample_backend));
    [apply wf_with_debug_symfile, sample_state_wf|intros _; apply sample_no_null].
Defined.

Lemma objfile_set_sym_fns_preserves_wf_witness :
  preserves wf (objfile_set_sym_fns (B:=sample_backend) 1%positive SfNull).
Proof. apply objfile_set_sym_fns_preserves_wf. discriminate. Defined.

Lemma install_outcomes_witness :
  install_symfile_debug_logging 3%positive sample_state_null = Fault NullDereference.
Proof. exact (install_outcomes (B:=sample_backend) 3%positive sample_state_null sample_state_null_wf). Defined.

Lemma uninstall_outcomes_witness :
  uninstall_symfile_debug_logging 1%positive sample_state =
  Abort "symfile_debug_installed (objfile)" sample_state.
Proof. exact (uninstall_outcomes (B:=sample_backend) 1%positive sample_state sample_state_wf). Defined.

Lemma objfile_set_sym_fns_failures_witness :
  (debug_symfile (with_debug_symfile true sample_state) = false ->
   is_installed (with_debug_symfile true sample_state) 1%positive = true ->
   objfile_set_sym_fns 1%positive (SfStatic 2) (with_debug_symfile true sample_state)
   = Abort "debug_symfile" (with_debug_symfile true sample_state)) /\
  (debug_symfile (with_debug_symfile true sample_state) = true ->
   objfile_set_sym_fns 1%positive SfNull (with_debug_symfile true sample_state)
   = Fault NullDereference).
Proof.
  apply (objfile_set_sym_fns_failures (B:=sample_backend) 1%positive sample_ob1);
    [apply wf_with_debug_symfile, sample_state_wf|reflexivity].
Defined.

Lemma set_debug_symfile_faults_iff_witness :
  (set_debug_symfile (with_debug_symfile true sample_state_null) = Fault NullDereference <->
   debug_symfile (with_debug_symfile true sample_state_null) = true /\
   exists o ob, objfiles (with_debug_symfile true sample_state_null) !! o = Some ob /\
                sf ob = SfNull) /\
  (forall msg s', set_debug_symfile (with_debug_symfile true sample_state_null) <> Abort msg s').
Proof.
  apply (set_debug_symfile_faults_iff (B:=sample_backend)),
    wf_with_debug_symfile, sample_state_null_wf.
Defined.
