(* ===== verification/Proxy.v ===== *)
(** * Proxy: the debugging versions of the symbol-table functions

    The nine functions [debug_sym_new_init] ... [debug_sym_relocate] and
    [debug_sym_get_probes] of symfile-debug.c, statement by statement.  Each
    reads the objfile's registry entry, prints one line to [gdb_stdlog] and
    calls the function of the same name in the saved table; two of them
    ([debug_sym_relocate], [debug_sym_get_probes]) print after the call,
    because the line shows the value returned.

    A call through a function pointer reaches a reader's function or one of
    these proxies.  The proxies are written against the parameter [call]
    that performs such a call, and [invoke] closes the recursion with a fuel
    that bounds the depth of a chain of proxies.

    The theorems give the log and the outcome of a call through a plain
    and through a shadowed table, the transparency of the instrumentation,
    the type of the value returned, and the two ways a proxy depends on the
    objfile in its argument: it forwards to that objfile's reader, and it
    dereferences null when that objfile has no record. *)

From stdpp Require Import base tactics option list strings gmap.
From Stdlib Require Import ZArith.
From S2P Require Import Prelude SymFns Registry Render State Sample Install.

(** The sample state after <<set debug symfile on>>: both objfiles
    instrumented. *)
Definition sample_state_logging : gdb_state :=
  match set_debug_symfile (with_debug_symfile true sample_state) with
  | Ret _ s => s
  | _ => sample_state
  end.

Section Proxy.
Context `{B : Backend} `{R : !Registry objfile_id data_addr} `{D : Display}.

Local Open Scope gdb_scope.

(** ** Pieces of a call through the saved table *)

(** [f (args)], [f] a slot's content: a call through a null function
    pointer faults. *)
Definition call_slot (call : fn_ptr -> sf_args -> G sf_val)
    (f : option fn_ptr) (args : sf_args) : G sf_val :=
  match f with
  | Some f => call f args
  | None => crash NullDereference
  end.

(** [debug_data->real_sf]: the table the record saved. *)
Definition real_sf_of (debug_data : option data_addr) : G sym_fns :=
  d <- debug_data_at debug_data ;;
  load_sf (real_sf d).

(** [real_sf->sym_probe_fns], dereferenced. *)
Definition load_probe_fns (p : option probe_ptr) : G sym_probe_fns_t :=
  match p with
  | Some p => ret (probe_fns_at p)
  | None => crash NullDereference
  end.

(** The value of a call as a [bfd_byte *]. *)
Definition as_ptr (v : sf_val) : G host_addr :=
  match v with
  | Val_ptr p => ret p
  | _ => crash BadSignature
  end.

(** The value of a call as a vector of probes, by its [data ()]. *)
Definition as_probes (v : sf_val) : G host_addr :=
  match v with
  | Val_probes data => ret data
  | _ => crash BadSignature
  end.

(** ** The proxies *)

Section Proxies.
Variable call : fn_ptr -> sf_args -> G sf_val.

Definition debug_sym_get_probes (objfile : objfile_id) : G host_addr :=
  debug_data <- key_get objfile ;;
  real <- real_sf_of debug_data ;;
  probes <- load_probe_fns (sym_probe_fns real) ;;
  v <- call_slot call (sym_get_probes probes) (Args_probes objfile) ;;
  retval <- as_probes v ;;
  fprintf_filtered ("probes->sym_get_probes (" +:+ objfile_debug_name objfile
                    +:+ ") = " +:+ host_address_to_string retval +:+ nl) ;;
  ret retval.

Definition debug_sym_new_init (objfile : objfile_id) : G unit :=
  debug_data <- key_get objfile ;;
  fprintf_filtered ("sf->sym_new_init (" +:+ objfile_debug_name objfile +:+ ")" +:+ nl) ;;
  real <- real_sf_of debug_data ;;
  call_slot call (sym_new_init real) (Args_objfile objfile) ;;
  ret tt.

Definition debug_sym_init (objfile : objfile_id) : G unit :=
  debug_data <- key_get objfile ;;
  fprintf_filtered ("sf->sym_init (" +:+ objfile_debug_name objfile +:+ ")" +:+ nl) ;;
  real <- real_sf_of debug_data ;;
  call_slot call (sym_init real) (Args_objfile objfile) ;;
  ret tt.

Definition debug_sym_read (objfile : objfile_id) (symfile_flags : Z) : G unit :=
  debug_data <- key_get objfile ;;
  fprintf_filtered ("sf->sym_read (" +:+ objfile_debug_name objfile +:+ ", "
                    +:+ fmt_0x symfile_flags +:+ ")" +:+ nl) ;;
  real <- real_sf_of debug_data ;;
  call_slot call (sym_read real) (Args_read objfile symfile_flags) ;;
  ret tt.

Definition debug_sym_finish (objfile : objfile_id) : G unit :=
  debug_data <- key_get objfile ;;
  fprintf_filtered ("sf->sym_finish (" +:+ objfile_debug_name objfile +:+ ")" +:+ nl) ;;
  real <- real_sf_of debug_data ;;
  call_slot call (sym_finish real) (Args_objfile objfile) ;;
  ret tt.

Definition debug_sym_offsets (objfile : objfile_id) (info : host_addr) : G unit :=
  debug_data <- key_get objfile ;;
  fprintf_filtered ("sf->sym_offsets (" +:+ objfile_debug_name objfile +:+ ", "
                    +:+ host_address_to_string info +:+ ")" +:+ nl) ;;
  real <- real_sf_of debug_data ;;
  call_slot call (sym_offsets real) (Args_offsets objfile info) ;;
  ret tt.

Definition debug_sym_segments (abfd : host_addr) : G host_addr :=
  abort "debug_sym_segments called".

Definition debug_sym_read_linetable (objfile : objfile_id) : G unit :=
  debug_data <- key_get objfile ;;
  fprintf_filtered ("sf->sym_read_linetable (" +:+ objfile_debug_name objfile
                    +:+ ")" +:+ nl) ;;
  real <- real_sf_of debug_data ;;
  call_slot call (sym_read_linetable real) (Args_objfile objfile) ;;
  ret tt.

Definition debug_sym_relocate (objfile : objfile_id) (sectp buf : host_addr) :
    G host_addr :=
  debug_data <- key_get objfile ;;
  real <- real_sf_of debug_data ;;
  v <- call_slot call (sym_relocate real) (Args_relocate objfile sectp buf) ;;
  retval <- as_ptr v ;;
  fprintf_filtered ("sf->sym_relocate (" +:+ objfile_debug_name objfile +:+ ", "
                    +:+ host_address_to_string sectp +:+ ", "
                    +:+ host_address_to_string buf +:+ ") = "
                    +:+ host_address_to_string retval +:+ nl) ;;
  ret retval.

(** A call of the proxy [d]: the arguments must have its signature. *)
Definition run_debug (d : debug_fn) (args : sf_args) : G sf_val :=
  match d, args with
  | Debug_sym_get_probes, Args_probes objfile =>
      retval <- debug_sym_get_probes objfile ;; ret (Val_probes retval)
  | Debug_sym_new_init, Args_objfile objfile =>
      debug_sym_new_init objfile ;; ret Val_void
  | Debug_sym_init, Args_objfile objfile =>
      debug_sym_init objfile ;; ret Val_void
  | Debug_sym_read, Args_read objfile symfile_flags =>
      debug_sym_read objfile symfile_flags ;; ret Val_void
  | Debug_sym_finish, Args_objfile objfile =>
      debug_sym_finish objfile ;; ret Val_void
  | Debug_sym_offsets, Args_offsets objfile info =>
      debug_sym_offsets objfile info ;; ret Val_void
  | Debug_sym_segments, Args_segments abfd =>
      retval <- debug_sym_segments abfd ;; ret (Val_ptr retval)
  | Debug_sym_read_linetable, Args_objfile objfile =>
      debug_sym_read_linetable objfile ;; ret Val_void
  | Debug_sym_relocate, Args_relocate objfile sectp buf =>
      retval <- debug_sym_relocate objfile sectp buf ;; ret (Val_ptr retval)
  | _, _ => crash BadSignature
  end.

End Proxies.

(** ** Calls through function pointers *)

(** [f (args)], [f] a function pointer: a reader's function runs, a proxy
    runs with one unit of fuel less for the calls it makes. *)
Fixpoint invoke (fuel : nat) (f : fn_ptr) (args : sf_args) : G sf_val :=
  match f with
  | FnNative c => call_native c args
  | FnDebug d =>
      match fuel with
      | O => out_of_fuel
      | S fuel' => run_debug (invoke fuel') d args
      end
  end.

(** [objfile->sf->name (args)], the way the rest of GDB calls a
    symbol-table function. *)
Definition call_sf (fuel : nat) (objfile : objfile_id) (name : sf_slot)
    (args : sf_args) : G sf_val :=
  p <- objfile_sf objfile ;;
  t <- load_sf p ;;
  call_slot (invoke fuel) (sf_get name t) args.

(** [objfile->sf->sym_probe_fns->sym_get_probes (objfile)]. *)
Definition call_get_probes (fuel : nat) (objfile : objfile_id) : G sf_val :=
  p <- objfile_sf objfile ;;
  t <- load_sf p ;;
  probes <- load_probe_fns (sym_probe_fns t) ;;
  call_slot (invoke fuel) (sym_get_probes probes) (Args_probes objfile).

(** ** Specification-level views *)

(** The objfile a call is about. *)
Definition args_objfile (args : sf_args) : option objfile_id :=
  match args with
  | Args_objfile o | Args_read o _ | Args_offsets o _ | Args_relocate o _ _
  | Args_probes o => Some o
  | Args_segments _ => None
  end.

(** The slots whose proxy prints before it calls. *)
Definition logs_before (name : sf_slot) : bool :=
  match name with
  | Sym_segments | Sym_relocate => false
  | _ => true
  end.

(** The line the proxy of a slot prints for a call, [retval] the address
    the call returned (shown by [sym_relocate] only). *)
Definition proxy_line (name : sf_slot) (args : sf_args) (retval : host_addr) : string :=
  match name, args with
  | Sym_new_init, Args_objfile o => "sf->sym_new_init (" +:+ objfile_debug_name o +:+ ")" +:+ nl
  | Sym_init, Args_objfile o => "sf->sym_init (" +:+ objfile_debug_name o +:+ ")" +:+ nl
  | Sym_read, Args_read o symfile_flags =>
      "sf->sym_read (" +:+ objfile_debug_name o +:+ ", " +:+ fmt_0x symfile_flags
      +:+ ")" +:+ nl
  | Sym_finish, Args_objfile o => "sf->sym_finish (" +:+ objfile_debug_name o +:+ ")" +:+ nl
  | Sym_offsets, Args_offsets o info =>
      "sf->sym_offsets (" +:+ objfile_debug_name o +:+ ", "
      +:+ host_address_to_string info +:+ ")" +:+ nl
  | Sym_read_linetable, Args_objfile o =>
      "sf->sym_read_linetable (" +:+ objfile_debug_name o +:+ ")" +:+ nl
  | Sym_relocate, Args_relocate o sectp buf =>
      "sf->sym_relocate (" +:+ objfile_debug_name o +:+ ", "
      +:+ host_address_to_string sectp +:+ ", " +:+ host_address_to_string buf
      +:+ ") = " +:+ host_address_to_string retval +:+ nl
  | _, _ => EmptyString
  end.

(** The line [debug_sym_get_probes] prints. *)
Definition probes_line (o : objfile_id) (data : host_addr) : string :=
  "probes->sym_get_probes (" +:+ objfile_debug_name o +:+ ") = "
  +:+ host_address_to_string data +:+ nl.

(** The shape the six proxies that print first share. *)
Definition before_proxy (call : fn_ptr -> sf_args -> G sf_val) (objfile : objfile_id)
    (line : string) (name : sf_slot) (args : sf_args) : G unit :=
  debug_data <- key_get objfile ;;
  fprintf_filtered line ;;
  real <- real_sf_of debug_data ;;
  call_slot call (sf_get name real) args ;;
  ret tt.

(** A call that reaches readers' functions only: a proxy in a slot is not
    called. *)
Definition flat_call (f : fn_ptr) (args : sf_args) : G sf_val :=
  match f with
  | FnNative c => call_native c args
  | FnDebug _ => crash BadSignature
  end.

(** ** The saved table *)

Lemma real_sf_of_null s : real_sf_of None s = Fault NullDereference.
Proof. reflexivity. Qed.

Lemma real_sf_of_run a d t s :
  debug_heap s !! a = Some d -> real_sf d = SfStatic t ->
  real_sf_of (Some a) s = Ret (sf_table t) s.
Proof.
  intros Hd Ht. unfold real_sf_of, debug_data_at, load_debug_data. munfold.
  by rewrite Hd, Ht.
Qed.

Lemma shadowed_real_sf_of s objfile t :
  shadowed s objfile t ->
  exists a, reg_get objfile (symfile_debug_objfile_data_key s) = Some a /\
            forall l, real_sf_of (Some a) (with_log l s) = Ret (sf_table t) (with_log l s).
Proof.
  intros (ob & a & _ & _ & Hk & Hd). exists a. split; [done|].
  intros l. by eapply real_sf_of_run.
Qed.

(** In a well-formed state the saved table of every entry is a reader's. *)
Lemma wf_real_sf_of s objfile a :
  wf s -> reg_get objfile (symfile_debug_objfile_data_key s) = Some a ->
  exists t, forall l, real_sf_of (Some a) (with_log l s) = Ret (sf_table t) (with_log l s).
Proof.
  intros Hwf Hk. destruct (wf_key_live s Hwf _ _ Hk) as [d Hd].
  destruct (wf_shadow s Hwf _ _ Hd) as (t & Ht & _).
  exists t. intros l. by eapply real_sf_of_run.
Qed.

(** ** Calls of slots *)

Lemma call_slot_native call c args :
  call_slot call (Some (FnNative c)) args = call (FnNative c) args.
Proof. reflexivity. Qed.

Lemma invoke_native fuel c args : invoke fuel (FnNative c) args = call_native c args.
Proof. by destruct fuel. Qed.

(** A slot that holds no proxy is called the same way with any fuel. *)
Lemma call_slot_fuel fuel fuel' f args :
  from_option is_native true f = true ->
  call_slot (invoke fuel) f args = call_slot (invoke fuel') f args.
Proof. destruct f as [[c|d]|]; [|done..]. intros _. cbn. by rewrite !invoke_native. Qed.

(** ** The proxies on an instrumented objfile *)

(** Each proxy that prints first is an instance of the shared shape. *)
Lemma run_debug_before call name args o :
  logs_before name = true -> args_fit name args = true -> args_objfile args = Some o ->
  run_debug call (proxy_of name) args =
  (before_proxy call o (proxy_line name args 0) name args ;; ret Val_void).
Proof. destruct name, args; intros; simplify_eq/=; reflexivity. Qed.

(** With a registry entry whose record saved the table [real], the shape
    prints and makes the call through [real]. *)
Lemma before_proxy_run call objfile line name args a real s :
  reg_get objfile (symfile_debug_objfile_data_key s) = Some a ->
  real_sf_of (Some a) (with_log (gdb_stdlog s ++ [line]) s)
    = Ret real (with_log (gdb_stdlog s ++ [line]) s) ->
  before_proxy call objfile line name args s =
  (call_slot call (sf_get name real) args ;; ret tt) (with_log (gdb_stdlog s ++ [line]) s).
Proof.
  intros Hk Hreal. unfold before_proxy.
  rewrite (bind_Ret _ _ _ _ _ (key_get_run objfile s)), Hk.
  unfold fprintf_filtered at 1, modify at 1, bind at 1.
  by rewrite (bind_Ret _ _ _ _ _ Hreal).
Qed.

(** Without a registry entry it prints and faults. *)
Lemma before_proxy_null call objfile line name args s :
  reg_get objfile (symfile_debug_objfile_data_key s) = None ->
  before_proxy call objfile line name args s = Fault NullDereference.
Proof.
  intros Hk. unfold before_proxy.
  by rewrite (bind_Ret _ _ _ _ _ (key_get_run objfile s)), Hk.
Qed.

(** [debug_sym_relocate] with a registry entry whose record saved [real]. *)
Lemma debug_sym_relocate_run call objfile sectp buf a real s :
  reg_get objfile (symfile_debug_objfile_data_key s) = Some a ->
  real_sf_of (Some a) s = Ret real s ->
  debug_sym_relocate call objfile sectp buf s =
  (v <- call_slot call (sym_relocate real) (Args_relocate objfile sectp buf) ;;
   retval <- as_ptr v ;;
   fprintf_filtered (proxy_line Sym_relocate (Args_relocate objfile sectp buf) retval) ;;
   ret retval) s.
Proof.
  intros Hk Hreal. unfold debug_sym_relocate.
  rewrite (bind_Ret _ _ _ _ _ (key_get_run objfile s)), Hk.
  by rewrite (bind_Ret _ _ _ _ _ Hreal).
Qed.

(** [debug_sym_get_probes] with a registry entry whose record saved [real]. *)
Lemma debug_sym_get_probes_run call objfile a real s :
  reg_get objfile (symfile_debug_objfile_data_key s) = Some a ->
  real_sf_of (Some a) s = Ret real s ->
  debug_sym_get_probes call objfile s =
  (probes <- load_probe_fns (sym_probe_fns real) ;;
   v <- call_slot call (sym_get_probes probes) (Args_probes objfile) ;;
   retval <- as_probes v ;;
   fprintf_filtered (probes_line objfile retval) ;;
   ret retval) s.
Proof.
  intros Hk Hreal. unfold debug_sym_get_probes.
  rewrite (bind_Ret _ _ _ _ _ (key_get_run objfile s)), Hk.
  by rewrite (bind_Ret _ _ _ _ _ Hreal).
Qed.

(** ** Calls through an objfile *)

Lemma call_sf_table fuel objfile name args s t :
  active_table s objfile = Some t ->
  call_sf fuel objfile name args s = call_slot (invoke fuel) (sf_get name t) args s.
Proof.
  unfold active_table, call_sf, objfile_sf, read_objfile. munfold.
  destruct (objfiles s !! objfile) as [ob|]; [cbn|done].
  destruct (sf ob) as [|t'|a]; cbn; [done|by intros [= <-]|].
  unfold load_debug_data. munfold. destruct (debug_heap s !! a); cbn; [|done].
  by intros [= <-].
Qed.

Lemma call_get_probes_table fuel objfile s t :
  active_table s objfile = Some t ->
  call_get_probes fuel objfile s =
  (probes <- load_probe_fns (sym_probe_fns t) ;;
   call_slot (invoke fuel) (sym_get_probes probes) (Args_probes objfile)) s.
Proof.
  unfold active_table, call_get_probes, objfile_sf, read_objfile. munfold.
  destruct (objfiles s !! objfile) as [ob|]; [cbn|done].
  destruct (sf ob) as [|t'|a]; cbn; [done|by intros [= <-]|].
  unfold load_debug_data. munfold. destruct (debug_heap s !! a); cbn; [|done].
  by intros [= <-].
Qed.

Lemma plain_active_table s objfile t :
  plain s objfile (SfStatic t) -> active_table s objfile = Some (sf_table t).
Proof. intros (ob & Hob & Hsf & _). unfold active_table. rewrite Hob. cbn. by rewrite Hsf. Qed.

Lemma shadowed_real_sf_of_now s objfile t :
  shadowed s objfile t ->
  exists a, reg_get objfile (symfile_debug_objfile_data_key s) = Some a /\
            real_sf_of (Some a) s = Ret (sf_table t) s.
Proof.
  intros (ob & a & _ & _ & Hk & Hd). exists a. split; [done|]. by eapply real_sf_of_run.
Qed.

Lemma call_sf_shadowed fuel objfile name args t s :
  shadowed s objfile t ->
  call_sf (S fuel) objfile name args s =
  if populated name (sf_table t)
  then run_debug (invoke fuel) (proxy_of name) args s
  else Fault NullDereference.
Proof.
  intros Hsh. rewrite (call_sf_table _ _ _ _ _ _ (shadowed_active_table _ _ _ Hsh)).
  rewrite sf_get_shadow_of. by destruct (populated name (sf_table t)).
Qed.

Lemma populated_Some name t f : sf_get name t = Some f -> populated name t = true.
Proof. intros Hf. unfold populated. rewrite Hf. by apply bool_decide_eq_true. Qed.

Lemma populated_None name t : sf_get name t = None -> populated name t = false.
Proof. intros Hf. unfold populated. rewrite Hf. apply bool_decide_eq_false. by intros [? ?]. Qed.

(** A proxy that prints first, reached through the table of [o1] with
    arguments that name [o2]: it finds its record by the argument, and so
    forwards to the reader of [o2]. *)
Lemma call_sf_before_run fuel o1 o2 name args t1 t2 c s :
  shadowed s o1 t1 -> populated name (sf_table t1) = true ->
  shadowed s o2 t2 -> sf_get name (sf_table t2) = Some (FnNative c) ->
  logs_before name = true -> args_fit name args = true ->
  args_objfile args = Some o2 ->
  call_sf (S fuel) o1 name args s =
  match native c args (readers s) with
  | NReturn _ w => Ret Val_void (touched w [proxy_line name args 0] s)
  | NThrow e w => Throw e (touched w [proxy_line name args 0] s)
  end.
Proof.
  intros Hsh1 Hp1 Hsh Hc Hb Hfit Ho.
  rewrite (call_sf_shadowed _ _ _ _ _ _ Hsh1), Hp1.
  rewrite (run_debug_before _ _ _ _ Hb Hfit Ho).
  destruct (shadowed_real_sf_of _ _ _ Hsh) as (a & Hk & Hreal).
  unfold bind at 1. rewrite (before_proxy_run _ _ _ _ _ _ _ _ Hk (Hreal _)), Hc.
  rewrite call_slot_native, invoke_native. unfold bind, call_native. cbn.
  by destruct (native c args (readers s)).
Qed.

Lemma call_sf_logs_then_forwards_run fuel objfile name args t c s :
  shadowed s objfile t ->
  sf_get name (sf_table t) = Some (FnNative c) ->
  logs_before name = true -> args_fit name args = true ->
  args_objfile args = Some objfile ->
  call_sf (S fuel) objfile name args s =
  match native c args (readers s) with
  | NReturn _ w => Ret Val_void (touched w [proxy_line name args 0] s)
  | NThrow e w => Throw e (touched w [proxy_line name args 0] s)
  end.
Proof.
  intros Hsh Hc. apply (call_sf_before_run _ _ _ _ _ t t); [done| |done..].
  by apply (populated_Some _ _ (FnNative c)).
Qed.

Lemma call_sf_relocate_run fuel objfile sectp buf t c s :
  shadowed s objfile t ->
  sym_relocate (sf_table t) = Some (FnNative c) ->
  call_sf (S fuel) objfile Sym_relocate (Args_relocate objfile sectp buf) s =
  match native c (Args_relocate objfile sectp buf) (readers s) with
  | NReturn (Val_ptr retval) w =>
      Ret (Val_ptr retval)
        (touched w [proxy_line Sym_relocate (Args_relocate objfile sectp buf) retval] s)
  | NReturn _ w => Fault BadSignature
  | NThrow e w => Throw e (with_readers w s)
  end.
Proof.
  intros Hsh Hc.
  rewrite (call_sf_shadowed _ _ _ _ _ _ Hsh), (populated_Some Sym_relocate _ _ Hc).
  destruct (shadowed_real_sf_of_now _ _ _ Hsh) as (a & Hk & Hreal).
  cbn [proxy_of run_debug]. unfold bind at 1.
  rewrite (debug_sym_relocate_run _ _ _ _ _ _ _ Hk Hreal), Hc.
  rewrite call_slot_native, invoke_native. unfold bind, call_native.
  destruct (native c _ (readers s)) as [[]|]; reflexivity.
Qed.

Lemma call_get_probes_run fuel objfile t p c s :
  shadowed s objfile t ->
  sym_probe_fns (sf_table t) = Some (ProbeNative p) ->
  sym_get_probes (probe_table p) = Some (FnNative c) ->
  call_get_probes (S fuel) objfile s =
  match native c (Args_probes objfile) (readers s) with
  | NReturn (Val_probes data) w =>
      Ret (Val_probes data) (touched w [probes_line objfile data] s)
  | NReturn _ w => Fault BadSignature
  | NThrow e w => Throw e (with_readers w s)
  end.
Proof.
  intros Hsh Hp Hc.
  rewrite (call_get_probes_table _ _ _ _ (shadowed_active_table _ _ _ Hsh)).
  rewrite sym_probe_fns_shadow_of, Hp.
  destruct (shadowed_real_sf_of_now _ _ _ Hsh) as (a & Hk & Hreal).
  cbn. unfold bind at 1.
  rewrite (debug_sym_get_probes_run _ _ _ _ _ Hk Hreal), Hp. cbn.
  unfold bind at 1. cbn. rewrite Hc.
  rewrite call_slot_native, invoke_native. unfold bind, call_native.
  destruct (native c _ (readers s)) as [[]|]; reflexivity.
Qed.

(** [debug_sym_get_probes] forwards, then logs.  On an objfile
    instrumented around a table with a probe table, a call of
    [sym_probe_fns->sym_get_probes] calls the reader's function first: when
    it returns a vector, the call returns it and one line with the address of
    its data was appended to the log; when it throws, the exception
    propagates and nothing was logged. *)
Theorem call_get_probes_forwards_then_logs fuel objfile t p c s :
  shadowed s objfile t ->
  sym_probe_fns (sf_table t) = Some (ProbeNative p) ->
  sym_get_probes (probe_table p) = Some (FnNative c) ->
  call_get_probes (S fuel) objfile s =
  match native c (Args_probes objfile) (readers s) with
  | NReturn (Val_probes data) w =>
      Ret (Val_probes data) (touched w [probes_line objfile data] s)
  | NReturn _ w => Fault BadSignature
  | NThrow e w => Throw e (with_readers w s)
  end.
Proof. apply call_get_probes_run. Qed.

(** C27. The proxy of [sym_segments].  On an instrumented objfile a call
    of [sym_segments] stops GDB with the internal error
    <<debug_sym_segments called>> when the reader's table populates the slot,
    without reaching the reader's function, and is a call through a null
    pointer otherwise. *)
Theorem call_sf_segments_aborts fuel objfile abfd t s :
  shadowed s objfile t ->
  call_sf (S fuel) objfile Sym_segments (Args_segments abfd) s =
  if populated Sym_segments (sf_table t)
  then Abort "debug_sym_segments called" s
  else Fault NullDereference.
Proof. intros Hsh. by rewrite (call_sf_shadowed _ _ _ _ _ _ Hsh). Qed.

(** ** Transparency *)

Lemma call_sf_plain fuel objfile name args t s :
  plain s objfile (SfStatic t) ->
  call_sf fuel objfile name args s = call_slot (invoke fuel) (sf_get name (sf_table t)) args s.
Proof. intros Hp. by apply call_sf_table, plain_active_table. Qed.

Lemma native_slot `{!BackendOk B} t name f :
  sf_get name (sf_table t) = Some f -> exists c, f = FnNative c.
Proof.
  intros Hf. pose proof (native_table_slot _ _ _ (sf_table_native t) Hf).
  destruct f; [by eexists|done].
Qed.

Lemma logs_before_cases name :
  logs_before name = true \/ name = Sym_segments \/ name = Sym_relocate.
Proof. destruct name; auto. Qed.

(** C5. Transparency.  For every slot but [sym_segments], a call through
    an objfile instrumented around table [t] shows its caller and the readers
    what the same call shows through [t] itself: the same value or the same
    exception, the same effect on the readers' world, the same fault when the
    slot is absent. *)
Theorem instrumentation_transparent `{!BackendOk B} fuel objfile name args t s s0 :
  shadowed s objfile t -> plain s0 objfile (SfStatic t) -> readers s0 = readers s ->
  name <> Sym_segments -> args_fit name args = true -> args_objfile args = Some objfile ->
  observe (call_sf (S fuel) objfile name args s) = observe (call_sf fuel objfile name args s0).
Proof.
  intros Hsh Hpl Hw Hseg Hfit Ho. rewrite (call_sf_plain _ _ _ _ _ _ Hpl).
  destruct (sf_get name (sf_table t)) as [f|] eqn:Hf.
  2:{ by rewrite (call_sf_shadowed _ _ _ _ _ _ Hsh), (populated_None _ _ Hf). }
  destruct (native_slot _ _ _ Hf) as [c ->].
  rewrite call_slot_native, invoke_native, call_native_run, Hw.
  pose proof (sf_table_typed t name c args (readers s)) as Hty.
  destruct (logs_before_cases name) as [Hb|[->| ->]]; [|done|].
  - rewrite (call_sf_logs_then_forwards_run _ _ _ _ _ _ _ Hsh Hf Hb Hfit Ho).
    destruct (native c args (readers s)) as [v w|e w]; [|done].
    specialize (Hty v w Hf Hfit eq_refl). destruct name, v; done.
  - destruct args; try done. cbn in Ho. simplify_eq.
    rewrite (call_sf_relocate_run _ _ _ _ _ _ _ Hsh Hf).
    destruct (native c _ (readers s)) as [v w|e w]; [|done].
    specialize (Hty v w Hf Hfit eq_refl). by destruct v.
Qed.

(** ** Calls that reach no table *)

Lemma objfile_sf_plain s o p : plain s o p -> objfile_sf o s = Ret p s.
Proof.
  intros (ob & Hob & Hsf & _). unfold objfile_sf.
  by rewrite (bind_Ret _ _ _ _ _ (read_objfile_Some _ _ _ Hob)), <- Hsf.
Qed.

Lemma objfile_sf_dead s o : objfiles s !! o = None -> objfile_sf o s = Fault DanglingPointer.
Proof. intros Hob. unfold objfile_sf, bind. by rewrite (read_objfile_None _ _ Hob). Qed.

Lemma call_sf_dead fuel o name args s :
  objfiles s !! o = None -> call_sf fuel o name args s = Fault DanglingPointer.
Proof. intros Hob. unfold call_sf, bind at 1. by rewrite (objfile_sf_dead _ _ Hob). Qed.

Lemma call_sf_null fuel o name args s :
  plain s o SfNull -> call_sf fuel o name args s = Fault NullDereference.
Proof.
  intros Hpl. unfold call_sf. by rewrite (bind_Ret _ _ _ _ _ (objfile_sf_plain _ _ _ Hpl)).
Qed.

(** ** The type of the value *)

Lemma call_sf_typed_plain `{!BackendOk B} fuel objfile name args t s :
  plain s objfile (SfStatic t) -> args_fit name args = true ->
  match call_sf fuel objfile name args s with
  | Ret v _ => val_fits name v = true
  | OutOfFuel => False
  | _ => True
  end.
Proof.
  intros Hpl Hfit. rewrite (call_sf_plain _ _ _ _ _ _ Hpl).
  destruct (sf_get name (sf_table t)) as [f|] eqn:Hf; [|done].
  destruct (native_slot _ _ _ Hf) as [c ->].
  rewrite call_slot_native, invoke_native, call_native_run.
  pose proof (sf_table_typed t name c args (readers s)) as Hty.
  destruct (native c args (readers s)); eauto.
Qed.

Lemma call_sf_typed_shadowed `{!BackendOk B} fuel objfile name args t s :
  shadowed s objfile t -> args_fit name args = true ->
  (name <> Sym_segments -> args_objfile args = Some objfile) ->
  match call_sf (S fuel) objfile name args s with
  | Ret v _ => val_fits name v = true
  | OutOfFuel => False
  | _ => True
  end.
Proof.
  intros Hsh Hfit Ho. destruct (sf_get name (sf_table t)) as [f|] eqn:Hf.
  2:{ by rewrite (call_sf_shadowed _ _ _ _ _ _ Hsh), (populated_None _ _ Hf). }
  destruct (native_slot _ _ _ Hf) as [c ->].
  pose proof (sf_table_typed t name c args (readers s)) as Hty.
  destruct (logs_before_cases name) as [Hb|[->| ->]].
  - rewrite (call_sf_logs_then_forwards_run _ _ _ _ _ _ _ Hsh Hf Hb Hfit);
      [|apply Ho; by intros ->].
    destruct (native c args (readers s)); [|done]. by destruct name.
  - rewrite (call_sf_shadowed _ _ _ _ _ _ Hsh), (populated_Some _ _ _ Hf).
    by destruct args.
  - destruct args; try done. cbn in Ho. specialize (Ho ltac:(done)). simplify_eq.
    rewrite (call_sf_relocate_run _ _ _ _ _ _ _ Hsh Hf).
    destruct (native c _ (readers s)) as [v w|e w]; [|done].
    specialize (Hty v w Hf Hfit eq_refl). by destruct v.
Qed.

(** ** The log after a call *)

Lemma call_native_log c args s s' :
  final_state (call_native c args s) = Some s' -> gdb_stdlog s' = gdb_stdlog s.
Proof. rewrite call_native_run. destruct (native c args (readers s)); by intros [= <-]. Qed.

(** A call through a reader's table prints nothing. *)
Lemma call_sf_plain_log `{!BackendOk B} fuel o name args p s s' :
  plain s o p -> final_state (call_sf fuel o name args s) = Some s' ->
  gdb_stdlog s' = gdb_stdlog s.
Proof.
  intros Hpl. destruct p as [|t|a].
  - by rewrite call_sf_null.
  - rewrite (call_sf_plain _ _ _ _ _ _ Hpl).
    destruct (sf_get name (sf_table t)) as [f|] eqn:Hf; [|done].
    destruct (native_slot _ _ _ Hf) as [c ->].
    rewrite call_slot_native, invoke_native. apply call_native_log.
  - by destruct Hpl as (_ & _ & _ & Hnd & _), (Hnd a).
Qed.

(** A call through a shadow that returns has printed the line of its
    slot, and nothing else. *)
Lemma call_sf_shadowed_log `{!BackendOk B} fuel o name args t v s s' :
  shadowed s o t -> args_fit name args = true ->
  (name <> Sym_segments -> args_objfile args = Some o) ->
  call_sf (S fuel) o name args s = Ret v s' ->
  name <> Sym_segments /\
  exists retval, gdb_stdlog s' = gdb_stdlog s ++ [proxy_line name args retval].
Proof.
  intros Hsh Hfit Ho. destruct (sf_get name (sf_table t)) as [f|] eqn:Hf.
  2:{ by rewrite (call_sf_shadowed _ _ _ _ _ _ Hsh), (populated_None _ _ Hf). }
  destruct (native_slot _ _ _ Hf) as [c ->].
  destruct (logs_before_cases name) as [Hb|[->| ->]].
  - rewrite (call_sf_logs_then_forwards_run _ _ _ _ _ _ _ Hsh Hf Hb Hfit);
      [|apply Ho; by intros ->].
    destruct (native c args (readers s)); intros [= <- <-].
    split; [by intros ->|by exists 0%N].
  - rewrite (call_sf_shadowed _ _ _ _ _ _ Hsh), (populated_Some _ _ _ Hf).
    by destruct args.
  - destruct args; try done. cbn in Ho. specialize (Ho ltac:(done)). simplify_eq.
    rewrite (call_sf_relocate_run _ _ _ _ _ _ _ Hsh Hf).
    destruct (native c _ (readers s)) as [[]|]; intros [= <- <-]. split; [done|by eexists].
Qed.

(** The probes through a shadow: the proxy reads the probe table of the
    saved table. *)
Lemma call_get_probes_shadowed fuel o t s :
  shadowed s o t ->
  call_get_probes (S fuel) o s =
  match sym_probe_fns (sf_table t) with
  | None => Fault NullDereference
  | Some p =>
      (v <- call_slot (invoke fuel) (sym_get_probes (probe_fns_at p)) (Args_probes o) ;;
       retval <- as_probes v ;;
       fprintf_filtered (probes_line o retval) ;;
       ret (Val_probes retval)) s
  end.
Proof.
  intros Hsh. rewrite (call_get_probes_table _ _ _ _ (shadowed_active_table _ _ _ Hsh)).
  rewrite sym_probe_fns_shadow_of.
  destruct (sym_probe_fns (sf_table t)) as [p|] eqn:Hp; [|done].
  destruct (shadowed_real_sf_of_now _ _ _ Hsh) as (a & Hk & Hreal).
  cbn. unfold bind at 1.
  rewrite (debug_sym_get_probes_run _ _ _ _ _ Hk Hreal), Hp. cbn.
  unfold bind. destruct (call_slot _ _ _ s) as [v s1| | | |]; try done.
  destruct (as_probes v s1) as [r s2| | | |]; try done.
Qed.

Lemma call_get_probes_plain_log `{!BackendOk B} fuel o p s s' :
  plain s o p -> final_state (call_get_probes fuel o s) = Some s' ->
  gdb_stdlog s' = gdb_stdlog s.
Proof.
  intros Hpl. destruct p as [|t|a].
  - unfold call_get_probes. by rewrite (bind_Ret _ _ _ _ _ (objfile_sf_plain _ _ _ Hpl)).
  - rewrite (call_get_probes_table _ _ _ _ (plain_active_table _ _ _ Hpl)).
    pose proof (native_table_probe _ (sf_table_native t)) as Hnp.
    destruct (sym_probe_fns (sf_table t)) as [[pt|]|]; [|done..]. cbn.
    pose proof (probe_table_native pt) as Hn. unfold native_probe_table in Hn.
    destruct (sym_get_probes (probe_table pt)) as [[c|d]|]; [|done..].
    rewrite call_slot_native, invoke_native. apply call_native_log.
  - by destruct Hpl as (_ & _ & _ & Hnd & _), (Hnd a).
Qed.

Lemma call_get_probes_shadowed_log `{!BackendOk B} fuel o t v s s' :
  shadowed s o t -> call_get_probes (S fuel) o s = Ret v s' ->
  exists data, gdb_stdlog s' = gdb_stdlog s ++ [probes_line o data].
Proof.
  intros Hsh. rewrite (call_get_probes_shadowed _ _ _ _ Hsh).
  pose proof (native_table_probe _ (sf_table_native t)) as Hnp.
  destruct (sym_probe_fns (sf_table t)) as [[pt|]|]; [|done..]. cbn [probe_fns_at].
  pose proof (probe_table_native pt) as Hn. unfold native_probe_table in Hn.
  destruct (sym_get_probes (probe_table pt)) as [[c|d]|]; [|done..].
  rewrite call_slot_native, invoke_native. unfold bind at 1. rewrite call_native_run.
  destruct (native c _ (readers s)) as [[]|]; try done. intros [= <- <-]. by eexists.
Qed.

(** ** The frame of a call *)

Lemma steps_load_probe_fns p : steps io_step (load_probe_fns p).
Proof. destruct p; cbn; solve_steps. Qed.

Lemma steps_as_ptr v : steps io_step (as_ptr v).
Proof. destruct v; cbn; solve_steps. Qed.

Lemma steps_as_probes v : steps io_step (as_probes v).
Proof. destruct v; cbn; solve_steps. Qed.

Lemma steps_real_sf_of d : steps io_step (real_sf_of d).
Proof. unfold real_sf_of. solve_steps. Qed.

Lemma fuel_free_real_sf_of d : fuel_free (real_sf_of d).
Proof.
  unfold real_sf_of.
  apply fuel_free_bind; [apply fuel_free_debug_data_at|intros; apply fuel_free_load_sf].
Qed.

Lemma fuel_free_load_probe_fns p : fuel_free (load_probe_fns p).
Proof. by destruct p. Qed.

Lemma fuel_free_as_ptr v : fuel_free (as_ptr v).
Proof. by destruct v. Qed.

Lemma fuel_free_as_probes v : fuel_free (as_probes v).
Proof. by destruct v. Qed.

Lemma fuel_free_flat_call f args : fuel_free (flat_call f args).
Proof. destruct f; [apply fuel_free_call_native|done]. Qed.

Section Frame.
Variable call : fn_ptr -> sf_args -> G sf_val.

Lemma steps_call_slot f args :
  (forall f args, steps io_step (call f args)) -> steps io_step (call_slot call f args).
Proof. intros Hcall. destruct f; cbn; solve_steps. Qed.

Lemma fuel_free_call_slot f args :
  (forall f args, fuel_free (call f args)) -> fuel_free (call_slot call f args).
Proof. intros Hcall. destruct f; cbn; solve_steps. Qed.

#[local] Hint Resolve steps_load_probe_fns steps_as_ptr steps_as_probes steps_real_sf_of
  steps_call_slot fuel_free_real_sf_of fuel_free_load_probe_fns
  fuel_free_as_ptr fuel_free_as_probes
  fuel_free_call_slot : steps.

Lemma steps_run_debug d args :
  (forall f args, steps io_step (call f args)) -> steps io_step (run_debug call d args).
Proof.
  intros Hcall. destruct d, args; cbn;
    unfold debug_sym_get_probes, debug_sym_new_init, debug_sym_init, debug_sym_read,
      debug_sym_finish, debug_sym_offsets, debug_sym_segments, debug_sym_read_linetable,
      debug_sym_relocate; solve_steps.
Qed.

Lemma fuel_free_run_debug d args :
  (forall f args, fuel_free (call f args)) -> fuel_free (run_debug call d args).
Proof.
  intros Hcall. destruct d, args; cbn;
    unfold debug_sym_get_probes, debug_sym_new_init, debug_sym_init, debug_sym_read,
      debug_sym_finish, debug_sym_offsets, debug_sym_segments, debug_sym_read_linetable,
      debug_sym_relocate; solve_steps.
Qed.

End Frame.

Lemma steps_invoke fuel f args : steps io_step (invoke fuel f args).
Proof.
  revert f args. induction fuel as [|fuel IH]; intros [c|d] args; cbn;
    [apply steps_call_native|solve_steps|apply steps_call_native|by apply steps_run_debug].
Qed.

#[local] Hint Resolve steps_load_probe_fns steps_call_slot steps_invoke : steps.

Lemma steps_call_sf fuel objfile name args : steps io_step (call_sf fuel objfile name args).
Proof. unfold call_sf. solve_steps. Qed.

Lemma steps_call_get_probes fuel objfile : steps io_step (call_get_probes fuel objfile).
Proof. unfold call_get_probes. solve_steps. Qed.

(** ** Fuel *)

Lemma call_slot_flat fuel f args :
  from_option is_native true f = true ->
  call_slot (invoke fuel) f args = call_slot flat_call f args.
Proof. destruct f as [[c|d]|]; [|done..]. intros _. cbn. by rewrite invoke_native. Qed.

Lemma native_slot_option `{!BackendOk B} t name :
  from_option is_native true (sf_get name (sf_table t)) = true.
Proof.
  destruct (sf_get name (sf_table t)) as [f|] eqn:Hf; [|done].
  by destruct (native_slot _ _ _ Hf) as [c ->].
Qed.

(** In a well-formed state a proxy reaches a reader's function, whatever
    the fuel of its calls. *)
Lemma before_proxy_flat `{!BackendOk B} fuel objfile line name args s :
  wf s ->
  before_proxy (invoke fuel) objfile line name args s =
  before_proxy flat_call objfile line name args s.
Proof.
  intros Hwf. destruct (reg_get objfile (symfile_debug_objfile_data_key s)) as [a|] eqn:Hk.
  2:{ by rewrite !before_proxy_null. }
  destruct (wf_real_sf_of _ _ _ Hwf Hk) as [t Hreal].
  rewrite !(before_proxy_run _ _ _ _ _ _ _ _ Hk (Hreal _)).
  unfold bind. by rewrite (call_slot_flat fuel) by apply native_slot_option.
Qed.

Lemma wf_real_sf_of_now s objfile a :
  wf s -> reg_get objfile (symfile_debug_objfile_data_key s) = Some a ->
  exists t, real_sf_of (Some a) s = Ret (sf_table t) s.
Proof.
  intros Hwf Hk. destruct (wf_key_live s Hwf _ _ Hk) as [d Hd].
  destruct (wf_shadow s Hwf _ _ Hd) as (t & Ht & _).
  exists t. by eapply real_sf_of_run.
Qed.

Lemma debug_sym_relocate_null call objfile sectp buf s :
  reg_get objfile (symfile_debug_objfile_data_key s) = None ->
  debug_sym_relocate call objfile sectp buf s = Fault NullDereference.
Proof.
  intros Hk. unfold debug_sym_relocate.
  by rewrite (bind_Ret _ _ _ _ _ (key_get_run objfile s)), Hk.
Qed.

Lemma debug_sym_get_probes_null call objfile s :
  reg_get objfile (symfile_debug_objfile_data_key s) = None ->
  debug_sym_get_probes call objfile s = Fault NullDereference.
Proof.
  intros Hk. unfold debug_sym_get_probes.
  by rewrite (bind_Ret _ _ _ _ _ (key_get_run objfile s)), Hk.
Qed.

Lemma debug_sym_relocate_flat `{!BackendOk B} fuel objfile sectp buf s :
  wf s ->
  debug_sym_relocate (invoke fuel) objfile sectp buf s =
  debug_sym_relocate flat_call objfile sectp buf s.
Proof.
  intros Hwf. destruct (reg_get objfile (symfile_debug_objfile_data_key s)) as [a|] eqn:Hk.
  2:{ by rewrite !debug_sym_relocate_null. }
  destruct (wf_real_sf_of_now _ _ _ Hwf Hk) as [t Hreal].
  rewrite !(debug_sym_relocate_run _ _ _ _ _ _ _ Hk Hreal).
  unfold bind at 1 5.
  by rewrite (call_slot_flat fuel) by apply (native_slot_option t Sym_relocate).
Qed.

Lemma debug_sym_get_probes_flat `{!BackendOk B} fuel objfile s :
  wf s ->
  debug_sym_get_probes (invoke fuel) objfile s = debug_sym_get_probes flat_call objfile s.
Proof.
  intros Hwf. destruct (reg_get objfile (symfile_debug_objfile_data_key s)) as [a|] eqn:Hk.
  2:{ by rewrite !debug_sym_get_probes_null. }
  destruct (wf_real_sf_of_now _ _ _ Hwf Hk) as [t Hreal].
  rewrite !(debug_sym_get_probes_run _ _ _ _ _ Hk Hreal).
  pose proof (native_table_probe _ (sf_table_native t)) as Hnp.
  destruct (sym_probe_fns (sf_table t)) as [[p|]|]; [|done..].
  unfold bind, load_probe_fns, ret, probe_fns_at.
  by rewrite (call_slot_flat fuel) by apply (probe_table_native p).
Qed.

Lemma run_debug_flat `{!BackendOk B} fuel d args s :
  wf s -> run_debug (invoke fuel) d args s = run_debug flat_call d args s.
Proof.
  intros Hwf. destruct d, args; try reflexivity; cbn [run_debug]; apply bind_ext_l.
  - by apply debug_sym_get_probes_flat.
  - by apply (before_proxy_flat _ _ _ Sym_new_init).
  - by apply (before_proxy_flat _ _ _ Sym_init).
  - by apply (before_proxy_flat _ _ _ Sym_read).
  - by apply (before_proxy_flat _ _ _ Sym_finish).
  - by apply (before_proxy_flat _ _ _ Sym_offsets).
  - by apply (before_proxy_flat _ _ _ Sym_read_linetable).
  - by apply debug_sym_relocate_flat.
Qed.

Lemma invoke_one_enough `{!BackendOk B} fuel f args s :
  wf s ->
  invoke (S fuel) f args s = invoke 1 f args s /\ invoke 1 f args s <> OutOfFuel.
Proof.
  intros Hwf. destruct f as [c|d]; cbn.
  - split; [done|apply fuel_free_call_native].
  - rewrite (run_debug_flat fuel _ _ _ Hwf), (run_debug_flat 0 _ _ _ Hwf). split; [done|].
    apply fuel_free_run_debug. apply fuel_free_flat_call.
Qed.

(** Fuel.  In a well-formed state one unit of fuel is enough for any
    call through a function pointer: no more changes the outcome, and the
    outcome is not a lack of fuel. *)
Theorem invoke_fuel_enough `{!BackendOk B} fuel f args s :
  wf s ->
  invoke (S fuel) f args s = invoke 1 f args s /\ invoke 1 f args s <> OutOfFuel.
Proof. apply invoke_one_enough. Qed.

(** ** Arguments that name an objfile without a record *)

(** A proxy reached with an objfile that has no registry entry
    dereferences the null pointer [key.get] returned. *)
Lemma run_debug_no_record call name args o s :
  name <> Sym_segments -> args_fit name args = true -> args_objfile args = Some o ->
  reg_get o (symfile_debug_objfile_data_key s) = None ->
  run_debug call (proxy_of name) args s = Fault NullDereference.
Proof.
  intros Hseg Hfit Ho Hk. destruct (logs_before_cases name) as [Hb|[->| ->]]; [|done|].
  - rewrite (run_debug_before _ _ _ _ Hb Hfit Ho). unfold bind.
    by rewrite (before_proxy_null _ _ _ _ _ _ Hk).
  - destruct args; try done. cbn in Ho. simplify_eq. cbn [proxy_of run_debug]. unfold bind.
    by rewrite (debug_sym_relocate_null _ _ _ _ _ Hk).
Qed.

Lemma call_sf_no_record fuel o1 o2 name args t1 s :
  shadowed s o1 t1 -> populated name (sf_table t1) = true -> name <> Sym_segments ->
  args_fit name args = true -> args_objfile args = Some o2 ->
  reg_get o2 (symfile_debug_objfile_data_key s) = None ->
  call_sf (S fuel) o1 name args s = Fault NullDereference.
Proof.
  intros Hsh Hp Hseg Hfit Ho Hk. rewrite (call_sf_shadowed _ _ _ _ _ _ Hsh), Hp.
  by apply (run_debug_no_record _ _ _ o2).
Qed.

(** ** The type of the probes *)

(** A call of [sym_get_probes] in a reader's probe table returns a vector
    of probes, and so does what follows when it keeps vectors. *)
Lemma probes_slot_typed `{!BackendOk B} n objfile t (k : sf_val -> G sf_val) s :
  (forall v s1, is_probes v = true ->
     match k v s1 with Ret v' _ => is_probes v' = true | OutOfFuel => False | _ => True end) ->
  match sym_probe_fns (sf_table t) with
  | None => True
  | Some p =>
      match (v <- call_slot (invoke n) (sym_get_probes (probe_fns_at p))
                    (Args_probes objfile) ;; k v) s with
      | Ret v' _ => is_probes v' = true
      | OutOfFuel => False
      | _ => True
      end
  end.
Proof.
  intros Hk. pose proof (native_table_probe _ (sf_table_native t)) as Hnp.
  destruct (sym_probe_fns (sf_table t)) as [[pt|]|]; [|done..]. cbn [probe_fns_at].
  pose proof (probe_table_native pt) as Hn. unfold native_probe_table in Hn.
  pose proof (probe_table_typed pt) as Hty.
  destruct (sym_get_probes (probe_table pt)) as [[c|d]|]; [|done..].
  rewrite call_slot_native, invoke_native. unfold bind. rewrite call_native_run.
  destruct (native c _ (readers s)) as [v w|] eqn:Hnat; [|done].
  apply Hk. by apply (Hty c objfile (readers s) v w).
Qed.

Lemma call_get_probes_typed `{!BackendOk B} fuel objfile s :
  wf s ->
  match call_get_probes (S fuel) objfile s with
  | Ret v _ => is_probes v = true
  | OutOfFuel => False
  | _ => True
  end.
Proof.
  intros Hwf. destruct (objfiles s !! objfile) as [ob|] eqn:Hob.
  2:{ unfold call_get_probes, bind. by rewrite objfile_sf_dead. }
  destruct (wf_cases _ _ _ Hwf Hob) as [[t Hsh]|Hpl].
  - rewrite (call_get_probes_shadowed _ _ _ _ Hsh).
    pose proof (probes_slot_typed fuel objfile t
                  (fun v => retval <- as_probes v ;;
                            fprintf_filtered (probes_line objfile retval) ;;
                            ret (Val_probes retval)) s) as Hcall.
    destruct (sym_probe_fns (sf_table t)); [|done]. apply Hcall.
    intros v s1 Hv. by destruct v.
  - destruct (sf ob) as [|t|a] eqn:Hsf.
    + unfold call_get_probes. by rewrite (bind_Ret _ _ _ _ _ (objfile_sf_plain _ _ _ Hpl)).
    + rewrite (call_get_probes_table _ _ _ _ (plain_active_table _ _ _ Hpl)).
      pose proof (probes_slot_typed (S fuel) objfile t ret s) as Hcall.
      destruct (sym_probe_fns (sf_table t)) as [p|]; [|done].
      cbn [load_probe_fns]. rewrite bind_ret_l. rewrite <- (bind_ret_r (call_slot _ _ _)).
      apply Hcall. by intros v s1 Hv.
    + by destruct Hpl as (_ & _ & _ & Hnd & _), (Hnd a).
Qed.

(** ** The proxies as their callers see them *)

(** C6. Log, then forward.  On an objfile instrumented around a table that
    populates the slot [name] (one of the six whose proxy prints first), a
    call of the slot appends the slot's line to the log and then calls the
    reader's function with the same arguments: the call returns when the
    function returns and throws what it throws, the line is in the log
    either way, and nothing else of the state has changed but the readers'
    world. *)
Theorem call_sf_logs_then_forwards fuel objfile name args t c s :
  shadowed s objfile t ->
  sf_get name (sf_table t) = Some (FnNative c) ->
  logs_before name = true -> args_fit name args = true ->
  args_objfile args = Some objfile ->
  call_sf (S fuel) objfile name args s =
  match native c args (readers s) with
  | NReturn _ w => Ret Val_void (touched w [proxy_line name args 0] s)
  | NThrow e w => Throw e (touched w [proxy_line name args 0] s)
  end.
Proof. apply call_sf_logs_then_forwards_run. Qed.

(** C10. [debug_sym_relocate] forwards, then logs.  On an objfile
    instrumented around a table that populates [sym_relocate], a call of the
    slot calls the reader's function first: when it returns a pointer, the
    call returns it and one line showing the arguments and the pointer was
    appended to the log; when it throws, the exception propagates and nothing
    was logged. *)
Theorem call_sf_relocate_forwards_then_logs fuel objfile sectp buf t c s :
  shadowed s objfile t ->
  sym_relocate (sf_table t) = Some (FnNative c) ->
  call_sf (S fuel) objfile Sym_relocate (Args_relocate objfile sectp buf) s =
  match native c (Args_relocate objfile sectp buf) (readers s) with
  | NReturn (Val_ptr retval) w =>
      Ret (Val_ptr retval)
        (touched w [proxy_line Sym_relocate (Args_relocate objfile sectp buf) retval] s)
  | NReturn _ w => Fault BadSignature
  | NThrow e w => Throw e (with_readers w s)
  end.
Proof. apply call_sf_relocate_run. Qed.

(** The frame of a call.  A call through an objfile's table, with any
    fuel, arguments and slot, leaves the objfiles, the program spaces, the
    registry, the records and the flag as they were: it can only append to
    the log and move the readers' world; so it keeps the state well formed. *)
Theorem call_sf_frame fuel objfile name args :
  steps io_step (call_sf fuel objfile name args) /\
  steps io_step (call_get_probes fuel objfile) /\
  preserves wf (call_sf fuel objfile name args).
Proof.
  split_and!; [apply steps_call_sf|apply steps_call_get_probes|].
  eapply steps_preserves; [apply wf_io_step|apply steps_call_sf].
Qed.

(** C19. Transparency needs the objfile's own argument.  A proxy finds
    the saved table through the registry entry of the objfile in its
    argument, not through the table it was reached by.  So a call through
    the table of an instrumented objfile [o1] with arguments that name
    another instrumented objfile [o2] reaches the reader's function of
    [o2], where the same call without instrumentation reaches the function
    of [o1]: the instrumentation is transparent only for calls that pass
    the objfile whose table they go through, which is how GDB calls. *)
Theorem proxy_dispatches_on_argument `{!BackendOk B} fuel o1 o2 name args t1 t2 c1 c2 s s0 :
  shadowed s o1 t1 -> shadowed s o2 t2 ->
  plain s0 o1 (SfStatic t1) -> readers s0 = readers s ->
  logs_before name = true -> args_fit name args = true -> args_objfile args = Some o2 ->
  sf_get name (sf_table t1) = Some (FnNative c1) ->
  sf_get name (sf_table t2) = Some (FnNative c2) ->
  observe (call_sf (S fuel) o1 name args s) = observe (call_native c2 args s) /\
  observe (call_sf fuel o1 name args s0) = observe (call_native c1 args s).
Proof.
  intros Hsh1 Hsh2 Hpl Hw Hb Hfit Ho Hc1 Hc2. split.
  - rewrite (call_sf_before_run _ _ _ _ _ _ _ _ _ Hsh1 (populated_Some _ _ _ Hc1) Hsh2 Hc2 Hb Hfit Ho).
    rewrite call_native_run.
    pose proof (sf_table_typed t2 name c2 args (readers s)) as Hty.
    destruct (native c2 args (readers s)) as [v w|e w]; [|done].
    specialize (Hty v w Hc2 Hfit eq_refl). by destruct name, v.
  - rewrite (call_sf_plain _ _ _ _ _ _ Hpl), Hc1, call_slot_native, invoke_native.
    rewrite !call_native_run, Hw. by destruct (native c1 args (readers s)).
Qed.

(** C20. A proxy needs the record of its argument.  On an instrumented
    objfile, a call of a populated slot other than [sym_segments] whose
    arguments name an objfile that has no registry entry (an objfile that
    is not instrumented, or one that was destroyed) dereferences the null
    pointer that [symfile_debug_objfile_data_key.get] returned: the
    reader's function is not reached, whichever table the call went
    through. *)
Theorem proxy_needs_record fuel o1 o2 name args t1 s :
  shadowed s o1 t1 -> populated name (sf_table t1) = true -> name <> Sym_segments ->
  args_fit name args = true -> args_objfile args = Some o2 ->
  reg_get o2 (symfile_debug_objfile_data_key s) = None ->
  call_sf (S fuel) o1 name args s = Fault NullDereference.
Proof. apply call_sf_no_record. Qed.

End Proxy.

(** ** The claims at the sample states *)

Local Open Scope gdb_scope.

Lemma sample_logging_shadowed_1 : shadowed sample_state_logging 1%positive 1.
Proof. eexists _, _. split_and!; vm_compute; reflexivity. Qed.

Lemma sample_logging_shadowed_2 : shadowed sample_state_logging 2%positive 2.
Proof. eexists _, _. split_and!; vm_compute; reflexivity. Qed.

Lemma sample_logging_wf : wf sample_state_logging.
Proof.
  destruct (set_debug_symfile_ok (with_debug_symfile true sample_state))
    as (s' & Hrun & Hwf & _);
    [apply wf_with_debug_symfile, sample_state_wf|intros _; apply sample_no_null|].
  unfold sample_state_logging. by rewrite Hrun.
Qed.

(** The assertion of the guard: the sample objfile is instrumented, and
    with the flag cleared behind the hook the guard stops at
    [gdb_assert (debug_symfile)]. *)
Example sample_guard_asserts :
  objfile_set_sym_fns 1%positive (SfStatic 2) (with_debug_symfile false sample_state_logging) =
  Abort "debug_symfile" (with_debug_symfile false sample_state_logging).
Proof.
  apply objfile_set_sym_fns_stale; [|done]. apply (shadowed_is_installed _ _ 1).
  eexists _, _. split_and!; vm_compute; reflexivity.
Qed.

Lemma call_sf_logs_then_forwards_witness :
  call_sf 1 1%positive Sym_read (Args_read 1%positive (-1)) sample_state_logging =
  Ret Val_void
    (touched [(10%N, Args_read 1%positive (-1))]
       ["sf->sym_read (a.out, 0xffffffff)" +:+ nl] sample_state_logging).
Proof.
  exact (call_sf_logs_then_forwards 0 1%positive Sym_read (Args_read 1%positive (-1)) 1 10
           sample_state_logging sample_logging_shadowed_1 eq_refl eq_refl eq_refl eq_refl).
Defined.

Lemma call_sf_relocate_forwards_then_logs_witness :
  call_sf 1 1%positive Sym_relocate (Args_relocate 1%positive 16 32) sample_state_logging =
  Ret (Val_ptr 40)
    (touched [(17%N, Args_relocate 1%positive 16 32)]
       ["sf->sym_relocate (a.out, 0x10, 0x20) = 0x28" +:+ nl] sample_state_logging).
Proof.
  exact (call_sf_relocate_forwards_then_logs 0 1%positive 16 32 1 17
           sample_state_logging sample_logging_shadowed_1 eq_refl).
Defined.

Lemma call_get_probes_forwards_then_logs_witness :
  call_get_probes 1 1%positive sample_state_logging =
  Ret (Val_probes 4096)
    (touched [(30%N, Args_probes 1%positive)]
       ["probes->sym_get_probes (a.out) = 0x1000" +:+ nl] sample_state_logging).
Proof.
  exact (call_get_probes_forwards_then_logs 0 1%positive 1 1 30
           sample_state_logging sample_logging_shadowed_1 eq_refl eq_refl).
Defined.

Lemma call_sf_segments_aborts_witness :
  call_sf 1 2%positive Sym_segments (Args_segments 7) sample_state_logging =
  Abort "debug_sym_segments called" sample_state_logging.
Proof.
  exact (call_sf_segments_aborts 0 2%positive 7 2 sample_state_logging
           sample_logging_shadowed_2).
Defined.

Lemma instrumentation_transparent_witness :
  observe (call_sf 1 2%positive Sym_finish (Args_objfile 2%positive) sample_state_logging) =
  observe (call_sf 0 2%positive Sym_finish (Args_objfile 2%positive) sample_state).
Proof.
  apply (instrumentation_transparent 0 2%positive Sym_finish (Args_objfile 2%positive) 2);
    [apply sample_logging_shadowed_2| |reflexivity|done|reflexivity|reflexivity].
  exists {| sf := SfStatic 2; qf := None; flags := 0 |}. by split_and!.
Defined.

Lemma invoke_fuel_enough_witness :
  invoke 3 (FnDebug Debug_sym_finish) (Args_objfile 2%positive) sample_state_logging =
  invoke 1 (FnDebug Debug_sym_finish) (Args_objfile 2%positive) sample_state_logging /\
  invoke 1 (FnDebug Debug_sym_finish) (Args_objfile 2%positive) sample_state_logging
  <> OutOfFuel.
Proof. apply (invoke_fuel_enough 2), sample_logging_wf. Defined.

Lemma proxy_dispatches_on_argument_witness :
  observe (call_sf 1 1%positive Sym_read (Args_read 2%positive 5) sample_state_logging) =
    observe (call_native 22 (Args_read 2%positive 5) sample_state_logging) /\
  observe (call_sf 0 1%positive Sym_read (Args_read 2%positive 5) sample_state) =
    observe (call_native 10 (Args_read 2%positive 5) sample_state_logging).
Proof.
  apply (proxy_dispatches_on_argument (B:=sample_backend) 0 1%positive 2%positive Sym_read
           (Args_read 2%positive 5) 1 2 10 22 sample_state_logging sample_state);
    [apply sample_logging_shadowed_1|apply sample_logging_shadowed_2|apply sample_plain_1
    |reflexivity..].
Defined.

Lemma proxy_needs_record_witness :
  call_sf 1 1%positive Sym_read (Args_read 3%positive 5) sample_state_logging =
  Fault NullDereference.
Proof.
  apply (proxy_needs_record (B:=sample_backend) 0 1%positive 3%positive Sym_read
           (Args_read 3%positive 5) 1 sample_state_logging sample_logging_shadowed_1);
    [reflexivity|done|reflexivity|reflexivity|vm_compute; reflexivity].
Defined.
