(* ===== verification/Query.v ===== *)
(** * Query: the symbol queries forwarded to the quick-symbol functions

    The member functions [objfile::has_partial_symbols] ...
    [objfile::lookup_global_symbol_language] of symfile-debug.c, statement by
    statement.  Each consults [this->qf], which is null or an object with
    virtual methods, and prints to [gdb_stdlog] when [debug_symfile] is set.
    [objfile::f] is written [objfile_f]; [qf->f] is the method [qf_f] of the
    interface [Quick].

    The queries do not touch the instrumentation of Install.v: they read
    the flag and the objfile's [qf] and [flags] fields only. *)

From stdpp Require Import base tactics option list strings gmap.
From Stdlib Require Import ZArith.
From S2P Require Import Prelude SymFns Registry Render State Sample.

(** ** The quick-symbol functions *)

(** What a method does: return a value or throw, acting on the readers'
    side of the world. *)
Inductive qf_result (W E A : Type) : Type :=
| QReturn (a : A) (w : W)
| QThrow (e : E) (w : W).
Arguments QReturn {W E A} a w.
Arguments QThrow {W E A} e w.

(** The virtual methods of [quick_symbol_functions], by object, and the
    accessor [compunit_primary_filetab].  Strings stand for [const char *]
    arguments, [option] for those that may be null, host addresses for
    callbacks and for the structures passed by reference. *)
Class Quick (B : Backend) : Type := {
  qf_can_lazily_read_symbols : quick_id -> world -> qf_result world gdb_exception bool;
  qf_has_symbols : quick_id -> objfile_id -> world -> qf_result world gdb_exception bool;
  qf_find_last_source_symtab :
    quick_id -> objfile_id -> world -> qf_result world gdb_exception (option symtab_id);
  qf_forget_cached_source_info :
    quick_id -> objfile_id -> world -> qf_result world gdb_exception unit;
  qf_map_symtabs_matching_filename :
    quick_id -> objfile_id -> string -> option string -> host_addr ->
    world -> qf_result world gdb_exception bool;
  qf_lookup_symbol :
    quick_id -> objfile_id -> Z -> string -> Z ->
    world -> qf_result world gdb_exception (option cust_id);
  qf_print_stats : quick_id -> objfile_id -> bool -> world -> qf_result world gdb_exception unit;
  qf_dump : quick_id -> objfile_id -> world -> qf_result world gdb_exception unit;
  qf_expand_symtabs_for_function :
    quick_id -> objfile_id -> string -> world -> qf_result world gdb_exception unit;
  qf_expand_all_symtabs : quick_id -> objfile_id -> world -> qf_result world gdb_exception unit;
  qf_expand_symtabs_with_fullname :
    quick_id -> objfile_id -> string -> world -> qf_result world gdb_exception unit;
  qf_map_matching_symbols :
    quick_id -> objfile_id -> host_addr -> Z -> Z -> host_addr -> host_addr ->
    world -> qf_result world gdb_exception unit;
  qf_expand_symtabs_matching :
    quick_id -> objfile_id -> host_addr -> host_addr -> host_addr -> host_addr -> Z ->
    world -> qf_result world gdb_exception unit;
  qf_find_pc_sect_compunit_symtab :
    quick_id -> objfile_id -> host_addr -> N -> host_addr -> Z ->
    world -> qf_result world gdb_exception (option cust_id);
  qf_map_symbol_filenames :
    quick_id -> objfile_id -> host_addr -> host_addr -> Z ->
    world -> qf_result world gdb_exception unit;
  qf_find_compunit_symtab_by_address :
    quick_id -> objfile_id -> N -> world -> qf_result world gdb_exception (option cust_id);
  (** the language and what the method stores in [*symbol_found_p] *)
  qf_lookup_global_symbol_language :
    quick_id -> objfile_id -> string -> Z ->
    world -> qf_result world gdb_exception (Z * bool);
  compunit_primary_filetab : cust_id -> symtab_id;
  (** the enumerator [OBJF_PSYMTABS_READ] of objfile-flags.h, whose value
      the source file does not say *)
  OBJF_PSYMTABS_READ : Z
}.

(** [language_unknown] (defs.h). *)
Definition language_unknown : Z := 0.

(** A sample of quick-symbol functions: every method records its call in
    the trace by a number; object 5 can read its symbols lazily, [dump]
    throws, the lookups find compunit 7 whose primary file is symtab 1;
    [OBJF_PSYMTABS_READ] is bit 4. *)
Definition sample_quick_call {A} (n : N) (o : objfile_id) (a : A) (w : list (N * sf_args)) :
    qf_result (list (N * sf_args)) string A :=
  QReturn a (w ++ [(n, Args_objfile o)]).

#[export] Instance sample_quick : Quick sample_backend := {|
  qf_can_lazily_read_symbols q w := QReturn (bool_decide (q = 5%N)) (w ++ [(100%N, Args_segments q)]);
  qf_has_symbols q o := sample_quick_call 101 o true;
  qf_find_last_source_symtab q o := sample_quick_call 102 o (Some 1%N);
  qf_forget_cached_source_info q o := sample_quick_call 103 o tt;
  qf_map_symtabs_matching_filename q o name real_path callback := sample_quick_call 104 o false;
  qf_lookup_symbol q o kind name domain := sample_quick_call 105 o (Some 7%N);
  qf_print_stats q o print_bcache := sample_quick_call 106 o tt;
  qf_dump q o w := QThrow "dump failed" (w ++ [(107%N, Args_objfile o)]);
  qf_expand_symtabs_for_function q o func_name := sample_quick_call 108 o tt;
  qf_expand_all_symtabs q o := sample_quick_call 109 o tt;
  qf_expand_symtabs_with_fullname q o fullname := sample_quick_call 110 o tt;
  qf_map_matching_symbols q o name domain global callback ordered_compare :=
    sample_quick_call 111 o tt;
  qf_expand_symtabs_matching q o file_matcher lookup_name symbol_matcher expansion_notify kind :=
    sample_quick_call 112 o tt;
  qf_find_pc_sect_compunit_symtab q o msymbol pc section warn_if_readin :=
    sample_quick_call 113 o None;
  qf_map_symbol_filenames q o fun_ data need_fullname := sample_quick_call 114 o tt;
  qf_find_compunit_symtab_by_address q o address := sample_quick_call 115 o (Some 7%N);
  qf_lookup_global_symbol_language q o name domain := sample_quick_call 116 o (2%Z, true);
  compunit_primary_filetab cust := 1%N;
  OBJF_PSYMTABS_READ := Z.shiftl 1 4
|}.

(** The sample state with logging on (no objfile instrumented), objfile 1
    having the quick functions 5 and its partial symbols not read, objfile 2
    having the quick functions 6 and [OBJF_PSYMTABS_READ] set. *)
Definition sample_state_quick : gdb_state :=
  with_debug_symfile true
    (with_objfiles
       (<[1%positive := {| sf := SfStatic 1; qf := Some 5%N; flags := 0 |}]>
          (<[2%positive := {| sf := SfStatic 2; qf := Some 6%N; flags := 16 |}]>
             (objfiles sample_state)))
       sample_state).

Section Query.
Context `{B : Backend} `{R : !Registry objfile_id data_addr} `{D : Display} `{Q : !Quick B}.

Local Open Scope gdb_scope.

(** ** Pieces *)

(** A call of a method of the quick-symbol functions. *)
Definition call_quick {A} (m : world -> qf_result world gdb_exception A) : G A :=
  fun s =>
    match m (readers s) with
    | QReturn a w => Ret a (with_readers w s)
    | QThrow e w => Throw e (with_readers w s)
    end.

(** [if (debug_symfile) fprintf_filtered (gdb_stdlog, ...);] *)
Definition debug_printf (text : string) : G unit :=
  flag <- gets debug_symfile ;;
  when flag (fprintf_filtered text).

(** [if (qf != nullptr) retval = qf->m (this, ...);] with [retval]
    initialised to [default]. *)
Definition with_qf {A} (this : objfile_id) (default : A)
    (m : quick_id -> world -> qf_result world gdb_exception A) : G A :=
  ob <- read_objfile this ;;
  match qf ob with
  | Some q => call_quick (m q)
  | None => ret default
  end.

(** [debug_symtab_name (symtab)]. *)
Definition debug_symtab_name (symtab : symtab_id) : string :=
  symtab_to_filename_for_display symtab.

(** [retval ? debug_symtab_name (retval) : "NULL"]. *)
Definition symtab_or_NULL (retval : option symtab_id) : string :=
  match retval with
  | Some symtab => debug_symtab_name symtab
  | None => "NULL"
  end.

(** [retval ? debug_symtab_name (compunit_primary_filetab (retval)) : "NULL"]. *)
Definition cust_or_NULL (retval : option cust_id) : string :=
  match retval with
  | Some cust => debug_symtab_name (compunit_primary_filetab cust)
  | None => "NULL"
  end.

(** ** The queries *)

Definition objfile_has_partial_symbols (this : objfile_id) : G bool :=
  ob <- read_objfile this ;;
  lazily <- (if bool_decide (Z.land (flags ob) OBJF_PSYMTABS_READ = 0%Z)
             then match qf ob with
                  | Some q => call_quick (qf_can_lazily_read_symbols q)
                  | None => ret false
                  end
             else ret false) ;;
  retval <- (if lazily then ret true
             else match qf ob with
                  | Some q => call_quick (qf_has_symbols q this)
                  | None => ret false
                  end) ;;
  debug_printf ("qf->has_symbols (" +:+ objfile_debug_name this +:+ ") = "
                +:+ fmt_bool retval +:+ nl) ;;
  ret retval.

Definition objfile_find_last_source_symtab (this : objfile_id) : G (option symtab_id) :=
  debug_printf ("qf->find_last_source_symtab (" +:+ objfile_debug_name this +:+ ")" +:+ nl) ;;
  retval <- with_qf this None (fun q => qf_find_last_source_symtab q this) ;;
  debug_printf ("qf->find_last_source_symtab (...) = " +:+ symtab_or_NULL retval +:+ nl) ;;
  ret retval.

Definition objfile_forget_cached_source_info (this : objfile_id) : G unit :=
  debug_printf ("qf->forget_cached_source_info (" +:+ objfile_debug_name this
                +:+ ")" +:+ nl) ;;
  with_qf this tt (fun q => qf_forget_cached_source_info q this).

Definition objfile_map_symtabs_matching_filename (this : objfile_id) (name : string)
    (real_path : option string) (callback : host_addr) : G bool :=
  debug_printf ("qf->map_symtabs_matching_filename (" +:+ objfile_debug_name this
                +:+ ", " +:+ quoted name +:+ ", " +:+ quoted (fmt_s real_path) +:+ ", "
                +:+ host_address_to_string callback +:+ ")" +:+ nl) ;;
  retval <- with_qf this false
              (fun q => qf_map_symtabs_matching_filename q this name real_path callback) ;;
  debug_printf ("qf->map_symtabs_matching_filename (...) = " +:+ fmt_bool retval +:+ nl) ;;
  ret retval.

Definition objfile_lookup_symbol (this : objfile_id) (kind : Z) (name : string)
    (domain : Z) : G (option cust_id) :=
  debug_printf ("qf->lookup_symbol (" +:+ objfile_debug_name this +:+ ", "
                +:+ fmt_d kind +:+ ", " +:+ quoted name +:+ ", "
                +:+ domain_name domain +:+ ")" +:+ nl) ;;
  retval <- with_qf this None (fun q => qf_lookup_symbol q this kind name domain) ;;
  debug_printf ("qf->lookup_symbol (...) = " +:+ cust_or_NULL retval +:+ nl) ;;
  ret retval.

Definition objfile_print_stats (this : objfile_id) (print_bcache : bool) : G unit :=
  debug_printf ("qf->print_stats (" +:+ objfile_debug_name this +:+ ", "
                +:+ fmt_bool print_bcache +:+ ")" +:+ nl) ;;
  with_qf this tt (fun q => qf_print_stats q this print_bcache).

Definition objfile_dump (this : objfile_id) : G unit :=
  debug_printf ("qf->dump (" +:+ objfile_debug_name this +:+ ")" +:+ nl) ;;
  with_qf this tt (fun q => qf_dump q this).

Definition objfile_expand_symtabs_for_function (this : objfile_id) (func_name : string) :
    G unit :=
  debug_printf ("qf->expand_symtabs_for_function (" +:+ objfile_debug_name this
                +:+ ", " +:+ quoted func_name +:+ ")" +:+ nl) ;;
  with_qf this tt (fun q => qf_expand_symtabs_for_function q this func_name).

Definition objfile_expand_all_symtabs (this : objfile_id) : G unit :=
  debug_printf ("qf->expand_all_symtabs (" +:+ objfile_debug_name this +:+ ")" +:+ nl) ;;
  with_qf this tt (fun q => qf_expand_all_symtabs q this).

Definition objfile_expand_symtabs_with_fullname (this : objfile_id) (fullname : string) :
    G unit :=
  debug_printf ("qf->expand_symtabs_with_fullname (" +:+ objfile_debug_name this
                +:+ ", " +:+ quoted fullname +:+ ")" +:+ nl) ;;
  with_qf this tt (fun q => qf_expand_symtabs_with_fullname q this fullname).

Definition objfile_map_matching_symbols (this : objfile_id) (name : host_addr)
    (domain global : Z) (callback ordered_compare : host_addr) : G unit :=
  debug_printf ("qf->map_matching_symbols (" +:+ objfile_debug_name this +:+ ", "
                +:+ domain_name domain +:+ ", " +:+ fmt_d global +:+ ", "
                +:+ host_address_to_string ordered_compare +:+ ")" +:+ nl) ;;
  with_qf this tt
    (fun q => qf_map_matching_symbols q this name domain global callback ordered_compare).

Definition objfile_expand_symtabs_matching (this : objfile_id)
    (file_matcher lookup_name symbol_matcher expansion_notify : host_addr) (kind : Z) :
    G unit :=
  debug_printf ("qf->expand_symtabs_matching (" +:+ objfile_debug_name this +:+ ", "
                +:+ host_address_to_string file_matcher +:+ ", "
                +:+ host_address_to_string symbol_matcher +:+ ", "
                +:+ host_address_to_string expansion_notify +:+ ", "
                +:+ search_domain_name kind +:+ ")" +:+ nl) ;;
  with_qf this tt
    (fun q => qf_expand_symtabs_matching q this file_matcher lookup_name symbol_matcher
                expansion_notify kind).

Definition objfile_find_pc_sect_compunit_symtab (this : objfile_id) (msymbol : host_addr)
    (pc : N) (section : host_addr) (warn_if_readin : Z) : G (option cust_id) :=
  debug_printf ("qf->find_pc_sect_compunit_symtab (" +:+ objfile_debug_name this +:+ ", "
                +:+ host_address_to_string msymbol +:+ ", " +:+ hex_string pc +:+ ", "
                +:+ host_address_to_string section +:+ ", " +:+ fmt_d warn_if_readin
                +:+ ")" +:+ nl) ;;
  retval <- with_qf this None
              (fun q => qf_find_pc_sect_compunit_symtab q this msymbol pc section
                          warn_if_readin) ;;
  debug_printf ("qf->find_pc_sect_compunit_symtab (...) = " +:+ cust_or_NULL retval
                +:+ nl) ;;
  ret retval.

Definition objfile_map_symbol_filenames (this : objfile_id) (fun_ data : host_addr)
    (need_fullname : Z) : G unit :=
  debug_printf ("qf->map_symbol_filenames (" +:+ objfile_debug_name this +:+ ", "
                +:+ host_address_to_string fun_ +:+ ", " +:+ host_address_to_string data
                +:+ ", " +:+ fmt_d need_fullname +:+ ")" +:+ nl) ;;
  with_qf this tt (fun q => qf_map_symbol_filenames q this fun_ data need_fullname).

Definition objfile_find_compunit_symtab_by_address (this : objfile_id) (address : N) :
    G (option cust_id) :=
  debug_printf ("qf->find_compunit_symtab_by_address (" +:+ objfile_debug_name this
                +:+ ", " +:+ hex_string address +:+ ")" +:+ nl) ;;
  result <- with_qf this None (fun q => qf_find_compunit_symtab_by_address q this address) ;;
  debug_printf ("qf->find_compunit_symtab_by_address (...) = " +:+ cust_or_NULL result
                +:+ nl) ;;
  ret result.

(** The pair returned is [result] and what is stored in
    [*symbol_found_p]. *)
Definition objfile_lookup_global_symbol_language (this : objfile_id) (name : string)
    (domain : Z) : G (Z * bool) :=
  with_qf this (language_unknown, false)
    (fun q => qf_lookup_global_symbol_language q this name domain).

(** ** The queries as one family *)

(** A query with its arguments. *)
Inductive query : Type :=
| Has_partial_symbols
| Find_last_source_symtab
| Forget_cached_source_info
| Map_symtabs_matching_filename (name : string) (real_path : option string)
    (callback : host_addr)
| Lookup_symbol (kind : Z) (name : string) (domain : Z)
| Print_stats (print_bcache : bool)
| Dump
| Expand_symtabs_for_function (func_name : string)
| Expand_all_symtabs
| Expand_symtabs_with_fullname (fullname : string)
| Map_matching_symbols (name : host_addr) (domain global : Z)
    (callback ordered_compare : host_addr)
| Expand_symtabs_matching (file_matcher lookup_name symbol_matcher
    expansion_notify : host_addr) (kind : Z)
| Find_pc_sect_compunit_symtab (msymbol : host_addr) (pc : N) (section : host_addr)
    (warn_if_readin : Z)
| Map_symbol_filenames (fun_ data : host_addr) (need_fullname : Z)
| Find_compunit_symtab_by_address (address : N)
| Lookup_global_symbol_language (name : string) (domain : Z).

(** What a query returns. *)
Inductive answer : Type :=
| A_void
| A_bool (b : bool)
| A_symtab (symtab : option symtab_id)
| A_cust (cust : option cust_id)
| A_language (lang : Z) (symbol_found : bool).

(** A call of the member function a query names. *)
Definition run_query (this : objfile_id) (q : query) : G answer :=
  match q with
  | Has_partial_symbols => b <- objfile_has_partial_symbols this ;; ret (A_bool b)
  | Find_last_source_symtab => r <- objfile_find_last_source_symtab this ;; ret (A_symtab r)
  | Forget_cached_source_info => objfile_forget_cached_source_info this ;; ret A_void
  | Map_symtabs_matching_filename name real_path callback =>
      b <- objfile_map_symtabs_matching_filename this name real_path callback ;;
      ret (A_bool b)
  | Lookup_symbol kind name domain =>
      r <- objfile_lookup_symbol this kind name domain ;; ret (A_cust r)
  | Print_stats print_bcache => objfile_print_stats this print_bcache ;; ret A_void
  | Dump => objfile_dump this ;; ret A_void
  | Expand_symtabs_for_function func_name =>
      objfile_expand_symtabs_for_function this func_name ;; ret A_void
  | Expand_all_symtabs => objfile_expand_all_symtabs this ;; ret A_void
  | Expand_symtabs_with_fullname fullname =>
      objfile_expand_symtabs_with_fullname this fullname ;; ret A_void
  | Map_matching_symbols name domain global callback ordered_compare =>
      objfile_map_matching_symbols this name domain global callback ordered_compare ;;
      ret A_void
  | Expand_symtabs_matching file_matcher lookup_name symbol_matcher expansion_notify kind =>
      objfile_expand_symtabs_matching this file_matcher lookup_name symbol_matcher
        expansion_notify kind ;;
      ret A_void
  | Find_pc_sect_compunit_symtab msymbol pc section warn_if_readin =>
      r <- objfile_find_pc_sect_compunit_symtab this msymbol pc section warn_if_readin ;;
      ret (A_cust r)
  | Map_symbol_filenames fun_ data need_fullname =>
      objfile_map_symbol_filenames this fun_ data need_fullname ;; ret A_void
  | Find_compunit_symtab_by_address address =>
      r <- objfile_find_compunit_symtab_by_address this address ;; ret (A_cust r)
  | Lookup_global_symbol_language name domain =>
      r <- objfile_lookup_global_symbol_language this name domain ;;
      ret (A_language r.1 r.2)
  end.

(** ** The reference: what a query does, in one step *)

Definition qf_map {W E A C} (f : A -> C) (r : qf_result W E A) : qf_result W E C :=
  match r with
  | QReturn a w => QReturn (f a) w
  | QThrow e w => QThrow e w
  end.

(** The answer of a query on an objfile without quick-symbol functions. *)
Definition no_answer (q : query) : answer :=
  match q with
  | Has_partial_symbols | Map_symtabs_matching_filename _ _ _ => A_bool false
  | Find_last_source_symtab => A_symtab None
  | Lookup_symbol _ _ _ | Find_pc_sect_compunit_symtab _ _ _ _
  | Find_compunit_symtab_by_address _ => A_cust None
  | Lookup_global_symbol_language _ _ => A_language language_unknown false
  | _ => A_void
  end.

(** The method calls a query makes on the quick-symbol functions [qid] of
    the objfile [ob], as one action on the readers' world. *)
Definition quick_method (this : objfile_id) (ob : struct_objfile) (q : query)
    (qid : quick_id) (w : world) : qf_result world gdb_exception answer :=
  match q with
  | Has_partial_symbols =>
      if bool_decide (Z.land (flags ob) OBJF_PSYMTABS_READ = 0%Z)
      then match qf_can_lazily_read_symbols qid w with
           | QReturn true w' => QReturn (A_bool true) w'
           | QReturn false w' => qf_map A_bool (qf_has_symbols qid this w')
           | QThrow e w' => QThrow e w'
           end
      else qf_map A_bool (qf_has_symbols qid this w)
  | Find_last_source_symtab => qf_map A_symtab (qf_find_last_source_symtab qid this w)
  | Forget_cached_source_info =>
      qf_map (fun _ => A_void) (qf_forget_cached_source_info qid this w)
  | Map_symtabs_matching_filename name real_path callback =>
      qf_map A_bool (qf_map_symtabs_matching_filename qid this name real_path callback w)
  | Lookup_symbol kind name domain =>
      qf_map A_cust (qf_lookup_symbol qid this kind name domain w)
  | Print_stats print_bcache =>
      qf_map (fun _ => A_void) (qf_print_stats qid this print_bcache w)
  | Dump => qf_map (fun _ => A_void) (qf_dump qid this w)
  | Expand_symtabs_for_function func_name =>
      qf_map (fun _ => A_void) (qf_expand_symtabs_for_function qid this func_name w)
  | Expand_all_symtabs => qf_map (fun _ => A_void) (qf_expand_all_symtabs qid this w)
  | Expand_symtabs_with_fullname fullname =>
      qf_map (fun _ => A_void) (qf_expand_symtabs_with_fullname qid this fullname w)
  | Map_matching_symbols name domain global callback ordered_compare =>
      qf_map (fun _ => A_void)
        (qf_map_matching_symbols qid this name domain global callback ordered_compare w)
  | Expand_symtabs_matching file_matcher lookup_name symbol_matcher expansion_notify kind =>
      qf_map (fun _ => A_void)
        (qf_expand_symtabs_matching qid this file_matcher lookup_name symbol_matcher
           expansion_notify kind w)
  | Find_pc_sect_compunit_symtab msymbol pc section warn_if_readin =>
      qf_map A_cust
        (qf_find_pc_sect_compunit_symtab qid this msymbol pc section warn_if_readin w)
  | Map_symbol_filenames fun_ data need_fullname =>
      qf_map (fun _ => A_void) (qf_map_symbol_filenames qid this fun_ data need_fullname w)
  | Find_compunit_symtab_by_address address =>
      qf_map A_cust (qf_find_compunit_symtab_by_address qid this address w)
  | Lookup_global_symbol_language name domain =>
      qf_map (fun r => A_language r.1 r.2)
        (qf_lookup_global_symbol_language qid this name domain w)
  end.

(** The line a query prints before it consults [qf], when logging is on. *)
Definition line_before (this : objfile_id) (q : query) : list string :=
  let o := objfile_debug_name this in
  match q with
  | Has_partial_symbols | Lookup_global_symbol_language _ _ => []
  | Find_last_source_symtab => ["qf->find_last_source_symtab (" +:+ o +:+ ")" +:+ nl]
  | Forget_cached_source_info => ["qf->forget_cached_source_info (" +:+ o +:+ ")" +:+ nl]
  | Map_symtabs_matching_filename name real_path callback =>
      ["qf->map_symtabs_matching_filename (" +:+ o +:+ ", " +:+ quoted name +:+ ", "
       +:+ quoted (fmt_s real_path) +:+ ", " +:+ host_address_to_string callback
       +:+ ")" +:+ nl]
  | Lookup_symbol kind name domain =>
      ["qf->lookup_symbol (" +:+ o +:+ ", " +:+ fmt_d kind +:+ ", " +:+ quoted name
       +:+ ", " +:+ domain_name domain +:+ ")" +:+ nl]
  | Print_stats print_bcache =>
      ["qf->print_stats (" +:+ o +:+ ", " +:+ fmt_bool print_bcache +:+ ")" +:+ nl]
  | Dump => ["qf->dump (" +:+ o +:+ ")" +:+ nl]
  | Expand_symtabs_for_function func_name =>
      ["qf->expand_symtabs_for_function (" +:+ o +:+ ", " +:+ quoted func_name
       +:+ ")" +:+ nl]
  | Expand_all_symtabs => ["qf->expand_all_symtabs (" +:+ o +:+ ")" +:+ nl]
  | Expand_symtabs_with_fullname fullname =>
      ["qf->expand_symtabs_with_fullname (" +:+ o +:+ ", " +:+ quoted fullname
       +:+ ")" +:+ nl]
  | Map_matching_symbols name domain global callback ordered_compare =>
      ["qf->map_matching_symbols (" +:+ o +:+ ", " +:+ domain_name domain +:+ ", "
       +:+ fmt_d global +:+ ", " +:+ host_address_to_string ordered_compare
       +:+ ")" +:+ nl]
  | Expand_symtabs_matching file_matcher lookup_name symbol_matcher expansion_notify kind =>
      ["qf->expand_symtabs_matching (" +:+ o +:+ ", "
       +:+ host_address_to_string file_matcher +:+ ", "
       +:+ host_address_to_string symbol_matcher +:+ ", "
       +:+ host_address_to_string expansion_notify +:+ ", "
       +:+ search_domain_name kind +:+ ")" +:+ nl]
  | Find_pc_sect_compunit_symtab msymbol pc section warn_if_readin =>
      ["qf->find_pc_sect_compunit_symtab (" +:+ o +:+ ", "
       +:+ host_address_to_string msymbol +:+ ", " +:+ hex_string pc +:+ ", "
       +:+ host_address_to_string section +:+ ", " +:+ fmt_d warn_if_readin
       +:+ ")" +:+ nl]
  | Map_symbol_filenames fun_ data need_fullname =>
      ["qf->map_symbol_filenames (" +:+ o +:+ ", " +:+ host_address_to_string fun_
       +:+ ", " +:+ host_address_to_string data +:+ ", " +:+ fmt_d need_fullname
       +:+ ")" +:+ nl]
  | Find_compunit_symtab_by_address address =>
      ["qf->find_compunit_symtab_by_address (" +:+ o +:+ ", " +:+ hex_string address
       +:+ ")" +:+ nl]
  end.

(** The line a query prints after it consulted [qf], when logging is on. *)
Definition line_after (this : objfile_id) (q : query) (a : answer) : list string :=
  match q, a with
  | Has_partial_symbols, A_bool retval =>
      ["qf->has_symbols (" +:+ objfile_debug_name this +:+ ") = " +:+ fmt_bool retval
       +:+ nl]
  | Find_last_source_symtab, A_symtab retval =>
      ["qf->find_last_source_symtab (...) = " +:+ symtab_or_NULL retval +:+ nl]
  | Map_symtabs_matching_filename _ _ _, A_bool retval =>
      ["qf->map_symtabs_matching_filename (...) = " +:+ fmt_bool retval +:+ nl]
  | Lookup_symbol _ _ _, A_cust retval =>
      ["qf->lookup_symbol (...) = " +:+ cust_or_NULL retval +:+ nl]
  | Find_pc_sect_compunit_symtab _ _ _ _, A_cust retval =>
      ["qf->find_pc_sect_compunit_symtab (...) = " +:+ cust_or_NULL retval +:+ nl]
  | Find_compunit_symtab_by_address _, A_cust result =>
      ["qf->find_compunit_symtab_by_address (...) = " +:+ cust_or_NULL result +:+ nl]
  | _, _ => []
  end.

(** The lines, when the flag is set. *)
Definition if_logging (s : gdb_state) (lines : list string) : list string :=
  if debug_symfile s then lines else [].

(** A query in one step: the answer of the methods, or the default
    without quick-symbol functions, and the lines printed. *)
Definition reference_query (this : objfile_id) (q : query) : G answer :=
  fun s =>
    match objfiles s !! this with
    | None => Fault DanglingPointer
    | Some ob =>
        match qf ob with
        | None =>
            Ret (no_answer q)
              (touched (readers s)
                 (if_logging s (line_before this q ++ line_after this q (no_answer q))) s)
        | Some qid =>
            match quick_method this ob q qid (readers s) with
            | QReturn a w =>
                Ret a (touched w (if_logging s (line_before this q ++ line_after this q a)) s)
            | QThrow e w => Throw e (touched w (if_logging s (line_before this q)) s)
            end
        end
    end.

(** Print, then consult [qf]. *)
Definition forward_void (this : objfile_id) (line : string)
    (m : quick_id -> world -> qf_result world gdb_exception unit) : G answer :=
  (debug_printf line ;; with_qf this tt m) ;; ret A_void.

(** Print, consult [qf], print the result and return it. *)
Definition forward_val {A} (this : objfile_id) (before : string) (default : A)
    (m : quick_id -> world -> qf_result world gdb_exception A) (after : A -> string)
    (wrap : A -> answer) : G answer :=
  r <- (debug_printf before ;;
        retval <- with_qf this default m ;;
        debug_printf (after retval) ;;
        ret retval) ;;
  ret (wrap r).

(** The queries that print nothing. *)
Definition silent (q : query) : bool :=
  match q with
  | Lookup_global_symbol_language _ _ => true
  | _ => false
  end.

(** The answer has the type of the query's result. *)
Definition answer_fits (q : query) (a : answer) : bool :=
  match no_answer q, a with
  | A_void, A_void | A_bool _, A_bool _ | A_symtab _, A_symtab _ | A_cust _, A_cust _
  | A_language _ _, A_language _ _ => true
  | _, _ => false
  end.

#[export] Instance query_eq_dec : EqDecision query.
Proof. solve_decision. Defined.

(** ** Lemmas *)

(** ** The pieces in one step *)

Lemma if_logging_touched w l s lines : if_logging (touched w l s) lines = if_logging s lines.
Proof. reflexivity. Qed.

Lemma if_logging_app s l1 l2 : if_logging s (l1 ++ l2) = if_logging s l1 ++ if_logging s l2.
Proof. unfold if_logging. by destruct (debug_symfile s). Qed.

Lemma debug_printf_run text s :
  debug_printf text s = Ret tt (touched (readers s) (if_logging s [text]) s).
Proof.
  unfold debug_printf, if_logging. munfold. destruct (debug_symfile s) eqn:Hflag; cbn.
  - unfold fprintf_filtered, modify, touched. by destruct s.
  - by rewrite touched_id.
Qed.

Lemma call_quick_run {A} (m : world -> qf_result world gdb_exception A) s :
  call_quick m s =
  match m (readers s) with
  | QReturn a w => Ret a (touched w [] s)
  | QThrow e w => Throw e (touched w [] s)
  end.
Proof.
  unfold call_quick, touched. destruct (m (readers s)); f_equal;
    destruct s; unfold with_readers, with_log; cbn; by rewrite app_nil_r.
Qed.

Lemma with_qf_run {A} this (default : A) m s :
  with_qf this default m s =
  match objfiles s !! this with
  | None => Fault DanglingPointer
  | Some ob =>
      match qf ob with
      | None => Ret default s
      | Some qid => call_quick (m qid) s
      end
  end.
Proof.
  unfold with_qf, read_objfile. munfold.
  destruct (objfiles s !! this) as [ob|]; [|done]. by destruct (qf ob).
Qed.

Lemma forward_void_eq this q line m s :
  line_before this q = [line] -> (forall a, line_after this q a = []) ->
  no_answer q = A_void ->
  (forall ob qid w, quick_method this ob q qid w = qf_map (fun _ => A_void) (m qid w)) ->
  forward_void this line m s = reference_query this q s.
Proof.
  intros Hb Ha Hno Hm. unfold forward_void, reference_query.
  unfold bind at 1 2. rewrite debug_printf_run, with_qf_run. cbn [objfiles touched with_readers with_log].
  destruct (objfiles s !! this) as [ob|]; [|done].
  rewrite Hb, Hno.
  destruct (qf ob) as [qid|]; [|by rewrite Ha, app_nil_r].
  rewrite call_quick_run, Hm. cbn [readers touched with_readers with_log].
  destruct (m qid (readers s)); cbn; by rewrite touched_touched, ?Ha, !app_nil_r.
Qed.

Lemma forward_val_eq {A} this q before (default : A) m after wrap s :
  line_before this q = [before] -> (forall a, line_after this q (wrap a) = [after a]) ->
  no_answer q = wrap default ->
  (forall ob qid w, quick_method this ob q qid w = qf_map wrap (m qid w)) ->
  forward_val this before default m after wrap s = reference_query this q s.
Proof.
  intros Hb Ha Hno Hm. unfold forward_val, reference_query.
  unfold bind at 1 2. rewrite debug_printf_run.
  unfold bind at 1. rewrite with_qf_run. cbn [objfiles touched with_readers with_log].
  destruct (objfiles s !! this) as [ob|]; [|done].
  rewrite Hb, Hno.
  destruct (qf ob) as [qid|].
  - rewrite call_quick_run, Hm. cbn [readers touched with_readers with_log].
    destruct (m qid (readers s)) as [a w|e w]; cbn.
    + unfold bind. rewrite debug_printf_run. cbn [readers touched with_readers with_log].
      rewrite !touched_touched, Ha. unfold if_logging. cbn [debug_symfile touched with_readers with_log].
      by destruct (debug_symfile s).
    + by rewrite touched_touched, app_nil_r.
  - unfold bind. rewrite debug_printf_run. cbn [readers touched with_readers with_log].
    rewrite !touched_touched, Ha. unfold if_logging. cbn [debug_symfile touched with_readers with_log].
    by destruct (debug_symfile s).
Qed.

Lemma language_query_eq this name domain s :
  run_query this (Lookup_global_symbol_language name domain) s =
  reference_query this (Lookup_global_symbol_language name domain) s.
Proof.
  unfold run_query, objfile_lookup_global_symbol_language, reference_query.
  unfold bind. rewrite with_qf_run.
  destruct (objfiles s !! this) as [ob|]; [|done].
  unfold if_logging. cbn [line_before line_after no_answer quick_method app].
  destruct (qf ob) as [qid|].
  - rewrite call_quick_run.
    destruct (qf_lookup_global_symbol_language qid this name domain (readers s));
      by destruct (debug_symfile s).
  - destruct (debug_symfile s); by rewrite touched_id.
Qed.

Lemma run_query_eq_forwarded this q s :
  q <> Has_partial_symbols -> run_query this q s = reference_query this q s.
Proof.
  intros Hq. destruct q; try done.
  all: try (by eapply forward_void_eq).
  all: try (by eapply forward_val_eq).
  apply language_query_eq.
Qed.

Lemma if_logging_nil s : if_logging s [] = [].
Proof. unfold if_logging. by destruct (debug_symfile s). Qed.

(** Bring the state of a finished run to the form [touched w lines s]. *)
Ltac touched_norm :=
  cbn [qf_map readers touched with_readers with_log];
  rewrite ?debug_printf_run;
  cbn [readers touched with_readers with_log];
  rewrite ?touched_touched, ?if_logging_touched, ?if_logging_nil, ?app_nil_l, ?app_nil_r,
    ?touched_id;
  try done.

Lemma has_partial_symbols_eq this s :
  run_query this Has_partial_symbols s = reference_query this Has_partial_symbols s.
Proof.
  unfold run_query, objfile_has_partial_symbols, reference_query.
  destruct (objfiles s !! this) as [ob|] eqn:Hob.
  2:{ unfold bind at 1 2. by rewrite (read_objfile_None _ _ Hob). }
  unfold bind at 1. rewrite (bind_Ret _ _ _ _ _ (read_objfile_Some _ _ _ Hob)).
  cbn [quick_method line_before line_after no_answer app].
  case_bool_decide; destruct (qf ob) as [qid|]; unfold bind, ret.
  - rewrite call_quick_run.
    destruct (qf_can_lazily_read_symbols qid (readers s)) as [[] w|e w]; touched_norm.
    rewrite call_quick_run. cbn [readers touched with_readers with_log].
    destruct (qf_has_symbols qid this w) as [b w'|e w']; touched_norm.
  - touched_norm.
  - rewrite call_quick_run.
    destruct (qf_has_symbols qid this (readers s)) as [b w|e w]; touched_norm.
  - touched_norm.
Qed.

Lemma run_query_eq this q s : run_query this q s = reference_query this q s.
Proof.
  destruct q; [apply has_partial_symbols_eq|by apply run_query_eq_forwarded..].
Qed.

(** ** Consequences *)

Lemma observe_reference_flag this q b s :
  observe (reference_query this q (with_debug_symfile b s)) =
  observe (reference_query this q s).
Proof.
  unfold reference_query. cbn [objfiles readers with_debug_symfile].
  destruct (objfiles s !! this) as [ob|]; [|done].
  destruct (qf ob) as [qid|]; [|done].
  by destruct (quick_method this ob q qid (readers s)).
Qed.

Lemma no_answer_fits q : answer_fits q (no_answer q) = true.
Proof. by destruct q. Qed.

Lemma quick_method_fits this ob q qid w a w' :
  quick_method this ob q qid w = QReturn a w' -> answer_fits q a = true.
Proof.
  destruct q; cbn; unfold qf_map; repeat case_match; intros ?; by simplify_eq.
Qed.

Lemma logged_iff_not_silent this q a :
  answer_fits q a = true ->
  line_before this q ++ line_after this q a = [] <-> silent q = true.
Proof. destruct q, a; by cbn. Qed.

Lemma reference_query_frame this q : steps io_step (reference_query this q).
Proof.
  intros s s'. unfold reference_query.
  destruct (objfiles s !! this) as [ob|]; [|done].
  destruct (qf ob) as [qid|]; [destruct (quick_method this ob q qid (readers s))|];
    intros [= <-]; apply io_step_touched.
Qed.

Lemma steps_run_query this q : steps io_step (run_query this q).
Proof. intros s s'. rewrite run_query_eq. apply reference_query_frame. Qed.

Lemma line_after_no_answer this q :
  line_before this q ++ line_after this q (no_answer q) = [] -> silent q = true.
Proof. by destruct q. Qed.

(** C9. The queries in one step.  Every query is its reference: on a live
    objfile it answers what the methods of the objfile's quick-symbol
    functions answer, or the default without such functions, throws what
    they throw, moves the readers' world as they do and appends the lines
    of the reference to the log when [debug_symfile] is set; on a dead
    objfile it is a dangling dereference. *)
Theorem run_query_refines this q s : run_query this q s = reference_query this q s.
Proof. apply run_query_eq. Qed.

(** The flag is invisible to the caller.  Whatever [debug_symfile]
    is, a query returns the same answer or throws the same exception and
    has the same effect on the readers' world. *)
Theorem query_flag_transparent this q b s :
  observe (run_query this q (with_debug_symfile b s)) = observe (run_query this q s).
Proof. rewrite !run_query_eq. apply observe_reference_flag. Qed.

(** Silence when logging is off.  With [debug_symfile] clear a query
    changes nothing of the state but the readers' world: the log is as it
    was. *)
Theorem query_silent_when_off this q s s' :
  debug_symfile s = false -> final_state (run_query this q s) = Some s' ->
  s' = with_readers (readers s') s.
Proof.
  intros Hoff. rewrite run_query_eq. unfold reference_query, if_logging. rewrite Hoff.
  destruct (objfiles s !! this) as [ob|]; [|done].
  destruct (qf ob) as [qid|]; [destruct (quick_method this ob q qid (readers s))|];
    intros [= <-]; unfold touched; cbn; rewrite app_nil_r; by destruct s.
Qed.

(** No quick-symbol functions.  On an objfile whose [qf] is null a
    query returns its default ([false], null, [language_unknown] with
    [*symbol_found_p] set to [false], or nothing) without a call of the
    readers, and prints the lines of a call that found nothing. *)
Theorem query_without_qf this q ob s :
  objfiles s !! this = Some ob -> qf ob = None ->
  run_query this q s =
  Ret (no_answer q)
    (touched (readers s) (if_logging s (line_before this q ++ line_after this q (no_answer q))) s).
Proof. intros Hob Hqf. rewrite run_query_eq. unfold reference_query. by rewrite Hob, Hqf. Qed.

(** C26. [objfile::has_partial_symbols].  With quick-symbol functions: when
    [flags & OBJF_PSYMTABS_READ] is zero and the functions can read their
    symbols lazily, the answer is [true] and [has_symbols] is not called;
    when it is not zero the answer is that of [has_symbols], and
    [can_lazily_read_symbols] is not called.  The value of the enumerator
    is the interface's. *)
Theorem has_partial_symbols_cases this ob qid s :
  objfiles s !! this = Some ob -> qf ob = Some qid ->
  (Z.land (flags ob) OBJF_PSYMTABS_READ = 0%Z ->
   forall w, qf_can_lazily_read_symbols qid (readers s) = QReturn true w ->
   objfile_has_partial_symbols this s =
   Ret true
     (touched w
        (if_logging s ["qf->has_symbols (" +:+ objfile_debug_name this +:+ ") = 1" +:+ nl]) s)) /\
  (Z.land (flags ob) OBJF_PSYMTABS_READ <> 0%Z ->
   observe (objfile_has_partial_symbols this s) =
   match qf_has_symbols qid this (readers s) with
   | QReturn b w => Ret b w
   | QThrow e w => Throw e w
   end).
Proof.
  intros Hob Hqf.
  pose proof (run_query_eq this Has_partial_symbols s) as Heq.
  unfold reference_query in Heq. rewrite Hob, Hqf in Heq.
  cbn [run_query quick_method] in Heq. unfold bind at 1 in Heq.
  split.
  - intros Hbit w Hlazy. rewrite bool_decide_eq_true_2, Hlazy in Heq by done.
    unfold ret in Heq.
    destruct (objfile_has_partial_symbols this s) as [b s1| | | |]; by simplify_eq.
  - intros Hbit. rewrite bool_decide_eq_false_2 in Heq by done. unfold ret in Heq.
    destruct (objfile_has_partial_symbols this s) as [b s1| | | |],
      (qf_has_symbols qid this (readers s)); by simplify_eq/=.
Qed.

(** The frame of a query.  A query leaves the objfiles, the program
    spaces, the registry, the records and the flag as they were, so the
    instrumentation stays well formed. *)
Theorem query_frame this q :
  steps io_step (run_query this q) /\ preserves wf (run_query this q).
Proof.
  split; [apply steps_run_query|].
  eapply steps_preserves; [apply wf_io_step|apply steps_run_query].
Qed.

(** C28. What is logged.  With [debug_symfile] set a query that returns
    has appended its line before and its line after, in this order, and
    nothing else; the log has grown unless the query is
    [objfile::lookup_global_symbol_language], which never prints. *)
Theorem query_logs_when_on this q a s s' :
  debug_symfile s = true -> run_query this q s = Ret a s' ->
  gdb_stdlog s' = gdb_stdlog s ++ line_before this q ++ line_after this q a /\
  (gdb_stdlog s' = gdb_stdlog s <-> silent q = true).
Proof.
  intros Hon. rewrite run_query_eq. unfold reference_query, if_logging. rewrite Hon.
  destruct (objfiles s !! this) as [ob|]; [|done].
  assert (forall w a, answer_fits q a = true ->
    s' = touched w (line_before this q ++ line_after this q a) s ->
    gdb_stdlog s' = gdb_stdlog s ++ line_before this q ++ line_after this q a /\
    (gdb_stdlog s' = gdb_stdlog s <-> silent q = true)) as Hfin.
  { intros w a' Hfit ->. split; [done|]. cbn.
    rewrite <- (app_nil_r (gdb_stdlog s)) at 2. rewrite (inj_iff (app _)).
    by apply logged_iff_not_silent. }
  destruct (qf ob) as [qid|];
    [destruct (quick_method this ob q qid (readers s)) eqn:Hm|];
    intros [= <- <-]; eapply Hfin; eauto using no_answer_fits, quick_method_fits.
Qed.

End Query.

(** ** The claims at the sample states *)

Local Open Scope gdb_scope.

Lemma query_silent_when_off_witness :
  touched [(105%N, Args_objfile 1%positive)] [] (with_debug_symfile false sample_state_quick) =
  with_readers [(105%N, Args_objfile 1%positive)] (with_debug_symfile false sample_state_quick).
Proof.
  apply (query_silent_when_off 1%positive (Lookup_symbol 0 "main" 1)
           (with_debug_symfile false sample_state_quick)); reflexivity.
Defined.

Lemma query_without_qf_witness :
  run_query 1%positive (Find_compunit_symtab_by_address 4096)
    (with_debug_symfile true sample_state) =
  Ret (A_cust None)
    (touched [] ["qf->find_compunit_symtab_by_address (a.out, 0x1000)" +:+ nl;
                 "qf->find_compunit_symtab_by_address (...) = NULL" +:+ nl]
       (with_debug_symfile true sample_state)).
Proof.
  exact (query_without_qf 1%positive (Find_compunit_symtab_by_address 4096) sample_ob1
           (with_debug_symfile true sample_state) eq_refl eq_refl).
Defined.

Lemma has_partial_symbols_cases_witness :
  objfile_has_partial_symbols 1%positive sample_state_quick =
  Ret true
    (touched [(100%N, Args_segments 5)] ["qf->has_symbols (a.out) = 1" +:+ nl]
       sample_state_quick).
Proof.
  exact (proj1 (has_partial_symbols_cases 1%positive
                  {| sf := SfStatic 1; qf := Some 5%N; flags := 0 |} 5 sample_state_quick
                  eq_refl eq_refl) eq_refl [(100%N, Args_segments 5)] eq_refl).
Defined.

Lemma query_logs_when_on_witness :
  gdb_stdlog (touched [(105%N, Args_objfile 1%positive)]
                ["qf->lookup_symbol (a.out, 0, " +:+ quoted "main" +:+ ", VAR_DOMAIN)" +:+ nl;
                 "qf->lookup_symbol (...) = main.c" +:+ nl] sample_state_quick) =
  gdb_stdlog sample_state_quick
    ++ line_before 1%positive (Lookup_symbol 0 "main" 1)
    ++ line_after 1%positive (Lookup_symbol 0 "main" 1) (A_cust (Some 7%N)) /\
  (gdb_stdlog (touched [(105%N, Args_objfile 1%positive)]
                ["qf->lookup_symbol (a.out, 0, " +:+ quoted "main" +:+ ", VAR_DOMAIN)" +:+ nl;
                 "qf->lookup_symbol (...) = main.c" +:+ nl] sample_state_quick) =
   gdb_stdlog sample_state_quick <-> silent (Lookup_symbol 0 "main" 1) = true).
Proof.
  exact (query_logs_when_on 1%positive (Lookup_symbol 0 "main" 1) (A_cust (Some 7%N))
           sample_state_quick _ eq_refl eq_refl).
Defined.
