(* ===== verification/Lifecycle.v ===== *)
(** * Lifecycle: objfiles come and go

    symfile-debug.c registers no observer for new objfiles: its last comment
    says that "debug logging will be installed when objfile init'n calls
    objfile_set_sym_fns".  This file models that composition.  The rest of
    GDB creates an objfile with no symbol functions ([new_objfile], the
    constructor of objfiles.c), the loader then gives it the table of its
    format through the guard ([load_objfile], as [syms_from_objfile_1] of
    symfile.c does), and destroying an objfile ([free_objfile]) makes the
    registry delete the datum the key attached to it, without restoring the
    table pointer of an objfile that is going away.  The lemmas give the
    outcome of each on a well-formed state and show that the well-formedness
    of [State] is kept: no entry and no record outlives its objfile.
    Loading a file and destroying the objfile again leaves a state
    equivalent to the one before. *)

From stdpp Require Import base tactics option list gmap.
From Stdlib Require Import ZArith.
From S2P Require Import Prelude SymFns Registry Render State Sample Install Proxy.

Section Lifecycle.
Context `{B : Backend} `{R : !Registry objfile_id data_addr}.

Local Open Scope gdb_scope.

(** The pointer to a reader's table, or null. *)
Definition table_ptr (sf : option table_id) : sf_ptr :=
  match sf with
  | Some t => SfStatic t
  | None => SfNull
  end.

(** ** Creation *)

(** The address the next objfile is allocated at: one that is not live. *)
Definition next_objfile (s : gdb_state) : objfile_id := fresh (dom (objfiles s)).

(** A new [struct objfile], as its constructor leaves it: [sf] and [qf]
    null, the flags given. *)
Definition bare_objfile (fl : Z) : struct_objfile :=
  {| sf := SfNull; qf := None; flags := fl |}.

(** The state with [objfile] allocated and appended to the objfiles [l] of
    program space number [pspace]. *)
Definition created_state (pspace : nat) (l : list objfile_id) (objfile : objfile_id)
    (fl : Z) (s : gdb_state) : gdb_state :=
  with_program_spaces (<[pspace := l ++ [objfile]]> (program_spaces s))
    (with_objfiles (<[objfile := bare_objfile fl]> (objfiles s)) s).

(** [objfile::make (bfd, name, flags)] in program space [pspace]: the
    objfile is allocated and linked at the end of the program space's
    list. *)
Definition new_objfile (pspace : nat) (fl : Z) : G objfile_id :=
  fun s =>
    match program_spaces s !! pspace with
    | Some l => Ret (next_objfile s) (created_state pspace l (next_objfile s) fl s)
    | None => Fault DanglingPointer
    end.

(** Loading a file: the objfile is created, and its initialisation calls
    [objfile_set_sym_fns] with the table [find_sym_fns] chose for the
    file's format, null when the format has no symbols. *)
Definition load_objfile (pspace : nat) (fl : Z) (sf : sf_ptr) : G objfile_id :=
  objfile <- new_objfile pspace fl ;;
  objfile_set_sym_fns objfile sf ;;
  ret objfile.

(** ** Destruction *)

(** [pspace->remove_objfile (objfile)], in whichever program space the
    objfile is. *)
Definition unlink (objfile : objfile_id) (l : list (list objfile_id)) : list (list objfile_id) :=
  map (filter (fun o => o <> objfile)) l.

(** The state with [objfile] unlinked and its memory released. *)
Definition freed_state (objfile : objfile_id) (s : gdb_state) : gdb_state :=
  with_program_spaces (unlink objfile (program_spaces s))
    (with_objfiles (delete objfile (objfiles s)) s).

(** [objfile->unlink ()]: the destructor runs, the registry of the objfile
    deletes the datum of every key that has one, and the objfile leaves its
    program space.  [objfile->sf] is not restored. *)
Definition free_objfile (objfile : objfile_id) : G unit :=
  read_objfile objfile ;;
  debug_data <- key_get objfile ;;
  when (bool_decide (is_Some debug_data)) (key_clear objfile) ;;
  modify (freed_state objfile).

(** ** Views for the statements *)

(** The assertion of the guard holds for [objfile]: it is not instrumented
    with logging off. *)
Definition guard_ok (s : gdb_state) (objfile : objfile_id) : Prop :=
  is_installed s objfile = true -> debug_symfile s = true.

(** [s'] is [s] with [objfile] new: no other objfile has changed, nor its
    logical table, nor its instrumentation, nor any global but the list of
    objfiles. *)
Record grown (objfile : objfile_id) (s s' : gdb_state) : Prop := {
  gr_fresh : objfiles s !! objfile = None;
  gr_objfiles : forall o, o <> objfile -> objfiles s' !! o = objfiles s !! o;
  gr_real_table : forall o, o <> objfile -> real_table s' o = real_table s o;
  gr_is_installed : forall o, o <> objfile -> is_installed s' o = is_installed s o;
  gr_debug_symfile : debug_symfile s' = debug_symfile s;
  gr_stdlog : gdb_stdlog s' = gdb_stdlog s;
  gr_readers : readers s' = readers s
}.

(** [s'] is [s] without [objfile]: its entry and record are gone with it,
    and nothing else has changed. *)
Record gone (objfile : objfile_id) (s s' : gdb_state) : Prop := {
  gn_objfiles : objfiles s' = delete objfile (objfiles s);
  gn_program_spaces : program_spaces s' = unlink objfile (program_spaces s);
  gn_key : forall o,
    reg_get o (symfile_debug_objfile_data_key s') =
    if decide (o = objfile) then None else reg_get o (symfile_debug_objfile_data_key s);
  gn_heap : debug_heap s' =
    match reg_get objfile (symfile_debug_objfile_data_key s) with
    | Some a => delete a (debug_heap s)
    | None => debug_heap s
    end;
  gn_debug_symfile : debug_symfile s' = debug_symfile s;
  gn_stdlog : gdb_stdlog s' = gdb_stdlog s;
  gn_readers : readers s' = readers s
}.

(** ** Creation keeps the state well formed *)

Lemma next_objfile_fresh s : objfiles s !! next_objfile s = None.
Proof. apply fresh_not_in_dom. Qed.

Lemma new_objfile_run pspace l fl s :
  program_spaces s !! pspace = Some l ->
  new_objfile pspace fl s = Ret (next_objfile s) (created_state pspace l (next_objfile s) fl s).
Proof. unfold new_objfile. by intros ->. Qed.

Lemma new_objfile_no_pspace pspace fl s :
  program_spaces s !! pspace = None -> new_objfile pspace fl s = Fault DanglingPointer.
Proof. unfold new_objfile. by intros ->. Qed.

Lemma wf_fresh_no_key s o : wf s -> objfiles s !! o = None ->
  reg_get o (symfile_debug_objfile_data_key s) = None.
Proof.
  intros Hwf Hob. destruct (reg_get o _) as [a|] eqn:Hk; [|done].
  destruct (wf_key_sf s Hwf _ _ Hk) as (ob & Hob' & _). congruence.
Qed.

Lemma created_state_wf pspace l objfile fl s :
  wf s -> program_spaces s !! pspace = Some l -> objfiles s !! objfile = None ->
  wf (created_state pspace l objfile fl s).
Proof.
  intros Hwf Hl Hfresh. split; cbn; intros *; try apply Hwf.
  - intros Hk. destruct (wf_key_sf s Hwf _ _ Hk) as (ob & Hob & Hsf).
    rewrite lookup_insert_ne; [eauto|]. intros <-. congruence.
  - intros Hob Hsf. apply lookup_insert_Some in Hob as [[_ <-]|[Hne Hob]]; [done|].
    by apply (wf_sf_key s Hwf o ob).
  - rewrite (concat_insert_snoc _ _ _ _ Hl), elem_of_cons, (wf_listed s Hwf).
    rewrite lookup_insert_is_Some'. split; (intros [->|?]; [by left|by right]).
  - rewrite (concat_insert_snoc _ _ _ _ Hl). apply NoDup_cons. split; [|apply Hwf].
    rewrite (wf_listed s Hwf), Hfresh. by intros [? ?].
Qed.

Lemma created_state_plain pspace l objfile fl s :
  wf s -> objfiles s !! objfile = None ->
  plain (created_state pspace l objfile fl s) objfile SfNull.
Proof.
  intros Hwf Hfresh. exists (bare_objfile fl). split_and!; [|done..|by apply (wf_fresh_no_key s)].
  cbn. apply lookup_insert_eq.
Qed.

(** ** The guard, on any objfile that passes its assertion *)

Lemma table_ptr_not_debug sf a : table_ptr sf <> SfDebug a.
Proof. by destruct sf. Qed.

Lemma objfile_set_sym_fns_dangling objfile p s :
  objfiles s !! objfile = None -> objfile_set_sym_fns objfile p s = Fault DanglingPointer.
Proof.
  intros Hob. unfold objfile_set_sym_fns, bind at 1.
  by rewrite (symfile_debug_installed_dangling _ _ Hob).
Qed.

(** The guard from an objfile that is not instrumented. *)
Lemma objfile_set_sym_fns_plain objfile p sf s :
  wf s -> plain s objfile p ->
  if debug_symfile s && bool_decide (sf = None)
  then objfile_set_sym_fns objfile (table_ptr sf) s = Fault NullDereference
  else exists s', objfile_set_sym_fns objfile (table_ptr sf) s = Ret tt s' /\
         wf s' /\ same_except objfile s s' /\
         real_table s' objfile = Some (table_ptr sf) /\
         is_installed s' objfile = debug_symfile s.
Proof.
  intros Hwf Hpl. pose proof Hpl as [ob Hob]%plain_valid.
  destruct (debug_symfile s) eqn:Hflag; cbn [andb].
  - destruct sf as [t|]; cbn [table_ptr].
    2:{ rewrite bool_decide_eq_true_2 by done. by apply (objfile_set_sym_fns_null_plain _ p). }
    rewrite bool_decide_eq_false_2 by done.
    destruct (objfile_set_sym_fns_on_plain objfile p t s Hwf Hflag Hpl)
      as (s1 & Hrun & Hwf1 & Hsh1 & Hse).
    exists s1.
    split_and!; [done..|by apply shadowed_real_table|by apply (shadowed_is_installed _ _ t)].
  - destruct (set_objfile_sf_spec objfile _ (table_ptr sf) s Hwf Hpl (table_ptr_not_debug sf))
      as (s1 & Hrun & Hwf1 & Hpl1 & Hse).
    exists s1. split_and!;
      [|done..|by apply plain_real_table|by apply (plain_is_installed _ _ (table_ptr sf))].
    rewrite (objfile_set_sym_fns_off _ _ _ _ Hob (plain_is_installed _ _ _ Hpl) Hflag).
    by rewrite <- (set_objfile_sf_Some _ _ (table_ptr sf) _ Hob).
Qed.

(** The guard on a live objfile: it dereferences null when logging is on
    and the table is null, and otherwise returns with the objfile
    instrumented exactly when logging is on. *)
Lemma objfile_set_sym_fns_guarded objfile ob sf s :
  wf s -> guard_ok s objfile -> objfiles s !! objfile = Some ob ->
  if debug_symfile s && bool_decide (sf = None)
  then objfile_set_sym_fns objfile (table_ptr sf) s = Fault NullDereference
  else exists s', objfile_set_sym_fns objfile (table_ptr sf) s = Ret tt s' /\
         wf s' /\ same_except objfile s s' /\
         real_table s' objfile = Some (table_ptr sf) /\
         is_installed s' objfile = debug_symfile s.
Proof.
  intros Hwf Hg Hob. destruct (wf_cases _ _ _ Hwf Hob) as [[t0 Hsh]|Hpl];
    [|by apply (objfile_set_sym_fns_plain _ (State.sf ob))].
  rewrite (Hg (shadowed_is_installed _ _ _ Hsh)).
  destruct sf as [t|]; cbn [andb table_ptr].
  2:{ rewrite bool_decide_eq_true_2 by done.
      apply (objfile_set_sym_fns_null objfile ob s); [done| |done].
      by apply Hg, (shadowed_is_installed _ _ t0). }
  rewrite bool_decide_eq_false_2 by done.
  destruct (objfile_set_sym_fns_on_shadowed objfile t0 t s Hwf
              (Hg (shadowed_is_installed _ _ _ Hsh)) Hsh) as (s1 & Hrun & Hwf1 & Hsh1 & Hse).
  exists s1.
  split_and!; [done..|by apply shadowed_real_table|by apply (shadowed_is_installed _ _ t)].
Qed.

(** ** Loading *)

(** The other objfiles are not concerned by an allocation. *)
Lemma created_state_is_installed pspace l objfile fl s o :
  o <> objfile ->
  is_installed (created_state pspace l objfile fl s) o = is_installed s o.
Proof. intros Hne. unfold is_installed. cbn. by rewrite lookup_insert_ne. Qed.

Lemma created_state_real_table_cases pspace l objfile fl s o :
  real_table (created_state pspace l objfile fl s) o =
  if decide (o = objfile) then Some SfNull else real_table s o.
Proof.
  unfold real_table. cbn. case_decide as Ho; [subst; by rewrite lookup_insert_eq|].
  by rewrite lookup_insert_ne.
Qed.

Lemma created_state_real_table pspace l objfile fl s o :
  o <> objfile ->
  real_table (created_state pspace l objfile fl s) o = real_table s o.
Proof. intros Hne. unfold real_table. cbn. by rewrite lookup_insert_ne. Qed.

Lemma created_state_grown pspace l objfile fl s s' :
  wf s -> program_spaces s !! pspace = Some l -> objfiles s !! objfile = None ->
  same_except objfile (created_state pspace l objfile fl s) s' -> grown objfile s s'.
Proof.
  intros Hwf Hl Hfresh Hse.
  pose proof (created_state_wf pspace l _ fl s Hwf Hl Hfresh) as Hwf1.
  split; [done|intros o Hne..| | |].
  - rewrite (se_objfiles _ _ _ Hse o Hne). cbn. by rewrite lookup_insert_ne.
  - by rewrite (same_except_real_table _ _ _ _ Hwf1 Hse Hne), created_state_real_table.
  - by rewrite (same_except_is_installed _ _ _ _ Hse Hne), created_state_is_installed.
  - apply (se_debug_symfile _ _ _ Hse).
  - apply (se_stdlog _ _ _ Hse).
  - apply (se_readers _ _ _ Hse).
Qed.

(** Loading a file in a program space that exists: with logging on and no
    table for the format the guard dereferences null; otherwise the new
    objfile has the table given and is instrumented exactly when logging is
    on. *)
Lemma load_objfile_outcome pspace l fl sf s :
  wf s -> program_spaces s !! pspace = Some l ->
  if debug_symfile s && bool_decide (sf = None)
  then load_objfile pspace fl (table_ptr sf) s = Fault NullDereference
  else exists s', load_objfile pspace fl (table_ptr sf) s = Ret (next_objfile s) s' /\
         wf s' /\ grown (next_objfile s) s s' /\
         real_table s' (next_objfile s) = Some (table_ptr sf) /\
         is_installed s' (next_objfile s) = debug_symfile s.
Proof.
  intros Hwf Hl. unfold load_objfile.
  rewrite (bind_Ret _ _ _ _ _ (new_objfile_run _ _ fl _ Hl)).
  pose proof (created_state_wf pspace l _ fl s Hwf Hl (next_objfile_fresh s)) as Hwf1.
  pose proof (created_state_plain pspace l _ fl s Hwf (next_objfile_fresh s)) as Hpl.
  pose proof (objfile_set_sym_fns_plain _ _ sf _ Hwf1 Hpl) as Hout. cbn [debug_symfile created_state
    with_program_spaces with_objfiles] in Hout.
  destruct (debug_symfile s && bool_decide (sf = None)).
  - unfold bind. by rewrite Hout.
  - destruct Hout as (s' & Hrun & Hwf' & Hse & Hrest). exists s'.
    rewrite (bind_Ret _ _ _ _ _ Hrun).
    split_and!; [done|done| |apply Hrest..].
    by apply (created_state_grown pspace l _ fl); [| |apply next_objfile_fresh|].
Qed.

Lemma load_objfile_no_pspace pspace fl p s :
  program_spaces s !! pspace = None -> load_objfile pspace fl p s = Fault DanglingPointer.
Proof. intros Hl. unfold load_objfile, bind at 1. by rewrite (new_objfile_no_pspace _ _ _ Hl). Qed.

(** ** Destruction *)

Lemma free_objfile_dead objfile s :
  objfiles s !! objfile = None -> free_objfile objfile s = Fault DanglingPointer.
Proof. intros Hob. unfold free_objfile, bind at 1. by rewrite (read_objfile_None _ _ Hob). Qed.

(** Destroying a live objfile returns, and the objfile is gone with its
    entry and its record. *)
Lemma free_objfile_run objfile ob s :
  objfiles s !! objfile = Some ob ->
  exists s', free_objfile objfile s = Ret tt s' /\ gone objfile s s'.
Proof.
  intros Hob. unfold free_objfile.
  rewrite (bind_Ret _ _ _ _ _ (read_objfile_Some _ _ _ Hob)).
  rewrite (bind_Ret _ _ _ _ _ (key_get_run _ _)).
  destruct (reg_get objfile (symfile_debug_objfile_data_key s)) as [a|] eqn:Hk.
  - destruct (reg_clear objfile (symfile_debug_objfile_data_key s)) as [r'|] eqn:Hc.
    2:{ apply reg_clear_fails in Hc. congruence. }
    rewrite bool_decide_eq_true_2 by eauto. cbn [when].
    rewrite (bind_Ret _ _ _ _ _ (key_clear_run _ _ _ _ Hk Hc)).
    eexists. split; [reflexivity|]. split; cbn; try done; [|by rewrite Hk].
    intros o. rewrite (reg_get_clear _ _ _ o Hc). by repeat case_decide.
  - rewrite bool_decide_eq_false_2 by (by intros [? ?]). cbn [when]. rewrite bind_ret_l.
    eexists. split; [reflexivity|]. split; cbn; try done; [|by rewrite Hk].
    intros o. case_decide; by subst.
Qed.

(** The record of another objfile is not the one that went. *)
Lemma gone_heap_other objfile s s' o a :
  wf s -> gone objfile s s' -> o <> objfile ->
  reg_get o (symfile_debug_objfile_data_key s) = Some a ->
  debug_heap s' !! a = debug_heap s !! a.
Proof.
  intros Hwf Hg Hne Hk. rewrite (gn_heap _ _ _ Hg).
  destruct (reg_get objfile _) as [a0|] eqn:Hk0; [|done].
  apply lookup_delete_ne. intros <-. by destruct (Hne (wf_key_inj s Hwf _ _ _ Hk Hk0)).
Qed.

Lemma gone_key_other objfile s s' o a :
  gone objfile s s' ->
  reg_get o (symfile_debug_objfile_data_key s') = Some a <->
  o <> objfile /\ reg_get o (symfile_debug_objfile_data_key s) = Some a.
Proof. intros Hg. rewrite (gn_key _ _ _ Hg). case_decide; naive_solver. Qed.

Lemma gone_heap_inv objfile s s' a d :
  gone objfile s s' -> debug_heap s' !! a = Some d ->
  debug_heap s !! a = Some d /\
  reg_get objfile (symfile_debug_objfile_data_key s) <> Some a.
Proof.
  intros Hg. rewrite (gn_heap _ _ _ Hg).
  destruct (reg_get objfile _) as [a0|]; [|done].
  rewrite lookup_delete_Some. naive_solver.
Qed.

Lemma gone_wf objfile s s' : wf s -> gone objfile s s' -> wf s'.
Proof.
  intros Hwf Hg. split; intros *.
  - intros [Hne Hk]%(gone_key_other _ _ _ _ _ Hg).
    destruct (wf_key_sf s Hwf _ _ Hk) as (ob & Hob & Hsf). exists ob.
    by rewrite (gn_objfiles _ _ _ Hg), lookup_delete_ne.
  - rewrite (gn_objfiles _ _ _ Hg), lookup_delete_Some. intros [Hne Hob] Hsf.
    apply (gone_key_other _ _ _ _ _ Hg). eauto using wf_sf_key.
  - intros [Hne Hk]%(gone_key_other _ _ _ _ _ Hg).
    rewrite (gone_heap_other _ _ _ _ _ Hwf Hg Hne Hk). eauto using wf_key_live.
  - intros [Hd Hn]%(gone_heap_inv _ _ _ _ _ Hg).
    destruct (wf_heap_owned s Hwf _ _ Hd) as [o Ho]. exists o.
    apply (gone_key_other _ _ _ _ _ Hg). split; [congruence|done].
  - intros [_ H1]%(gone_key_other _ _ _ _ _ Hg) [_ H2]%(gone_key_other _ _ _ _ _ Hg).
    eauto using wf_key_inj.
  - intros [Hd _]%(gone_heap_inv _ _ _ _ _ Hg). eauto using wf_shadow.
  - rewrite (gn_program_spaces _ _ _ Hg), (gn_objfiles _ _ _ Hg). unfold unlink.
    rewrite concat_map_filter, list_elem_of_filter, (wf_listed s Hwf), lookup_delete_is_Some.
    naive_solver.
  - rewrite (gn_program_spaces _ _ _ Hg). unfold unlink. rewrite concat_map_filter.
    apply NoDup_filter, Hwf.
Qed.

(** The other objfiles are not concerned by a destruction. *)
Lemma gone_is_installed objfile s s' o :
  gone objfile s s' -> o <> objfile -> is_installed s' o = is_installed s o.
Proof.
  intros Hg Hne. unfold is_installed.
  rewrite (gn_objfiles _ _ _ Hg), lookup_delete_ne, (gn_key _ _ _ Hg) by done.
  by rewrite decide_False.
Qed.

Lemma gone_real_table objfile s s' o :
  wf s -> gone objfile s s' -> o <> objfile -> real_table s' o = real_table s o.
Proof.
  intros Hwf Hg Hne. unfold real_table. rewrite (gn_objfiles _ _ _ Hg), lookup_delete_ne by done.
  destruct (objfiles s !! o) as [ob|] eqn:Hob; [cbn|done].
  destruct (State.sf ob) as [| |a] eqn:Hsf; try done.
  by rewrite (gone_heap_other objfile s s' o a Hwf Hg Hne (wf_sf_key s Hwf o ob a Hob Hsf)).
Qed.

Lemma gone_dead objfile s s' : gone objfile s s' -> objfiles s' !! objfile = None.
Proof. intros Hg. rewrite (gn_objfiles _ _ _ Hg). apply lookup_delete_eq. Qed.

Lemma gone_record_freed objfile s s' a :
  gone objfile s s' -> reg_get objfile (symfile_debug_objfile_data_key s) = Some a ->
  debug_heap s' !! a = None.
Proof. intros Hg Hk. rewrite (gn_heap _ _ _ Hg), Hk. apply lookup_delete_eq. Qed.

(** ** Loading, then destruction *)

Lemma filter_ne_id (o : objfile_id) (l : list objfile_id) :
  o ∉ l -> filter (fun o' => o' <> o) l = l.
Proof.
  induction l as [|x l IH]; [done|]. rewrite not_elem_of_cons. intros [Hne Hl].
  rewrite filter_cons_True by done. by rewrite IH.
Qed.

(** Unlinking the objfile that was linked last gives the lists back. *)
Lemma unlink_created pspace l o (ps : list (list objfile_id)) :
  ps !! pspace = Some l -> o ∉ concat ps ->
  unlink o (<[pspace := l ++ [o]]> ps) = ps.
Proof.
  intros Hl Ho. rewrite not_elem_of_concat in Ho.
  assert (forall i l', ps !! i = Some l' -> filter (fun o' => o' <> o) l' = l') as Hid.
  { intros i l' Hl'. apply filter_ne_id, Ho. by eapply list_elem_of_lookup_2. }
  unfold unlink. apply list_eq. intros i. rewrite list_lookup_fmap.
  destruct (decide (i = pspace)) as [->|Hne].
  - rewrite list_lookup_insert_eq by (by eapply lookup_lt_Some). cbn.
    rewrite filter_app, filter_cons_False, filter_nil, app_nil_r by (by intros H; apply H).
    by rewrite (Hid _ _ Hl).
  - rewrite list_lookup_insert_ne by done.
    destruct (ps !! i) as [l'|] eqn:Hi; [cbn|done]. by rewrite (Hid _ _ Hi).
Qed.

(** The state after a load differs from the state with the objfile
    created at most in the instrumentation of the new objfile. *)
Lemma load_objfile_created pspace l fl sf s :
  wf s -> program_spaces s !! pspace = Some l ->
  debug_symfile s && bool_decide (sf = None) = false ->
  exists s', load_objfile pspace fl (table_ptr sf) s = Ret (next_objfile s) s' /\
    wf s' /\ same_except (next_objfile s) (created_state pspace l (next_objfile s) fl s) s'.
Proof.
  intros Hwf Hl Hcase. unfold load_objfile.
  rewrite (bind_Ret _ _ _ _ _ (new_objfile_run _ _ fl _ Hl)).
  pose proof (created_state_wf pspace l _ fl s Hwf Hl (next_objfile_fresh s)) as Hwf1.
  pose proof (created_state_plain pspace l _ fl s Hwf (next_objfile_fresh s)) as Hpl.
  pose proof (objfile_set_sym_fns_plain _ _ sf _ Hwf1 Hpl) as Hout.
  cbn [debug_symfile created_state with_program_spaces with_objfiles] in Hout.
  rewrite Hcase in Hout. destruct Hout as (s' & Hrun & Hwf' & Hse & _). exists s'.
  by rewrite (bind_Ret _ _ _ _ _ Hrun).
Qed.

(** A state with [objfile] created and instrumented or not, then without
    it, is the state before the creation. *)
Lemma created_gone_equiv pspace l objfile fl s s1 s2 :
  wf s -> program_spaces s !! pspace = Some l -> objfiles s !! objfile = None ->
  wf s1 -> same_except objfile (created_state pspace l objfile fl s) s1 ->
  gone objfile s1 s2 -> s2 ≡ s.
Proof.
  intros Hwf Hl Hfresh Hwf1 Hse Hg. pose proof (gone_wf _ _ _ Hwf1 Hg) as Hwf2.
  assert (forall o, reg_get o (symfile_debug_objfile_data_key s2) =
                    reg_get o (symfile_debug_objfile_data_key s)) as Hkey.
  { intros o. rewrite (gn_key _ _ _ Hg). case_decide as Ho.
    - subst. symmetry. by apply wf_fresh_no_key.
    - apply (se_key _ _ _ Hse o Ho). }
  split; [| |done| |..].
  - rewrite (gn_objfiles _ _ _ Hg). apply map_eq. intros o.
    destruct (decide (o = objfile)) as [->|Hne]; [by rewrite lookup_delete_eq|].
    rewrite lookup_delete_ne, (se_objfiles _ _ _ Hse o Hne) by done.
    cbn. by rewrite lookup_insert_ne.
  - rewrite (gn_program_spaces _ _ _ Hg), (se_program_spaces _ _ _ Hse). cbn.
    apply unlink_created; [done|]. rewrite (wf_listed s Hwf), Hfresh. by intros [? ?].
  - apply map_eq. intros a. destruct (debug_heap s !! a) as [d|] eqn:Hd.
    + destruct (wf_heap_owned s Hwf a d Hd) as [o Ho].
      assert (o <> objfile) as Hne by (intros ->; by rewrite (wf_fresh_no_key s) in Ho).
      assert (reg_get o (symfile_debug_objfile_data_key s1) = Some a) as Ho1.
      { by rewrite (se_key _ _ _ Hse o Hne). }
      rewrite (gone_heap_other _ _ _ _ _ Hwf1 Hg Hne Ho1).
      by rewrite (se_heap _ _ _ Hse o a Hne Ho).
    + destruct (debug_heap s2 !! a) as [d|] eqn:Hd2; [|done].
      destruct (wf_heap_owned s2 Hwf2 a d Hd2) as [o Ho]. rewrite Hkey in Ho.
      destruct (wf_key_live s Hwf o a Ho) as [d' Hd']. congruence.
  - by rewrite (gn_debug_symfile _ _ _ Hg), (se_debug_symfile _ _ _ Hse).
  - by rewrite (gn_stdlog _ _ _ Hg), (se_stdlog _ _ _ Hse).
  - by rewrite (gn_readers _ _ _ Hg), (se_readers _ _ _ Hse).
Qed.

(** ** Theorems *)

(** C14. New objfiles need no observer.  Loading a file with a reader's
    table, in a well-formed state and a program space that exists, returns
    the new objfile; the state is well formed, the objfile uses the table
    given and is instrumented exactly when [debug_symfile] is set, as the
    comment at the end of [_initialize_symfile_debug] says, and no other
    objfile has changed its table or its instrumentation. *)
Theorem load_objfile_instrumented pspace l fl t s :
  wf s -> program_spaces s !! pspace = Some l ->
  exists s', load_objfile pspace fl (SfStatic t) s = Ret (next_objfile s) s' /\
    wf s' /\ objfiles s !! next_objfile s = None /\
    real_table s' (next_objfile s) = Some (SfStatic t) /\
    is_installed s' (next_objfile s) = debug_symfile s /\
    forall o, o <> next_objfile s ->
      real_table s' o = real_table s o /\ is_installed s' o = is_installed s o.
Proof.
  intros Hwf Hl. pose proof (load_objfile_outcome pspace l fl (Some t) s Hwf Hl) as Hout.
  rewrite bool_decide_eq_false_2, andb_false_r in Hout by done.
  destruct Hout as (s' & Hrun & Hwf' & Hgr & Hr & Hi). exists s'.
  split_and!; [done|done|apply next_objfile_fresh|done|done|]. intros o Hne.
  by rewrite (gr_real_table _ _ _ Hgr), (gr_is_installed _ _ _ Hgr).
Qed.

(** C23. Loading, then destruction.  In a well-formed state, loading a
    file (with a reader's table when [debug_symfile] is set) and then
    destroying the objfile it created both return, and leave a state
    equivalent to the one before the load: the same objfiles in the same
    program spaces, the same registry entries, the same records, the same
    log.  The record allocated for the new objfile is freed with it. *)
Theorem load_free_roundtrip pspace l fl sf s :
  wf s -> program_spaces s !! pspace = Some l ->
  (debug_symfile s = true -> sf <> None) ->
  exists s1 s2,
    load_objfile pspace fl (table_ptr sf) s = Ret (next_objfile s) s1 /\
    free_objfile (next_objfile s) s1 = Ret tt s2 /\
    s2 ≡ s.
Proof.
  intros Hwf Hl Hsf.
  destruct (load_objfile_created pspace l fl sf s Hwf Hl) as (s1 & Hrun1 & Hwf1 & Hse).
  { destruct (debug_symfile s); [|done]. by rewrite bool_decide_eq_false_2 by auto. }
  destruct (se_self _ _ _ Hse (bare_objfile fl)) as [p Hob1]; [cbn; apply lookup_insert_eq|].
  destruct (free_objfile_run _ _ s1 Hob1) as (s2 & Hrun2 & Hg).
  exists s1, s2. split_and!; [done..|].
  by apply (created_gone_equiv pspace l (next_objfile s) fl s s1 s2);
    [| |apply next_objfile_fresh|..].
Qed.

End Lifecycle.

(** ** Witnesses on the sample states *)

Local Open Scope gdb_scope.

Lemma load_objfile_instrumented_witness :
  exists s',
    load_objfile 0 0 (SfStatic 1) (with_debug_symfile true sample_state) =
      Ret (next_objfile (with_debug_symfile true sample_state)) s' /\
    wf s' /\
    objfiles (with_debug_symfile true sample_state)
      !! next_objfile (with_debug_symfile true sample_state) = None /\
    real_table s' (next_objfile (with_debug_symfile true sample_state)) = Some (SfStatic 1) /\
    is_installed s' (next_objfile (with_debug_symfile true sample_state)) =
      debug_symfile (with_debug_symfile true sample_state) /\
    forall o, o <> next_objfile (with_debug_symfile true sample_state) ->
      real_table s' o = real_table (with_debug_symfile true sample_state) o /\
      is_installed s' o = is_installed (with_debug_symfile true sample_state) o.
Proof.
  apply (load_objfile_instrumented (B:=sample_backend) 0 [1%positive; 2%positive] 0 1);
    [apply wf_with_debug_symfile, sample_state_wf|reflexivity].
Defined.

Lemma load_free_roundtrip_witness :
  exists s1 s2,
    load_objfile 0 0 (table_ptr (Some 1%N)) (with_debug_symfile true sample_state) =
      Ret (next_objfile (with_debug_symfile true sample_state)) s1 /\
    free_objfile (next_objfile (with_debug_symfile true sample_state)) s1 = Ret tt s2 /\
    s2 ≡ with_debug_symfile true sample_state.
Proof.
  apply (load_free_roundtrip (B:=sample_backend) 0 [1%positive; 2%positive] 0 (Some 1%N));
    [apply wf_with_debug_symfile, sample_state_wf|reflexivity|done].
Defined.
