(* ===== verification/Machine.v ===== *)
(** * Machine: the layer as a state machine

    The events by which the rest of GDB acts on the layer (the command
    [set debug symfile], [objfile_set_sym_fns], the calls through an
    objfile's table, the queries, the loading and the destruction of an
    objfile), the states reachable from a start of GDB, and the invariant
    the layer maintains over them: every live objfile is instrumented
    exactly when [debug_symfile] is set.  The logical table of an objfile
    ([real_table]: the table the objfile uses as far as the rest of GDB is
    concerned) changes by [objfile_set_sym_fns], loading and destruction
    only; there is one record per objfile with the flag set and none
    without; logging can always be turned off.  The last section shows
    that the fuel of the events is enough: every operation but a call
    needs none, and from a state of the invariant a call does not run
    out of it, so no run does. *)

From stdpp Require Import base tactics option list strings gmap.
From Stdlib Require Import ZArith.
From S2P Require Import Prelude SymFns Registry Render State Sample Install Proxy Query Lifecycle.

Section Machine.
Context `{B : Backend} `{!BackendOk B} `{R : !Registry objfile_id data_addr}
  `{D : Display} `{Q : !Quick B}.

Local Open Scope gdb_scope.

(** ** Events *)

(** What the rest of GDB does to the layer. *)
Inductive event : Type :=
| Ev_set_debug_symfile (value : bool)
    (* the command [set debug symfile on|off] *)
| Ev_objfile_set_sym_fns (objfile : objfile_id) (sf : option table_id)
    (* [objfile_set_sym_fns (objfile, sf)], [sf] a reader's table or null *)
| Ev_call (objfile : objfile_id) (name : sf_slot) (args : sf_args)
    (* [objfile->sf->name (args)] *)
| Ev_get_probes (objfile : objfile_id)
    (* [objfile->sf->sym_probe_fns->sym_get_probes (objfile)] *)
| Ev_query (objfile : objfile_id) (q : query)
    (* [objfile->q (...)] *)
| Ev_load_objfile (pspace : nat) (fl : Z) (sf : option table_id)
    (* a file is loaded in a program space: [objfile::make], then
       [objfile_set_sym_fns] with the table of its format or null *)
| Ev_free_objfile (objfile : objfile_id).
    (* [objfile->unlink ()] *)

(** The setting registered by [_initialize_symfile_debug]: the command
    stores the value in [debug_symfile], then calls the hook. *)
Definition set_debug_symfile_command (value : bool) : G unit :=
  modify (with_debug_symfile value) ;;
  set_debug_symfile.

(** [show_debug_symfile (file, from_tty, c, value)]: the text printed to
    [file]. *)
Definition show_debug_symfile (value : string) : string :=
  "Symfile debugging is " +:+ value +:+ "." +:+ nl.

(** One event.  A call through a table has fuel 1, which is enough in a
    well-formed state. *)
Definition run_event (ev : event) : G unit :=
  match ev with
  | Ev_set_debug_symfile value => set_debug_symfile_command value
  | Ev_objfile_set_sym_fns objfile sf => objfile_set_sym_fns objfile (table_ptr sf)
  | Ev_call objfile name args => call_sf 1 objfile name args ;; ret tt
  | Ev_get_probes objfile => call_get_probes 1 objfile ;; ret tt
  | Ev_query objfile q => run_query objfile q ;; ret tt
  | Ev_load_objfile pspace fl sf => load_objfile pspace fl (table_ptr sf) ;; ret tt
  | Ev_free_objfile objfile => free_objfile objfile
  end.

(** A run of events, stopping at the first that does not return. *)
Definition run_events (evs : list event) : G unit := for_each evs run_event.

(** A state GDB starts from: well formed, logging off, nothing
    instrumented. *)
Definition initial (s : gdb_state) : Prop :=
  wf s /\ debug_symfile s = false /\ forall o, is_installed s o = false.

(** The states GDB can be in: an event that leaves a state (it returned,
    threw, or failed an assertion the user chose to survive) leads to the
    next. *)
Inductive reachable : gdb_state -> Prop :=
| reachable_initial s : initial s -> reachable s
| reachable_step s ev s' :
    reachable s -> final_state (run_event ev s) = Some s' -> reachable s'.

(** Every live objfile is instrumented exactly when logging is on, and
    with logging on no objfile lacks symbol functions. *)
Definition consistent (s : gdb_state) : Prop :=
  forall o, is_Some (objfiles s !! o) ->
    is_installed s o = debug_symfile s /\
    (debug_symfile s = true -> real_table s o <> Some SfNull).

(** The logical table of every objfile after an event, from the state
    before: the guard gives an objfile its table, loading gives the new
    objfile its table, destruction leaves the objfile none. *)
Definition tables_after (ev : event) (s : gdb_state) (o : objfile_id) : option sf_ptr :=
  match ev with
  | Ev_objfile_set_sym_fns objfile sf =>
      if decide (o = objfile) then Some (table_ptr sf) else real_table s o
  | Ev_load_objfile _ _ sf =>
      if decide (o = next_objfile s) then Some (table_ptr sf) else real_table s o
  | Ev_free_objfile objfile =>
      if decide (o = objfile) then None else real_table s o
  | _ => real_table s o
  end.

(** The events that are calls or queries. *)
Definition is_io (ev : event) : bool :=
  match ev with
  | Ev_call _ _ _ | Ev_get_probes _ | Ev_query _ _ => true
  | _ => false
  end.

(** ** The invariant respects the equivalence of states *)

#[export] Instance consistent_proper : Proper ((≡) ==> iff) consistent.
Proof.
  intros s1 s2 Hs. unfold consistent. by setoid_rewrite Hs.
Qed.

#[export] Instance initial_proper : Proper ((≡) ==> iff) initial.
Proof.
  intros s1 s2 Hs. unfold initial. by setoid_rewrite Hs.
Qed.

(** ** Output and calls keep the instrumentation *)

Lemma io_step_is_installed s s' o : io_step s s' -> is_installed s' o = is_installed s o.
Proof. intros [lines ->]%io_step_eq. reflexivity. Qed.

Lemma io_step_real_table s s' o : io_step s s' -> real_table s' o = real_table s o.
Proof. intros [lines ->]%io_step_eq. reflexivity. Qed.

Lemma io_step_consistent s s' : io_step s s' -> consistent s -> consistent s'.
Proof.
  intros Hio Hc o Ho. rewrite (io_step_is_installed _ _ _ Hio), (io_step_real_table _ _ _ Hio).
  rewrite (io_debug_symfile _ _ Hio). apply Hc. by rewrite <- (io_objfiles _ _ Hio).
Qed.

Lemma steps_then_ret {A} (m : G A) : steps io_step m -> steps io_step (m ;; ret tt).
Proof. intros Hm. solve_steps. Qed.

Lemma run_event_io ev : is_io ev = true -> steps io_step (run_event ev).
Proof.
  destruct ev; try done; intros _; apply steps_then_ret;
    [apply steps_call_sf|apply steps_call_get_probes|apply steps_run_query].
Qed.

(** ** The command *)

Lemma set_debug_symfile_command_run value s :
  set_debug_symfile_command value s = set_debug_symfile (with_debug_symfile value s).
Proof. reflexivity. Qed.

Lemma set_debug_symfile_command_spec value s s' :
  wf s -> final_state (set_debug_symfile_command value s) = Some s' ->
  wf s' /\ consistent s' /\ debug_symfile s' = value /\
  same_tables (with_debug_symfile value s) s'.
Proof.
  intros Hwf. rewrite set_debug_symfile_command_run.
  pose proof (wf_with_debug_symfile value s Hwf) as Hwf1.
  destruct (set_debug_symfile_cases _ Hwf1) as [(_ & _ & ->)|(Hn & s2 & -> & Hprog)]; [done|].
  intros [= <-]. destruct Hprog as (Hwf2 & Hst & Hdone & _).
  pose proof (st_debug_symfile _ _ Hst) as Hflag. cbn in Hflag.
  split_and!; [done| |done..].
  intros o Ho. apply (st_valid _ _ Hst) in Ho as Ho1.
  split.
  - rewrite Hflag. apply Hdone. apply (wf_listed _ Hwf1). done.
  - intros Hon Hnull. rewrite (st_real_table _ _ Hst) in Hnull.
    destruct Ho1 as [ob Hob]. apply (real_table_null _ _ _ Hwf1 Hob) in Hnull.
    apply Hn. split; [cbn; congruence|eauto].
Qed.

(** ** The guard *)

Lemma consistent_guard_ok s o : consistent s -> guard_ok s o.
Proof.
  intros Hc Hin. pose proof Hin as (ob & _ & Hob & _)%is_installed_true.
  destruct (Hc o (mk_is_Some _ _ Hob)) as [Hinst _]. congruence.
Qed.

Lemma same_except_consistent objfile s s' :
  wf s -> consistent s -> same_except objfile s s' ->
  (is_installed s' objfile = debug_symfile s /\
   (debug_symfile s = true -> real_table s' objfile <> Some SfNull)) ->
  consistent s'.
Proof.
  intros Hwf Hc Hse Hself o Ho. rewrite (se_debug_symfile _ _ _ Hse).
  destruct (decide (o = objfile)) as [->|Hne]; [done|].
  rewrite (same_except_is_installed _ _ _ _ Hse Hne), (same_except_real_table _ _ _ _ Hwf Hse Hne).
  apply Hc. by apply (same_except_valid _ _ _ o Hse).
Qed.

(** The guard on a live objfile, in a consistent state: it dereferences
    null when logging is on and the table is null, and returns otherwise. *)
Lemma objfile_set_sym_fns_outcome objfile ob sf s :
  wf s -> consistent s -> objfiles s !! objfile = Some ob ->
  if debug_symfile s && bool_decide (sf = None)
  then objfile_set_sym_fns objfile (table_ptr sf) s = Fault NullDereference
  else exists s', objfile_set_sym_fns objfile (table_ptr sf) s = Ret tt s' /\
         wf s' /\ same_except objfile s s' /\
         real_table s' objfile = Some (table_ptr sf) /\
         is_installed s' objfile = debug_symfile s.
Proof.
  intros Hwf Hc Hob.
  by apply (objfile_set_sym_fns_guarded objfile ob); [|apply consistent_guard_ok|].
Qed.

Lemma objfile_set_sym_fns_event objfile sf s s' :
  wf s -> consistent s ->
  final_state (objfile_set_sym_fns objfile (table_ptr sf) s) = Some s' ->
  wf s' /\ consistent s' /\ same_except objfile s s' /\
  real_table s' objfile = Some (table_ptr sf).
Proof.
  intros Hwf Hc. destruct (objfiles s !! objfile) as [ob|] eqn:Hob.
  2:{ by rewrite objfile_set_sym_fns_dangling. }
  pose proof (objfile_set_sym_fns_outcome objfile ob sf s Hwf Hc Hob) as Hout.
  destruct (debug_symfile s && bool_decide (sf = None)) eqn:Hcase; [by rewrite Hout|].
  destruct Hout as (s1 & -> & Hwf1 & Hse & Hr & Hin). intros [= <-].
  split_and!; [done| |done..].
  apply (same_except_consistent objfile s); [done..|]. split; [done|].
  intros Hon. rewrite Hr. destruct sf; [done|].
  rewrite Hon in Hcase. by rewrite bool_decide_eq_true_2 in Hcase.
Qed.

(** ** Loading and destruction *)

Lemma load_objfile_event pspace fl sf s s' :
  wf s -> consistent s ->
  final_state ((load_objfile pspace fl (table_ptr sf) ;; ret tt) s) = Some s' ->
  wf s' /\ consistent s' /\ grown (next_objfile s) s s' /\
  real_table s' (next_objfile s) = Some (table_ptr sf).
Proof.
  intros Hwf Hc. destruct (program_spaces s !! pspace) as [l|] eqn:Hl.
  2:{ unfold bind at 1. by rewrite load_objfile_no_pspace. }
  pose proof (load_objfile_outcome pspace l fl sf s Hwf Hl) as Hout.
  destruct (debug_symfile s && bool_decide (sf = None)) eqn:Hcase.
  { unfold bind at 1. by rewrite Hout. }
  destruct Hout as (s1 & Hrun & Hwf1 & Hgr & Hr & Hi).
  rewrite (bind_Ret _ _ _ _ _ Hrun). intros [= <-]. split_and!; [done| |done..].
  intros o Ho. rewrite (gr_debug_symfile _ _ _ Hgr).
  destruct (decide (o = next_objfile s)) as [->|Hne].
  - split; [done|]. intros Hon. rewrite Hr. destruct sf; [done|].
    rewrite Hon in Hcase. by rewrite bool_decide_eq_true_2 in Hcase.
  - rewrite (gr_is_installed _ _ _ Hgr), (gr_real_table _ _ _ Hgr) by done.
    apply Hc. by rewrite <- (gr_objfiles _ _ _ Hgr).
Qed.

Lemma free_objfile_event objfile s s' :
  wf s -> consistent s -> final_state (free_objfile objfile s) = Some s' ->
  wf s' /\ consistent s' /\ gone objfile s s'.
Proof.
  intros Hwf Hc. destruct (objfiles s !! objfile) as [ob|] eqn:Hob.
  2:{ by rewrite free_objfile_dead. }
  destruct (free_objfile_run objfile ob s Hob) as (s1 & -> & Hg). intros [= <-].
  split_and!; [by apply (gone_wf objfile s)| |done].
  intros o. rewrite (gn_objfiles _ _ _ Hg), lookup_delete_is_Some. intros [Hne Ho].
  rewrite (gone_is_installed _ _ _ _ Hg), (gone_real_table _ _ _ _ Hwf Hg) by done.
  rewrite (gn_debug_symfile _ _ _ Hg). by apply Hc.
Qed.

(** ** Every event *)

Lemma run_event_invariant ev s s' :
  wf s -> consistent s -> final_state (run_event ev s) = Some s' ->
  wf s' /\ consistent s'.
Proof.
  intros Hwf Hc Hfin. destruct ev as [value|objfile sf| | | |pspace fl sf|objfile].
  - by destruct (set_debug_symfile_command_spec _ _ _ Hwf Hfin) as (? & ? & _).
  - by destruct (objfile_set_sym_fns_event _ _ _ _ Hwf Hc Hfin) as (? & ? & _).
  - apply (run_event_io (Ev_call _ _ _)) in Hfin; eauto using wf_io_step, io_step_consistent.
  - apply (run_event_io (Ev_get_probes _)) in Hfin; eauto using wf_io_step, io_step_consistent.
  - apply (run_event_io (Ev_query _ _)) in Hfin; eauto using wf_io_step, io_step_consistent.
  - by destruct (load_objfile_event _ _ _ _ _ Hwf Hc Hfin) as (? & ? & _).
  - by destruct (free_objfile_event _ _ _ Hwf Hc Hfin) as (? & ? & _).
Qed.

Lemma initial_consistent s : initial s -> consistent s.
Proof. intros (_ & Hoff & Hno) o _. rewrite Hno, Hoff. by split. Qed.

Lemma run_event_invariant_reachable s : reachable s -> wf s /\ consistent s.
Proof.
  induction 1 as [s Hinit|s ev s' _ [Hwf Hc] Hfin].
  - split; [apply Hinit|by apply initial_consistent].
  - by apply (run_event_invariant ev s).
Qed.

(** The invariant does not depend on how the registry represents its
    entries: it holds of every state equivalent to a reachable one. *)
Lemma reachable_equiv_invariant s s' : reachable s -> s' ≡ s -> wf s' /\ consistent s'.
Proof. intros Hr ->. by apply run_event_invariant_reachable. Qed.

(** C4. The invariant of the layer.  In every state GDB can reach from a
    start by the command, the guard, calls, queries, loads and
    destructions of objfiles, the state is well formed and every live
    objfile is instrumented exactly when [debug_symfile] is set; with the
    flag set no live objfile lacks symbol functions. *)
Theorem reachable_invariant s : reachable s -> wf s /\ consistent s.
Proof. apply run_event_invariant_reachable. Qed.

(** C21. The instrumentation is invisible in the logical tables.  An event
    that leaves a state changes the logical table of an objfile only if it
    is [objfile_set_sym_fns] on that objfile, or loads or destroys that
    objfile: the guard and the loader give it the table named, destruction
    leaves it none; the command, the calls and the queries leave every
    logical table as it was. *)
Theorem logical_tables_evolve ev s s' :
  wf s -> consistent s -> final_state (run_event ev s) = Some s' ->
  forall o, real_table s' o = tables_after ev s o.
Proof.
  intros Hwf Hc Hfin o.
  destruct ev as [value|objfile sf| | | |pspace fl sf|objfile]; cbn [tables_after].
  - destruct (set_debug_symfile_command_spec _ _ _ Hwf Hfin) as (_ & _ & _ & Hst).
    by rewrite (st_real_table _ _ Hst).
  - destruct (objfile_set_sym_fns_event _ _ _ _ Hwf Hc Hfin) as (_ & _ & Hse & Hself).
    destruct (decide (o = objfile)) as [->|Hne]; [done|].
    by apply (same_except_real_table objfile).
  - apply (run_event_io (Ev_call _ _ _)) in Hfin; [by apply io_step_real_table|done].
  - apply (run_event_io (Ev_get_probes _)) in Hfin; [by apply io_step_real_table|done].
  - apply (run_event_io (Ev_query _ _)) in Hfin; [by apply io_step_real_table|done].
  - destruct (load_objfile_event _ _ _ _ _ Hwf Hc Hfin) as (_ & _ & Hgr & Hself).
    destruct (decide (o = next_objfile s)) as [->|Hne]; [done|].
    by apply (gr_real_table _ _ _ Hgr).
  - destruct (free_objfile_event _ _ _ Hwf Hc Hfin) as (_ & _ & Hg).
    destruct (decide (o = objfile)) as [->|Hne]; [|by apply (gone_real_table objfile)].
    unfold real_table. by rewrite (gone_dead _ _ _ Hg).
Qed.

Lemma run_events_reachable evs s s' :
  reachable s -> final_state (run_events evs s) = Some s' -> reachable s'.
Proof.
  revert s. induction evs as [|ev evs IH]; intros s Hs; cbn; [by intros [= <-]|].
  unfold bind. destruct (run_event ev s) as [[] s1|e s1|msg s1| |] eqn:Hrun; try done.
  - apply IH. apply (reachable_step s ev); [done|by rewrite Hrun].
  - intros [= <-]. apply (reachable_step s ev); [done|by rewrite Hrun].
  - intros [= <-]. apply (reachable_step s ev); [done|by rewrite Hrun].
Qed.

(** Runs.  After any sequence of events from a start of GDB, however
    it ended, the state left is well formed and every live objfile is
    instrumented exactly when [debug_symfile] is set. *)
Theorem run_events_invariant evs s s' :
  initial s -> final_state (run_events evs s) = Some s' -> wf s' /\ consistent s'.
Proof.
  intros Hinit Hfin. apply (run_event_invariant_reachable s').
  by apply (run_events_reachable evs s); [apply reachable_initial|].
Qed.


(** ** Logging on, then off *)

Lemma is_installed_dead s o : objfiles s !! o = None -> is_installed s o = false.
Proof. intros Hob. unfold is_installed. by rewrite Hob. Qed.

Lemma consistent_off s o : consistent s -> debug_symfile s = false -> is_installed s o = false.
Proof.
  intros Hc Hoff. destruct (objfiles s !! o) as [ob|] eqn:Hob; [|by apply is_installed_dead].
  rewrite <- Hoff. by apply Hc.
Qed.

(** A well-formed state in which nothing is instrumented has an empty
    registry and an empty heap, and no [sf] points into a record. *)
Lemma uninstrumented_empty s :
  wf s -> (forall o, is_installed s o = false) ->
  (forall o, reg_get o (symfile_debug_objfile_data_key s) = None) /\
  debug_heap s = ∅ /\
  (forall o ob, objfiles s !! o = Some ob -> plain s o (sf ob)).
Proof.
  intros Hwf Hno.
  assert (forall o, reg_get o (symfile_debug_objfile_data_key s) = None) as Hkey.
  { intros o. destruct (reg_get o _) as [a|] eqn:Hk; [|done].
    destruct (wf_key_sf s Hwf _ _ Hk) as (ob & Hob & Hsf).
    assert (is_installed s o = true) as Hin by (apply wf_is_installed; eauto).
    by rewrite Hno in Hin. }
  split_and!; [done| |].
  - apply map_empty. intros a. destruct (debug_heap s !! a) as [d|] eqn:Hd; [|done].
    destruct (wf_heap_owned s Hwf _ _ Hd) as [o Ho]. by rewrite Hkey in Ho.
  - intros o ob Hob. exists ob. split_and!; [done..| |done].
    intros a Hsf. assert (is_installed s o = true) as Hin by (apply wf_is_installed; eauto).
    by rewrite Hno in Hin.
Qed.

(** Two such states with the same logical tables are equivalent. *)
Lemma uninstrumented_equiv s s' :
  wf s -> wf s' -> (forall o, is_installed s o = false) ->
  (forall o, is_installed s' o = false) -> same_tables s s' -> s' ≡ s.
Proof.
  intros Hwf Hwf' Hno Hno' Hst.
  destruct (uninstrumented_empty s Hwf Hno) as (Hk & Hh & Hp).
  destruct (uninstrumented_empty s' Hwf' Hno') as (Hk' & Hh' & Hp').
  split; [|apply Hst|by intros o; rewrite Hk, Hk'|by rewrite Hh, Hh'|apply Hst..].
  apply map_eq. intros o. destruct (objfiles s !! o) as [ob|] eqn:Hob.
  - destruct (st_fields _ _ Hst o ob Hob) as [p Hob']. rewrite Hob'. f_equal.
    pose proof (st_real_table _ _ Hst o) as Hr.
    rewrite (plain_real_table _ _ _ (Hp' _ _ Hob')), (plain_real_table _ _ _ (Hp _ _ Hob)) in Hr.
    cbn in Hr. injection Hr as ->. apply objfile_with_sf_id.
  - apply eq_None_not_Some. rewrite (st_valid _ _ Hst o), Hob. by intros [? ?].
Qed.

Lemma same_tables_flags b b' s s1 s2 :
  same_tables (with_debug_symfile b s) s1 -> same_tables (with_debug_symfile b' s1) s2 ->
  same_tables (with_debug_symfile b' s) s2.
Proof.
  intros [Hr Hv Hf Hp _ Hl Hw] [Hr2 Hv2 Hf2 Hp2 Hd2 Hl2 Hw2]. split.
  - intros o. etrans; [apply Hr2|]. exact (Hr o).
  - intros o. etrans; [apply Hv2|]. exact (Hv o).
  - intros o ob Hob. destruct (Hf o ob Hob) as [p Hp1]. destruct (Hf2 _ _ Hp1) as [p' Hp'].
    exists p'. by rewrite Hp', objfile_with_sf_twice.
  - etrans; [apply Hp2|]. exact Hp.
  - exact Hd2.
  - etrans; [apply Hl2|]. exact Hl.
  - etrans; [apply Hw2|]. exact Hw.
Qed.

Lemma with_debug_symfile_id s : with_debug_symfile (debug_symfile s) s = s.
Proof. by destruct s. Qed.

Lemma real_table_live s o p : real_table s o = Some p -> is_Some (objfiles s !! o).
Proof. unfold real_table. destruct (objfiles s !! o); [eauto|done]. Qed.

(** The command returns when no live objfile lacks symbol functions, or
    when it turns logging off. *)
Lemma set_debug_symfile_command_ok value s :
  wf s -> (value = true -> forall o ob, objfiles s !! o = Some ob -> sf ob <> SfNull) ->
  exists s', set_debug_symfile_command value s = Ret tt s' /\
    wf s' /\ consistent s' /\ debug_symfile s' = value /\
    same_tables (with_debug_symfile value s) s'.
Proof.
  intros Hwf Hnn. pose proof (wf_with_debug_symfile value s Hwf) as Hwf1.
  destruct (set_debug_symfile_ok (with_debug_symfile value s) Hwf1) as (s' & Hrun & _).
  { cbn. intros -> o Hnull. destruct (real_table_live _ _ _ Hnull) as [ob Hob].
    apply (real_table_null _ _ _ Hwf1 Hob) in Hnull. by apply (Hnn eq_refl o ob). }
  exists s'. split; [done|].
  apply (set_debug_symfile_command_spec value s); [done|].
  by rewrite set_debug_symfile_command_run, Hrun.
Qed.

(** C22. Logging on, then off.  From a start of GDB in which every live
    objfile has symbol functions, [set debug symfile on] returns and leaves
    every live objfile instrumented, [set debug symfile off] then returns and
    leaves a state equivalent to the start: the same objfiles with the same
    table pointers, no registry entry, no record. *)
Theorem toggle_on_off_restores s :
  initial s -> (forall o ob, objfiles s !! o = Some ob -> sf ob <> SfNull) ->
  exists s1 s2,
    set_debug_symfile_command true s = Ret tt s1 /\
    set_debug_symfile_command false s1 = Ret tt s2 /\
    (forall o, is_Some (objfiles s1 !! o) -> is_installed s1 o = true) /\
    s2 ≡ s.
Proof.
  intros (Hwf & Hoff & Hno) Hnn.
  destruct (set_debug_symfile_command_ok true s Hwf (fun _ => Hnn))
    as (s1 & Hrun1 & Hwf1 & Hc1 & Hon1 & Hst1).
  destruct (set_debug_symfile_command_ok false s1 Hwf1) as (s2 & Hrun2 & Hwf2 & Hc2 & Hoff2 & Hst2);
    [done|].
  exists s1, s2. split_and!; [done..| |].
  - intros o Ho. rewrite <- Hon1. by apply Hc1.
  - apply uninstrumented_equiv; [done..|by intros o; apply consistent_off|].
    rewrite <- (with_debug_symfile_id s), Hoff. by apply (same_tables_flags true false s s1).
Qed.

(** ** Records *)

(** No more records than objfiles: every record has an owner, and an
    objfile owns one record at most. *)
Lemma wf_heap_le s : wf s -> size (debug_heap s) <= size (objfiles s).
Proof.
  intros Hwf.
  apply (map_size_le_injection
           (fun a o => reg_get o (symfile_debug_objfile_data_key s) = Some a)).
  - intros a d Hd. destruct (wf_heap_owned s Hwf a d Hd) as [o Ho]. exists o. split; [done|].
    destruct (wf_key_sf s Hwf o a Ho) as (ob & Hob & _). eauto.
  - intros a a' o _ _ H1 H2. congruence.
Qed.

(** No fewer records than instrumented objfiles. *)
Lemma installed_heap_ge s :
  wf s -> (forall o, is_Some (objfiles s !! o) -> is_installed s o = true) ->
  size (objfiles s) <= size (debug_heap s).
Proof.
  intros Hwf Hall.
  apply (map_size_le_injection
           (fun o a => reg_get o (symfile_debug_objfile_data_key s) = Some a)).
  - intros o ob Hob.
    destruct (proj1 (is_installed_true s o) (Hall o (mk_is_Some _ _ Hob))) as (_ & a & _ & _ & Hk).
    exists a. split; [done|]. by apply (wf_key_live s Hwf o).
  - intros o o' a _ _. apply (wf_key_inj s Hwf).
Qed.

Lemma consistent_heap_size s :
  wf s -> consistent s ->
  size (debug_heap s) = if debug_symfile s then size (objfiles s) else 0.
Proof.
  intros Hwf Hc. destruct (debug_symfile s) eqn:Hflag.
  - apply Nat.le_antisymm; [by apply wf_heap_le|]. apply installed_heap_ge; [done|].
    intros o Ho. rewrite <- Hflag. by apply Hc.
  - destruct (uninstrumented_empty s Hwf) as (_ & -> & _); [|apply map_size_empty].
    intros o. by apply consistent_off.
Qed.

(** The command with [off], anywhere: it returns, and nothing is left
    instrumented. *)
Lemma set_debug_symfile_off_run s :
  wf s ->
  exists s', set_debug_symfile_command false s = Ret tt s' /\ initial s' /\
    same_tables (with_debug_symfile false s) s'.
Proof.
  intros Hwf. rewrite set_debug_symfile_command_run.
  pose proof (wf_with_debug_symfile false s Hwf) as Hwf1.
  destruct (set_debug_symfile_cases _ Hwf1) as [(Hv & _)|(_ & s' & Hrun & Hprog)]; [done|].
  exists s'. destruct Hprog as (Hwf2 & Hst & Hdone & _). unfold initial.
  split_and!; [done|done| | |done].
  - by rewrite (st_debug_symfile _ _ Hst).
  - intros o. destruct (objfiles s' !! o) as [ob|] eqn:Hob; [|by apply is_installed_dead].
    apply (Hdone o), (wf_listed _ Hwf1), (st_valid _ _ Hst). eauto.
Qed.

(** C16. A record per instrumented objfile.  In every state GDB can reach
    the number of live [debug_sym_fns_data] records is the number of live
    objfiles when [debug_symfile] is set and zero when it is not: the
    layer's memory is bounded by the objfiles, nothing leaks over loads,
    destructions, replacements of tables and toggles. *)
Theorem records_bounded s :
  reachable s ->
  size (debug_heap s) = if debug_symfile s then size (objfiles s) else 0.
Proof. intros [Hwf Hc]%run_event_invariant_reachable. by apply consistent_heap_size. Qed.

(** C17. Logging can always be turned off.  From every well-formed state,
    whatever the flag and whichever objfiles are instrumented, the command
    [set debug symfile off] returns (no assertion fails, no pointer is
    dereferenced wrongly) and leaves a state GDB could have started from:
    the flag is off, no objfile is instrumented, no record is allocated;
    every objfile has the table it logically had. *)
Theorem logging_can_be_turned_off s :
  wf s ->
  exists s', run_event (Ev_set_debug_symfile false) s = Ret tt s' /\
    initial s' /\ debug_heap s' = ∅ /\ forall o, real_table s' o = real_table s o.
Proof.
  intros Hwf. destruct (set_debug_symfile_off_run s Hwf) as (s' & Hrun & Hinit & Hst).
  exists s'. split_and!; [done..| |apply (st_real_table _ _ Hst)].
  destruct Hinit as (Hwf' & _ & Hno). by destruct (uninstrumented_empty s' Hwf' Hno) as (_ & ? & _).
Qed.

(** ** Fuel *)

(** The bookkeeping makes no call through a function pointer. *)
Lemma fuel_free_read_objfile objfile : fuel_free (read_objfile objfile).
Proof. intros s. apply fuel_free_deref. Qed.

Lemma fuel_free_key_set objfile d : fuel_free (key_set objfile d).
Proof. intros s. unfold key_set. by case_match. Qed.

Lemma fuel_free_key_clear objfile : fuel_free (key_clear objfile).
Proof. intros s. unfold key_clear. by repeat case_match. Qed.

Lemma fuel_free_new_debug_sym_fns_data : fuel_free new_debug_sym_fns_data.
Proof. done. Qed.

#[local] Hint Resolve fuel_free_read_objfile fuel_free_key_set fuel_free_key_clear
  fuel_free_new_debug_sym_fns_data : steps.

Lemma fuel_free_objfile_sf objfile : fuel_free (objfile_sf objfile).
Proof. unfold objfile_sf. solve_steps. Qed.

Lemma fuel_free_set_objfile_sf objfile p : fuel_free (set_objfile_sf objfile p).
Proof. unfold set_objfile_sf. solve_steps. Qed.

Lemma fuel_free_store_debug_data d v : fuel_free (store_debug_data d v).
Proof. unfold store_debug_data. solve_steps. Qed.

#[local] Hint Resolve fuel_free_objfile_sf fuel_free_set_objfile_sf fuel_free_store_debug_data
  : steps.

Lemma fuel_free_symfile_debug_installed objfile : fuel_free (symfile_debug_installed objfile).
Proof. unfold symfile_debug_installed. solve_steps. case_bool_decide; solve_steps. Qed.

Lemma fuel_free_COPY_SF_PTR from to name func : fuel_free (COPY_SF_PTR from to name func).
Proof. unfold COPY_SF_PTR. solve_steps. Qed.

Lemma fuel_free_copy_sym_probe_fns from to : fuel_free (copy_sym_probe_fns from to).
Proof. unfold copy_sym_probe_fns. solve_steps. Qed.

Lemma fuel_free_set_real_sf to p : fuel_free (set_real_sf to p).
Proof. unfold set_real_sf. solve_steps. Qed.

#[local] Hint Resolve fuel_free_symfile_debug_installed fuel_free_COPY_SF_PTR
  fuel_free_copy_sym_probe_fns fuel_free_set_real_sf : steps.

Lemma fuel_free_install objfile : fuel_free (install_symfile_debug_logging objfile).
Proof. unfold install_symfile_debug_logging. solve_steps. Qed.

Lemma fuel_free_uninstall objfile : fuel_free (uninstall_symfile_debug_logging objfile).
Proof. unfold uninstall_symfile_debug_logging. solve_steps. Qed.

#[local] Hint Resolve fuel_free_install fuel_free_uninstall : steps.

Lemma fuel_free_objfile_set_sym_fns objfile sf : fuel_free (objfile_set_sym_fns objfile sf).
Proof. unfold objfile_set_sym_fns. solve_steps. Qed.

Lemma fuel_free_set_debug_symfile_1 objfile : fuel_free (set_debug_symfile_1 objfile).
Proof. unfold set_debug_symfile_1. solve_steps. case_match; solve_steps. Qed.

#[local] Hint Resolve fuel_free_objfile_set_sym_fns fuel_free_set_debug_symfile_1 : steps.

Lemma fuel_free_set_debug_symfile : fuel_free set_debug_symfile.
Proof. unfold set_debug_symfile. solve_steps. Qed.

Lemma fuel_free_new_objfile pspace fl : fuel_free (new_objfile pspace fl).
Proof. intros s. unfold new_objfile. by case_match. Qed.

#[local] Hint Resolve fuel_free_set_debug_symfile fuel_free_new_objfile : steps.

Lemma run_event_fuel_free ev : is_io ev = false -> fuel_free (run_event ev).
Proof.
  destruct ev; try done; intros _; cbn [run_event];
    unfold set_debug_symfile_command, load_objfile, free_objfile; solve_steps.
Qed.

(** A call through an objfile's table, in a well-formed state: one unit of
    fuel is as good as more, and enough. *)
Lemma call_sf_fuel fuel o name args s :
  wf s ->
  call_sf (S fuel) o name args s = call_sf 1 o name args s /\
  call_sf 1 o name args s <> OutOfFuel.
Proof.
  intros Hwf. unfold call_sf, bind.
  pose proof (fuel_free_objfile_sf o s) as Hf1.
  destruct (objfile_sf o s) as [p s1| | | |] eqn:Hp; try (by split).
  assert (s = s1) as <- by (apply (steps_objfile_sf (T:=eq) o); by rewrite Hp).
  pose proof (fuel_free_load_sf p s) as Hf2.
  destruct (load_sf p s) as [t s1| | | |] eqn:Ht; try (by split).
  assert (s = s1) as <- by (apply (steps_load_sf (T:=eq) p); by rewrite Ht).
  destruct (sf_get name t) as [f|]; [|by split]. cbn [call_slot].
  by apply invoke_one_enough.
Qed.

Lemma call_get_probes_fuel fuel o s :
  wf s ->
  call_get_probes (S fuel) o s = call_get_probes 1 o s /\
  call_get_probes 1 o s <> OutOfFuel.
Proof.
  intros Hwf. unfold call_get_probes, bind.
  pose proof (fuel_free_objfile_sf o s) as Hf1.
  destruct (objfile_sf o s) as [p s1| | | |] eqn:Hp; try (by split).
  assert (s = s1) as <- by (apply (steps_objfile_sf (T:=eq) o); by rewrite Hp).
  pose proof (fuel_free_load_sf p s) as Hf2.
  destruct (load_sf p s) as [t s1| | | |] eqn:Ht; try (by split).
  assert (s = s1) as <- by (apply (steps_load_sf (T:=eq) p); by rewrite Ht).
  destruct (sym_probe_fns t) as [pt|]; [|by split]. cbn [load_probe_fns ret].
  destruct (sym_get_probes (probe_fns_at pt)) as [f|]; [|by split]. cbn [call_slot].
  by apply invoke_one_enough.
Qed.

Lemma run_query_fuel this q s : run_query this q s <> OutOfFuel.
Proof. rewrite run_query_eq. unfold reference_query. by repeat case_match. Qed.

Lemma then_ret_fuel {A} (m : G A) s : m s <> OutOfFuel -> (m ;; ret tt) s <> OutOfFuel.
Proof. unfold bind. by destruct (m s). Qed.

(** No event stops for lack of fuel. *)
Lemma run_event_fuel ev s : wf s -> run_event ev s <> OutOfFuel.
Proof.
  intros Hwf. destruct (is_io ev) eqn:Hio; [|by apply run_event_fuel_free].
  destruct ev as [| |o name args|o|o q| |]; try done; cbn [run_event]; apply then_ret_fuel.
  - by apply (call_sf_fuel 0).
  - by apply (call_get_probes_fuel 0).
  - apply run_query_fuel.
Qed.

Lemma run_events_fuel evs s : wf s -> consistent s -> run_events evs s <> OutOfFuel.
Proof.
  revert s. induction evs as [|ev evs IH]; intros s Hwf Hc; [done|].
  change (run_events (ev :: evs) s) with ((run_event ev ;; run_events evs) s). unfold bind.
  pose proof (run_event_fuel ev s Hwf) as Hev.
  destruct (run_event ev s) as [[] s1| | | |] eqn:Hrun; try done.
  apply IH; apply (run_event_invariant ev s s1 Hwf Hc); by rewrite Hrun.
Qed.

(** C18. Every run terminates.  From a well-formed state in which every
    live objfile is instrumented exactly when [debug_symfile] is set, no
    run of events stops for lack of fuel: the bookkeeping makes no call
    through a function pointer, and a call through a table reaches a
    reader's function after at most one proxy.  The unit of fuel that an
    event gives to a call is enough: with more fuel the call does the
    same. *)
Theorem events_terminate evs s :
  wf s -> consistent s ->
  run_events evs s <> OutOfFuel /\
  forall fuel o name args,
    call_sf (S fuel) o name args s = call_sf 1 o name args s /\
    call_get_probes (S fuel) o s = call_get_probes 1 o s.
Proof.
  intros Hwf Hc. split; [by apply run_events_fuel|]. intros fuel o name args.
  split; [by apply call_sf_fuel|by apply call_get_probes_fuel].
Qed.

End Machine.

(** ** The claims at the sample states *)

Local Open Scope gdb_scope.

Lemma sample_state_initial : initial sample_state.
Proof.
  split_and!; [apply sample_state_wf|done|]. intros o.
  destruct (objfiles sample_state !! o) as [ob|] eqn:Hob;
    [|unfold is_installed; by rewrite Hob].
  apply (is_installed_false _ _ _ Hob). right. apply reg_get_empty.
Qed.

Lemma sample_state_logging_run :
  set_debug_symfile (with_debug_symfile true sample_state) = Ret tt sample_state_logging.
Proof.
  destruct (set_debug_symfile_ok (with_debug_symfile true sample_state))
    as (s' & Hrun & _);
    [apply wf_with_debug_symfile, sample_state_wf|intros _; apply sample_no_null|].
  unfold sample_state_logging. by rewrite Hrun.
Qed.

Lemma sample_set_debug_symfile_on :
  final_state (run_event (Ev_set_debug_symfile true) sample_state) = Some sample_state_logging.
Proof.
  cbn [run_event]. by rewrite set_debug_symfile_command_run, sample_state_logging_run.
Qed.

Lemma sample_set_sym_fns :
  final_state (run_event (Ev_objfile_set_sym_fns 1%positive (Some 2%N)) sample_state) =
  Some (with_objfiles (<[1%positive := objfile_with_sf (SfStatic 2) sample_ob1]>
                         (objfiles sample_state)) sample_state).
Proof.
  cbn [run_event table_ptr].
  by rewrite (objfile_set_sym_fns_off 1%positive sample_ob1 (SfStatic 2) sample_state
                eq_refl (plain_is_installed _ _ _ sample_plain_1) eq_refl).
Qed.

Lemma reachable_invariant_witness : wf sample_state_logging /\ consistent sample_state_logging.
Proof.
  apply reachable_invariant.
  apply (reachable_step sample_state (Ev_set_debug_symfile true));
    [apply reachable_initial, sample_state_initial|apply sample_set_debug_symfile_on].
Defined.

Lemma logical_tables_evolve_witness :
  real_table
    (with_objfiles (<[1%positive := objfile_with_sf (SfStatic 2) sample_ob1]>
                      (objfiles sample_state)) sample_state) 1%positive =
  tables_after (Ev_objfile_set_sym_fns 1%positive (Some 2%N)) sample_state
    1%positive.
Proof.
  apply (logical_tables_evolve (Ev_objfile_set_sym_fns 1%positive (Some 2%N)) sample_state);
    [apply sample_state_wf|apply initial_consistent, sample_state_initial
    |apply sample_set_sym_fns].
Defined.

Lemma run_events_invariant_witness :
  wf sample_state_logging /\ consistent sample_state_logging.
Proof.
  apply (run_events_invariant [Ev_set_debug_symfile true] sample_state);
    [apply sample_state_initial|].
  cbn [run_events for_each]. unfold bind.
  pose proof sample_set_debug_symfile_on as Hrun.
  destruct (run_event (Ev_set_debug_symfile true) sample_state) as [[] s1| | | |];
    by simplify_eq/=.
Defined.

Lemma sample_state_no_null_sf o ob : objfiles sample_state !! o = Some ob -> sf ob <> SfNull.
Proof.
  intros Hob Hsf. apply (sample_no_null false o).
  by apply (real_table_null sample_state o ob sample_state_wf Hob).
Qed.

Lemma toggle_on_off_restores_witness :
  exists s1 s2,
    set_debug_symfile_command true sample_state = Ret tt s1 /\
    set_debug_symfile_command false s1 = Ret tt s2 /\
    (forall o, is_Some (objfiles s1 !! o) -> is_installed s1 o = true) /\
    s2 ≡ sample_state.
Proof.
  apply (toggle_on_off_restores sample_state);
    [apply sample_state_initial|apply sample_state_no_null_sf].
Defined.

Lemma sample_logging_reachable : reachable sample_state_logging.
Proof.
  apply (reachable_step sample_state (Ev_set_debug_symfile true));
    [apply reachable_initial, sample_state_initial|apply sample_set_debug_symfile_on].
Qed.

Lemma records_bounded_witness :
  size (debug_heap sample_state_logging) =
  if debug_symfile sample_state_logging then size (objfiles sample_state_logging) else 0.
Proof. exact (records_bounded sample_state_logging sample_logging_reachable). Defined.

Lemma logging_can_be_turned_off_witness :
  exists s', run_event (Ev_set_debug_symfile false) sample_state_logging = Ret tt s' /\
    initial s' /\ debug_heap s' = ∅ /\
    forall o, real_table s' o = real_table sample_state_logging o.
Proof. exact (logging_can_be_turned_off sample_state_logging sample_logging_wf). Defined.

Lemma events_terminate_witness :
  run_events [Ev_set_debug_symfile true; Ev_call 1%positive Sym_read (Args_read 1%positive 1);
              Ev_free_objfile 2%positive; Ev_set_debug_symfile false] sample_state
    <> OutOfFuel /\
  forall fuel o name args,
    call_sf (S fuel) o name args sample_state = call_sf 1 o name args sample_state /\
    call_get_probes (S fuel) o sample_state = call_get_probes 1 o sample_state.
Proof.
  apply (events_terminate (B:=sample_backend));
    [apply sample_state_wf|apply initial_consistent, sample_state_initial].
Defined.

