(* ===== verification/Refine.v ===== *)
(** * Refine: the layer implements a specification without instrumentation

    The specification is the layer as a user of GDB may think of it: an
    objfile has one table, the reader's; [set debug symfile] sets a flag;
    with the flag set, a call through the table prints the line of its slot
    and reaches the reader's function.  It has no shadow table, no registry
    and no heap.  [erase] maps a state of the layer to the state of the
    specification it stands for, and the refinement theorems say that each
    event of [Machine], and so each run of events, commutes with it. *)

From stdpp Require Import base tactics option list strings gmap.
From Stdlib Require Import ZArith.
From S2P Require Import Prelude SymFns Registry Render State Sample Install Proxy Query.
From S2P Require Import Lifecycle Machine.

Section Refine.
Context `{B : Backend} `{!BackendOk B} `{R : !Registry objfile_id data_addr}
  `{D : Display} `{Q : !Quick B}.

Local Open Scope gdb_scope.

(** ** The specification: the layer without its instrumentation *)

(** [print before, call] or [call, print after], as the slot has it. *)
Definition logged_call (name : sf_slot) (f : fn_ptr) (args : sf_args) : G sf_val :=
  match name with
  | Sym_segments => abort "debug_sym_segments called"
  | Sym_relocate =>
      v <- flat_call f args ;;
      retval <- as_ptr v ;;
      fprintf_filtered (proxy_line name args retval) ;;
      ret v
  | _ =>
      fprintf_filtered (proxy_line name args 0) ;;
      flat_call f args
  end.

(** A call of a slot of an objfile's table: the reader's function, with
    the slot's line when logging is on. *)
Definition spec_call (objfile : objfile_id) (name : sf_slot) (args : sf_args) : G sf_val :=
  p <- objfile_sf objfile ;;
  t <- load_sf p ;;
  match sf_get name t with
  | None => crash NullDereference
  | Some f =>
      logging <- gets debug_symfile ;;
      if logging then logged_call name f args else flat_call f args
  end.

(** The probes of an objfile: the reader's function, with its line when
    logging is on. *)
Definition spec_get_probes (objfile : objfile_id) : G sf_val :=
  p <- objfile_sf objfile ;;
  t <- load_sf p ;;
  probes <- load_probe_fns (sym_probe_fns t) ;;
  match sym_get_probes probes with
  | None => crash NullDereference
  | Some f =>
      logging <- gets debug_symfile ;;
      v <- flat_call f (Args_probes objfile) ;;
      if logging
      then (data <- as_probes v ;;
            fprintf_filtered (probes_line objfile data) ;;
            ret v)
      else ret v
  end.

(** The table of an objfile is replaced; with logging on a null table is
    dereferenced. *)
Definition spec_set_sym_fns (objfile : objfile_id) (sf : option table_id) : G unit :=
  read_objfile objfile ;;
  logging <- gets debug_symfile ;;
  if logging && bool_decide (sf = None)
  then crash NullDereference
  else set_objfile_sf objfile (table_ptr sf).

(** Some live objfile has no symbol functions. *)
Definition some_null (s : gdb_state) : Prop :=
  exists o ob, objfiles s !! o = Some ob /\ sf ob = SfNull.

#[export] Instance some_null_dec s : Decision (some_null s).
Proof.
  refine (cast_if (decide (map_Exists (fun _ ob => sf ob = SfNull) (objfiles s))));
    unfold some_null, map_Exists in *; naive_solver.
Defined.

(** The flag is set; turning logging on with an objfile that has no symbol
    functions dereferences null. *)
Definition spec_set_debug_symfile (value : bool) : G unit :=
  fun s =>
    if value && bool_decide (some_null s)
    then Fault NullDereference
    else Ret tt (with_debug_symfile value s).

(** A file is loaded: the objfile is created and given its table. *)
Definition spec_load_objfile (pspace : nat) (fl : Z) (sf : option table_id) : G objfile_id :=
  objfile <- new_objfile pspace fl ;;
  spec_set_sym_fns objfile sf ;;
  ret objfile.

(** An objfile is destroyed: it has nothing attached. *)
Definition spec_free_objfile (objfile : objfile_id) : G unit :=
  read_objfile objfile ;;
  modify (freed_state objfile).

(** One event of the specification. *)
Definition spec_event (ev : event) : G unit :=
  match ev with
  | Ev_set_debug_symfile value => spec_set_debug_symfile value
  | Ev_objfile_set_sym_fns objfile sf => spec_set_sym_fns objfile sf
  | Ev_call objfile name args => spec_call objfile name args ;; ret tt
  | Ev_get_probes objfile => spec_get_probes objfile ;; ret tt
  | Ev_query objfile q => reference_query objfile q ;; ret tt
  | Ev_load_objfile pspace fl sf => spec_load_objfile pspace fl sf ;; ret tt
  | Ev_free_objfile objfile => spec_free_objfile objfile
  end.

(** ** The abstraction *)

(** The objfiles with their logical tables. *)
Definition erase_objfiles (s : gdb_state) : gmap objfile_id struct_objfile :=
  map_imap (fun o ob => p ← real_table s o; Some (objfile_with_sf p ob)) (objfiles s).

(** The state with the instrumentation erased: every objfile uses its
    logical table, the registry and the heap are empty. *)
Definition erase (s : gdb_state) : gdb_state :=
  with_heap ∅ (with_key reg_empty (with_objfiles (erase_objfiles s) s)).

(** A run of the specification, stopping at the first event that does
    not return. *)
Definition spec_events (evs : list event) : G unit := for_each evs spec_event.

(** The calls in which the arguments have the slot's signature and name
    the objfile through whose table the call is made. *)
Definition well_formed_event (ev : event) : bool :=
  match ev with
  | Ev_call objfile name args =>
      args_fit name args &&
      bool_decide (name <> Sym_segments -> args_objfile args = Some objfile)
  | _ => true
  end.

(** ** The abstraction of a state *)

Lemma erase_objfiles_lookup s o :
  erase_objfiles s !! o =
  ob ← objfiles s !! o; p ← real_table s o; Some (objfile_with_sf p ob).
Proof. unfold erase_objfiles. by rewrite map_lookup_imap. Qed.

Lemma erase_objfiles_dead s o : objfiles s !! o = None -> erase_objfiles s !! o = None.
Proof. intros Hob. by rewrite erase_objfiles_lookup, Hob. Qed.

Lemma erase_objfiles_live s o ob p :
  objfiles s !! o = Some ob -> real_table s o = Some p ->
  erase_objfiles s !! o = Some (objfile_with_sf p ob).
Proof. intros Hob Hp. rewrite erase_objfiles_lookup, Hob. cbn. by rewrite Hp. Qed.

Lemma erase_touched w lines s : erase (touched w lines s) = touched w lines (erase s).
Proof. reflexivity. Qed.

Lemma erase_with_readers w s : erase (with_readers w s) = with_readers w (erase s).
Proof. reflexivity. Qed.

(** In the abstraction every live objfile is plain, with its logical
    table. *)
Lemma erase_plain s o ob p :
  objfiles s !! o = Some ob -> real_table s o = Some p -> (forall a, p <> SfDebug a) ->
  plain (erase s) o p.
Proof.
  intros Hob Hp Hnd. exists (objfile_with_sf p ob). split_and!; [|done..|apply reg_get_empty].
  by apply erase_objfiles_live.
Qed.

Lemma shadowed_erase_plain s o t : shadowed s o t -> plain (erase s) o (SfStatic t).
Proof.
  intros Hsh. destruct (shadowed_valid _ _ _ Hsh) as [ob Hob].
  by apply (erase_plain s o ob); [|apply shadowed_real_table|].
Qed.

Lemma plain_erase_plain s o p : plain s o p -> plain (erase s) o p.
Proof.
  intros Hpl. pose proof Hpl as (ob & Hob & _ & Hnd & _).
  by apply (erase_plain s o ob); [|apply plain_real_table|].
Qed.

(** States with the same logical tables have the same abstraction, up to
    the flag. *)
Lemma erase_objfiles_same_tables s s' : same_tables s s' -> erase_objfiles s' = erase_objfiles s.
Proof.
  intros Hst. apply map_eq. intros o. rewrite !erase_objfiles_lookup.
  rewrite (st_real_table _ _ Hst). destruct (objfiles s !! o) as [ob|] eqn:Hob.
  - destruct (st_fields _ _ Hst o ob Hob) as [p ->]. cbn.
    destruct (real_table s o); cbn; [|done]. by rewrite objfile_with_sf_twice.
  - assert (objfiles s' !! o = None) as ->; [|done].
    apply eq_None_not_Some. rewrite (st_valid _ _ Hst o), Hob. by intros [? ?].
Qed.

Lemma erase_same_tables s s' : same_tables s s' -> erase s' = erase s.
Proof.
  intros Hst. unfold erase. rewrite (erase_objfiles_same_tables _ _ Hst).
  destruct Hst as [_ _ _ Hp Hf Hl Hw]. destruct s, s'; cbn in *. by subst.
Qed.

(** After a change of one objfile, the abstraction has changed at that
    objfile only. *)
Lemma erase_same_except objfile ob p s s' :
  wf s -> same_except objfile s s' -> objfiles s !! objfile = Some ob ->
  real_table s' objfile = Some p ->
  erase s' = with_objfiles (<[objfile := objfile_with_sf p ob]> (erase_objfiles s)) (erase s).
Proof.
  intros Hwf Hse Hob Hp.
  assert (erase_objfiles s' = <[objfile := objfile_with_sf p ob]> (erase_objfiles s)) as Hobs.
  { apply map_eq. intros o. destruct (decide (o = objfile)) as [->|Hne].
    - rewrite lookup_insert_eq. destruct (se_self _ _ _ Hse _ Hob) as [p' Hob'].
      rewrite (erase_objfiles_live _ _ _ _ Hob' Hp). by rewrite objfile_with_sf_twice.
    - rewrite lookup_insert_ne by done. rewrite !erase_objfiles_lookup.
      by rewrite (se_objfiles _ _ _ Hse o Hne), (same_except_real_table _ _ _ _ Hwf Hse Hne). }
  unfold erase. rewrite Hobs.
  destruct Hse as [_ _ _ _ _ Hps Hf Hl Hw]. destruct s, s'; cbn in *. by subst.
Qed.

(** ** The specification in one step *)

Lemma spec_call_run o name args t s :
  plain s o (SfStatic t) ->
  spec_call o name args s =
  match sf_get name (sf_table t) with
  | None => Fault NullDereference
  | Some f => if debug_symfile s then logged_call name f args s else flat_call f args s
  end.
Proof.
  intros Hpl. unfold spec_call.
  rewrite (bind_Ret _ _ _ _ _ (objfile_sf_plain _ _ _ Hpl)). cbn [load_sf].
  rewrite bind_ret_l. destruct (sf_get name (sf_table t)); [|done].
  unfold bind, gets. by destruct (debug_symfile s).
Qed.

Lemma spec_call_null o name args s :
  plain s o SfNull -> spec_call o name args s = Fault NullDereference.
Proof.
  intros Hpl. unfold spec_call. by rewrite (bind_Ret _ _ _ _ _ (objfile_sf_plain _ _ _ Hpl)).
Qed.

Lemma spec_call_dead o name args s :
  objfiles s !! o = None -> spec_call o name args s = Fault DanglingPointer.
Proof. intros Hob. unfold spec_call, bind at 1. by rewrite (objfile_sf_dead _ _ Hob). Qed.

(** A reader's call seen through the abstraction. *)
Lemma erase_call_native c args s :
  outcome_map erase (call_native c args s) = call_native c args (erase s).
Proof. unfold call_native. cbn. by destruct (native c args (readers s)). Qed.

(** ** Calls refine the specification *)

(** With logging off the call reaches the reader's function directly. *)
Lemma call_sf_refines_off o name args p s :
  plain s o p -> debug_symfile s = false ->
  outcome_map erase (call_sf 1 o name args s) = spec_call o name args (erase s).
Proof.
  intros Hpl Hoff. pose proof (plain_erase_plain _ _ _ Hpl) as Hpl'.
  destruct (plain_wf_cases _ _ _ Hpl) as [->|[t ->]].
  { by rewrite call_sf_null, spec_call_null. }
  rewrite (call_sf_plain _ _ _ _ _ _ Hpl), (spec_call_run _ _ _ _ _ Hpl'). cbn [debug_symfile erase with_heap with_key with_objfiles].
  rewrite Hoff. destruct (sf_get name (sf_table t)) as [f|] eqn:Hf; [|done].
  destruct (native_slot _ _ _ Hf) as [c ->]. cbn. apply erase_call_native.
Qed.

Lemma logged_call_before name f args :
  logs_before name = true ->
  logged_call name f args = (fprintf_filtered (proxy_line name args 0) ;; flat_call f args).
Proof. by destruct name. Qed.

Lemma val_fits_void name v : logs_before name = true -> val_fits name v = true -> v = Val_void.
Proof. by destruct name, v. Qed.

Lemma val_fits_ptr v : val_fits Sym_relocate v = true -> exists p, v = Val_ptr p.
Proof. destruct v; try done. eauto. Qed.

(** With logging on the call goes through the proxy, which prints and
    reaches the same function. *)
Lemma call_sf_refines_on o name args t s :
  shadowed s o t -> debug_symfile s = true -> args_fit name args = true ->
  (name <> Sym_segments -> args_objfile args = Some o) ->
  outcome_map erase (call_sf 1 o name args s) = spec_call o name args (erase s).
Proof.
  intros Hsh Hon Hfit Ho.
  rewrite (spec_call_run _ _ _ _ _ (shadowed_erase_plain _ _ _ Hsh)).
  cbn [debug_symfile erase with_heap with_key with_objfiles]. rewrite Hon.
  destruct (sf_get name (sf_table t)) as [f|] eqn:Hf.
  2:{ by rewrite (call_sf_shadowed _ _ _ _ _ _ Hsh), (populated_None _ _ Hf). }
  destruct (native_slot _ _ _ Hf) as [c ->].
  pose proof (sf_table_typed t name c args (readers s)) as Hty.
  destruct (logs_before_cases name) as [Hb|[->| ->]].
  - rewrite (call_sf_logs_then_forwards_run _ _ _ _ _ _ _ Hsh Hf Hb Hfit)
      by (apply Ho; by destruct name).
    rewrite (logged_call_before _ _ _ Hb). unfold bind, fprintf_filtered, modify. cbn.
    unfold call_native. cbn.
    destruct (native c args (readers s)) as [v w|e w]; [|done].
    by rewrite (val_fits_void name v Hb (Hty v w Hf Hfit eq_refl)).
  - rewrite (call_sf_shadowed _ _ _ _ _ _ Hsh), (populated_Some _ _ _ Hf).
    by destruct args.
  - destruct args; try done. injection (Ho ltac:(done)) as ->.
    rewrite (call_sf_relocate_run _ _ _ _ _ _ _ Hsh Hf). cbn [logged_call flat_call].
    unfold bind, call_native. cbn.
    destruct (native c _ (readers s)) as [v w|e w]; [|done].
    by destruct (val_fits_ptr v (Hty v w Hf Hfit eq_refl)) as [p ->].
Qed.

(** ** The probes refine the specification *)

Lemma spec_get_probes_run o t s :
  plain s o (SfStatic t) ->
  spec_get_probes o s =
  match sym_probe_fns (sf_table t) with
  | None => Fault NullDereference
  | Some p =>
      match sym_get_probes (probe_fns_at p) with
      | None => Fault NullDereference
      | Some f =>
          (v <- flat_call f (Args_probes o) ;;
           if debug_symfile s
           then (data <- as_probes v ;; fprintf_filtered (probes_line o data) ;; ret v)
           else ret v) s
      end
  end.
Proof.
  intros Hpl. unfold spec_get_probes.
  rewrite (bind_Ret _ _ _ _ _ (objfile_sf_plain _ _ _ Hpl)). cbn [load_sf].
  rewrite bind_ret_l. destruct (sym_probe_fns (sf_table t)) as [p|]; [|done].
  cbn [load_probe_fns]. rewrite bind_ret_l.
  destruct (sym_get_probes (probe_fns_at p)); [|done].
  unfold bind at 1. unfold gets. reflexivity.
Qed.

Lemma spec_get_probes_null o s :
  plain s o SfNull -> spec_get_probes o s = Fault NullDereference.
Proof.
  intros Hpl. unfold spec_get_probes.
  by rewrite (bind_Ret _ _ _ _ _ (objfile_sf_plain _ _ _ Hpl)).
Qed.

Lemma call_get_probes_null fuel o s :
  plain s o SfNull -> call_get_probes fuel o s = Fault NullDereference.
Proof.
  intros Hpl. unfold call_get_probes.
  by rewrite (bind_Ret _ _ _ _ _ (objfile_sf_plain _ _ _ Hpl)).
Qed.

Lemma call_get_probes_dead fuel o s :
  objfiles s !! o = None -> call_get_probes fuel o s = Fault DanglingPointer.
Proof. intros Hob. unfold call_get_probes, bind at 1. by rewrite (objfile_sf_dead _ _ Hob). Qed.

Lemma spec_get_probes_dead o s :
  objfiles s !! o = None -> spec_get_probes o s = Fault DanglingPointer.
Proof. intros Hob. unfold spec_get_probes, bind at 1. by rewrite (objfile_sf_dead _ _ Hob). Qed.

(** The probe table of a reader's table is a reader's. *)
Lemma native_probe_ptr t p :
  sym_probe_fns (sf_table t) = Some p -> exists p', p = ProbeNative p'.
Proof.
  intros Hp. pose proof (native_table_probe _ (sf_table_native t)) as Hn.
  destruct p; [eauto|]. by destruct Hn.
Qed.

Lemma native_probe_slot p f : sym_get_probes (probe_table p) = Some f -> exists c, f = FnNative c.
Proof.
  intros Hf. pose proof (probe_table_native p) as Hn. unfold native_probe_table in Hn.
  rewrite Hf in Hn. destruct f; [eauto|done].
Qed.

Lemma get_probes_refines_off o p s :
  plain s o p -> debug_symfile s = false ->
  outcome_map erase (call_get_probes 1 o s) = spec_get_probes o (erase s).
Proof.
  intros Hpl Hoff. pose proof (plain_erase_plain _ _ _ Hpl) as Hpl'.
  destruct (plain_wf_cases _ _ _ Hpl) as [->|[t ->]].
  { by rewrite call_get_probes_null, spec_get_probes_null. }
  rewrite (call_get_probes_table _ _ _ _ (plain_active_table _ _ _ Hpl)).
  rewrite (spec_get_probes_run _ _ _ Hpl'). cbn [debug_symfile erase with_heap with_key with_objfiles].
  rewrite Hoff. destruct (sym_probe_fns (sf_table t)) as [pp|] eqn:Hp; [|done].
  destruct (native_probe_ptr _ _ Hp) as [p' ->]. cbn [load_probe_fns probe_fns_at].
  rewrite bind_ret_l. destruct (sym_get_probes (probe_table p')) as [f|] eqn:Hf; [|done].
  destruct (native_probe_slot _ _ Hf) as [c ->]. cbn [call_slot invoke flat_call].
  rewrite bind_ret_r. apply erase_call_native.
Qed.

Lemma get_probes_refines_on o t s :
  shadowed s o t -> debug_symfile s = true ->
  outcome_map erase (call_get_probes 1 o s) = spec_get_probes o (erase s).
Proof.
  intros Hsh Hon. rewrite (call_get_probes_shadowed _ _ _ _ Hsh).
  rewrite (spec_get_probes_run _ _ _ (shadowed_erase_plain _ _ _ Hsh)).
  cbn [debug_symfile erase with_heap with_key with_objfiles]. rewrite Hon.
  destruct (sym_probe_fns (sf_table t)) as [pp|] eqn:Hp; [|done].
  destruct (native_probe_ptr _ _ Hp) as [p' ->]. cbn [probe_fns_at].
  destruct (sym_get_probes (probe_table p')) as [f|] eqn:Hf; [|done].
  destruct (native_probe_slot _ _ Hf) as [c ->]. cbn [call_slot invoke flat_call].
  unfold bind, call_native. cbn.
  destruct (native c _ (readers s)) as [v w|e w]; [|done].
  by destruct v.
Qed.

(** ** The queries refine the specification *)

Lemma quick_method_with_sf this p ob q qid w :
  quick_method this (objfile_with_sf p ob) q qid w = quick_method this ob q qid w.
Proof. by destruct q. Qed.

Lemma real_table_is_Some s o ob :
  wf s -> objfiles s !! o = Some ob -> is_Some (real_table s o).
Proof.
  intros Hwf Hob. destruct (wf_cases _ _ _ Hwf Hob) as [[t Hsh]|Hpl].
  - rewrite (shadowed_real_table _ _ _ Hsh). eauto.
  - rewrite (plain_real_table _ _ _ Hpl). eauto.
Qed.

Lemma reference_query_erase this q s :
  wf s -> outcome_map erase (reference_query this q s) = reference_query this q (erase s).
Proof.
  intros Hwf. unfold reference_query. cbn [objfiles erase with_heap with_key with_objfiles].
  destruct (objfiles s !! this) as [ob|] eqn:Hob.
  2:{ by rewrite (erase_objfiles_dead _ _ Hob). }
  destruct (real_table_is_Some _ _ _ Hwf Hob) as [p Hp].
  rewrite (erase_objfiles_live _ _ _ _ Hob Hp). cbn [qf objfile_with_sf].
  destruct (qf ob) as [qid|]; [|done].
  rewrite quick_method_with_sf. change (readers (erase s)) with (readers s).
  by destruct (quick_method this ob q qid (readers s)).
Qed.

(** ** The guard refines the specification *)

Lemma some_null_erase s : wf s -> some_null (erase s) <-> some_null s.
Proof.
  intros Hwf. split.
  - intros (o & obe & Hobe & Hsf). cbn in Hobe. rewrite erase_objfiles_lookup in Hobe.
    destruct (objfiles s !! o) as [ob|] eqn:Hob; [|done]. cbn in Hobe.
    destruct (real_table s o) as [p|] eqn:Hp; [|done]. cbn in Hobe.
    injection Hobe as <-. cbn in Hsf. subst p. exists o, ob. split; [done|].
    by apply (real_table_null s o ob Hwf Hob).
  - intros (o & ob & Hob & Hsf). exists o, (objfile_with_sf SfNull ob). split; [|done].
    apply erase_objfiles_live; [done|]. by apply (real_table_null s o ob Hwf Hob).
Qed.

Lemma spec_set_sym_fns_run o ob sf s :
  objfiles s !! o = Some ob ->
  spec_set_sym_fns o sf s =
  if debug_symfile s && bool_decide (sf = None)
  then Fault NullDereference
  else Ret tt (with_objfiles (<[o := objfile_with_sf (table_ptr sf) ob]> (objfiles s)) s).
Proof.
  intros Hob. unfold spec_set_sym_fns.
  rewrite (bind_Ret _ _ _ _ _ (read_objfile_Some _ _ _ Hob)). unfold bind at 1, gets.
  destruct (debug_symfile s && bool_decide (sf = None)); [done|].
  by apply set_objfile_sf_Some.
Qed.

Lemma spec_set_sym_fns_dead o sf s :
  objfiles s !! o = None -> spec_set_sym_fns o sf s = Fault DanglingPointer.
Proof. intros Hob. unfold spec_set_sym_fns, bind at 1. by rewrite (read_objfile_None _ _ Hob). Qed.

Lemma set_sym_fns_refines o sf s :
  wf s -> guard_ok s o ->
  outcome_map erase (objfile_set_sym_fns o (table_ptr sf) s) = spec_set_sym_fns o sf (erase s).
Proof.
  intros Hwf Hc. destruct (objfiles s !! o) as [ob|] eqn:Hob.
  2:{ rewrite (objfile_set_sym_fns_dangling _ _ _ Hob).
      by rewrite spec_set_sym_fns_dead by by apply erase_objfiles_dead. }
  destruct (real_table_is_Some _ _ _ Hwf Hob) as [p0 Hp0].
  rewrite (spec_set_sym_fns_run o (objfile_with_sf p0 ob) sf (erase s)
             (erase_objfiles_live _ _ _ _ Hob Hp0)).
  pose proof (objfile_set_sym_fns_guarded o ob sf s Hwf Hc Hob) as Hout.
  cbn [debug_symfile erase with_heap with_key with_objfiles objfiles].
  destruct (debug_symfile s && bool_decide (sf = None)); [by rewrite Hout|].
  destruct Hout as (s' & -> & _ & Hse & Hr & _). cbn. f_equal.
  rewrite objfile_with_sf_twice. by apply erase_same_except.
Qed.

(** ** The command refines the specification *)

Lemma set_debug_refines value s :
  wf s ->
  outcome_map erase (set_debug_symfile_command value s) = spec_set_debug_symfile value (erase s).
Proof.
  intros Hwf. rewrite set_debug_symfile_command_run. unfold spec_set_debug_symfile.
  destruct (set_debug_symfile_cases _ (wf_with_debug_symfile value s Hwf))
    as [(Hv & Hnull & Hrun)|(Hn & s' & Hrun & _ & Hst & _)]; rewrite Hrun; cbn [outcome_map].
  - change (value = true) in Hv. subst value. assert (some_null s) as Hs by exact Hnull.
    rewrite bool_decide_eq_true_2; [reflexivity|]. by apply some_null_erase.
  - rewrite (erase_same_tables _ _ Hst). destruct value; cbn [andb]; [|done].
    rewrite bool_decide_eq_false_2; [reflexivity|].
    intros Hsn. apply (some_null_erase s Hwf) in Hsn. apply Hn. split; [done|exact Hsn].
Qed.

(** ** Every event *)

Lemma outcome_map_then_ret {A C} (c : C) (m m' : G A) s s' :
  outcome_map erase (m s) = m' s' ->
  outcome_map erase ((m ;; ret c) s) = (m' ;; ret c) s'.
Proof. unfold bind. intros <-. by destruct (m s). Qed.

(** ** Loading and destruction refine the specification *)

Lemma erase_objfiles_dom s : wf s -> dom (erase_objfiles s) = dom (objfiles s).
Proof.
  intros Hwf. apply dom_imap_L. intros o. rewrite elem_of_dom. split.
  - intros [ob Hob]. exists ob. split; [done|].
    destruct (real_table_is_Some s o ob Hwf Hob) as [p ->]. by eexists.
  - intros (ob & Hob & _). eauto.
Qed.

Lemma erase_created_state pspace l objfile fl s :
  objfiles s !! objfile = None ->
  erase (created_state pspace l objfile fl s) = created_state pspace l objfile fl (erase s).
Proof.
  intros Hfresh.
  assert (erase_objfiles (created_state pspace l objfile fl s) =
          <[objfile := bare_objfile fl]> (erase_objfiles s)) as Hobs.
  { apply map_eq. intros o. rewrite erase_objfiles_lookup, created_state_real_table_cases. cbn.
    destruct (decide (o = objfile)) as [->|Hne].
    - by rewrite !lookup_insert_eq.
    - by rewrite !lookup_insert_ne, erase_objfiles_lookup. }
  unfold erase. by rewrite Hobs.
Qed.

Lemma load_refines pspace fl sf s :
  wf s ->
  outcome_map erase (load_objfile pspace fl (table_ptr sf) s) =
  spec_load_objfile pspace fl sf (erase s).
Proof.
  intros Hwf. unfold load_objfile, spec_load_objfile.
  destruct (program_spaces s !! pspace) as [l|] eqn:Hl.
  2:{ unfold bind at 1 3. by rewrite !new_objfile_no_pspace. }
  rewrite (bind_Ret _ _ _ _ _ (new_objfile_run _ _ fl _ Hl)).
  rewrite (bind_Ret _ _ _ _ _ (new_objfile_run pspace l fl (erase s) Hl)).
  assert (next_objfile (erase s) = next_objfile s) as ->.
  { unfold next_objfile. cbn. by rewrite erase_objfiles_dom. }
  rewrite <- (erase_created_state _ _ _ _ _ (next_objfile_fresh s)).
  apply outcome_map_then_ret, set_sym_fns_refines.
  - by apply created_state_wf, next_objfile_fresh.
  - intros Hin. by rewrite (plain_is_installed _ _ _ (created_state_plain pspace l _ fl s Hwf
                                                     (next_objfile_fresh s))) in Hin.
Qed.

Lemma erase_gone objfile s s' :
  wf s -> gone objfile s s' -> erase s' = freed_state objfile (erase s).
Proof.
  intros Hwf Hg.
  assert (erase_objfiles s' = delete objfile (erase_objfiles s)) as Hobs.
  { apply map_eq. intros o. rewrite erase_objfiles_lookup, (gn_objfiles _ _ _ Hg).
    destruct (decide (o = objfile)) as [->|Hne]; [by rewrite !lookup_delete_eq|].
    by rewrite !lookup_delete_ne, (gone_real_table _ _ _ _ Hwf Hg Hne), erase_objfiles_lookup. }
  unfold erase, freed_state. cbn. rewrite Hobs.
  destruct Hg as [_ Hps _ _ Hf Hl Hw]. destruct s, s'; cbn in *. by subst.
Qed.

Lemma free_refines objfile s :
  wf s -> outcome_map erase (free_objfile objfile s) = spec_free_objfile objfile (erase s).
Proof.
  intros Hwf. unfold spec_free_objfile. destruct (objfiles s !! objfile) as [ob|] eqn:Hob.
  2:{ rewrite (free_objfile_dead _ _ Hob). unfold bind.
      by rewrite (read_objfile_None _ (erase s)) by by apply erase_objfiles_dead. }
  destruct (free_objfile_run objfile ob s Hob) as (s' & -> & Hg).
  destruct (real_table_is_Some _ _ _ Hwf Hob) as [p Hp].
  rewrite (bind_Ret _ _ _ _ _ (read_objfile_Some _ _ (erase s) (erase_objfiles_live _ _ _ _ Hob Hp))).
  unfold modify. cbn. f_equal. by apply erase_gone.
Qed.

Lemma consistent_cases s o ob :
  wf s -> consistent s -> objfiles s !! o = Some ob ->
  (debug_symfile s = true /\ exists t, shadowed s o t) \/
  (debug_symfile s = false /\ plain s o (sf ob)).
Proof.
  intros Hwf Hc Hob. destruct (Hc o (mk_is_Some _ _ Hob)) as [Hinst _].
  destruct (wf_cases _ _ _ Hwf Hob) as [[t Hsh]|Hpl].
  - left. rewrite (shadowed_is_installed _ _ _ Hsh) in Hinst. eauto.
  - right. by rewrite (plain_is_installed _ _ _ Hpl) in Hinst.
Qed.

Lemma run_event_refines ev s :
  wf s -> consistent s -> well_formed_event ev = true ->
  outcome_map erase (run_event ev s) = spec_event ev (erase s).
Proof.
  intros Hwf Hc Hev.
  destruct ev as [value|objfile sf|objfile name args|objfile|objfile q|pspace fl sf|objfile].
  - by apply set_debug_refines.
  - by apply set_sym_fns_refines, consistent_guard_ok.
  - apply outcome_map_then_ret. apply andb_true_iff in Hev as [Hfit Ho%bool_decide_eq_true].
    destruct (objfiles s !! objfile) as [ob|] eqn:Hob.
    2:{ rewrite (call_sf_dead _ _ _ _ _ Hob). by rewrite spec_call_dead by by apply erase_objfiles_dead. }
    destruct (consistent_cases _ _ _ Hwf Hc Hob) as [(Hon & t & Hsh)|(Hoff & Hpl)];
      [by apply (call_sf_refines_on _ _ _ t)|by apply (call_sf_refines_off _ _ _ (sf ob))].
  - apply outcome_map_then_ret.
    destruct (objfiles s !! objfile) as [ob|] eqn:Hob.
    2:{ rewrite (call_get_probes_dead _ _ _ Hob).
        by rewrite spec_get_probes_dead by by apply erase_objfiles_dead. }
    destruct (consistent_cases _ _ _ Hwf Hc Hob) as [(Hon & t & Hsh)|(Hoff & Hpl)];
      [by apply (get_probes_refines_on _ t)|by apply (get_probes_refines_off _ (sf ob))].
  - apply outcome_map_then_ret. rewrite run_query_eq. by apply reference_query_erase.
  - by apply outcome_map_then_ret, load_refines.
  - by apply free_refines.
Qed.

(** A state in which nothing is instrumented is its own abstraction, up
    to the registry. *)
Lemma erase_initial s : initial s -> erase s ≡ s.
Proof.
  intros (Hwf & _ & Hno). destruct (uninstrumented_empty s Hwf Hno) as (Hk & Hh & Hp).
  split; try done; cbn.
  - apply map_eq. intros o. rewrite erase_objfiles_lookup.
    destruct (objfiles s !! o) as [ob|] eqn:Hob; [|done]. cbn.
    rewrite (plain_real_table _ _ _ (Hp _ _ Hob)). cbn. by rewrite objfile_with_sf_id.
  - intros o. by rewrite Hk, reg_get_empty.
Qed.

(** C2. The layer refines its specification.  In a well-formed state in
    which every live objfile is instrumented exactly when [debug_symfile] is
    set, an event of the layer, seen through the abstraction that erases the
    instrumentation, is the event of the specification: the same value, the
    same exception, the same assertion failure or fault, the same lines in the
    log and the same effect on the readers, from the same logical tables to
    the same logical tables.  The calls are those whose arguments have the
    slot's signature and name the objfile the call goes through. *)
Theorem layer_refines_spec ev s :
  wf s -> consistent s -> well_formed_event ev = true ->
  outcome_map erase (run_event ev s) = spec_event ev (erase s).
Proof. apply run_event_refines. Qed.

(** C12. Runs refine runs.  From a well-formed, consistent state, a whole
    sequence of well-formed events ends in the outcome in which the
    specification ends from the abstraction of that state, with the
    same values, the same errors and the same log, and in a state with
    that abstraction: the invariant carries the one-step diagram of
    [layer_refines_spec] along the run. *)
Theorem runs_refine_spec evs s :
  wf s -> consistent s -> forallb well_formed_event evs = true ->
  outcome_map erase (run_events evs s) = spec_events evs (erase s).
Proof.
  revert s. induction evs as [|ev evs IH]; intros s Hwf Hc Hevs; [done|].
  cbn in Hevs. apply andb_true_iff in Hevs as [Hev Hevs].
  cbn [run_events spec_events for_each]. unfold bind.
  rewrite <- (run_event_refines ev s Hwf Hc Hev).
  destruct (run_event ev s) as [[] s1| | | |] eqn:Hrun; try done.
  destruct (run_event_invariant ev s s1 Hwf Hc) as [Hwf1 Hc1]; [by rewrite Hrun|].
  by apply IH.
Qed.

End Refine.

(** ** The claim at the sample state *)

Local Open Scope gdb_scope.

Lemma sample_logging_invariant : wf sample_state_logging /\ consistent sample_state_logging.
Proof.
  apply run_event_invariant_reachable.
  apply (reachable_step sample_state (Ev_set_debug_symfile true));
    [apply reachable_initial, sample_state_initial|apply sample_set_debug_symfile_on].
Qed.

Lemma layer_refines_spec_witness :
  outcome_map erase
    (run_event (Ev_call 1%positive Sym_read (Args_read 1%positive 5)) sample_state_logging) =
  spec_event (Ev_call 1%positive Sym_read (Args_read 1%positive 5))
    (erase sample_state_logging).
Proof.
  apply (layer_refines_spec (Ev_call 1%positive Sym_read (Args_read 1%positive 5)));
    [apply sample_logging_invariant..|reflexivity].
Defined.

Lemma runs_refine_spec_witness :
  outcome_map erase
    (run_events [Ev_call 1%positive Sym_read (Args_read 1%positive 5);
                 Ev_set_debug_symfile false] sample_state_logging) =
  spec_events [Ev_call 1%positive Sym_read (Args_read 1%positive 5);
               Ev_set_debug_symfile false] (erase sample_state_logging).
Proof.
  apply (runs_refine_spec [Ev_call 1%positive Sym_read (Args_read 1%positive 5);
                           Ev_set_debug_symfile false]);
    [apply sample_logging_invariant..|reflexivity].
Defined.
