(* ===== verification/Command.v ===== *)
(** * Command: the setting [debug symfile]

    [_initialize_symfile_debug] (lines 613-626) registers one boolean
    setting, [symfile], in the lists of the [set debug] and [show debug]
    commands: it is bound to the variable [debug_symfile], its set hook is
    [set_debug_symfile] and its show hook is [show_debug_symfile] (lines
    606-611).  The lists and what GDB does with a registered boolean setting
    (store the value and call the hook; render the value as on or off and
    call the show hook) are code of cli-decode.c and cli-setshow.c, modelled
    here from that interface.  The theorems connect the registration to the
    event [Ev_set_debug_symfile] of [Machine] and show that [show] reads
    back what [set] stored. *)

From stdpp Require Import base tactics option list strings gmap.
From S2P Require Import Prelude SymFns Registry Render State Sample Install Proxy Query Lifecycle.
From S2P Require Import Machine.

(** [enum command_class]: the classes a setting can be filed under. *)
Inductive command_class : Set :=
| no_class
| class_maintenance.

(** A [bool *] that a setting is bound to.  The layer has one. *)
Inductive boolean_var : Set :=
| Var_debug_symfile.

Section Command.
Context `{B : Backend} `{!BackendOk B} `{R : !Registry objfile_id data_addr}
  `{D : Display} `{Q : !Quick B}.

Local Open Scope gdb_scope.

(** [*var]. *)
Definition read_var (var : boolean_var) (s : gdb_state) : bool :=
  match var with
  | Var_debug_symfile => debug_symfile s
  end.

(** [*var = value]. *)
Definition write_var (var : boolean_var) (value : bool) (s : gdb_state) : gdb_state :=
  match var with
  | Var_debug_symfile => with_debug_symfile value s
  end.

(** The element of a [set] list for a boolean setting. *)
Record set_cmd : Type := {
  set_class : command_class;
  set_var : boolean_var;
  set_doc : string;
  set_help_doc : string;
  set_func : G unit
}.

(** The element of a [show] list for a boolean setting. *)
Record show_cmd : Type := {
  show_class : command_class;
  show_var : boolean_var;
  show_doc : string;
  show_help_doc : string;
  show_value_func : string -> string
}.

(** [setdebuglist] and [showdebuglist], by name. *)
Record cmd_lists : Type := {
  setdebuglist : gmap string set_cmd;
  showdebuglist : gmap string show_cmd
}.

(** [add_setshow_boolean_cmd (name, theclass, var, set_doc, show_doc,
    help_doc, set_func, show_func, set_list, show_list)]: an element of
    either list; an element of that name is replaced. *)
Definition add_setshow_boolean_cmd (name : string) (theclass : command_class)
    (var : boolean_var) (set_doc show_doc help_doc : string)
    (set_func : G unit) (show_func : string -> string) (l : cmd_lists) : cmd_lists :=
  {| setdebuglist :=
       <[name := {| set_class := theclass; set_var := var; set_doc := set_doc;
                    set_help_doc := help_doc; set_func := set_func |}]> (setdebuglist l);
     showdebuglist :=
       <[name := {| show_class := theclass; show_var := var; show_doc := show_doc;
                    show_help_doc := help_doc; show_value_func := show_func |}]>
         (showdebuglist l) |}.

(** [_initialize_symfile_debug ()]. *)
Definition _initialize_symfile_debug (l : cmd_lists) : cmd_lists :=
  add_setshow_boolean_cmd "symfile" no_class Var_debug_symfile
    "Set debugging of the symfile functions."
    "Show debugging of the symfile functions."
    "When enabled, all calls to the symfile functions are logged."
    set_debug_symfile show_debug_symfile l.

(** How a boolean is shown. *)
Definition boolean_text (value : bool) : string := if value then "on" else "off".

(** [set debug <name> on|off], the value parsed: the variable is written,
    then the hook runs. *)
Definition do_set_command (c : set_cmd) (value : bool) : G unit :=
  modify (write_var (set_var c) value) ;;
  set_func c.

(** [show debug <name>]: the text the show hook makes of the value. *)
Definition do_show_command (c : show_cmd) : G string :=
  value <- gets (read_var (show_var c)) ;;
  ret (show_value_func c (boolean_text value)).

(** The commands as the user types them; [None] when no setting has the
    name. *)
Definition set_debug (l : cmd_lists) (name : string) (value : bool) : option (G unit) :=
  (fun c => do_set_command c value) <$> setdebuglist l !! name.

Definition show_debug (l : cmd_lists) (name : string) : option (G string) :=
  do_show_command <$> showdebuglist l !! name.

(** ** Registration *)

Lemma set_debug_registered l value :
  set_debug (_initialize_symfile_debug l) "symfile" value =
  Some (set_debug_symfile_command value).
Proof. unfold set_debug. cbn. by rewrite lookup_insert_eq. Qed.

Lemma show_debug_registered l s :
  exists show, show_debug (_initialize_symfile_debug l) "symfile" = Some show /\
    show s = Ret (show_debug_symfile (boolean_text (debug_symfile s))) s.
Proof. unfold show_debug. cbn. rewrite lookup_insert_eq. by eexists. Qed.

(** The other settings are as they were. *)
Lemma registration_keeps_others l name value :
  name <> "symfile" ->
  set_debug (_initialize_symfile_debug l) name value = set_debug l name value /\
  show_debug (_initialize_symfile_debug l) name = show_debug l name.
Proof. intros Hne. unfold set_debug, show_debug. cbn. by rewrite !lookup_insert_ne. Qed.

(** Registering twice is registering once. *)
Lemma initialize_idempotent l :
  _initialize_symfile_debug (_initialize_symfile_debug l) = _initialize_symfile_debug l.
Proof.
  unfold _initialize_symfile_debug, add_setshow_boolean_cmd. cbn.
  by rewrite !insert_insert_eq.
Qed.

(** ** Set, then show *)

(** C35. The setting reads back.  With the setting registered by
    [_initialize_symfile_debug], [set debug symfile] is the event of
    [Machine]: it stores the value and runs [set_debug_symfile]; when it
    returns from a well-formed state, [show debug symfile] prints
    "Symfile debugging is on." or "... off." for the value just set, and
    changes nothing: the hook instruments and removes shadows but never
    touches the flag. *)
Theorem show_after_set l value s s' :
  wf s ->
  (set ← set_debug (_initialize_symfile_debug l) "symfile" value; Some (set s)) =
    Some (Ret tt s') ->
  run_event (Ev_set_debug_symfile value) s = Ret tt s' /\
  (show ← show_debug (_initialize_symfile_debug l) "symfile"; Some (show s')) =
    Some (Ret ("Symfile debugging is " +:+ boolean_text value +:+ "." +:+ nl) s').
Proof.
  intros Hwf. rewrite set_debug_registered. intros Hrun. injection Hrun as Hrun.
  split; [exact Hrun|].
  destruct (set_debug_symfile_command_spec value s s' Hwf (f_equal final_state Hrun))
    as (_ & _ & <- & _).
  destruct (show_debug_registered l s') as (show & -> & Hshow). exact (f_equal Some Hshow).
Qed.

End Command.

(** ** The claim at the sample state *)

Lemma show_after_set_witness :
  run_event (Ev_set_debug_symfile true) sample_state = Ret tt sample_state_logging /\
  (show ← show_debug (_initialize_symfile_debug
                        {| setdebuglist := ∅; showdebuglist := ∅ |}) "symfile";
   Some (show sample_state_logging)) =
    Some (Ret ("Symfile debugging is " +:+ boolean_text true +:+ "." +:+ nl)
            sample_state_logging).
Proof.
  apply (show_after_set (B:=sample_backend) {| setdebuglist := ∅; showdebuglist := ∅ |}
           true sample_state sample_state_logging sample_state_wf).
  rewrite set_debug_registered. apply (f_equal Some).
  rewrite set_debug_symfile_command_run. apply sample_state_logging_run.
Defined.
