(* ===== verification/Trace.v ===== *)
(** * Trace: what the log shows

    The log [gdb_stdlog] read as a trace of the layer.  A reader of the log
    tells from how a line begins whether it is the line of a slot of
    [struct sym_fns] (and of which), of the probes or of a query
    ([kind_of_line]).  The theorems say when the layer prints and what:

    - every event either only prints and calls readers (a call, the probes,
      a query: the frame [io_step]) or prints nothing and calls no reader
      (the command, the guard, loading, destruction: the frame [quiet]), in
      any state;
    - the log only grows;
    - with [debug_symfile] clear nothing is printed, whatever is called;
    - a run that returns has appended one line per call of a slot and of
      the probes, and the lines of each query, made while [debug_symfile]
      was set, in the order of the calls, and nothing else;
    - the scenario of the specification's section 8, step by step. *)

From stdpp Require Import base tactics option list strings gmap.
From Stdlib Require Import ZArith.
From S2P Require Import Prelude SymFns Registry Render State Sample Install Proxy Query Lifecycle.
From S2P Require Import Machine Refine.

(** The name of a slot, as the member of [struct sym_fns]. *)
Definition slot_name (name : sf_slot) : string :=
  match name with
  | Sym_new_init => "sym_new_init"
  | Sym_init => "sym_init"
  | Sym_read => "sym_read"
  | Sym_finish => "sym_finish"
  | Sym_offsets => "sym_offsets"
  | Sym_segments => "sym_segments"
  | Sym_read_linetable => "sym_read_linetable"
  | Sym_relocate => "sym_relocate"
  end.

(** What a line of the log is about. *)
Inductive line_kind : Set :=
| Line_sf (name : sf_slot)
| Line_probes
| Line_qf.

#[export] Instance line_kind_eq_dec : EqDecision line_kind.
Proof. solve_decision. Defined.

(** How the line of a slot begins. *)
Definition sf_head (name : sf_slot) : string := "sf->" +:+ slot_name name +:+ " (".

(** What a reader of the log makes of a line, from how it begins. *)
Definition kind_of_line (line : string) : option line_kind :=
  match find (fun name => starts_with (sf_head name) line) all_slots with
  | Some name => Some (Line_sf name)
  | None =>
      if starts_with "probes->sym_get_probes (" line then Some Line_probes
      else if starts_with "qf->" line then Some Line_qf
      else None
  end.

(** The number of lines a query prints when it returns. *)
Definition query_lines (q : query) : nat :=
  match q with
  | Lookup_global_symbol_language _ _ => 0
  | Find_last_source_symtab | Map_symtabs_matching_filename _ _ _ | Lookup_symbol _ _ _
  | Find_pc_sect_compunit_symtab _ _ _ _ | Find_compunit_symtab_by_address _ => 2
  | _ => 1
  end.

(** The lines an event that returns prints with logging on, by kind. *)
Definition traced (ev : event) : list line_kind :=
  match ev with
  | Ev_call _ name _ => [Line_sf name]
  | Ev_get_probes _ => [Line_probes]
  | Ev_query _ q => replicate (query_lines q) Line_qf
  | _ => []
  end.

(** The flag after an event that returns. *)
Definition flag_after (ev : event) (flag : bool) : bool :=
  match ev with
  | Ev_set_debug_symfile value => value
  | _ => flag
  end.

(** The lines a run that returns prints, by kind, from the flag at its
    start. *)
Fixpoint trace_of (flag : bool) (evs : list event) : list line_kind :=
  match evs with
  | [] => []
  | ev :: evs' => (if flag then traced ev else []) ++ trace_of (flag_after ev flag) evs'
  end.

(** The events that leave logging off when it is off. *)
Definition keeps_off (ev : event) : bool :=
  match ev with
  | Ev_set_debug_symfile true => false
  | _ => true
  end.

Section Frames.
Context `{B : Backend} `{R : !Registry objfile_id data_addr}.

(** [s'] is [s] after bookkeeping: nothing was printed and no reader was
    called. *)
Record quiet (s s' : gdb_state) : Prop := {
  quiet_stdlog : gdb_stdlog s' = gdb_stdlog s;
  quiet_readers : readers s' = readers s
}.

(** The log of [s'] continues the log of [s]. *)
Definition log_grows (s s' : gdb_state) : Prop := gdb_stdlog s `prefix_of` gdb_stdlog s'.

End Frames.

Section Trace.
Context `{B : Backend} `{!BackendOk B} `{R : !Registry objfile_id data_addr}
  `{D : Display} `{Q : !Quick B}.

Local Open Scope gdb_scope.

(** ** Reading a line *)

Lemma kind_of_proxy_line name args retval :
  args_fit name args = true -> name <> Sym_segments ->
  kind_of_line (proxy_line name args retval) = Some (Line_sf name).
Proof. destruct name, args; try done; intros _ _; vm_compute; reflexivity. Qed.

Lemma kind_of_probes_line o data : kind_of_line (probes_line o data) = Some Line_probes.
Proof. vm_compute. reflexivity. Qed.

Lemma kind_of_query_lines this q a :
  answer_fits q a = true ->
  kind_of_line <$> (line_before this q ++ line_after this q a) =
  replicate (query_lines q) (Some Line_qf).
Proof. destruct q, a; try done; intros _; vm_compute; reflexivity. Qed.

(** ** The frames *)

#[export] Instance quiet_preorder : PreOrder quiet.
Proof.
  split; [done|]. intros s1 s2 s3 [Hl1 Hw1] [Hl2 Hw2]. split; congruence.
Qed.

#[export] Instance log_grows_preorder : PreOrder log_grows.
Proof. unfold log_grows. split; [by intros s|]. intros s1 s2 s3 H1 H2. by etrans. Qed.

Lemma quiet_log_grows s s' : quiet s s' -> log_grows s s'.
Proof. intros [Hl _]. unfold log_grows. by rewrite Hl. Qed.

Lemma io_step_log_grows s s' : io_step s s' -> log_grows s s'.
Proof. intros [_ _ _ _ _ [lines Hl]]. unfold log_grows. rewrite Hl. by apply prefix_app_r. Qed.

Lemma steps_weaken {A} (T T' : relation gdb_state) (m : G A) :
  (forall s s', T s s' -> T' s s') -> steps T m -> steps T' m.
Proof. intros HT Hm s s' Hfin. by apply HT, Hm. Qed.

(** ** Bookkeeping is quiet *)

Lemma quiet_set_objfile_sf objfile p : steps quiet (set_objfile_sf objfile p).
Proof. unfold set_objfile_sf. solve_steps. by apply steps_modify. Qed.

Lemma quiet_key_set objfile d : steps quiet (key_set objfile d).
Proof. intros s s'. unfold key_set. case_match; by intros [= <-]. Qed.

Lemma quiet_key_clear objfile : steps quiet (key_clear objfile).
Proof.
  intros s s'. unfold key_clear. repeat case_match; by intros [= <-].
Qed.

Lemma quiet_new_debug_sym_fns_data : steps quiet new_debug_sym_fns_data.
Proof. by intros s s' [= <-]. Qed.

Lemma quiet_store_debug_data d v : steps quiet (store_debug_data d v).
Proof. unfold store_debug_data. solve_steps. by apply steps_modify. Qed.

#[local] Hint Resolve quiet_set_objfile_sf quiet_key_set quiet_key_clear
  quiet_new_debug_sym_fns_data quiet_store_debug_data : steps.

Lemma quiet_symfile_debug_installed objfile : steps quiet (symfile_debug_installed objfile).
Proof. unfold symfile_debug_installed. solve_steps. case_bool_decide; solve_steps. Qed.

Lemma quiet_COPY_SF_PTR from to name func : steps quiet (COPY_SF_PTR from to name func).
Proof. unfold COPY_SF_PTR. solve_steps. Qed.

Lemma quiet_copy_sym_probe_fns from to : steps quiet (copy_sym_probe_fns from to).
Proof. unfold copy_sym_probe_fns. solve_steps. Qed.

Lemma quiet_set_real_sf to p : steps quiet (set_real_sf to p).
Proof. unfold set_real_sf. solve_steps. Qed.

#[local] Hint Resolve quiet_symfile_debug_installed quiet_COPY_SF_PTR quiet_copy_sym_probe_fns
  quiet_set_real_sf : steps.

Lemma quiet_install objfile : steps quiet (install_symfile_debug_logging objfile).
Proof. unfold install_symfile_debug_logging. solve_steps. Qed.

Lemma quiet_uninstall objfile : steps quiet (uninstall_symfile_debug_logging objfile).
Proof. unfold uninstall_symfile_debug_logging. solve_steps. Qed.

#[local] Hint Resolve quiet_install quiet_uninstall : steps.

Lemma quiet_objfile_set_sym_fns objfile sf : steps quiet (objfile_set_sym_fns objfile sf).
Proof.
  unfold objfile_set_sym_fns. solve_steps.
Qed.

Lemma quiet_set_debug_symfile_1 objfile : steps quiet (set_debug_symfile_1 objfile).
Proof.
  unfold set_debug_symfile_1. solve_steps.
  case_match; solve_steps.
Qed.

#[local] Hint Resolve quiet_set_debug_symfile_1 : steps.

Lemma quiet_set_debug_symfile : steps quiet set_debug_symfile.
Proof. unfold set_debug_symfile. solve_steps. Qed.

#[local] Hint Resolve quiet_objfile_set_sym_fns quiet_set_debug_symfile : steps.

Lemma quiet_set_debug_symfile_command value : steps quiet (set_debug_symfile_command value).
Proof. unfold set_debug_symfile_command. solve_steps. by apply steps_modify. Qed.

Lemma quiet_new_objfile pspace fl : steps quiet (new_objfile pspace fl).
Proof. intros s s'. unfold new_objfile. destruct (program_spaces s !! pspace); by intros [= <-]. Qed.

#[local] Hint Resolve quiet_new_objfile : steps.

Lemma quiet_load_objfile pspace fl sf : steps quiet (load_objfile pspace fl sf).
Proof. unfold load_objfile. solve_steps. Qed.

Lemma quiet_free_objfile objfile : steps quiet (free_objfile objfile).
Proof.
  unfold free_objfile. solve_steps. by apply steps_modify.
Qed.

Lemma run_event_quiet ev : is_io ev = false -> steps quiet (run_event ev).
Proof.
  destruct ev; try done; intros _; cbn [run_event];
    [apply quiet_set_debug_symfile_command|apply quiet_objfile_set_sym_fns
    | |apply quiet_free_objfile].
  apply steps_bind; [apply _|apply quiet_load_objfile|solve_steps].
Qed.

Lemma run_event_log_grows ev : steps log_grows (run_event ev).
Proof.
  destruct (is_io ev) eqn:Hio.
  - eapply steps_weaken; [apply io_step_log_grows|by apply run_event_io].
  - eapply steps_weaken; [apply quiet_log_grows|by apply run_event_quiet].
Qed.

(** ** One event *)

Lemma then_ret_inv {A} (m : G A) s s' :
  (m ;; ret tt) s = Ret tt s' -> exists v, m s = Ret v s'.
Proof. unfold bind. destruct (m s) as [v s1| | | |]; [|done..]. intros [= <-]. by exists v. Qed.

Lemma consistent_on_shadowed s o :
  wf s -> consistent s -> debug_symfile s = true -> is_Some (objfiles s !! o) ->
  exists t, shadowed s o t.
Proof.
  intros Hwf Hc Hon Ho. pose proof Ho as [ob Hob].
  destruct (wf_cases _ _ _ Hwf Hob) as [|Hpl]; [done|].
  destruct (Hc o Ho) as [Hin _]. rewrite (plain_is_installed _ _ _ Hpl), Hon in Hin. done.
Qed.

Lemma consistent_off_plain s o ob :
  wf s -> consistent s -> debug_symfile s = false -> objfiles s !! o = Some ob ->
  plain s o (sf ob).
Proof.
  intros Hwf Hc Hoff Hob. destruct (wf_cases _ _ _ Hwf Hob) as [[t Hsh]|]; [|done].
  destruct (Hc o (mk_is_Some _ _ Hob)) as [Hin _].
  rewrite (shadowed_is_installed _ _ _ Hsh), Hoff in Hin. done.
Qed.

(** The flag after an event that is not the command is the flag before. *)
Lemma run_event_flag ev s s' :
  wf s -> consistent s -> final_state (run_event ev s) = Some s' ->
  debug_symfile s' = flag_after ev (debug_symfile s) \/
  exists value, ev = Ev_set_debug_symfile value /\ debug_symfile s' = value.
Proof.
  intros Hwf Hc Hfin. destruct (is_io ev) eqn:Hio.
  { left. rewrite (io_debug_symfile s s'); [by destruct ev|by apply (run_event_io ev)]. }
  destruct ev as [value|objfile sf| | | |pspace fl sf|objfile]; try done.
  - destruct (set_debug_symfile_command_spec _ _ _ Hwf Hfin) as (_ & _ & ? & _). eauto.
  - destruct (objfile_set_sym_fns_event _ _ _ _ Hwf Hc Hfin) as (_ & _ & Hse & _).
    left. apply (se_debug_symfile _ _ _ Hse).
  - destruct (load_objfile_event _ _ _ _ _ Hwf Hc Hfin) as (_ & _ & Hgr & _).
    left. apply (gr_debug_symfile _ _ _ Hgr).
  - destruct (free_objfile_event _ _ _ Hwf Hc Hfin) as (_ & _ & Hg).
    left. apply (gn_debug_symfile _ _ _ Hg).
Qed.

Lemma run_event_flag_after ev s s' :
  wf s -> consistent s -> final_state (run_event ev s) = Some s' ->
  debug_symfile s' = flag_after ev (debug_symfile s).
Proof.
  intros Hwf Hc Hfin. by destruct (run_event_flag ev s s' Hwf Hc Hfin) as [|(v & -> & ?)].
Qed.

(** The lines of a call through an objfile's table. *)
Lemma call_log o name args v s s' :
  wf s -> consistent s -> well_formed_event (Ev_call o name args) = true ->
  call_sf 1 o name args s = Ret v s' ->
  exists new, gdb_stdlog s' = gdb_stdlog s ++ new /\
    kind_of_line <$> new = if debug_symfile s then [Some (Line_sf name)] else [].
Proof.
  intros Hwf Hc [Hfit Ho%bool_decide_eq_true]%andb_true_iff Hrun.
  destruct (objfiles s !! o) as [ob|] eqn:Hob; [|by rewrite call_sf_dead in Hrun].
  destruct (debug_symfile s) eqn:Hflag.
  - destruct (consistent_on_shadowed s o Hwf Hc Hflag) as [t Hsh]; [done|].
    destruct (call_sf_shadowed_log _ _ _ _ _ _ _ _ Hsh Hfit Ho Hrun) as (Hseg & retval & Hlog).
    eexists. split; [done|]. cbn. by rewrite kind_of_proxy_line.
  - exists []. rewrite app_nil_r. split; [|done].
    apply (call_sf_plain_log 1 o name args (sf ob));
      [by apply consistent_off_plain|by rewrite Hrun].
Qed.

Lemma get_probes_log o v s s' :
  wf s -> consistent s -> call_get_probes 1 o s = Ret v s' ->
  exists new, gdb_stdlog s' = gdb_stdlog s ++ new /\
    kind_of_line <$> new = if debug_symfile s then [Some Line_probes] else [].
Proof.
  intros Hwf Hc Hrun.
  destruct (objfiles s !! o) as [ob|] eqn:Hob.
  2:{ unfold call_get_probes, bind in Hrun. by rewrite objfile_sf_dead in Hrun. }
  destruct (debug_symfile s) eqn:Hflag.
  - destruct (consistent_on_shadowed s o Hwf Hc Hflag) as [t Hsh]; [done|].
    destruct (call_get_probes_shadowed_log _ _ _ _ _ _ Hsh Hrun) as (data & Hlog).
    eexists. split; [done|]. cbn. by rewrite kind_of_probes_line.
  - exists []. rewrite app_nil_r. split; [|done].
    apply (call_get_probes_plain_log 1 o (sf ob));
      [by apply consistent_off_plain|by rewrite Hrun].
Qed.

Lemma query_log this q a s s' :
  run_query this q s = Ret a s' ->
  exists new, gdb_stdlog s' = gdb_stdlog s ++ new /\
    kind_of_line <$> new =
    if debug_symfile s then replicate (query_lines q) (Some Line_qf) else [].
Proof.
  rewrite run_query_eq. unfold reference_query.
  destruct (objfiles s !! this) as [ob|]; [|done].
  assert (forall w a, answer_fits q a = true ->
    s' = touched w (if_logging s (line_before this q ++ line_after this q a)) s ->
    exists new, gdb_stdlog s' = gdb_stdlog s ++ new /\
      kind_of_line <$> new =
      if debug_symfile s then replicate (query_lines q) (Some Line_qf) else []) as Hfin.
  { intros w a' Hfit ->. eexists. split; [done|]. unfold if_logging.
    destruct (debug_symfile s); [by apply kind_of_query_lines|done]. }
  destruct (qf ob) as [qid|].
  - destruct (quick_method this ob q qid (readers s)) as [a' w|] eqn:Hm; intros [= <- <-].
    apply (Hfin w a'); [by eapply quick_method_fits|done].
  - intros [= <- <-]. apply (Hfin (readers s) (no_answer q)); [apply no_answer_fits|done].
Qed.

Lemma query_log_off this q s s' :
  debug_symfile s = false -> final_state (run_query this q s) = Some s' ->
  gdb_stdlog s' = gdb_stdlog s.
Proof.
  intros Hoff. rewrite run_query_eq. unfold reference_query, if_logging. rewrite Hoff.
  destruct (objfiles s !! this) as [ob|]; [|done].
  destruct (qf ob) as [qid|]; [destruct (quick_method this ob q qid (readers s))|];
    intros [= <-]; cbn; by rewrite app_nil_r.
Qed.

Lemma fmap_replicate {A C} (f : A -> C) n x : f <$> replicate n x = replicate n (f x).
Proof. induction n; [done|]. cbn. by f_equal. Qed.

(** An event that returns has appended its lines, and nothing else. *)
Lemma event_log ev s s' :
  wf s -> consistent s -> well_formed_event ev = true -> run_event ev s = Ret tt s' ->
  exists new, gdb_stdlog s' = gdb_stdlog s ++ new /\
    kind_of_line <$> new = Some <$> (if debug_symfile s then traced ev else []).
Proof.
  intros Hwf Hc Hev Hrun. destruct (is_io ev) eqn:Hio.
  2:{ exists []. rewrite app_nil_r. split.
      - apply (run_event_quiet ev Hio s s'). by rewrite Hrun.
      - destruct ev, (debug_symfile s); done. }
  destruct ev as [| |o name args|o|o q| |]; try done; cbn [run_event] in Hrun;
    apply then_ret_inv in Hrun as [v Hrun]; cbn [traced].
  - destruct (call_log _ _ _ _ _ _ Hwf Hc Hev Hrun) as (new & ? & Hk).
    exists new. split; [done|]. rewrite Hk. by destruct (debug_symfile s).
  - destruct (get_probes_log _ _ _ _ Hwf Hc Hrun) as (new & ? & Hk).
    exists new. split; [done|]. rewrite Hk. by destruct (debug_symfile s).
  - destruct (query_log _ _ _ _ _ Hrun) as (new & ? & Hk).
    exists new. split; [done|]. rewrite Hk. destruct (debug_symfile s); [|done].
    by rewrite fmap_replicate.
Qed.

(** ** Runs *)

Lemma run_events_cons ev evs s :
  run_events (ev :: evs) s = (run_event ev ;; run_events evs) s.
Proof. reflexivity. Qed.

Lemma run_events_log evs s s' :
  wf s -> consistent s -> forallb well_formed_event evs = true ->
  run_events evs s = Ret tt s' ->
  exists new, gdb_stdlog s' = gdb_stdlog s ++ new /\
    kind_of_line <$> new = Some <$> trace_of (debug_symfile s) evs.
Proof.
  revert s. induction evs as [|ev evs IH]; intros s Hwf Hc Hevs.
  { intros [= <-]. exists []. by rewrite app_nil_r. }
  apply andb_true_iff in Hevs as [Hev Hevs]. rewrite run_events_cons. unfold bind.
  destruct (run_event ev s) as [[] s1| | | |] eqn:Hrun; try done. intros Hrest.
  assert (final_state (run_event ev s) = Some s1) as Hfin by (by rewrite Hrun).
  destruct (run_event_invariant ev s s1 Hwf Hc Hfin) as [Hwf1 Hc1].
  destruct (event_log ev s s1 Hwf Hc Hev Hrun) as (new1 & Hlog1 & Hk1).
  destruct (IH s1 Hwf1 Hc1 Hevs Hrest) as (new2 & Hlog2 & Hk2).
  exists (new1 ++ new2). split; [by rewrite Hlog2, Hlog1, app_assoc|].
  rewrite (run_event_flag_after ev s s1 Hwf Hc Hfin) in Hk2.
  cbn [trace_of]. by rewrite !fmap_app, Hk1, Hk2.
Qed.

Lemma event_silent ev s s' :
  wf s -> consistent s -> debug_symfile s = false -> keeps_off ev = true ->
  final_state (run_event ev s) = Some s' ->
  gdb_stdlog s' = gdb_stdlog s /\ debug_symfile s' = false.
Proof.
  intros Hwf Hc Hoff Hev Hfin. split.
  2:{ rewrite (run_event_flag_after ev s s' Hwf Hc Hfin). by destruct ev as [[]| | | | | |]. }
  destruct (is_io ev) eqn:Hio; [|by apply (run_event_quiet ev Hio s s')].
  destruct ev as [| |o name args|o|o q| |]; try done; cbn [run_event] in Hfin.
  - destruct (objfiles s !! o) as [ob|] eqn:Hob.
    2:{ unfold bind in Hfin. by rewrite call_sf_dead in Hfin. }
    pose proof (consistent_off_plain s o ob Hwf Hc Hoff Hob) as Hpl.
    unfold bind in Hfin. destruct (call_sf 1 o name args s) as [v s1|e s1|m s1| |] eqn:Hrun;
      simplify_eq/=; apply (call_sf_plain_log 1 o name args _ _ _ Hpl); by rewrite Hrun.
  - destruct (objfiles s !! o) as [ob|] eqn:Hob.
    2:{ unfold bind, call_get_probes, bind in Hfin. by rewrite objfile_sf_dead in Hfin. }
    pose proof (consistent_off_plain s o ob Hwf Hc Hoff Hob) as Hpl.
    unfold bind in Hfin. destruct (call_get_probes 1 o s) as [v s1|e s1|m s1| |] eqn:Hrun;
      simplify_eq/=; apply (call_get_probes_plain_log 1 o _ _ _ Hpl); by rewrite Hrun.
  - unfold bind in Hfin. destruct (run_query o q s) as [v s1|e s1|m s1| |] eqn:Hrun;
      simplify_eq/=; apply (query_log_off o q); try done; by rewrite Hrun.
Qed.

Lemma run_events_log_grows evs : steps log_grows (run_events evs).
Proof. apply steps_for_each; [apply _|]. apply run_event_log_grows. Qed.

Lemma run_events_silent evs s s' :
  wf s -> consistent s -> debug_symfile s = false -> forallb keeps_off evs = true ->
  final_state (run_events evs s) = Some s' ->
  gdb_stdlog s' = gdb_stdlog s /\ debug_symfile s' = false.
Proof.
  revert s. induction evs as [|ev evs IH]; intros s Hwf Hc Hoff Hevs; [by intros [= <-]|].
  apply andb_true_iff in Hevs as [Hev Hevs]. rewrite run_events_cons. unfold bind.
  destruct (run_event ev s) as [[] s1|e s1|m s1| |] eqn:Hrun; try done;
    (assert (final_state (run_event ev s) = Some s1) as Hfin by (by rewrite Hrun));
    destruct (event_silent ev s s1 Hwf Hc Hoff Hev Hfin) as [Hlog1 Hoff1];
    [|by intros [= <-]..].
  destruct (run_event_invariant ev s s1 Hwf Hc Hfin) as [Hwf1 Hc1]. intros Hrest.
  destruct (IH s1 Hwf1 Hc1 Hoff1 Hevs Hrest) as [Hlog2 Hoff2]. split; congruence.
Qed.

(** ** The scenario of the specification *)

(** Logging goes on: the objfile is instrumented around its table. *)
Lemma scenario_on M t s :
  initial s -> plain s M (SfStatic t) ->
  (forall o ob, objfiles s !! o = Some ob -> sf ob <> SfNull) ->
  exists s1, run_event (Ev_set_debug_symfile true) s = Ret tt s1 /\
    wf s1 /\ consistent s1 /\ shadowed s1 M t /\ debug_symfile s1 = true /\
    gdb_stdlog s1 = gdb_stdlog s /\ readers s1 = readers s.
Proof.
  intros (Hwf & Hoff & Hno) Hpl Hnn.
  destruct (set_debug_symfile_command_ok true s Hwf (fun _ => Hnn))
    as (s1 & Hrun & Hwf1 & Hc1 & Hon1 & Hst).
  exists s1. split_and!; [done..| |done|apply (st_stdlog _ _ Hst)|apply (st_readers _ _ Hst)].
  destruct (consistent_on_shadowed s1 M Hwf1 Hc1 Hon1) as [t' Hsh].
  { apply (st_valid _ _ Hst). by apply (plain_valid s M (SfStatic t)). }
  pose proof (shadowed_real_table _ _ _ Hsh) as Hr.
  rewrite (st_real_table _ _ Hst) in Hr.
  change (real_table s M = Some (SfStatic t')) in Hr.
  rewrite (plain_real_table _ _ _ Hpl) in Hr. by simplify_eq.
Qed.

(** Logging goes off: the objfile uses its table again. *)
Lemma scenario_off M t s :
  wf s -> shadowed s M t ->
  exists s', run_event (Ev_set_debug_symfile false) s = Ret tt s' /\
    wf s' /\ consistent s' /\ plain s' M (SfStatic t) /\ debug_symfile s' = false /\
    gdb_stdlog s' = gdb_stdlog s /\ readers s' = readers s.
Proof.
  intros Hwf Hsh. destruct (set_debug_symfile_off_run s Hwf) as (s' & Hrun & Hinit & Hst).
  pose proof Hinit as (Hwf' & Hoff & Hno).
  exists s'. split_and!;
    [done|done|by apply initial_consistent| |done|apply (st_stdlog _ _ Hst)
    |apply (st_readers _ _ Hst)].
  destruct (proj2 (st_valid _ _ Hst M) (shadowed_valid _ _ _ Hsh)) as [ob Hob].
  destruct (uninstrumented_empty s' Hwf' Hno) as (_ & _ & Hplain).
  pose proof (Hplain M ob Hob) as Hpl. pose proof (plain_real_table _ _ _ Hpl) as Hr.
  rewrite (st_real_table _ _ Hst) in Hr.
  change (real_table s M = Some (sf ob)) in Hr.
  rewrite (shadowed_real_table _ _ _ Hsh) in Hr. injection Hr as Hr. by rewrite Hr.
Qed.

(** A call that returns, with logging on and with logging off. *)
Lemma call_event_on o name args t c v w s :
  shadowed s o t -> sf_get name (sf_table t) = Some (FnNative c) ->
  logs_before name = true -> args_fit name args = true -> args_objfile args = Some o ->
  native c args (readers s) = NReturn v w ->
  run_event (Ev_call o name args) s = Ret tt (touched w [proxy_line name args 0] s).
Proof.
  intros Hsh Hc Hb Hfit Ho Hn. cbn [run_event]. unfold bind.
  by rewrite (call_sf_logs_then_forwards_run _ _ _ _ _ _ _ Hsh Hc Hb Hfit Ho), Hn.
Qed.

Lemma call_event_off o name args t c v w s :
  plain s o (SfStatic t) -> sf_get name (sf_table t) = Some (FnNative c) ->
  native c args (readers s) = NReturn v w ->
  run_event (Ev_call o name args) s = Ret tt (with_readers w s).
Proof.
  intros Hpl Hc Hn. cbn [run_event]. unfold bind.
  by rewrite (call_sf_plain _ _ _ _ _ _ Hpl), Hc, call_slot_native, invoke_native,
    call_native_run, Hn.
Qed.

(** C13. The scenario of the specification (section 8).  An objfile [M]
    has a table with [sym_read] populated and [sym_finish] absent.
    Turning logging on returns and leaves [M] with a table whose
    [sym_read] is the proxy and whose [sym_finish] is absent; a call of
    [sym_read] with [M] and the flags then returns after the reader's
    function ran; turning logging off returns and leaves [M] with the
    pointer to its own table; a second call returns after the reader's
    function ran again.  The log has gained exactly one line, the line of
    the first call, which reads back as a line of [sym_read]: the proxy of a [void] slot prints before the call and
    nothing after it, and nothing is printed once logging is off. *)
Theorem spec_scenario M t c symfile_flags v1 w1 v2 w2 s :
  initial s -> plain s M (SfStatic t) ->
  (forall o ob, objfiles s !! o = Some ob -> sf ob <> SfNull) ->
  sym_read (sf_table t) = Some (FnNative c) -> sym_finish (sf_table t) = None ->
  native c (Args_read M symfile_flags) (readers s) = NReturn v1 w1 ->
  native c (Args_read M symfile_flags) w1 = NReturn v2 w2 ->
  exists s1 s2 s3 s4 shadow,
    run_event (Ev_set_debug_symfile true) s = Ret tt s1 /\
    active_table s1 M = Some shadow /\
    sym_read shadow = Some (FnDebug Debug_sym_read) /\ sym_finish shadow = None /\
    run_event (Ev_call M Sym_read (Args_read M symfile_flags)) s1 = Ret tt s2 /\
    run_event (Ev_set_debug_symfile false) s2 = Ret tt s3 /\
    plain s3 M (SfStatic t) /\
    run_event (Ev_call M Sym_read (Args_read M symfile_flags)) s3 = Ret tt s4 /\
    gdb_stdlog s4 =
      gdb_stdlog s ++ ["sf->sym_read (" +:+ objfile_debug_name M +:+ ", "
                       +:+ fmt_0x symfile_flags +:+ ")" +:+ nl] /\
    kind_of_line <$> drop (length (gdb_stdlog s)) (gdb_stdlog s4) = [Some (Line_sf Sym_read)] /\
    readers s4 = w2.
Proof.
  intros Hinit Hpl Hnn Hread Hfinish Hn1 Hn2.
  destruct (scenario_on M t s Hinit Hpl Hnn) as (s1 & Hrun1 & Hwf1 & Hc1 & Hsh1 & Hon1 & Hl1 & Hw1).
  rewrite <- Hw1 in Hn1.
  pose proof (call_event_on M Sym_read (Args_read M symfile_flags) t c v1 w1 s1 Hsh1 Hread
                eq_refl eq_refl eq_refl Hn1)
    as Hrun2.
  set (s2 := touched w1 [proxy_line Sym_read (Args_read M symfile_flags) 0] s1) in Hrun2.
  assert (wf s2) as Hwf2 by (by apply (wf_io_step s1); [apply io_step_touched|]).
  destruct (scenario_off M t s2 Hwf2 Hsh1) as (s3 & Hrun3 & Hwf3 & Hc3 & Hpl3 & Hoff3 & Hl3 & Hw3).
  assert (native c (Args_read M symfile_flags) (readers s3) = NReturn v2 w2) as Hn3
    by (by rewrite Hw3).
  exists s1, s2, s3, (with_readers w2 s3), (shadow_of (sf_table t)).
  assert (gdb_stdlog (with_readers w2 s3) =
          gdb_stdlog s ++ [proxy_line Sym_read (Args_read M symfile_flags) 0]) as Hlog
    by (cbn [gdb_stdlog with_readers]; rewrite Hl3; cbn; by rewrite Hl1).
  split_and!; [done|by apply shadowed_active_table| | |done|done|done| |done| |done].
  - by rewrite (sf_get_shadow_of Sym_read), (populated_Some Sym_read _ _ Hread).
  - by rewrite (sf_get_shadow_of Sym_finish), (populated_None Sym_finish _ Hfinish).
  - by apply (call_event_off M Sym_read (Args_read M symfile_flags) t c v2).
  - rewrite Hlog, drop_app_length. cbn [fmap list_fmap]. by rewrite kind_of_proxy_line.
Qed.

(** ** Theorems *)

(** C24. Two kinds of events.  In every state, well formed or not, a call
    through an objfile's table, a call of the probes and a query leave the
    objfiles, the program spaces, the registry, the records and the flag as
    they were: they only append to the log and move the readers' world.
    Every other event (the command, [objfile_set_sym_fns], the loading and
    the destruction of an objfile) prints nothing and calls no reader,
    whatever it installs or removes and however it ends. *)
Theorem event_frames ev :
  if is_io ev then steps io_step (run_event ev) else steps quiet (run_event ev).
Proof. destruct (is_io ev) eqn:Hio; [by apply run_event_io|by apply run_event_quiet]. Qed.

(** C11. The log is the trace of the calls.  A run of events that returns,
    from a well-formed state in which every live objfile is instrumented
    exactly when [debug_symfile] is set, the calls naming the objfile whose
    table they go through, has appended to the log one line for each call
    of a slot and each call of the probes, and the lines of each query,
    made while [debug_symfile] was set, in the order of the calls: read
    back by how they begin, the new lines name the slots called.  Nothing
    is printed for an event while the flag is clear, nor by the command, the
    guard, a load or a destruction. *)
Theorem log_is_trace evs s s' :
  wf s -> consistent s -> forallb well_formed_event evs = true ->
  run_events evs s = Ret tt s' ->
  exists new, gdb_stdlog s' = gdb_stdlog s ++ new /\
    kind_of_line <$> new = Some <$> trace_of (debug_symfile s) evs.
Proof. apply run_events_log. Qed.

(** C15. Silent when off.  From a well-formed state with [debug_symfile]
    clear and no objfile instrumented, a run of any events but [set debug
    symfile on], with any arguments and however it ends, leaves the log as
    it was and the flag clear. *)
Theorem silent_when_off evs s s' :
  wf s -> consistent s -> debug_symfile s = false -> forallb keeps_off evs = true ->
  final_state (run_events evs s) = Some s' ->
  gdb_stdlog s' = gdb_stdlog s /\ debug_symfile s' = false.
Proof. apply run_events_silent. Qed.

End Trace.

(** ** The theorems at the sample states *)

Local Open Scope gdb_scope.

Lemma spec_scenario_witness :
  exists s1 s2 s3 s4 shadow,
    run_event (Ev_set_debug_symfile true) sample_state = Ret tt s1 /\
    active_table s1 1%positive = Some shadow /\
    sym_read shadow = Some (FnDebug Debug_sym_read) /\ sym_finish shadow = None /\
    run_event (Ev_call 1%positive Sym_read (Args_read 1%positive 1)) s1 = Ret tt s2 /\
    run_event (Ev_set_debug_symfile false) s2 = Ret tt s3 /\
    plain s3 1%positive (SfStatic 1) /\
    run_event (Ev_call 1%positive Sym_read (Args_read 1%positive 1)) s3 = Ret tt s4 /\
    gdb_stdlog s4 =
      gdb_stdlog sample_state ++ ["sf->sym_read (" +:+ objfile_debug_name 1%positive +:+ ", "
                                  +:+ fmt_0x 1 +:+ ")" +:+ nl] /\
    kind_of_line <$> drop (length (gdb_stdlog sample_state)) (gdb_stdlog s4) =
      [Some (Line_sf Sym_read)] /\
    readers s4 = [(10%N, Args_read 1%positive 1); (10%N, Args_read 1%positive 1)].
Proof.
  apply (spec_scenario (B:=sample_backend) 1%positive 1 10 1 Val_void
           [(10%N, Args_read 1%positive 1)] Val_void);
    [apply sample_state_initial|apply sample_plain_1|apply sample_state_no_null_sf
    |reflexivity..].
Defined.

Lemma sample_run_on :
  exists s',
    run_events [Ev_set_debug_symfile true;
                Ev_call 1%positive Sym_read (Args_read 1%positive 1)] sample_state =
    Ret tt s'.
Proof.
  destruct (scenario_on (B:=sample_backend) 1%positive 1 sample_state sample_state_initial
              sample_plain_1 sample_state_no_null_sf) as (s1 & Hrun1 & _ & _ & Hsh1 & _ & _ & Hw1).
  eexists. rewrite run_events_cons. unfold bind at 1. rewrite Hrun1.
  rewrite run_events_cons. unfold bind at 1.
  rewrite (call_event_on (B:=sample_backend) 1%positive Sym_read (Args_read 1%positive 1) 1 10
             Val_void (readers s1 ++ [(10%N, Args_read 1%positive 1)]) s1 Hsh1
             eq_refl eq_refl eq_refl eq_refl eq_refl).
  reflexivity.
Qed.

Lemma log_is_trace_witness :
  exists s' new,
    run_events [Ev_set_debug_symfile true;
                Ev_call 1%positive Sym_read (Args_read 1%positive 1)] sample_state =
      Ret tt s' /\
    gdb_stdlog s' = gdb_stdlog sample_state ++ new /\
    kind_of_line <$> new = Some <$> [Line_sf Sym_read].
Proof.
  destruct sample_run_on as [s' Hrun]. exists s'.
  destruct (log_is_trace (B:=sample_backend)
              [Ev_set_debug_symfile true; Ev_call 1%positive Sym_read (Args_read 1%positive 1)]
              sample_state s' sample_state_wf
              (initial_consistent _ sample_state_initial) eq_refl Hrun) as (new & Hlog & Hk).
  by exists new.
Defined.

Lemma silent_when_off_witness :
  gdb_stdlog (with_readers [(10%N, Args_read 1%positive 1)] sample_state) =
    gdb_stdlog sample_state /\
  debug_symfile (with_readers [(10%N, Args_read 1%positive 1)] sample_state) = false.
Proof.
  apply (silent_when_off (B:=sample_backend)
           [Ev_call 1%positive Sym_read (Args_read 1%positive 1)] sample_state);
    [apply sample_state_wf|apply initial_consistent, sample_state_initial|reflexivity..|].
  rewrite run_events_cons. unfold bind.
  by rewrite (call_event_off (B:=sample_backend) 1%positive Sym_read _ 1 10 Val_void
                ([(10%N, Args_read 1%positive 1)] : @world sample_backend) sample_state
                sample_plain_1 eq_refl eq_refl).
Defined.
