(* ===== verification/Bre.v ===== *)
(** * Bre: the sed command of the test for Bison

    Line 686 of the source file reads the version of Bison with
    [sed -n 's/^.*GNU Bison.* \([0-9]*\.[0-9.]*\).*$/\1/p']: a basic regular
    expression anchored at both ends, made of single characters, of sets
    of characters repeated any number of times, and of one group.  This
    file has such expressions as lists of pieces, a matcher that tries the
    longest repetition first and backs off, and the theorems that the
    matcher finds a match exactly when there is one and that the match it
    finds is the one POSIX prescribes: each piece, from left to right, as
    long as the rest allows.  For the command of line 686 they give what
    it prints: a version that stands in the line, and the version the
    line ends in when it ends in one. *)

From stdpp Require Import base tactics option list strings.
From Stdlib Require Import Ascii.
From S2P Require Import Prelude Render.

(** A piece of a basic regular expression: one character of a set, or any
    number of them. *)
Inductive piece : Type :=
| One (p : ascii -> bool)
| Many (p : ascii -> bool).

(** All characters of [w] are in the set [p]. *)
Fixpoint string_forall (p : ascii -> bool) (w : string) : bool :=
  match w with
  | EmptyString => true
  | String c w' => p c && string_forall p w'
  end.

(** [p*] followed by [rest]: the longest run of [p] after which [rest]
    matches, and what [rest] gives there. *)
Definition match_many (p : ascii -> bool) (rest : string -> option (list string)) :
    string -> option (string * list string) :=
  fix many (s : string) :=
    match s with
    | String c s' =>
        if p c then
          match many s' with
          | Some (w, ws) => Some (String c w, ws)
          | None => pair EmptyString <$> rest s
          end
        else pair EmptyString <$> rest s
    | EmptyString => pair EmptyString <$> rest s
    end.

(** [^ps$] on [s]: the text each piece matches, the longest first. *)
Fixpoint match_pieces (ps : list piece) (s : string) {struct ps} : option (list string) :=
  match ps with
  | [] => match s with EmptyString => Some [] | _ => None end
  | One p :: ps' =>
      match s with
      | String c s' => if p c then cons (String c EmptyString) <$> match_pieces ps' s' else None
      | EmptyString => None
      end
  | Many p :: ps' => (fun r => r.1 :: r.2) <$> match_many p (match_pieces ps') s
  end.

(** [ws] is a match of [^ps$] on [s]: the texts of the pieces, in order,
    make up [s]. *)
Inductive Matches : list piece -> string -> list string -> Prop :=
| Matches_nil : Matches [] EmptyString []
| Matches_one p ps c s ws :
    p c = true -> Matches ps s ws ->
    Matches (One p :: ps) (String c s) (String c EmptyString :: ws)
| Matches_many p ps w s ws :
    string_forall p w = true -> Matches ps s ws ->
    Matches (Many p :: ps) (w +:+ s) (w :: ws).

(** The lengths of the texts, compared from the left: the order in which
    POSIX prefers one match to another. *)
Fixpoint prefers (ws1 ws2 : list string) : Prop :=
  match ws1, ws2 with
  | w1 :: ws1', w2 :: ws2' =>
      String.length w2 < String.length w1 \/
      String.length w1 = String.length w2 /\ prefers ws1' ws2'
  | _, _ => True
  end.

(** [^ps$] matches [s]. *)
Definition Accepts (ps : list piece) (s : string) : Prop := exists ws, Matches ps s ws.

(** Any character but [c]. *)
Definition is_not (c : ascii) (c' : ascii) : bool := negb (bool_decide (c' = c)).

(** The characters of the expression. *)
Definition any_char (c : ascii) : bool := negb (bool_decide (c = "010"%char)).
Definition is_digit (c : ascii) : bool :=
  (48 <=? nat_of_ascii c)%nat && (nat_of_ascii c <=? 57)%nat.
Definition is_digit_or_dot (c : ascii) : bool := is_digit c || bool_decide (c = "."%char).

Fixpoint literal (s : string) : list piece :=
  match s with
  | EmptyString => []
  | String c s' => One (fun c' => bool_decide (c' = c)) :: literal s'
  end.

(** [^.*GNU Bison.* ], [\([0-9]*\.[0-9.]*\)], [.*$]. *)
Definition bison_before : list piece :=
  [Many any_char] ++ literal "GNU Bison" ++ [Many any_char] ++ literal " ".
Definition bison_group : list piece :=
  [Many is_digit] ++ literal "." ++ [Many is_digit_or_dot].
Definition bison_after : list piece := [Many any_char].

(** [.* \([0-9]*\.[0-9.]*\).*$], what follows [GNU Bison]. *)
Definition bison_tail : list piece :=
  [Many any_char] ++ literal " " ++ bison_group ++ bison_after.

Fixpoint concat_strings (ws : list string) : string :=
  match ws with
  | [] => EmptyString
  | w :: ws' => w +:+ concat_strings ws'
  end.

(** [s/^before\(group\)after$/\1/p] on a line, under [-n]: the text of
    the group when the line matches, nothing when it does not. *)
Definition sed_group (before group after : list piece) (line : string) : option string :=
  match match_pieces (before ++ group ++ after) line with
  | Some ws => Some (concat_strings (take (length group) (drop (length before) ws)))
  | None => None
  end.

(** The sed command of line 686 on a line. *)
Definition sed_bison (line : string) : option string :=
  sed_group bison_before bison_group bison_after line.

(** The lines sed prints, as the command substitution returns them: one
    after the other with a newline between. *)
Fixpoint join_lines (l : list string) : string :=
  match l with
  | [] => EmptyString
  | [w] => w
  | w :: l' => w +:+ nl +:+ join_lines l'
  end.

(** [`... | sed -n 's/^.*GNU Bison.* \([0-9]*\.[0-9.]*\).*$/\1/p'`] on the
    lines printed. *)
Definition bison_version_of (lines : list string) : string :=
  join_lines (omap sed_bison lines).

(** ** Strings *)

#[local] Arguments String.append !_ _ / : simpl nomatch.

Lemma string_app_nil_r (a : string) : a +:+ EmptyString = a.
Proof. induction a; simpl; congruence. Qed.

Lemma string_app_length (a b : string) :
  String.length (a +:+ b) = String.length a + String.length b.
Proof. induction a; simpl; congruence. Qed.

(** Two prefixes of a text that have the same length are the same. *)
Lemma string_app_inj_length (a1 a2 b1 b2 : string) :
  a1 +:+ b1 = a2 +:+ b2 -> String.length a1 = String.length a2 -> a1 = a2 /\ b1 = b2.
Proof.
  revert a2. induction a1 as [|c a1 IH]; intros [|c2 a2]; simpl; try done.
  intros [= -> H] [= Hl]. by destruct (IH _ H Hl) as [-> ->].
Qed.

Lemma string_forall_app p (a b : string) :
  string_forall p (a +:+ b) = string_forall p a && string_forall p b.
Proof. induction a; simpl; [done|]. by rewrite IHa, andb_assoc. Qed.

(** ** The repetition *)

Section Many.
Context (p : ascii -> bool) (rest : string -> option (list string)).

Lemma match_many_cons c s :
  match_many p rest (String c s) =
  if p c then
    match match_many p rest s with
    | Some (w, ws) => Some (String c w, ws)
    | None => pair EmptyString <$> rest (String c s)
    end
  else pair EmptyString <$> rest (String c s).
Proof. reflexivity. Qed.

Lemma match_many_sound s w ws :
  match_many p rest s = Some (w, ws) ->
  exists s', s = w +:+ s' /\ string_forall p w = true /\ rest s' = Some ws.
Proof.
  revert w ws. induction s as [|c s IH]; intros w ws; simpl.
  - destruct (rest _) eqn:E; intros [= <- <-]. by exists EmptyString.
  - destruct (p c) eqn:Hc; [destruct (match_many p rest s) as [[w' ws']|] eqn:Hm|].
    + intros [= <- <-]. destruct (IH _ _ eq_refl) as (s' & -> & Hw & Hr).
      exists s'. simpl. by rewrite Hc, Hw.
    + destruct (rest _) eqn:E; intros [= <- <-]. by exists (String c s).
    + destruct (rest _) eqn:E; intros [= <- <-]. by exists (String c s).
Qed.

Lemma match_many_complete w s' :
  string_forall p w = true -> is_Some (rest s') -> is_Some (match_many p rest (w +:+ s')).
Proof.
  intros Hw [ws Hr]. induction w as [|c w IH]; simpl in Hw.
  - change (is_Some (match_many p rest s')).
    destruct s' as [|c s']; [by simpl; rewrite Hr|]. rewrite match_many_cons.
    destruct (p c); [destruct (match_many p rest s') as [[??]|]|]; by rewrite ?Hr.
  - change (is_Some (match_many p rest (String c (w +:+ s')))).
    rewrite match_many_cons. apply andb_true_iff in Hw as [-> Hw].
    by destruct (IH Hw) as [[??] ->].
Qed.

(** No longer run of [p] leaves a text that [rest] matches. *)
Lemma match_many_longest s w ws w2 s2 :
  match_many p rest s = Some (w, ws) ->
  s = w2 +:+ s2 -> string_forall p w2 = true -> is_Some (rest s2) ->
  String.length w2 <= String.length w.
Proof.
  revert w ws w2. induction s as [|c s IH]; intros w ws [|c2 w2]; try (simpl; done || lia).
  rewrite match_many_cons. simpl. intros Hm [= <- ->] [Hc Hw]%andb_true_iff Hr.
  rewrite Hc in Hm.
  destruct (match_many_complete w2 s2 Hw Hr) as [[w' ws'] Hm'].
  rewrite Hm' in Hm. injection Hm as <- <-. simpl.
  pose proof (IH _ _ _ Hm' eq_refl Hw Hr). lia.
Qed.
End Many.

(** ** The matcher finds the match POSIX prescribes *)

Lemma Matches_many_inv p ps s ws :
  Matches (Many p :: ps) s ws ->
  exists w s' ws', s = w +:+ s' /\ ws = w :: ws' /\ string_forall p w = true /\ Matches ps s' ws'.
Proof. inversion 1; subst. eauto 8. Qed.

Lemma Matches_one_inv p ps s ws :
  Matches (One p :: ps) s ws ->
  exists c s' ws', s = String c s' /\ ws = String c EmptyString :: ws' /\ p c = true /\
    Matches ps s' ws'.
Proof. inversion 1; subst. eauto 8. Qed.

Lemma match_pieces_sound ps s ws : match_pieces ps s = Some ws -> Matches ps s ws.
Proof.
  revert s ws. induction ps as [|[p|p] ps IH]; intros s ws; simpl.
  - destruct s; intros [= <-]. constructor.
  - destruct s as [|c s]; [done|]. destruct (p c) eqn:Hc; [|done].
    destruct (match_pieces ps s) eqn:E; intros [= <-]. constructor; auto.
  - destruct (match_many _ _ s) as [[w ws']|] eqn:E; intros [= <-].
    destruct (match_many_sound _ _ _ _ _ E) as (s' & -> & Hw & Hr).
    constructor; auto.
Qed.

Lemma match_pieces_complete ps s ws : Matches ps s ws -> is_Some (match_pieces ps s).
Proof.
  induction 1 as [|p ps c s ws Hc _ [ws' IH]|p ps w s ws Hw _ IH]; simpl; [done|..].
  - by rewrite Hc, IH.
  - by destruct (match_many_complete p _ w s Hw IH) as [? ->].
Qed.

Lemma match_pieces_preferred ps s ws ws2 :
  match_pieces ps s = Some ws -> Matches ps s ws2 -> prefers ws ws2.
Proof.
  intros Hm H2. revert ws Hm.
  induction H2 as [|p ps c s ws2 Hc H2 IH|p ps w2 s2 ws2 Hw2 H2 IH]; intros ws; simpl.
  - by intros [= <-].
  - rewrite Hc. destruct (match_pieces ps s) eqn:E; intros [= <-]. simpl. auto.
  - destruct (match_many _ _ _) as [[w ws']|] eqn:E; intros [= <-]. simpl.
    pose proof (match_many_longest _ _ _ _ _ _ _ E eq_refl Hw2
                  (match_pieces_complete _ _ _ H2)) as Hle.
    destruct (match_many_sound _ _ _ _ _ E) as (s' & Hs & _ & Hr).
    destruct (decide (String.length w2 = String.length w)) as [Hl|]; [right|left; lia].
    destruct (string_app_inj_length _ _ _ _ Hs Hl) as [-> ->]. auto.
Qed.

(** Of two matches of a text neither of which is preferred, there is one. *)
Lemma prefers_antisym ps s ws1 ws2 :
  Matches ps s ws1 -> Matches ps s ws2 -> prefers ws1 ws2 -> prefers ws2 ws1 -> ws1 = ws2.
Proof.
  intros H1. revert ws2.
  induction H1 as [|p ps c s ws1 Hc H1 IH|p ps w1 s1 ws1 Hw1 H1 IH]; intros ws2 H2.
  - by inversion H2.
  - apply Matches_one_inv in H2 as (c' & s' & ws' & [= <- <-] & -> & _ & H2).
    simpl. intros [?|[_ ?]] [?|[_ ?]]; try lia. f_equal; auto.
  - apply Matches_many_inv in H2 as (w2 & s2 & ws2' & Hs & -> & _ & H2).
    simpl. intros [?|[Hl ?]] [?|[? ?]]; try lia.
    destruct (string_app_inj_length _ _ _ _ Hs Hl) as [-> ->]. f_equal; auto.
Qed.

(** [match_pieces] returns a match exactly when there is one, and the
    one it returns is the match POSIX prescribes: no other match gives an
    earlier piece a longer text. *)
Theorem match_pieces_posix ps s ws :
  match_pieces ps s = Some ws <->
  Matches ps s ws /\ forall ws2, Matches ps s ws2 -> prefers ws ws2.
Proof.
  split.
  - eauto using match_pieces_sound, match_pieces_preferred.
  - intros [H Hpref]. destruct (match_pieces_complete _ _ _ H) as [ws' Hm].
    rewrite Hm. f_equal. pose proof (match_pieces_sound _ _ _ Hm).
    eauto using prefers_antisym, match_pieces_preferred.
Qed.

(** ** Expressions in sequence *)

Lemma Matches_length ps s ws : Matches ps s ws -> length ws = length ps.
Proof. induction 1; simpl; congruence. Qed.

Lemma Matches_concat ps s ws : Matches ps s ws -> concat_strings ws = s.
Proof. induction 1; simpl; congruence. Qed.

Lemma Matches_app ps1 ps2 s ws :
  Matches (ps1 ++ ps2) s ws <->
  exists s1 s2 ws1 ws2,
    s = s1 +:+ s2 /\ ws = ws1 ++ ws2 /\ Matches ps1 s1 ws1 /\ Matches ps2 s2 ws2.
Proof.
  split.
  - revert s ws. induction ps1 as [|[p|p] ps1 IH]; intros s ws H; simpl in H.
    + exists EmptyString, s, [], ws. repeat split; auto. constructor.
    + apply Matches_one_inv in H as (c & s' & ws' & -> & -> & Hc & H).
      destruct (IH _ _ H) as (s1 & s2 & ws1 & ws2 & -> & -> & H1 & H2).
      exists (String c s1), s2, (String c EmptyString :: ws1), ws2.
      repeat split; auto. by constructor.
    + apply Matches_many_inv in H as (w & s' & ws' & -> & -> & Hw & H).
      destruct (IH _ _ H) as (s1 & s2 & ws1 & ws2 & -> & -> & H1 & H2).
      exists (w +:+ s1), s2, (w :: ws1), ws2.
      repeat split; auto using string_app_assoc. by constructor.
  - intros (s1 & s2 & ws1 & ws2 & -> & -> & H1 & H2).
    induction H1; simpl; [done|by constructor|].
    rewrite string_app_assoc. by constructor.
Qed.

Lemma Accepts_app ps1 ps2 s :
  Accepts (ps1 ++ ps2) s <-> exists s1 s2, s = s1 +:+ s2 /\ Accepts ps1 s1 /\ Accepts ps2 s2.
Proof.
  unfold Accepts. setoid_rewrite Matches_app. naive_solver.
Qed.

Lemma Accepts_many p s : Accepts [Many p] s <-> string_forall p s = true.
Proof.
  split.
  - intros [ws (w & s' & ws' & -> & -> & Hw & H)%Matches_many_inv].
    inversion H; subst. by rewrite string_app_nil_r.
  - intros H. exists [s]. rewrite <- (string_app_nil_r s) at 1. by repeat constructor.
Qed.

Lemma Accepts_one p s : Accepts [One p] s <-> exists c, s = String c EmptyString /\ p c = true.
Proof.
  split.
  - intros [ws (c & s' & ws' & -> & -> & Hw & H)%Matches_one_inv]. inversion H; subst. eauto.
  - intros (c & -> & Hc). eexists. by repeat constructor.
Qed.

Lemma Accepts_cons_one p ps s :
  Accepts (One p :: ps) s <-> exists c s', s = String c s' /\ p c = true /\ Accepts ps s'.
Proof.
  split.
  - intros [ws (c & s' & ws' & -> & -> & Hw & H)%Matches_one_inv].
    exists c, s'. unfold Accepts. eauto.
  - intros (c & s' & -> & Hc & ws & H). eexists. by constructor.
Qed.

Lemma Accepts_literal t s : Accepts (literal t) s <-> s = t.
Proof.
  revert s. induction t as [|c t IH]; intros s; simpl.
  - split; [by intros [ws H]; inversion H|intros ->; eexists; constructor].
  - rewrite Accepts_cons_one. setoid_rewrite IH. setoid_rewrite bool_decide_eq_true.
    naive_solver.
Qed.

(** ** The substitution command *)

(** What [sed_group] prints is the text of the group in a match of the
    line. *)
Lemma sed_group_sound before group after line v :
  sed_group before group after line = Some v ->
  exists pre post,
    line = pre +:+ v +:+ post /\ Accepts before pre /\ Accepts group v /\ Accepts after post.
Proof.
  unfold sed_group. destruct (match_pieces _ line) as [ws|] eqn:E; intros [= <-].
  apply match_pieces_sound, Matches_app in E as (pre & s & ws1 & ws' & -> & -> & H1 & H).
  apply Matches_app in H as (s2 & post & ws2 & ws3 & -> & -> & H2 & H3).
  rewrite drop_app_length', take_app_length' by (symmetry; eauto using Matches_length).
  rewrite (Matches_concat _ _ _ H2). exists pre, post. unfold Accepts. eauto 10.
Qed.

(** It prints something for every line that has a match. *)
Lemma sed_group_complete before group after pre v post :
  Accepts before pre -> Accepts group v -> Accepts after post ->
  is_Some (sed_group before group after (pre +:+ v +:+ post)).
Proof.
  intros [ws1 H1] [ws2 H2] [ws3 H3]. unfold sed_group.
  destruct (match_pieces_complete (before ++ group ++ after) (pre +:+ v +:+ post)
              (ws1 ++ ws2 ++ ws3)) as [ws ->]; [|done].
  apply Matches_app. exists pre, (v +:+ post), ws1, (ws2 ++ ws3).
  repeat split; auto. apply Matches_app. eauto 10.
Qed.

Lemma Accepts_many_app p ps s :
  Accepts ([Many p] ++ ps) s <->
  exists w s', s = w +:+ s' /\ string_forall p w = true /\ Accepts ps s'.
Proof. rewrite Accepts_app. by setoid_rewrite Accepts_many. Qed.

Lemma Accepts_literal_app t ps s :
  Accepts (literal t ++ ps) s <-> exists s', s = t +:+ s' /\ Accepts ps s'.
Proof. rewrite Accepts_app. setoid_rewrite Accepts_literal. naive_solver. Qed.

(** Builds a match of a text that is written as the expression is. *)
Ltac accepts :=
  repeat first
    [ apply Accepts_literal; reflexivity
    | apply Accepts_many; assumption
    | apply Accepts_many_app; eexists _, _; split_and!; [reflexivity|eassumption|]
    | apply Accepts_literal_app; eexists; split; [reflexivity|] ].

Lemma bison_before_accepts s :
  Accepts bison_before s <->
  exists pre mid, s = pre +:+ "GNU Bison" +:+ mid +:+ " " /\
    string_forall any_char pre = true /\ string_forall any_char mid = true.
Proof.
  unfold bison_before. split.
  - intros (pre & ? & -> & ? & (? & -> & (mid & ? & -> & ? & ->%Accepts_literal)
      %Accepts_many_app)%Accepts_literal_app)%Accepts_many_app. eauto.
  - intros (pre & mid & -> & ? & ?). accepts.
Qed.

Lemma bison_group_accepts s :
  Accepts bison_group s <->
  exists d1 d2, s = d1 +:+ "." +:+ d2 /\
    string_forall is_digit d1 = true /\ string_forall is_digit_or_dot d2 = true.
Proof.
  unfold bison_group. split.
  - intros (d1 & ? & -> & ? & (d2 & -> & ?%Accepts_many)%Accepts_literal_app)
      %Accepts_many_app. eauto.
  - intros (d1 & d2 & -> & ? & ?). accepts.
Qed.

(** ** The line Bison prints *)

Lemma is_not_same c : is_not c c = false.
Proof. unfold is_not. by rewrite bool_decide_eq_true_2. Qed.

Lemma string_forall_impl (p q : ascii -> bool) w :
  (forall c, p c = true -> q c = true) -> string_forall p w = true -> string_forall q w = true.
Proof.
  intros Hpq. induction w as [|c w IH]; simpl; [done|].
  rewrite !andb_true_iff. naive_solver.
Qed.

(** The text before the first [c] and the text after it are determined. *)
Lemma first_sep c x1 y1 x2 y2 :
  string_forall (is_not c) x1 = true -> string_forall (is_not c) x2 = true ->
  x1 +:+ String c y1 = x2 +:+ String c y2 -> x1 = x2 /\ y1 = y2.
Proof.
  revert x2. induction x1 as [|a x1 IH]; intros [|b x2]; simpl; rewrite ?andb_true_iff.
  - by intros _ _ [= ->].
  - intros _ [Hb _] [= <- _]. by rewrite is_not_same in Hb.
  - intros [Ha _] _ [= -> _]. by rewrite is_not_same in Ha.
  - intros [_ H1] [_ H2] [= -> H]. by destruct (IH _ H1 H2 H) as [-> ->].
Qed.

(** A part of a text that holds a [c] reaches the last [c] of the text. *)
Lemma last_sep c x t pre v m r :
  string_forall (is_not c) v = true ->
  x +:+ t = pre +:+ String c v -> t = m +:+ String c r ->
  exists mid, t = mid +:+ String c v.
Proof.
  intros Hv. revert pre. induction x as [|a x IH]; intros pre; simpl; [by eauto|].
  destruct pre as [|b pre]; simpl; [|intros [= -> H] Ht; eauto].
  intros [= -> <-] ->. rewrite !string_forall_app in Hv. simpl in Hv.
  by rewrite is_not_same, !andb_false_r in Hv.
Qed.

(** No [c] stands further to the right than the last one. *)
Lemma sep_before_last c x1 y1 x2 y2 :
  string_forall (is_not c) y1 = true ->
  x1 +:+ String c y1 = x2 +:+ String c y2 -> String.length x2 <= String.length x1.
Proof.
  intros Hy. revert x2. induction x1 as [|a x1 IH]; intros [|b x2]; simpl; try lia.
  - intros [= <- ->]. rewrite string_forall_app in Hy. simpl in Hy.
    by rewrite is_not_same, andb_false_r in Hy.
  - intros [= _ H]. apply IH in H. lia.
Qed.

Lemma digit_not_dot c : is_digit c = true -> is_not "." c = true.
Proof.
  unfold is_digit, is_not. intros [H1 H2]%andb_true_iff.
  apply negb_true_iff, bool_decide_eq_false. intros ->. vm_compute in H2. done.
Qed.

Lemma digit_or_dot_not_blank c : is_digit_or_dot c = true -> is_not " " c = true.
Proof.
  unfold is_digit_or_dot, is_digit, is_not. intros H.
  apply negb_true_iff, bool_decide_eq_false. intros ->. vm_compute in H. done.
Qed.

Lemma digit_or_dot_of_digit c : is_digit c = true -> is_digit_or_dot c = true.
Proof. unfold is_digit_or_dot. by intros ->. Qed.

Lemma version_no_blank d1 d2 :
  string_forall is_digit d1 = true -> string_forall is_digit_or_dot d2 = true ->
  string_forall (is_not " ") (d1 +:+ String "." d2) = true.
Proof.
  intros H1 H2. rewrite string_forall_app. simpl. rewrite andb_true_iff.
  split; [apply (string_forall_impl is_digit)|apply (string_forall_impl is_digit_or_dot)];
    auto using digit_or_dot_not_blank, digit_or_dot_of_digit.
Qed.

Lemma digit_or_dot_any_char c : is_digit_or_dot c = true -> any_char c = true.
Proof.
  unfold is_digit_or_dot, is_digit, any_char. intros H.
  apply negb_true_iff, bool_decide_eq_false. intros ->. vm_compute in H. done.
Qed.

Lemma version_any_char d1 d2 :
  string_forall is_digit d1 = true -> string_forall is_digit_or_dot d2 = true ->
  string_forall any_char (d1 +:+ String "." d2) = true.
Proof.
  intros H1 H2. rewrite string_forall_app. simpl. rewrite andb_true_iff.
  split; [apply (string_forall_impl is_digit)|apply (string_forall_impl is_digit_or_dot)];
    auto using digit_or_dot_any_char, digit_or_dot_of_digit.
Qed.

(** Takes a match of an expression that is written out apart. *)
Ltac invert_matches :=
  repeat match goal with
    | H : Matches (Many _ :: _) _ _ |- _ =>
        apply Matches_many_inv in H as (? & ? & ? & ? & ? & ? & H)
    | H : Matches (One _ :: _) _ _ |- _ =>
        apply Matches_one_inv in H as (? & ? & ? & ? & ? & ?%bool_decide_eq_true & H)
    | H : Matches [] _ _ |- _ => inversion H; clear H
    end.

Lemma bison_tail_match mid d1 d2 :
  string_forall any_char mid = true ->
  string_forall is_digit d1 = true -> string_forall is_digit_or_dot d2 = true ->
  match_pieces bison_tail (mid +:+ " " +:+ d1 +:+ "." +:+ d2) =
  Some [mid; " "; d1; "."; d2; EmptyString].
Proof.
  intros Hmid H1 H2. apply match_pieces_posix. split.
  - rewrite <- (string_app_nil_r d2) at 1.
    repeat first [by constructor | apply Matches_many; [done|] | apply Matches_one; [done|]].
    exact (Matches_many _ [] EmptyString EmptyString [] eq_refl Matches_nil).
  - intros ws2 H. unfold bison_tail, bison_after in H. simpl in H. invert_matches. subst.
    rename select (_ +:+ _ = _ +:+ _) into E. simpl.
    pose proof (version_no_blank _ _ H1 H2) as Hv.
    pose proof (sep_before_last _ _ _ _ _ Hv E).
    match goal with |- ?a < _ \/ _ => destruct (decide (a = String.length mid)) as [Hl|] end;
      [right; split; [done|]|left; lia].
    symmetry in Hl. destruct (string_app_inj_length _ _ _ _ E Hl) as [<- [= E1]].
    apply first_sep in E1 as [<- ->]; eauto using string_forall_impl, digit_not_dot.
    do 3 (right; split; [done|]). rewrite !string_app_length. simpl.
    match goal with |- _ < _ + (?n + 0) \/ _ => destruct n eqn:? end; [right|left]; lia.
Qed.

Lemma match_pieces_literal t ps s ws :
  match_pieces (literal t ++ ps) s = Some ws ->
  exists s' wl ws',
    s = t +:+ s' /\ match_pieces ps s' = Some ws' /\ ws = wl ++ ws' /\ length wl = String.length t.
Proof.
  revert s ws. induction t as [|c t IH]; intros s ws; simpl.
  - intros H. by exists s, [], ws.
  - destruct s as [|c' s]; [done|]. case_bool_decide as Hc; [subst c'|done].
    destruct (match_pieces _ s) as [ws1|] eqn:E; intros [= <-].
    destruct (IH _ _ E) as (s' & wl & ws' & -> & ? & -> & ?).
    exists s', (String c EmptyString :: wl), ws'. simpl. auto.
Qed.

(** What follows [GNU Bison] in a line that ends in a blank and a text
    without blanks, when the expression matches it, ends in them too. *)
Lemma bison_tail_reaches x t pre v wsT :
  string_forall (is_not " ") v = true -> x +:+ t = pre +:+ String " " v ->
  match_pieces bison_tail t = Some wsT -> exists mid, t = mid +:+ String " " v.
Proof.
  intros Hv E H%match_pieces_sound. unfold bison_tail in H. simpl in H. invert_matches.
  subst. eauto using last_sep.
Qed.

(** C32. What the sed command of the test for Bison prints for a line is a
    text [d1.d2], [d1] of digits and [d2] of digits and dots, that stands
    in the line after [GNU Bison], any text and a blank. *)
Theorem sed_bison_sound line v :
  sed_bison line = Some v ->
  exists pre mid d1 d2 post,
    line = (pre +:+ "GNU Bison" +:+ mid +:+ " ") +:+ v +:+ post /\
    v = d1 +:+ "." +:+ d2 /\
    string_forall is_digit d1 = true /\ string_forall is_digit_or_dot d2 = true.
Proof.
  intros (pre & post & -> & Hb & Hg & _)%sed_group_sound.
  apply bison_before_accepts in Hb as (p & mid & -> & _).
  apply bison_group_accepts in Hg as (d1 & d2 & -> & ? & ?).
  by exists p, mid, d1, d2, post.
Qed.

(** It prints something for every line that has such a text (with the
    longest matches, so not always that one). *)
Lemma sed_bison_complete pre mid d1 d2 post :
  string_forall any_char (pre +:+ "GNU Bison" +:+ mid +:+ " ") = true ->
  string_forall any_char post = true ->
  string_forall is_digit d1 = true -> string_forall is_digit_or_dot d2 = true ->
  is_Some (sed_bison ((pre +:+ "GNU Bison" +:+ mid +:+ " ") +:+ (d1 +:+ "." +:+ d2) +:+ post)).
Proof.
  intros Hany Hpost H1 H2. rewrite !string_forall_app, !andb_true_iff in Hany. destruct_and!.
  apply sed_group_complete; [apply bison_before_accepts|apply bison_group_accepts|accepts];
    eauto.
Qed.

(** On a line that has [GNU Bison] and ends in a blank and a version
    [d1.d2], as the first line [bison --version] prints, the sed command
    prints the version. *)
Lemma sed_bison_version a b d1 d2 :
  string_forall any_char (a +:+ "GNU Bison" +:+ b) = true ->
  string_forall is_digit d1 = true -> string_forall is_digit_or_dot d2 = true ->
  sed_bison ((a +:+ "GNU Bison" +:+ b) +:+ " " +:+ d1 +:+ "." +:+ d2) = Some (d1 +:+ "." +:+ d2).
Proof.
  intros Hab H1 H2.
  pose proof (version_no_blank _ _ H1 H2) as Hv. pose proof (version_any_char _ _ H1 H2) as Hv'.
  set (line := _ +:+ _).
  assert (string_forall any_char line = true) as Hline.
  { unfold line. rewrite string_forall_app, Hab. simpl. by rewrite Hv'. }
  assert (is_Some (sed_bison line)) as [v Hsome].
  { replace line with ((a +:+ "GNU Bison" +:+ b +:+ " ") +:+ (d1 +:+ "." +:+ d2) +:+ EmptyString)
      by (unfold line; by rewrite string_app_nil_r, !string_app_assoc).
    apply sed_bison_complete; auto. rewrite <- !string_app_assoc, string_forall_app.
    by rewrite !string_app_assoc, Hab. }
  revert Hsome. unfold sed_bison, sed_group, line.
  change (bison_before ++ bison_group ++ bison_after)
    with (Many any_char :: literal "GNU Bison" ++ bison_tail).
  cbn [match_pieces].
  destruct (match_many _ _ _) as [[w ws1]|] eqn:E; [|done].
  destruct (match_many_sound _ _ _ _ _ E) as (s' & Hs & Hw & Hr).
  apply match_pieces_literal in Hr as (t & wl & wsT & -> & Ht & -> & Hl).
  symmetry in Hs. rewrite <- (string_app_assoc w) in Hs.
  destruct (bison_tail_reaches _ _ _ _ _ Hv Hs Ht) as [mid ->].
  assert (string_forall any_char mid = true) as Hmid.
  { fold line in Hs. rewrite <- Hs, !string_forall_app, !andb_true_iff in Hline. tauto. }
  assert (Some wsT = Some [mid; " "; d1; "."; d2; EmptyString]) as [= ->]
    by (rewrite <- Ht; exact (bison_tail_match mid d1 d2 Hmid H1 H2)).
  do 9 (destruct wl as [|? wl]; [done|]). destruct wl; [|done].
  simpl. by rewrite string_app_nil_r.
Qed.

(** ** The command on lines of Bison *)

Lemma sed_bison_sound_witness :
  exists pre mid d1 d2 post,
    "bison (GNU Bison) 3.8.2" = (pre +:+ "GNU Bison" +:+ mid +:+ " ") +:+ "3.8.2" +:+ post /\
    "3.8.2" = d1 +:+ "." +:+ d2 /\
    string_forall is_digit d1 = true /\ string_forall is_digit_or_dot d2 = true.
Proof. apply (sed_bison_sound "bison (GNU Bison) 3.8.2" "3.8.2"). vm_compute. reflexivity. Defined.

(** The first line of Bison 3.8.2 and of a Bison 2.7 built from a
    repository, the line of Bison 1.28, a line of the shell, and a line
    with two versions: the expression takes the last. *)
Example sed_bison_lines :
  sed_bison <$> ["bison (GNU Bison) 3.8.2"; "bison (GNU Bison) 2.7.12-4996";
                 "GNU Bison version 1.28"; "sh: bison: command not found";
                 "x GNU Bison 1.2 3.4"]
  = [Some "3.8.2"; Some "2.7.12"; Some "1.28"; None; Some "3.4"].
Proof. vm_compute. reflexivity. Qed.

(** Two lines with a version give a text of two lines. *)
Example bison_version_of_two_lines :
  bison_version_of ["GNU Bison 3.0"; "no version"; "GNU Bison 2.7"] = "3.0" +:+ nl +:+ "2.7".
Proof. vm_compute. reflexivity. Qed.
