(* ===== verification/Configure.v ===== *)
(** * Configure: the configure.ac text that follows the C++ code

    After line 626 the source file holds the input of autoconf for the
    directory [intl] (lines 627-724): shell text mixed with m4 macros.  The
    shell text is modelled statement by statement as a computation on the
    shell's variables: the header of line 630, the entries [AC_DEFINE]
    makes (lines 635-644) and where [AC_OUTPUT] puts them, the
    maintainer tools (646-649), [MAINT] (651-659), the relocation of
    [LIBINTL] (661-673), the choice of [PICFLAG] (675-678 and 702-721), the
    test for Bison 3 (680-700) and the output (723-724).

    The macros are modelled from what the manual of autoconf says they do
    ([AC_CONFIG_HEADER], [AC_DEFINE], [AC_SUBST], [AC_ARG_ENABLE],
    [AC_CHECK_PROGS], [AC_CHECK_PROG], [AC_MSG_CHECKING], [AC_MSG_RESULT],
    [AC_CONFIG_FILES], [AC_OUTPUT]), without the cache.  What the script
    asks of the machine it runs on is the interface [Host]; the sed
    command that reads the version of Bison is [Bre.sed_bison].  The other
    macros of lines 627-633 ([AC_INIT] with the parsing of the command
    line, [AM_GNU_GETTEXT]) are not modelled: the state they leave is
    where the model starts.

    The shell is the POSIX shell in the C locale, which [AC_INIT] selects.
    An unquoted expansion is split into fields, and a field with a pattern
    character is replaced by the pathnames that match it; [test] with the
    three operands of a comparison compares two strings; [echo] writes its
    operands as they are unless the first is [-n] or one has a backslash;
    sed edits line by line and a command substitution drops the newlines
    at its end.  What depends on the directory configure runs in, and what
    POSIX leaves to the implementation of [test] and [echo], is asked of
    [Host] ([pathnames], [host_test], [host_echo]).  No statement of the
    script leaves it, so every run reaches [AC_OUTPUT]; the theorems say
    what the output files get, and where that depends on the host. *)

From stdpp Require Import base tactics option list strings gmap.
From Stdlib Require Import Ascii.
From S2P Require Import Prelude Render Bre.

Local Open Scope gdb_scope.

(** The state of a run of configure: the shell's variables (an unset
    variable is none), the definitions made, the variables output files
    substitute, what was printed, the files and the headers to make. *)
Record sh_state : Type := {
  sh_vars : gmap string string;
  sh_defines : list (string * string);
  sh_substs : list string;
  sh_messages : list string;
  sh_config_files : list string;
  sh_config_headers : list string
}.

Definition with_vars (m : gmap string string) (st : sh_state) : sh_state :=
  {| sh_vars := m; sh_defines := sh_defines st; sh_substs := sh_substs st;
     sh_messages := sh_messages st; sh_config_files := sh_config_files st;
     sh_config_headers := sh_config_headers st |}.

Definition with_defines (l : list (string * string)) (st : sh_state) : sh_state :=
  {| sh_vars := sh_vars st; sh_defines := l; sh_substs := sh_substs st;
     sh_messages := sh_messages st; sh_config_files := sh_config_files st;
     sh_config_headers := sh_config_headers st |}.

Definition with_substs (l : list string) (st : sh_state) : sh_state :=
  {| sh_vars := sh_vars st; sh_defines := sh_defines st; sh_substs := l;
     sh_messages := sh_messages st; sh_config_files := sh_config_files st;
     sh_config_headers := sh_config_headers st |}.

Definition with_messages (l : list string) (st : sh_state) : sh_state :=
  {| sh_vars := sh_vars st; sh_defines := sh_defines st; sh_substs := sh_substs st;
     sh_messages := l; sh_config_files := sh_config_files st;
     sh_config_headers := sh_config_headers st |}.

Definition with_config_files (l : list string) (st : sh_state) : sh_state :=
  {| sh_vars := sh_vars st; sh_defines := sh_defines st; sh_substs := sh_substs st;
     sh_messages := sh_messages st; sh_config_files := l;
     sh_config_headers := sh_config_headers st |}.

Definition with_config_headers (l : list string) (st : sh_state) : sh_state :=
  {| sh_vars := sh_vars st; sh_defines := sh_defines st; sh_substs := sh_substs st;
     sh_messages := sh_messages st; sh_config_files := sh_config_files st;
     sh_config_headers := l |}.

(** What the script asks of the machine. *)
Class Host : Type := {
  (** the output of [cd $ac_aux_dir && ${PWDCMD-pwd}] *)
  aux_dir_pwd : string;
  (** a program of that name is found in [PATH] *)
  in_path : string -> bool;
  (** the lines [$INTLBISON --version 2>&1] prints, by the value of
      [INTLBISON] *)
  bison_output : string -> list string;
  (** what [GCC_PICFLAG] (config/picflag.m4) assigns to [PICFLAG] for the
      host, none on the hosts where it assigns nothing *)
  host_picflag : option string;
  (** the pathnames of the directory configure runs in that match a
      pattern, in the order of the shell; none when nothing matches *)
  pathnames : string -> list string;
  (** whether [test] exits with status zero, on operands other than a
      comparison of two strings with [=] *)
  host_test : list string -> bool;
  (** what [echo] writes, less the newline at its end, when its first
      operand is [-n] or an operand has a backslash *)
  host_echo : list string -> string
}.

(** [`$INTLBISON --version 2>&1 | sed -n 's/^.*GNU Bison.*
    \([0-9]*\.[0-9.]*\).*$/\1/p'`] of line 686: what sed prints of the
    lines of Bison. *)
Definition bison_version `{Host} (intlbison : string) : string :=
  bison_version_of (bison_output intlbison).

(** The monad of the script.  No statement of lines 635-724 leaves the
    script, so there is no error to throw. *)
Definition Sh (A : Type) : Type := M sh_state Empty_set A.

(** ** The shell *)

(** [$x]: the value, empty when [x] is unset. *)
Definition expand (x : string) (st : sh_state) : string :=
  default EmptyString (sh_vars st !! x).

(** [x=v]. *)
Definition assign (x v : string) : Sh unit :=
  modify (fun st => with_vars (<[x := v]> (sh_vars st)) st).

(** The characters of the default [IFS]: space, tab, newline. *)
Definition is_ifs (c : ascii) : bool :=
  bool_decide (c = " "%char) || bool_decide (c = "009"%char) || bool_decide (c = "010"%char).

(** The characters that make a field a pattern for pathnames. *)
Definition is_pattern (c : ascii) : bool :=
  bool_decide (c = "*"%char) || bool_decide (c = "?"%char) || bool_decide (c = "["%char).

Definition has_pattern (f : string) : bool :=
  negb (string_forall (fun c => negb (is_pattern c)) f).

(** The fields of an unquoted expansion, split at the characters of
    [IFS]; [cur] is the field being read. *)
Fixpoint fields_from (cur : string) (s : string) : list string :=
  match s with
  | EmptyString => match cur with EmptyString => [] | _ => [cur] end
  | String c s' =>
      if is_ifs c
      then match cur with
           | EmptyString => fields_from EmptyString s'
           | _ => cur :: fields_from EmptyString s'
           end
      else fields_from (cur +:+ String c EmptyString) s'
  end.

Definition fields (s : string) : list string := fields_from EmptyString s.

(** Pathname expansion of a field: a field with a pattern character is
    replaced by the pathnames that match it, and left as it is when none
    does. *)
Definition glob `{Host} (f : string) : list string :=
  if has_pattern f
  then match pathnames f with
       | [] => [f]
       | l => l
       end
  else [f].

(** The fields an unquoted expansion to [v] makes: field splitting, then
    pathname expansion of each field. *)
Definition expand_unquoted `{Host} (v : string) : list string :=
  mjoin (glob <$> fields v).

(** An unquoted expansion to [v] is the one field [v]: [v] is not empty
    and has no character of [IFS] and no pattern character. *)
Definition plain_word (v : string) : bool :=
  match v with
  | EmptyString => false
  | _ => string_forall (fun c => negb (is_ifs c || is_pattern c)) v
  end.

(** [test] on its operands: with three operands of which the second is
    [=], the comparison of the two strings; otherwise what the host's
    [test] answers. *)
Definition sh_test `{Host} (operands : list string) : bool :=
  match operands with
  | [a; op; b] => if bool_decide (op = "=") then bool_decide (a = b) else host_test operands
  | _ => host_test operands
  end.

(** [test $lhs = rhs], [lhs] the unquoted expansion: the operands are
    the fields of [lhs], [=] and [rhs]. *)
Definition word_is `{Host} (lhs rhs : string) : bool :=
  sh_test (expand_unquoted lhs ++ ["="; rhs]).

Definition test_eq_unquoted `{Host} (lhs rhs : string) : Sh bool := ret (word_is lhs rhs).

(** The operands POSIX says [echo] writes as they are: the first is not
    [-n] and none has a backslash. *)
Definition echo_defined (l : list string) : bool :=
  forallb (string_forall (fun c => negb (bool_decide (c = "\"%char)))) l &&
  negb (bool_decide (head l = Some "-n")).

Fixpoint join_fields (l : list string) : string :=
  match l with
  | [] => EmptyString
  | [w] => w
  | w :: l' => w +:+ " " +:+ join_fields l'
  end.

(** What [echo] writes, less the newline at its end: the operands
    separated by one space, or what the host's [echo] makes of them. *)
Definition sh_echo `{Host} (l : list string) : string :=
  if echo_defined l then join_fields l else host_echo l.

(** [echo $x], [v] the value of [x]. *)
Definition echo_unquoted `{Host} (v : string) : Sh string :=
  ret (sh_echo (expand_unquoted v)).

(** The lines of a text; [cur] is the line being read. *)
Fixpoint lines_from (cur : string) (s : string) : list string :=
  match s with
  | EmptyString => [cur]
  | String c s' =>
      if bool_decide (c = "010"%char) then cur :: lines_from EmptyString s'
      else lines_from (cur +:+ String c EmptyString) s'
  end.

Definition lines_of (s : string) : list string := lines_from EmptyString s.

(** A text without the newlines at its end, as a command substitution
    returns it. *)
Fixpoint strip_newlines (s : string) : string :=
  match s with
  | EmptyString => EmptyString
  | String c s' =>
      match strip_newlines s' with
      | EmptyString => if bool_decide (c = "010"%char) then EmptyString else String c EmptyString
      | t => String c t
      end
  end.

(** [`... | sed script`] on a text: sed edits each line, and the command
    substitution drops the newlines at the end. *)
Definition sed_substitution (script : string -> string) (text : string) : string :=
  strip_newlines (join_lines (script <$> lines_of text)).

Fixpoint drop_chars (n : nat) (s : string) : string :=
  match n, s with
  | O, _ => s
  | S n', String _ s' => drop_chars n' s'
  | S _, EmptyString => EmptyString
  end.

(** [sed 's,pat,rep,'] on one line, [pat] without special characters: the
    leftmost occurrence of [pat] is replaced. *)
Fixpoint replace_first (pat rep text : string) : string :=
  if starts_with pat text then rep +:+ drop_chars (String.length pat) text
  else match text with
       | EmptyString => EmptyString
       | String c t => String c (replace_first pat rep t)
       end.

(** The two [s] commands of line 669 on a line. *)
Definition relocate_line (line : string) : string :=
  replace_first "../intl/libintl.a" "../intl -lintl"
    (replace_first "${top_builddir}" "-L${top_builddir}/.." line).

(** [pat] occurs in [text]. *)
Fixpoint occurs (pat text : string) : bool :=
  starts_with pat text ||
  match text with
  | EmptyString => false
  | String _ t => occurs pat t
  end.

(** The pattern [[3-9].*] of [case], in the C locale: a digit from 3 to 9,
    a dot, anything. *)
Definition is_3_to_9 (c : ascii) : bool :=
  (51 <=? nat_of_ascii c)%nat && (nat_of_ascii c <=? 57)%nat.

Definition matches_3_9_dot (v : string) : bool :=
  match v with
  | String c (String "." _) => is_3_to_9 c
  | _ => false
  end.

(** ** The macros *)

(** [AC_DEFINE(name, value, description)]. *)
Definition AC_DEFINE (name value : string) : Sh unit :=
  modify (fun st => with_defines (sh_defines st ++ [(name, value)]) st).

(** [AC_SUBST(x)]. *)
Definition AC_SUBST (x : string) : Sh unit :=
  modify (fun st => with_substs (sh_substs st ++ [x]) st).

(** [AC_MSG_CHECKING(text)] and [AC_MSG_RESULT(text)]. *)
Definition AC_MSG_CHECKING (text : string) : Sh unit :=
  modify (fun st => with_messages (sh_messages st ++ ["checking " +:+ text +:+ "... "]) st).

Definition AC_MSG_RESULT (text : string) : Sh unit :=
  modify (fun st => with_messages (sh_messages st ++ [text]) st).

(** The variable of [--enable-feature]: [enable_] and the feature, with
    [_] for every character that is not a letter, a digit or [_]. *)
Definition is_alnum (c : ascii) : bool :=
  let n := nat_of_ascii c in
  ((48 <=? n) && (n <=? 57) || (65 <=? n) && (n <=? 90) || (97 <=? n) && (n <=? 122))%nat.

Fixpoint tr_sh (s : string) : string :=
  match s with
  | EmptyString => EmptyString
  | String c s' => String (if is_alnum c then c else "_"%char) (tr_sh s')
  end.

Definition enable_var (feature : string) : string := "enable_" +:+ tr_sh feature.

(** [AC_ARG_ENABLE(feature, help, if-given, if-not-given)]: the variable
    is set when the command line had [--enable-feature] or
    [--disable-feature]. *)
Definition AC_ARG_ENABLE (feature : string) (if_given if_not_given : Sh unit) : Sh unit :=
  v <- gets (fun st => sh_vars st !! enable_var feature) ;;
  match v with
  | Some enableval => assign "enableval" enableval ;; if_given
  | None => if_not_given
  end.

(** [AC_CHECK_PROG(x, prog, prog)]: a value of [x] that is not empty is
    kept; otherwise [x] is [prog] when it is found in [PATH], and empty. *)
Definition AC_CHECK_PROG `{Host} (x prog : string) : Sh unit :=
  AC_MSG_CHECKING ("for " +:+ prog) ;;
  v <- gets (expand x) ;;
  assign x (match v with
            | EmptyString => if in_path prog then prog else EmptyString
            | _ => v
            end) ;;
  v <- gets (expand x) ;;
  AC_MSG_RESULT (match v with EmptyString => "no" | _ => v end) ;;
  AC_SUBST x.

(** The loop of [AC_CHECK_PROGS]: the programs in turn until [x] is not
    empty. *)
Fixpoint check_progs `{Host} (x : string) (progs : list string) : Sh unit :=
  match progs with
  | [] => ret tt
  | prog :: progs' =>
      AC_CHECK_PROG x prog ;;
      v <- gets (expand x) ;;
      match v with
      | EmptyString => check_progs x progs'
      | _ => ret tt
      end
  end.

(** [AC_CHECK_PROGS(x, progs, default)]: [x] is the first program found,
    or the default. *)
Definition AC_CHECK_PROGS `{Host} (x : string) (progs : list string)
    (default : sh_state -> string) : Sh unit :=
  check_progs x progs ;;
  v <- gets (expand x) ;;
  match v with
  | EmptyString => d <- gets default ;; assign x d
  | _ => ret tt
  end.

(** [AC_CONFIG_FILES(files)]. *)
Definition AC_CONFIG_FILES (files : list string) : Sh unit :=
  modify (fun st => with_config_files (sh_config_files st ++ files) st).

(** [AC_CONFIG_HEADER(header)]. *)
Definition AC_CONFIG_HEADER (header : string) : Sh unit :=
  modify (fun st => with_config_headers (sh_config_headers st ++ [header]) st).

(** What [AC_OUTPUT] gives [DEFS]: with a header the entries go to the
    header and [DEFS] only says that there is one; without, [DEFS] has an
    option [-D] for every entry. *)
Definition define_option (d : string * string) : string := "-D" +:+ d.1 +:+ "=" +:+ d.2.

Definition DEFS_of (st : sh_state) : string :=
  match sh_config_headers st with
  | [] => join_fields (define_option <$> sh_defines st)
  | _ :: _ => "-DHAVE_CONFIG_H"
  end.

(** [AC_OUTPUT]: the values the output files get for the variables of
    [AC_SUBST], and for [DEFS]. *)
Definition AC_OUTPUT : Sh (gmap string string) :=
  gets (fun st =>
          <["DEFS" := DEFS_of st]> (list_to_map ((fun x => (x, expand x st)) <$> sh_substs st))).

(** ** The script *)

(** Line 630. *)
Definition config_header : Sh unit := AC_CONFIG_HEADER "config.h".

Section Script.
Context `{Host}.

(** Lines 635-644. *)
Definition intl_defines : Sh unit :=
  AC_DEFINE "IN_LIBINTL" "1" ;;
  AC_DEFINE "IN_LIBRARY" "1" ;;
  AC_DEFINE "DEPENDS_ON_LIBICONV" "1" ;;
  AC_DEFINE "ENABLE_RELOCATABLE" "1" ;;
  AC_DEFINE "NO_XMALLOC" "1" ;;
  AC_DEFINE "set_relocation_prefix" "libintl_set_relocation_prefix" ;;
  AC_DEFINE "relocate" "libintl_relocate".

(** Lines 646-649. *)
Definition maintainer_tools : Sh unit :=
  assign "MISSING" (aux_dir_pwd +:+ "/missing") ;;
  AC_CHECK_PROGS "ACLOCAL" ["aclocal"] (fun st => expand "MISSING" st +:+ " aclocal") ;;
  AC_CHECK_PROGS "AUTOCONF" ["autoconf"] (fun st => expand "MISSING" st +:+ " autoconf") ;;
  AC_CHECK_PROGS "AUTOHEADER" ["autoheader"]
    (fun st => expand "MISSING" st +:+ " autoheader").

(** Lines 651-659. *)
Definition maintainer_mode : Sh unit :=
  AC_ARG_ENABLE "maintainer-mode" (ret tt) (assign "enable_maintainer_mode" "no") ;;
  v <- gets (expand "enable_maintainer_mode") ;;
  (if bool_decide ("x" +:+ v = "xno")
   then assign "MAINT" "#"
   else assign "MAINT" EmptyString) ;;
  AC_SUBST "MAINT".

(** Lines 661-673.  In the replacement of the first [s] command [&] is
    the text matched. *)
Definition included_libintl : Sh unit :=
  AC_SUBST "LIBINTL_DEP" ;;
  AC_SUBST "INCINTL" ;;
  assign "LIBINTL_DEP" EmptyString ;;
  assign "INCINTL" EmptyString ;;
  use <- gets (expand "USE_INCLUDED_LIBINTL") ;;
  when (bool_decide (use = "yes"))
    (v <- gets (expand "LIBINTL") ;;
     text <- echo_unquoted v ;;
     assign "LIBINTL" (sed_substitution relocate_line text) ;;
     assign "LIBINTL_DEP" "${top_builddir}/../intl/libintl.a" ;;
     assign "INCINTL" "-I${top_builddir}/../intl").

(** Lines 675-678. *)
Definition picflag_of_host : Sh unit :=
  match host_picflag with
  | Some flag => assign "PICFLAG" flag
  | None => ret tt
  end ;;
  AC_SUBST "PICFLAG".

(** Lines 680-700. *)
Definition bison3 : Sh unit :=
  assign "BISON3_YES" "#" ;;
  assign "BISON3_NO" EmptyString ;;
  intlbison <- gets (expand "INTLBISON") ;;
  when (negb (bool_decide (intlbison = ":")))
    (assign "ac_bison3" "no" ;;
     AC_MSG_CHECKING "bison 3 or later" ;;
     assign "ac_prog_version" (bison_version intlbison) ;;
     v <- gets (expand "ac_prog_version") ;;
     (if matches_3_9_dot v
      then assign "ac_prog_version" (v +:+ ", bison3") ;; assign "ac_bison3" "yes"
      else assign "ac_prog_version" (v +:+ ", old")) ;;
     result <- gets (expand "ac_prog_version") ;;
     AC_MSG_RESULT result ;;
     b <- gets (expand "ac_bison3") ;;
     is3 <- test_eq_unquoted b "yes" ;;
     when is3 (assign "BISON3_YES" EmptyString ;; assign "BISON3_NO" "#")) ;;
  AC_SUBST "BISON3_YES" ;;
  AC_SUBST "BISON3_NO".

(** Lines 702-712. *)
Definition host_options : Sh unit :=
  AC_ARG_ENABLE "host-shared" (ret tt) (ret tt) ;;
  AC_SUBST "enable_host_shared" ;;
  AC_ARG_ENABLE "host-pie" (ret tt) (ret tt) ;;
  AC_SUBST "enable_host_pie".

(** Lines 714-721. *)
Definition choose_picflag : Sh unit :=
  shared <- gets (expand "enable_host_shared") ;;
  is_shared <- test_eq_unquoted ("x" +:+ shared) "xyes" ;;
  (if is_shared then assign "PICFLAG" "-fPIC"
   else pie <- gets (expand "enable_host_pie") ;;
        is_pie <- test_eq_unquoted ("x" +:+ pie) "xyes" ;;
        if is_pie then assign "PICFLAG" "-fPIE" else assign "PICFLAG" EmptyString) ;;
  AC_SUBST "PICFLAG".

(** Lines 723-724. *)
Definition output : Sh (gmap string string) :=
  AC_CONFIG_FILES ["Makefile"; "config.intl"] ;;
  AC_OUTPUT.

(** Lines 635-724, from the state lines 627-633 leave. *)
Definition configure_ac : Sh (gmap string string) :=
  intl_defines ;;
  maintainer_tools ;;
  maintainer_mode ;;
  included_libintl ;;
  picflag_of_host ;;
  bison3 ;;
  host_options ;;
  choose_picflag ;;
  output.

(** Lines 630-724: the header is registered before the script runs. *)
Definition configure_intl : Sh (gmap string string) :=
  config_header ;;
  configure_ac.

End Script.

(** ** What the script decides *)

(** The decisions as functions of the state the script starts from. *)

(** Lines 646-649: [missing] stands in for a tool that is not
    installed. *)
Definition tool_of `{Host} (x prog : string) (st : sh_state) : string :=
  match expand x st with
  | EmptyString => if in_path prog then prog else aux_dir_pwd +:+ "/missing " +:+ prog
  | v => v
  end.

(** [MAINT]: rules for maintainers are commented out unless
    [--enable-maintainer-mode] was given with a value other than [no]. *)
Definition maint_of (st : sh_state) : string :=
  match sh_vars st !! "enable_maintainer_mode" with
  | Some v => if bool_decide (v = "no") then "#" else EmptyString
  | None => "#"
  end.

(** [PICFLAG], when the values of the two options are words. *)
Definition picflag_of (st : sh_state) : string :=
  if bool_decide (expand "enable_host_shared" st = "yes") then "-fPIC"
  else if bool_decide (expand "enable_host_pie" st = "yes") then "-fPIE"
  else EmptyString.

(** [PICFLAG], whatever the values of the two options: what [test] makes
    of their fields on the host. *)
Definition picflag_by `{Host} (st : sh_state) : string :=
  if word_is ("x" +:+ expand "enable_host_shared" st) "xyes" then "-fPIC"
  else if word_is ("x" +:+ expand "enable_host_pie" st) "xyes" then "-fPIE"
  else EmptyString.

(** Bison 3 was found. *)
Definition bison3_of `{Host} (st : sh_state) : bool :=
  negb (bool_decide (expand "INTLBISON" st = ":")) &&
  matches_3_9_dot (bison_version (expand "INTLBISON" st)).

(** The included libintl is used. *)
Definition included (st : sh_state) : bool :=
  bool_decide (expand "USE_INCLUDED_LIBINTL" st = "yes").

(** [LIBINTL] after the two [s] commands, when its fields are written as
    they are. *)
Definition relocated (v : string) : string := relocate_line (join_fields (fields v)).

(** [LIBINTL] after line 669, whatever its value: what the host's
    directory and [echo] make of its fields, edited line by line. *)
Definition relocated_by `{Host} (v : string) : string :=
  sed_substitution relocate_line (sh_echo (expand_unquoted v)).

(** No field is a pattern. *)
Definition no_pattern (l : list string) : bool := forallb (fun f => negb (has_pattern f)) l.

(** The script asks nothing of the directory it runs in nor of the
    host's [test] and [echo]: the unquoted expansions give fields without
    pattern characters, [test] compares two strings, and [echo] writes
    its operands as they are. *)
Definition configure_defined (st : sh_state) : bool :=
  (if included st
   then no_pattern (fields (expand "LIBINTL" st)) && echo_defined (fields (expand "LIBINTL" st))
   else true) &&
  plain_word ("x" +:+ expand "enable_host_shared" st) &&
  (bool_decide (expand "enable_host_shared" st = "yes") ||
   plain_word ("x" +:+ expand "enable_host_pie" st)).

(** [changes ys]: only the variables of [ys] are assigned, the list of
    [AC_SUBST] grows, and nothing is defined or registered. *)
Record changes (ys : list string) (st st' : sh_state) : Prop := {
  changes_vars : forall x, x ∉ ys -> sh_vars st' !! x = sh_vars st !! x;
  changes_substs : sh_substs st `prefix_of` sh_substs st';
  changes_defines : sh_defines st' = sh_defines st;
  changes_config_files : sh_config_files st' = sh_config_files st;
  changes_config_headers : sh_config_headers st' = sh_config_headers st
}.

(** The entries of lines 636-644. *)
Definition intl_entries : list (string * string) :=
  [("IN_LIBINTL", "1"); ("IN_LIBRARY", "1"); ("DEPENDS_ON_LIBICONV", "1");
   ("ENABLE_RELOCATABLE", "1"); ("NO_XMALLOC", "1");
   ("set_relocation_prefix", "libintl_set_relocation_prefix");
   ("relocate", "libintl_relocate")].

(** ** A host and three command lines *)

(** A host with aclocal and autoconf but no autoheader, Bison 3.8.2 under
    the name [bison] and a Bison 10.1 under the name [bison-10], on which
    [GCC_PICFLAG] chooses [-fPIC].  The directory has a file [xyes];
    [test] fails on operands that are no comparison, as the [test] of dash
    and of bash do, with a message and status 2; [echo] writes every
    operand but [-n] as it is, as the [echo] of bash does. *)
#[export] Instance sample_host : Host := {|
  aux_dir_pwd := "/src";
  in_path p := bool_decide (p ∈ ["aclocal"; "autoconf"]);
  bison_output cmd :=
    if decide (cmd = "bison") then
      ["bison (GNU Bison) 3.8.2"; "Written by Robert Corbett and Richard Stallman."; EmptyString;
       "Copyright (C) 2021 Free Software Foundation, Inc."]
    else if decide (cmd = "bison-10") then ["bison (GNU Bison) 10.1"]
    else ["sh: " +:+ cmd +:+ ": command not found"];
  host_picflag := Some "-fPIC";
  pathnames pat := if decide (pat = "xye?") then ["xyes"] else [];
  host_test operands := false;
  host_echo l :=
    match l with
    | "-n" :: l' => join_fields l'
    | _ => join_fields l
    end
|}.

(** The state after lines 627-633 for a command line and the findings of
    [AM_GNU_GETTEXT]: nothing defined, [LIBINTL] substituted. *)
Definition sample_sh_state (vars : list (string * string)) : sh_state :=
  {| sh_vars := list_to_map vars; sh_defines := []; sh_substs := ["LIBINTL"];
     sh_messages := []; sh_config_files := []; sh_config_headers := ["config.h"] |}.

(** configure --enable-host-pie, with the included libintl. *)
Definition sample_pie : sh_state :=
  sample_sh_state [("USE_INCLUDED_LIBINTL", "yes");
                   ("LIBINTL", "${top_builddir}/intl/libintl.a -liconv");
                   ("INTLBISON", "bison"); ("enable_host_pie", "yes")].

(** configure --enable-host-shared='yes please'. *)
Definition sample_blank : sh_state :=
  sample_sh_state [("INTLBISON", ":"); ("enable_host_shared", "yes please")].

(** configure --enable-host-shared='ye?', in a directory that holds a
    file [xyes]. *)
Definition sample_pattern : sh_state :=
  sample_sh_state [("INTLBISON", ":"); ("enable_host_shared", "ye?")].

(** ** Words, fields and substitutions *)

(** A value without blanks is one field. *)
Lemma fields_from_word cur v :
  string_forall (fun c => negb (is_ifs c)) v = true -> cur +:+ v <> EmptyString ->
  fields_from cur v = [cur +:+ v].
Proof.
  revert cur. induction v as [|c v IH]; intros cur Hv Hne; cbn in *.
  - rewrite string_app_nil_r in *. by destruct cur.
  - apply andb_prop in Hv as [Hc Hv]. apply negb_true_iff in Hc. rewrite Hc.
    rewrite IH; [|done|]; rewrite string_app_assoc, string_app_cons; done.
Qed.

(** The unquoted expansion of a plain word is the word. *)
Lemma fields_plain v : plain_word v = true -> fields v = [v].
Proof.
  unfold plain_word, fields. destruct v as [|c v]; [done|]. intros Hp.
  apply (fields_from_word EmptyString); [|done].
  revert Hp. generalize (String c v). intros w. induction w as [|d w IH]; [done|].
  cbn. intros [Hd Hw]%andb_prop. rewrite IH by done.
  apply negb_true_iff, orb_false_elim in Hd as [-> _]. done.
Qed.

Lemma replace_first_eq pat rep text :
  replace_first pat rep text =
  if starts_with pat text then rep +:+ drop_chars (String.length pat) text
  else match text with
       | EmptyString => EmptyString
       | String c t => String c (replace_first pat rep t)
       end.
Proof. by destruct text. Qed.

Lemma drop_chars_app pat rest : drop_chars (String.length pat) (pat +:+ rest) = rest.
Proof. induction pat as [|c pat IH]; [done|]. by rewrite string_app_cons. Qed.

(** [s,pat,rep,] on a line that begins with [pat]. *)
Lemma replace_first_here pat rep rest : replace_first pat rep (pat +:+ rest) = rep +:+ rest.
Proof. by rewrite replace_first_eq, starts_with_app, drop_chars_app. Qed.

(** [s,pat,rep,] on a line without [pat]. *)
Lemma replace_first_absent pat rep text :
  occurs pat text = false -> replace_first pat rep text = text.
Proof.
  induction text as [|c text IH]; cbn; intros [Hs Ho]%orb_false_elim; rewrite Hs; [done|].
  by rewrite IH.
Qed.

(** *** Texts of one line *)

Lemma not_ifs_any_char c : negb (is_ifs c) = true -> any_char c = true.
Proof.
  unfold is_ifs, any_char. intros [_ Hc]%negb_true_iff%orb_false_elim. by rewrite Hc.
Qed.

(** A field has no character of [IFS]. *)
Lemma fields_from_no_ifs cur v :
  string_forall (fun c => negb (is_ifs c)) cur = true ->
  Forall (fun f => string_forall (fun c => negb (is_ifs c)) f = true) (fields_from cur v).
Proof.
  revert cur. induction v as [|c v IH]; intros cur Hcur; cbn.
  - destruct cur; by repeat constructor.
  - destruct (is_ifs c) eqn:Hc.
    + destruct cur; [|constructor; [done|]]; by apply IH.
    + apply IH. rewrite string_forall_app, Hcur. cbn. by rewrite Hc.
Qed.

Lemma join_fields_any_char l :
  Forall (fun f => string_forall any_char f = true) l ->
  string_forall any_char (join_fields l) = true.
Proof.
  induction 1 as [|f [|f' l] Hf _ IH]; [done..|].
  change (join_fields (f :: f' :: l)) with (f +:+ " " +:+ join_fields (f' :: l)).
  by rewrite !string_forall_app, Hf, IH.
Qed.

(** The fields of a value, written by [echo], are one line. *)
Lemma fields_one_line v : string_forall any_char (join_fields (fields v)) = true.
Proof.
  apply join_fields_any_char. eapply Forall_impl; [by apply fields_from_no_ifs|].
  intros f. apply string_forall_impl, not_ifs_any_char.
Qed.

Lemma lines_from_any_char cur text :
  string_forall any_char text = true -> lines_from cur text = [cur +:+ text].
Proof.
  revert cur. induction text as [|c text IH]; intros cur; cbn.
  - by rewrite string_app_nil_r.
  - intros [Hc Ht]%andb_prop. apply negb_true_iff in Hc. rewrite Hc, IH by done.
    by rewrite string_app_assoc.
Qed.

Lemma strip_newlines_any_char text :
  string_forall any_char text = true -> strip_newlines text = text.
Proof.
  induction text as [|c text IH]; [done|]. cbn. intros [Hc Ht]%andb_prop.
  apply negb_true_iff in Hc. rewrite IH, Hc by done. by destruct text.
Qed.

Lemma drop_chars_forall p n text :
  string_forall p text = true -> string_forall p (drop_chars n text) = true.
Proof.
  revert text. induction n as [|n IH]; intros [|c text]; cbn; try done.
  intros [_ Ht]%andb_prop. by apply IH.
Qed.

Lemma replace_first_forall p pat rep text :
  string_forall p rep = true -> string_forall p text = true ->
  string_forall p (replace_first pat rep text) = true.
Proof.
  intros Hrep. induction text as [|c text IH]; intros Ht; rewrite replace_first_eq;
    destruct (starts_with pat _); rewrite ?string_forall_app, ?Hrep;
    try by apply drop_chars_forall.
  - done.
  - cbn in *. apply andb_prop in Ht as [-> Ht]. by apply IH.
Qed.

(** On a text of one line the pipe to sed gives what the script makes of
    the line. *)
Lemma sed_substitution_line script text :
  string_forall any_char text = true -> string_forall any_char (script text) = true ->
  sed_substitution script text = script text.
Proof.
  intros Ht Hs. unfold sed_substitution, lines_of. rewrite lines_from_any_char by done.
  cbn. by apply strip_newlines_any_char.
Qed.

Lemma relocate_line_any_char line :
  string_forall any_char line = true -> string_forall any_char (relocate_line line) = true.
Proof. intros Hl. unfold relocate_line. by do 2 (apply replace_first_forall; [done|]). Qed.

(** ** Frames *)

#[export] Instance changes_preorder ys : PreOrder (changes ys).
Proof.
  split.
  - intros st. by split.
  - intros st1 st2 st3 [Hv1 Hs1 Hd1 Hc1] [Hv2 Hs2 Hd2 Hc2].
    split; [|by etrans|congruence..]. intros x Hx. by rewrite Hv2, Hv1.
Qed.

Lemma changes_weaken ys ys' st st' : ys ⊆ ys' -> changes ys st st' -> changes ys' st st'.
Proof. intros Hsub [Hv Hs Hd Hc]. split; [|done..]. intros x Hx. apply Hv. set_solver. Qed.

Lemma changes_expand ys st st' x : changes ys st st' -> x ∉ ys -> expand x st' = expand x st.
Proof. intros [Hv _ _ _] Hx. unfold expand. by rewrite Hv. Qed.

Lemma changes_subst ys st st' x : changes ys st st' -> x ∈ sh_substs st -> x ∈ sh_substs st'.
Proof. intros [_ [l ->] _ _] Hx. set_solver. Qed.

Section Frames.
Context `{Host} (ys : list string).

Lemma steps_assign x v : x ∈ ys -> steps (changes ys) (assign x v).
Proof.
  intros Hx. apply steps_modify. intros st. split; [|done..].
  intros x' Hx'. cbn. apply lookup_insert_ne. set_solver.
Qed.

Lemma steps_AC_SUBST x : steps (changes ys) (AC_SUBST x).
Proof. apply steps_modify. intros st. split; [done| |done..]. by apply prefix_app_r. Qed.

Lemma steps_AC_MSG_CHECKING text : steps (changes ys) (AC_MSG_CHECKING text).
Proof. apply steps_modify. intros st. by split. Qed.

Lemma steps_AC_MSG_RESULT text : steps (changes ys) (AC_MSG_RESULT text).
Proof. apply steps_modify. intros st. by split. Qed.

Lemma steps_test_eq_unquoted lhs rhs : steps (changes ys) (test_eq_unquoted lhs rhs).
Proof. unfold test_eq_unquoted. solve_steps. Qed.

Lemma steps_echo_unquoted v : steps (changes ys) (echo_unquoted v).
Proof. unfold echo_unquoted. solve_steps. Qed.

#[local] Hint Resolve steps_assign steps_AC_SUBST steps_AC_MSG_CHECKING
  steps_AC_MSG_RESULT steps_test_eq_unquoted steps_echo_unquoted : steps.

Lemma steps_AC_ARG_ENABLE feature if_given if_not_given :
  "enableval" ∈ ys -> steps (changes ys) if_given -> steps (changes ys) if_not_given ->
  steps (changes ys) (AC_ARG_ENABLE feature if_given if_not_given).
Proof. intros Hin Hg Hn. unfold AC_ARG_ENABLE. solve_steps. case_match; solve_steps. Qed.

Lemma steps_AC_CHECK_PROG x prog : x ∈ ys -> steps (changes ys) (AC_CHECK_PROG x prog).
Proof. intros Hx. unfold AC_CHECK_PROG. solve_steps. Qed.

#[local] Hint Resolve steps_AC_CHECK_PROG : steps.

Lemma steps_check_progs x progs : x ∈ ys -> steps (changes ys) (check_progs x progs).
Proof.
  intros Hx. induction progs as [|prog progs IH]; cbn [check_progs]; solve_steps.
  case_match; solve_steps.
Qed.

#[local] Hint Resolve steps_check_progs : steps.

Lemma steps_AC_CHECK_PROGS x progs default :
  x ∈ ys -> steps (changes ys) (AC_CHECK_PROGS x progs default).
Proof. intros Hx. unfold AC_CHECK_PROGS. solve_steps. case_match; solve_steps. Qed.

End Frames.

#[export] Hint Resolve steps_assign steps_AC_SUBST steps_AC_MSG_CHECKING
  steps_AC_MSG_RESULT steps_test_eq_unquoted steps_echo_unquoted steps_AC_CHECK_PROG
  steps_check_progs steps_AC_CHECK_PROGS : steps.

(** ** The parts of the script, one by one *)

(** Membership in a list of names and inclusion of such lists, by
    computation. *)
Ltac solve_in := apply (bool_decide_unpack _); vm_compute; exact I.

Lemma subseteq_compute (l1 l2 : list string) :
  forallb (fun x => bool_decide (x ∈ l2)) l1 = true -> l1 ⊆ l2.
Proof.
  rewrite forallb_forall. intros Hall x Hx.
  apply (bool_decide_eq_true_1 _), Hall. by apply list_elem_of_In.
Qed.

Ltac solve_sub := apply subseteq_compute; vm_compute; reflexivity.

#[export] Hint Extern 1 (_ ∈ _) => solve_in : steps.
#[export] Hint Extern 1 (_ ∉ _) => solve_in : steps.

Section Parts.
Context `{Host}.

(** *** Every part returns *)

Lemma returns_assign x v : returns (assign x v).
Proof. apply returns_modify. Qed.

Lemma returns_AC_DEFINE name value : returns (AC_DEFINE name value).
Proof. apply returns_modify. Qed.

Lemma returns_AC_SUBST x : returns (AC_SUBST x).
Proof. apply returns_modify. Qed.

Lemma returns_AC_MSG_CHECKING text : returns (AC_MSG_CHECKING text).
Proof. apply returns_modify. Qed.

Lemma returns_AC_MSG_RESULT text : returns (AC_MSG_RESULT text).
Proof. apply returns_modify. Qed.

Lemma returns_test_eq_unquoted lhs rhs : returns (test_eq_unquoted lhs rhs).
Proof. apply returns_ret. Qed.

Lemma returns_echo_unquoted v : returns (echo_unquoted v).
Proof. apply returns_ret. Qed.

#[local] Hint Resolve returns_assign returns_AC_DEFINE returns_AC_SUBST
  returns_AC_MSG_CHECKING returns_AC_MSG_RESULT returns_test_eq_unquoted
  returns_echo_unquoted : returns.

(** Decompose a part along its binds and conditionals. *)
Ltac solve_sh_returns :=
  intros;
  repeat first
    [ solve [eauto 2 with returns]
    | apply returns_bind; [|intros ?]
    | apply returns_when
    | case_match ].

Lemma returns_AC_ARG_ENABLE feature if_given if_not_given :
  returns if_given -> returns if_not_given ->
  returns (AC_ARG_ENABLE feature if_given if_not_given).
Proof. intros Hg Hn. unfold AC_ARG_ENABLE. solve_returns. case_match; solve_returns. Qed.

Lemma returns_AC_CHECK_PROG x prog : returns (AC_CHECK_PROG x prog).
Proof. unfold AC_CHECK_PROG. solve_returns. Qed.

#[local] Hint Resolve returns_AC_CHECK_PROG : returns.

Lemma returns_AC_CHECK_PROGS x progs default : returns (AC_CHECK_PROGS x progs default).
Proof.
  unfold AC_CHECK_PROGS. solve_returns; [|case_match; solve_returns].
  induction progs as [|prog progs IH]; cbn [check_progs]; solve_returns.
  case_match; solve_returns.
Qed.

#[local] Hint Resolve returns_AC_ARG_ENABLE returns_AC_CHECK_PROGS : returns.

Lemma returns_maintainer_tools : returns maintainer_tools.
Proof. unfold maintainer_tools. solve_returns. Qed.

Lemma returns_maintainer_mode : returns maintainer_mode.
Proof. unfold maintainer_mode. solve_returns. case_match; solve_returns. Qed.

Lemma returns_included_libintl : returns included_libintl.
Proof. unfold included_libintl. solve_returns. Qed.

Lemma returns_picflag_of_host : returns picflag_of_host.
Proof. unfold picflag_of_host. solve_returns. case_match; solve_returns. Qed.

Lemma returns_bison3 : returns bison3.
Proof. unfold bison3. solve_sh_returns. Qed.

Lemma returns_choose_picflag : returns choose_picflag.
Proof. unfold choose_picflag. solve_sh_returns. Qed.

Lemma returns_host_options : returns host_options.
Proof. unfold host_options. solve_returns. Qed.

Lemma returns_output : returns output.
Proof. unfold output, AC_OUTPUT, AC_CONFIG_FILES. solve_returns. Qed.

(** *** What each part may assign *)

Ltac solve_sh_steps :=
  intros;
  repeat first
    [ solve [eauto 3 with steps]
    | apply steps_AC_ARG_ENABLE
    | apply steps_bind; [apply _| |intros ?]
    | apply steps_when; [apply _|]
    | case_match ].

Lemma steps_maintainer_tools :
  steps (changes ["MISSING"; "ACLOCAL"; "AUTOCONF"; "AUTOHEADER"]) maintainer_tools.
Proof. unfold maintainer_tools. solve_sh_steps. Qed.

Lemma steps_maintainer_mode :
  steps (changes ["enableval"; "enable_maintainer_mode"; "MAINT"]) maintainer_mode.
Proof. unfold maintainer_mode. solve_sh_steps. Qed.

Lemma steps_included_libintl :
  steps (changes ["LIBINTL_DEP"; "INCINTL"; "LIBINTL"]) included_libintl.
Proof. unfold included_libintl. solve_sh_steps. Qed.

Lemma steps_picflag_of_host : steps (changes ["PICFLAG"]) picflag_of_host.
Proof. unfold picflag_of_host. solve_sh_steps. Qed.

Lemma steps_bison3 :
  steps (changes ["BISON3_YES"; "BISON3_NO"; "ac_bison3"; "ac_prog_version"]) bison3.
Proof. unfold bison3. solve_sh_steps. Qed.

Lemma steps_host_options : steps (changes ["enableval"]) host_options.
Proof. unfold host_options. solve_sh_steps. Qed.

Lemma steps_choose_picflag : steps (changes ["PICFLAG"]) choose_picflag.
Proof. unfold choose_picflag. solve_sh_steps. Qed.

(** *** What each part decides *)

Lemma expand_Some x st v : sh_vars st !! x = Some v -> expand x st = v.
Proof. unfold expand. by intros ->. Qed.

Lemma x_word_eq v w : bool_decide ("x" +:+ v = String "x" w) = bool_decide (v = w).
Proof. apply bool_decide_ext. split; [by intros [= ?]|by intros ->]. Qed.

(** The unquoted expansion of a plain word is the word. *)
Lemma has_pattern_plain v : plain_word v = true -> has_pattern v = false.
Proof.
  unfold plain_word, has_pattern. destruct v as [|c v]; [done|]. intros Hp.
  apply negb_false_iff. revert Hp. generalize (String c v). intros w.
  induction w as [|d w IH]; [done|]. cbn. intros [Hd Hw]%andb_prop. rewrite IH by done.
  apply negb_true_iff, orb_false_elim in Hd as [_ ->]. done.
Qed.

Lemma expand_unquoted_plain v : plain_word v = true -> expand_unquoted v = [v].
Proof.
  intros Hp. unfold expand_unquoted, glob. rewrite (fields_plain v Hp). cbn.
  by rewrite (has_pattern_plain v Hp).
Qed.

(** On a plain word [test] compares two strings. *)
Lemma word_is_plain v w : plain_word v = true -> word_is v w = bool_decide (v = w).
Proof. intros Hp. unfold word_is. by rewrite (expand_unquoted_plain v Hp). Qed.

(** The idiom [x$v = xw] compares [v] and [w]. *)
Lemma word_is_x v w :
  plain_word ("x" +:+ v) = true -> word_is ("x" +:+ v) (String "x" w) = bool_decide (v = w).
Proof. intros Hp. by rewrite word_is_plain, x_word_eq. Qed.

(** Reading a variable in a state written out. *)
Lemma expand_mk_eq x v m d s ms c h :
  expand x {| sh_vars := <[x := v]> m; sh_defines := d; sh_substs := s; sh_messages := ms;
              sh_config_files := c; sh_config_headers := h |} = v.
Proof. unfold expand. cbn. by rewrite lookup_insert_eq. Qed.

Lemma expand_mk_ne x y v m d s ms c h :
  x <> y ->
  expand x {| sh_vars := <[y := v]> m; sh_defines := d; sh_substs := s; sh_messages := ms;
              sh_config_files := c; sh_config_headers := h |} =
  expand x {| sh_vars := m; sh_defines := d; sh_substs := s; sh_messages := ms;
              sh_config_files := c; sh_config_headers := h |}.
Proof. intros Hne. unfold expand. cbn. by rewrite lookup_insert_ne. Qed.

Lemma expand_mk_vars x st d s ms c h :
  expand x {| sh_vars := sh_vars st; sh_defines := d; sh_substs := s; sh_messages := ms;
              sh_config_files := c; sh_config_headers := h |} = expand x st.
Proof. done. Qed.

End Parts.

Arguments expand : simpl never.
Arguments test_eq_unquoted : simpl never.
Arguments echo_unquoted : simpl never.
Arguments word_is : simpl never.
Arguments sh_echo : simpl never.
Arguments expand_unquoted : simpl never.
Arguments sed_substitution : simpl never.
Arguments relocate_line : simpl never.
Arguments plain_word : simpl never.
Arguments echo_defined : simpl never.
Arguments fields : simpl never.
Arguments join_fields : simpl never.
Arguments replace_first : simpl never.
Arguments matches_3_9_dot : simpl never.

(** Run a part symbolically: unfold the monad and the macros, write the
    state out, read the variables. *)
Ltac sh_run :=
  unfold AC_ARG_ENABLE, AC_SUBST, AC_DEFINE, AC_MSG_CHECKING, AC_MSG_RESULT, AC_CONFIG_FILES,
    AC_CONFIG_HEADER, AC_OUTPUT, assign;
  munfold;
  repeat match goal with
         | |- context [enable_var ?f] =>
             let v := eval vm_compute in (enable_var f) in change (enable_var f) with v
         end;
  unfold with_vars, with_defines, with_substs, with_messages, with_config_files,
    with_config_headers;
  cbn;
  repeat first
    [ rewrite expand_mk_eq
    | rewrite expand_mk_ne by done
    | rewrite expand_mk_vars ].

Section Decisions.
Context `{Host}.

Lemma maintainer_mode_decides st :
  exists st', maintainer_mode st = Ret tt st' /\ expand "MAINT" st' = maint_of st /\
    "MAINT" ∈ sh_substs st'.
Proof.
  unfold maintainer_mode, maint_of. sh_run.
  destruct (sh_vars st !! "enable_maintainer_mode") as [v|] eqn:Hv; sh_run.
  - rewrite (expand_Some _ _ _ Hv), x_word_eq.
    destruct (bool_decide (v = "no")); eexists; (split; [done|]); sh_run;
      (split; [done|set_solver]).
  - eexists. split; [done|]. sh_run. split; [done|set_solver].
Qed.

Lemma included_libintl_decides st :
  exists st', included_libintl st = Ret tt st' /\
    expand "LIBINTL_DEP" st' =
      (if included st then "${top_builddir}/../intl/libintl.a" else EmptyString) /\
    expand "INCINTL" st' = (if included st then "-I${top_builddir}/../intl" else EmptyString) /\
    expand "LIBINTL" st' =
      (if included st then relocated_by (expand "LIBINTL" st) else expand "LIBINTL" st) /\
    "LIBINTL_DEP" ∈ sh_substs st' /\ "INCINTL" ∈ sh_substs st'.
Proof.
  unfold included_libintl, included, relocated_by, echo_unquoted. sh_run.
  destruct (bool_decide (expand "USE_INCLUDED_LIBINTL" st = "yes")); sh_run;
    (eexists; split; [done|]; sh_run; split_and!; try done; set_solver).
Qed.

(** Without patterns the fields are those of the splitting. *)
Lemma expand_unquoted_no_pattern v :
  no_pattern (fields v) = true -> expand_unquoted v = fields v.
Proof.
  unfold expand_unquoted, no_pattern. induction (fields v) as [|f l IH]; [done|]. cbn.
  intros [Hf Hl]%andb_prop. unfold glob at 1. apply negb_true_iff in Hf. rewrite Hf. cbn.
  f_equal. by apply IH.
Qed.

(** [LIBINTL] when the script asks nothing of the host. *)
Lemma relocated_by_defined v :
  no_pattern (fields v) = true -> echo_defined (fields v) = true ->
  relocated_by v = relocated v.
Proof.
  intros Hp He. unfold relocated_by, relocated, sh_echo.
  rewrite expand_unquoted_no_pattern, He by done.
  apply sed_substitution_line; [|apply relocate_line_any_char]; apply fields_one_line.
Qed.

Lemma test_word_run b w st :
  plain_word b = true -> test_eq_unquoted b w st = Ret (bool_decide (b = w)) st.
Proof. intros Hb. unfold test_eq_unquoted. by rewrite word_is_plain. Qed.

Lemma bison3_decides st :
  exists st', bison3 st = Ret tt st' /\
    expand "BISON3_YES" st' = (if bison3_of st then EmptyString else "#") /\
    expand "BISON3_NO" st' = (if bison3_of st then "#" else EmptyString) /\
    "BISON3_YES" ∈ sh_substs st' /\ "BISON3_NO" ∈ sh_substs st'.
Proof.
  unfold bison3, bison3_of. sh_run.
  destruct (bool_decide (expand "INTLBISON" st = ":")); sh_run;
    [|destruct (matches_3_9_dot _); sh_run; rewrite test_word_run by done; sh_run];
    (eexists; split; [done|]; sh_run; split_and!; try done; set_solver).
Qed.

Lemma choose_picflag_decides st :
  exists st', choose_picflag st = Ret tt st' /\ expand "PICFLAG" st' = picflag_by st /\
    "PICFLAG" ∈ sh_substs st'.
Proof.
  unfold choose_picflag, picflag_by, test_eq_unquoted. sh_run.
  destruct (word_is _ "xyes"); sh_run; [|destruct (word_is _ "xyes"); sh_run];
    (eexists; split; [done|]; sh_run; split; [done|set_solver]).
Qed.

(** [PICFLAG] when the values of the options are words. *)
Lemma picflag_by_defined st :
  plain_word ("x" +:+ expand "enable_host_shared" st) = true ->
  (expand "enable_host_shared" st = "yes" \/
   plain_word ("x" +:+ expand "enable_host_pie" st) = true) ->
  picflag_by st = picflag_of st.
Proof.
  intros Hs Hp. unfold picflag_by, picflag_of. rewrite (word_is_x _ "yes") by done.
  case_bool_decide; [done|]. destruct Hp as [?|Hp]; [done|]. by rewrite (word_is_x _ "yes").
Qed.

Lemma lookup_substitutions (f : string -> string) (l : list string) x :
  (list_to_map ((fun y => (y, f y)) <$> l) : gmap string string) !! x =
  if decide (x ∈ l) then Some (f x) else None.
Proof.
  induction l as [|y l IH]; [rewrite decide_False by set_solver; apply lookup_empty|].
  rewrite fmap_cons, list_to_map_cons. destruct (decide (y = x)) as [->|Hne].
  - rewrite lookup_insert_eq, decide_True by set_solver. done.
  - rewrite lookup_insert_ne, IH by done. repeat case_decide; set_solver.
Qed.

Lemma output_lookup st :
  exists out, output st = Ret out (with_config_files (sh_config_files st ++
                                                      ["Makefile"; "config.intl"]) st) /\
    out !! "DEFS" = Some (DEFS_of st) /\
    forall x, x <> "DEFS" ->
      out !! x = if decide (x ∈ sh_substs st) then Some (expand x st) else None.
Proof.
  unfold output. sh_run. eexists. split_and!; [done|by rewrite lookup_insert_eq|].
  intros x Hx.
  by rewrite lookup_insert_ne, (lookup_substitutions (fun y => expand y _)), expand_mk_vars.
Qed.

(** The frame of a run that returned. *)
Lemma run_changes (ys : list string) (part : Sh unit) st st' :
  steps (changes ys) part -> part st = Ret tt st' -> changes ys st st'.
Proof. intros Hs Hrun. apply Hs. by rewrite Hrun. Qed.

(** The loop of [AC_CHECK_PROGS] stops at the first program found: a
    value given from outside is kept, otherwise [x] is the first program
    of the list that is in [PATH], and empty when there is none. *)
Lemma check_progs_decides x progs st :
  Forall (fun prog => prog <> EmptyString) progs ->
  exists st', check_progs x progs st = Ret tt st' /\
    expand x st' =
      match expand x st with
      | EmptyString => default EmptyString (find (fun p => in_path p) progs)
      | v => v
      end.
Proof.
  intros Hprogs. revert st.
  induction Hprogs as [|prog progs Hprog _ IH]; intros st; cbn [check_progs find].
  { exists st. split; [done|]. by destruct (expand x st). }
  unfold AC_CHECK_PROG. sh_run. destruct (expand x st) as [|c v] eqn:Hx; sh_run.
  - destruct (in_path prog); sh_run.
    + destruct prog as [|d prog]; [done|]. sh_run. eexists. split; [done|]. by sh_run.
    + edestruct IH as (st' & R & Hx'). exists st'. split; [exact R|]. rewrite Hx'. by sh_run.
  - eexists. split; [done|]. by sh_run.
Qed.

(** [AC_CHECK_PROGS]: the value given from outside, or the first program
    found, or the default, which is read in the state the loop leaves. *)
Lemma AC_CHECK_PROGS_decides x progs dflt st :
  Forall (fun prog => prog <> EmptyString) progs ->
  (forall st', changes [x] st st' -> dflt st' = dflt st) ->
  exists st', AC_CHECK_PROGS x progs dflt st = Ret tt st' /\ changes [x] st st' /\
    expand x st' =
      match expand x st with
      | EmptyString =>
          match find (fun p => in_path p) progs with
          | Some (String c p) => String c p
          | _ => dflt st
          end
      | v => v
      end.
Proof.
  intros Hprogs Hdflt.
  destruct (check_progs_decides x progs st Hprogs) as (st1 & R1 & H1).
  pose proof (run_changes [x] _ _ _ (steps_check_progs [x] x progs ltac:(set_solver)) R1) as F1.
  assert (exists st', AC_CHECK_PROGS x progs dflt st = Ret tt st' /\
    expand x st' = match expand x st1 with EmptyString => dflt st | v => v end)
    as (st' & R & Hx).
  { unfold AC_CHECK_PROGS. rewrite (bind_Ret _ _ _ _ _ R1). sh_run.
    destruct (expand x st1) eqn:E; eexists; (split; [done|]); sh_run; [by apply Hdflt|done]. }
  exists st'. split; [done|]. split.
  - apply (run_changes _ _ _ _ (steps_AC_CHECK_PROGS [x] x progs dflt ltac:(set_solver)) R).
  - rewrite Hx, H1. destruct (expand x st); [|done]. by destruct (find _ progs) as [[]|].
Qed.

Lemma maintainer_tools_decides st :
  exists st', maintainer_tools st = Ret tt st' /\
    expand "ACLOCAL" st' = tool_of "ACLOCAL" "aclocal" st /\
    expand "AUTOCONF" st' = tool_of "AUTOCONF" "autoconf" st /\
    expand "AUTOHEADER" st' = tool_of "AUTOHEADER" "autoheader" st.
Proof.
  unfold maintainer_tools. unfold bind at 1, assign at 1, modify at 1.
  set (st0 := with_vars _ st).
  assert (forall prog s s', changes [prog] s s' -> prog <> "MISSING" ->
    expand "MISSING" s' = expand "MISSING" s) as Hm.
  { intros prog s s' F Hne. apply (changes_expand _ _ _ _ F). set_solver. }
  destruct (AC_CHECK_PROGS_decides "ACLOCAL" ["aclocal"]
              (fun st => expand "MISSING" st +:+ " aclocal") st0) as (st1 & R1 & F1 & H1);
    [by repeat constructor|by intros s F; rewrite (Hm _ _ _ F)|].
  destruct (AC_CHECK_PROGS_decides "AUTOCONF" ["autoconf"]
              (fun st => expand "MISSING" st +:+ " autoconf") st1) as (st2 & R2 & F2 & H2);
    [by repeat constructor|by intros s F; rewrite (Hm _ _ _ F)|].
  destruct (AC_CHECK_PROGS_decides "AUTOHEADER" ["autoheader"]
              (fun st => expand "MISSING" st +:+ " autoheader") st2) as (st3 & R3 & F3 & H3);
    [by repeat constructor|by intros s F; rewrite (Hm _ _ _ F)|].
  exists st3. rewrite (bind_Ret _ _ _ _ _ R1), (bind_Ret _ _ _ _ _ R2). split; [done|].
  rewrite H3, (changes_expand _ _ _ "AUTOCONF" F3), H2, (changes_expand _ _ _ "ACLOCAL" F3),
    (changes_expand _ _ _ "ACLOCAL" F2), H1 by solve_in.
  rewrite (changes_expand _ _ _ "AUTOHEADER" F2), (changes_expand _ _ _ "AUTOHEADER" F1),
    (changes_expand _ _ _ "AUTOCONF" F1), !(Hm _ _ _ F2), !(Hm _ _ _ F1) by first [done|solve_in].
  unfold tool_of. subst st0. cbn [find]. sh_run.
  by destruct (in_path "aclocal"), (in_path "autoconf"), (in_path "autoheader");
    rewrite ?string_app_assoc.
Qed.

(** *** The parts in sequence *)

(** A part that always returns, with its frame. *)
Lemma part_runs (ys : list string) (part : Sh unit) st :
  returns part -> steps (changes ys) part -> exists st', part st = Ret tt st' /\ changes ys st st'.
Proof. intros Hr Hs. destruct (returns_steps _ _ st Hr Hs) as ([] & st' & ?). eauto. Qed.

(** Frames in sequence, each within the variables of the whole. *)
Lemma changes_seq ys1 ys2 ys3 ys st1 st2 st3 st4 :
  changes ys1 st1 st2 -> changes ys2 st2 st3 -> changes ys3 st3 st4 ->
  ys1 ⊆ ys -> ys2 ⊆ ys -> ys3 ⊆ ys -> changes ys st1 st4.
Proof.
  intros F1 F2 F3 H1 H2 H3.
  etrans; [exact (changes_weaken _ _ _ _ H1 F1)|].
  etrans; [exact (changes_weaken _ _ _ _ H2 F2)|exact (changes_weaken _ _ _ _ H3 F3)].
Qed.

(** Lines 635-644: seven entries for config.h. *)
Lemma intl_defines_run st :
  intl_defines st = Ret tt (with_defines (sh_defines st ++ intl_entries) st).
Proof. unfold intl_defines. sh_run. by rewrite <- !app_assoc. Qed.

(** Lines 635-659: up to [MAINT]. *)
Lemma configure_to_maint st :
  exists st2 st3,
    maintainer_tools (with_defines (sh_defines st ++ intl_entries) st) = Ret tt st2 /\
    maintainer_mode st2 = Ret tt st3 /\
    changes ["MISSING"; "ACLOCAL"; "AUTOCONF"; "AUTOHEADER"; "enableval";
             "enable_maintainer_mode"; "MAINT"]
      (with_defines (sh_defines st ++ intl_entries) st) st3 /\
    expand "MAINT" st3 = maint_of st /\ "MAINT" ∈ sh_substs st3.
Proof.
  set (st1 := with_defines _ st).
  destruct (part_runs _ _ st1 returns_maintainer_tools steps_maintainer_tools)
    as (st2 & Hrun2 & F2).
  destruct (maintainer_mode_decides st2) as (st3 & Hrun3 & Hmaint & Hsub).
  pose proof (run_changes _ _ _ _ steps_maintainer_mode Hrun3) as F3.
  exists st2, st3. split_and!; [done..| | |done].
  - apply (changes_seq _ _ [] _ _ _ _ _ F2 F3 (reflexivity _)); solve_sub.
  - rewrite Hmaint. unfold maint_of. by rewrite (changes_vars _ _ _ F2) by solve_in.
Qed.

(** Lines 661-700: the included libintl, the host's [PICFLAG], Bison. *)
Lemma configure_to_bison st :
  exists st1 st2 st3,
    included_libintl st = Ret tt st1 /\ picflag_of_host st1 = Ret tt st2 /\
    bison3 st2 = Ret tt st3 /\
    changes ["LIBINTL_DEP"; "INCINTL"; "LIBINTL"; "PICFLAG"; "BISON3_YES"; "BISON3_NO";
             "ac_bison3"; "ac_prog_version"] st st3 /\
    expand "LIBINTL_DEP" st3 =
      (if included st then "${top_builddir}/../intl/libintl.a" else EmptyString) /\
    expand "INCINTL" st3 = (if included st then "-I${top_builddir}/../intl" else EmptyString) /\
    expand "LIBINTL" st3 =
      (if included st then relocated_by (expand "LIBINTL" st) else expand "LIBINTL" st) /\
    expand "BISON3_YES" st3 = (if bison3_of st then EmptyString else "#") /\
    expand "BISON3_NO" st3 = (if bison3_of st then "#" else EmptyString) /\
    Forall (fun x => x ∈ sh_substs st3) ["LIBINTL_DEP"; "INCINTL"; "BISON3_YES"; "BISON3_NO"].
Proof.
  destruct (included_libintl_decides st) as (st1 & Hrun1 & Hdep & Hinc & Hlib & Hs1 & Hs2).
  pose proof (run_changes _ _ _ _ steps_included_libintl Hrun1) as F1.
  destruct (part_runs _ _ st1 returns_picflag_of_host steps_picflag_of_host)
    as (st2 & Hrun2 & F2).
  destruct (bison3_decides st2) as (st3 & Hrun3 & Hyes & Hno & Hs3 & Hs4).
  pose proof (run_changes _ _ _ _ steps_bison3 Hrun3) as F3.
  assert (bison3_of st2 = bison3_of st) as Hb.
  { unfold bison3_of.
    by rewrite (changes_expand _ _ _ _ F2), (changes_expand _ _ _ _ F1) by solve_in. }
  rewrite Hb in Hyes, Hno.
  exists st1, st2, st3. split_and!; [done..| | | | |done|done|].
  - apply (changes_seq _ _ _ _ _ _ _ _ F1 F2 F3); solve_sub.
  - by rewrite (changes_expand _ _ _ _ F3), (changes_expand _ _ _ _ F2) by solve_in.
  - by rewrite (changes_expand _ _ _ _ F3), (changes_expand _ _ _ _ F2) by solve_in.
  - by rewrite (changes_expand _ _ _ _ F3), (changes_expand _ _ _ _ F2) by solve_in.
  - repeat constructor; eauto using changes_subst.
Qed.

(** Lines 702-724: the options of the host, [PICFLAG], the output. *)
Lemma configure_to_output st :
  exists st1 st2 out,
    host_options st = Ret tt st1 /\ choose_picflag st1 = Ret tt st2 /\
    output st2 = Ret out (with_config_files (sh_config_files st ++ ["Makefile"; "config.intl"])
                            st2) /\
    changes ["enableval"; "PICFLAG"] st st2 /\
    expand "PICFLAG" st2 = picflag_by st /\ "PICFLAG" ∈ sh_substs st2 /\
    out !! "DEFS" = Some (DEFS_of st2) /\
    forall x, x <> "DEFS" ->
      out !! x = if decide (x ∈ sh_substs st2) then Some (expand x st2) else None.
Proof.
  destruct (part_runs _ _ st returns_host_options steps_host_options) as (st1 & Hrun1 & F1).
  assert (forall x, x <> "enableval" -> expand x st1 = expand x st) as Hx.
  { intros x Hne. apply (changes_expand _ _ _ _ F1). set_solver. }
  destruct (choose_picflag_decides st1) as (st2 & Hrun2 & Hpic & Hsub).
  pose proof (run_changes _ _ _ _ steps_choose_picflag Hrun2) as F2.
  destruct (output_lookup st2) as (out & Hrun3 & Hdefs & Hout).
  exists st1, st2, out. split_and!; [done..| | | |done|done|done].
  - by rewrite Hrun3, (changes_config_files _ _ _ F2), (changes_config_files _ _ _ F1).
  - apply (changes_seq _ _ [] _ _ _ _ _ F1 F2 (reflexivity _)); solve_sub.
  - rewrite Hpic. unfold picflag_by. by rewrite !Hx.
Qed.

(** The first three parts leave the inputs of the others alone. *)
Lemma configure_to_maint_inputs l st st3 x :
  changes ["MISSING"; "ACLOCAL"; "AUTOCONF"; "AUTOHEADER"; "enableval";
           "enable_maintainer_mode"; "MAINT"] (with_defines l st) st3 ->
  x ∈ ["USE_INCLUDED_LIBINTL"; "LIBINTL"; "INTLBISON"; "enable_host_shared";
       "enable_host_pie"] ->
  expand x st3 = expand x st.
Proof.
  intros F Hx. change (expand x st) with (expand x (with_defines l st)).
  apply (changes_expand _ _ _ _ F).
  repeat (apply elem_of_cons in Hx as [->|Hx]; [solve_in|]). by apply elem_of_nil in Hx.
Qed.

(** So do the next three. *)
Lemma configure_to_bison_inputs st st3 x :
  changes ["LIBINTL_DEP"; "INCINTL"; "LIBINTL"; "PICFLAG"; "BISON3_YES"; "BISON3_NO";
           "ac_bison3"; "ac_prog_version"] st st3 ->
  x ∈ ["MAINT"; "enable_host_shared"; "enable_host_pie"] ->
  expand x st3 = expand x st.
Proof.
  intros F Hx. apply (changes_expand _ _ _ _ F).
  repeat (apply elem_of_cons in Hx as [->|Hx]; [solve_in|]). by apply elem_of_nil in Hx.
Qed.

(** ** Theorems *)

(** Line 630 registers the header. *)
Lemma config_header_run st :
  config_header st = Ret tt (with_config_headers (sh_config_headers st ++ ["config.h"]) st).
Proof. done. Qed.

(** Once a header is registered [DEFS] names it and no entry. *)
Lemma DEFS_of_header st : sh_config_headers st <> [] -> DEFS_of st = "-DHAVE_CONFIG_H".
Proof. unfold DEFS_of. by destruct (sh_config_headers st). Qed.

(** The run of lines 635-724 from any state: no statement leaves the
    script, and the output files get what the parts decide, [PICFLAG] and
    [LIBINTL] by what the host makes of the unquoted expansions. *)
Lemma configure_run st :
  exists out st', configure_ac st = Ret out st' /\
    out !! "MAINT" = Some (maint_of st) /\
    out !! "LIBINTL_DEP" =
      Some (if included st then "${top_builddir}/../intl/libintl.a" else EmptyString) /\
    out !! "INCINTL" = Some (if included st then "-I${top_builddir}/../intl" else EmptyString) /\
    out !! "BISON3_YES" = Some (if bison3_of st then EmptyString else "#") /\
    out !! "BISON3_NO" = Some (if bison3_of st then "#" else EmptyString) /\
    out !! "PICFLAG" = Some (picflag_by st) /\
    out !! "DEFS" = Some (DEFS_of st') /\
    expand "LIBINTL" st' =
      (if included st then relocated_by (expand "LIBINTL" st) else expand "LIBINTL" st) /\
    sh_defines st' = sh_defines st ++ intl_entries /\
    sh_config_headers st' = sh_config_headers st /\
    sh_config_files st' = sh_config_files st ++ ["Makefile"; "config.intl"].
Proof.
  destruct (configure_to_maint st) as (s2 & s3 & R2 & R3 & F3 & Hmaint & Sm).
  pose proof (fun x => configure_to_maint_inputs _ st s3 x F3) as I3.
  destruct (configure_to_bison s3)
    as (s4 & s5 & s6 & R4 & R5 & R6 & F6 & Hdep & Hinc & Hlib & Hyes & Hno & Ssub).
  pose proof (fun x => configure_to_bison_inputs s3 s6 x F6) as I6.
  destruct (configure_to_output s6)
    as (s7 & s8 & out & R7 & R8 & R9 & F8 & Hpic & Spic & Hdefs & Hout).
  exists out, (with_config_files (sh_config_files s6 ++ ["Makefile"; "config.intl"]) s8).
  unfold configure_ac.
  rewrite (bind_Ret _ _ _ _ _ (intl_defines_run st)), (bind_Ret _ _ _ _ _ R2),
    (bind_Ret _ _ _ _ _ R3), (bind_Ret _ _ _ _ _ R4), (bind_Ret _ _ _ _ _ R5),
    (bind_Ret _ _ _ _ _ R6), (bind_Ret _ _ _ _ _ R7), (bind_Ret _ _ _ _ _ R8).
  split; [exact R9|].
  apply Forall_cons in Ssub as [S1 Ssub]. apply Forall_cons in Ssub as [S2 Ssub].
  apply Forall_cons in Ssub as [S3 Ssub]. apply Forall_cons in Ssub as [S4 _].
  unfold bison3_of, included, picflag_by in *. rewrite !I3 in * by solve_in.
  rewrite !Hout, !decide_True by eauto using changes_subst.
  rewrite Hdefs.
  rewrite !(changes_expand _ _ _ _ F8) by solve_in.
  rewrite I6 by solve_in. rewrite Hmaint, Hdep, Hinc, Hyes, Hno.
  split_and!; try done.
  - rewrite Hpic. by rewrite !I6, !I3 by solve_in.
  - etrans; [exact (changes_expand _ _ _ "LIBINTL" F8 ltac:(solve_in))|done].
  - cbn. by rewrite (changes_defines _ _ _ F8), (changes_defines _ _ _ F6),
      (changes_defines _ _ _ F3).
  - cbn. by rewrite (changes_config_headers _ _ _ F8), (changes_config_headers _ _ _ F6),
      (changes_config_headers _ _ _ F3).
  - cbn. by rewrite (changes_config_files _ _ _ F6), (changes_config_files _ _ _ F3).
Qed.

(** C29. What configure substitutes.  From a state in which the script
    asks nothing of the directory nor of the host's [test] and [echo]
    ([configure_defined]), lines 635-724 run to the end and the output
    files get: [MAINT] empty exactly when [--enable-maintainer-mode]
    was given with a value other than [no]; [LIBINTL_DEP] and [INCINTL]
    pointing into [../intl] exactly when the included libintl is used, and
    [LIBINTL] relocated then; [BISON3_YES] and [BISON3_NO] one empty and
    the other [#], by whether Bison 3 was found; [PICFLAG] [-fPIC] with
    [--enable-host-shared], else [-fPIE] with [--enable-host-pie], else
    empty, whatever [GCC_PICFLAG] chose for the host; the seven entries of
    lines 636-644 are defined and the files [Makefile] and [config.intl]
    are registered; [DEFS] is what [AC_OUTPUT] makes of the entries and
    the headers, [-DHAVE_CONFIG_H] with the header of line 630. *)
Theorem configure_decides st :
  configure_defined st = true ->
  exists out st', configure_ac st = Ret out st' /\
    out !! "MAINT" = Some (maint_of st) /\
    out !! "LIBINTL_DEP" =
      Some (if included st then "${top_builddir}/../intl/libintl.a" else EmptyString) /\
    out !! "INCINTL" = Some (if included st then "-I${top_builddir}/../intl" else EmptyString) /\
    out !! "BISON3_YES" = Some (if bison3_of st then EmptyString else "#") /\
    out !! "BISON3_NO" = Some (if bison3_of st then "#" else EmptyString) /\
    out !! "PICFLAG" = Some (picflag_of st) /\
    out !! "DEFS" = Some (DEFS_of st') /\
    expand "LIBINTL" st' =
      (if included st then relocated (expand "LIBINTL" st) else expand "LIBINTL" st) /\
    sh_defines st' = sh_defines st ++ intl_entries /\
    sh_config_headers st' = sh_config_headers st /\
    sh_config_files st' = sh_config_files st ++ ["Makefile"; "config.intl"].
Proof.
  unfold configure_defined. rewrite !andb_true_iff, orb_true_iff, bool_decide_eq_true.
  intros [[Hecho Hs] Hp].
  destruct (configure_run st)
    as (out & st' & Hrun & HM & HD & HI & HY & HN & HP & HF & HL & Hd & Hh & Hc).
  exists out, st'. rewrite <- (picflag_by_defined st Hs Hp). split_and!; try done.
  rewrite HL. destruct (included st); [|done].
  apply andb_prop in Hecho as [? ?]. by apply relocated_by_defined.
Qed.

(** C34. The entries go to the header.  With the header of line 630
    registered, from every state lines 630-724 run to the end, the seven
    entries of lines 636-644 are defined, and [DEFS] is [-DHAVE_CONFIG_H]:
    no entry reaches the command line of the compiler, which is what the
    comment of line 635 says the entries are for. *)
Theorem configure_intl_DEFS st :
  exists out st', configure_intl st = Ret out st' /\
    out !! "DEFS" = Some "-DHAVE_CONFIG_H" /\
    sh_defines st' = sh_defines st ++ intl_entries /\
    sh_config_headers st' = sh_config_headers st ++ ["config.h"].
Proof.
  destruct (configure_run (with_config_headers (sh_config_headers st ++ ["config.h"]) st))
    as (out & st' & Hrun & _ & _ & _ & _ & _ & _ & HF & _ & Hd & Hh & _).
  exists out, st'. unfold configure_intl. rewrite (bind_Ret _ _ _ _ _ (config_header_run st)).
  split_and!; try done. rewrite HF, DEFS_of_header; [done|].
  rewrite Hh. cbn. by destruct (sh_config_headers st).
Qed.

(** C33. The directory decides.  Line 714 expands [enable_host_shared]
    without quotes.  When the value makes one field that is a pattern and
    one pathname [g] of the directory configure runs in matches it, [test]
    compares [g]: the output files get [-fPIC] exactly when the file is
    called [xyes], whatever was written on the command line. *)
Theorem picflag_reads_directory st f g :
  fields ("x" +:+ expand "enable_host_shared" st) = [f] ->
  has_pattern f = true ->
  pathnames f = [g] ->
  exists out st', configure_ac st = Ret out st' /\
    (out !! "PICFLAG" = Some "-fPIC" <-> g = "xyes").
Proof.
  intros Hf Hp Hg.
  destruct (configure_run st) as (out & st' & Hrun & _ & _ & _ & _ & _ & HP & _).
  exists out, st'. split; [done|]. rewrite HP. unfold picflag_by at 1.
  unfold word_is at 1, expand_unquoted. rewrite Hf. cbn [fmap list_fmap mjoin].
  unfold glob. rewrite Hp, Hg. cbn. rewrite (bool_decide_eq_true_2 ("=" = "=")) by done.
  case_bool_decide; [done|]. split; [|done]. by destruct (word_is _ _).
Qed.

(** The pattern [[3-9].*]. *)
Lemma matches_3_9_dot_spec v :
  matches_3_9_dot v = true <->
  exists c rest, v = String c (String "." rest) /\ (51 <= nat_of_ascii c <= 57)%nat.
Proof.
  unfold matches_3_9_dot, is_3_to_9. split.
  - destruct v as [|c [|d rest]]; try done.
    destruct d as [[] [] [] [] [] [] [] []]; try done.
    intros [?%Nat.leb_le ?%Nat.leb_le]%andb_prop. eauto.
  - intros (c & rest & -> & Hc). apply andb_true_intro. split; apply Nat.leb_le; lia.
Qed.

(** C31. Bison 3 or later.  [BISON3_YES] is empty and [BISON3_NO] is [#]
    exactly when [INTLBISON] is not [:] and the version Bison reports has
    one digit from 3 to 9 before its first dot: a version 10.0 counts as
    old, like 2.7. *)
Theorem bison3_one_digit_major st :
  exists st', bison3 st = Ret tt st' /\
    (expand "BISON3_YES" st' = EmptyString /\ expand "BISON3_NO" st' = "#" <->
     expand "INTLBISON" st <> ":" /\
     exists c rest, bison_version (expand "INTLBISON" st) = String c (String "." rest) /\
       (51 <= nat_of_ascii c <= 57)%nat).
Proof.
  destruct (bison3_decides st) as (st' & Hrun & Hyes & Hno & _). exists st'. split; [done|].
  rewrite Hyes, Hno, <- matches_3_9_dot_spec. unfold bison3_of.
  case_bool_decide; destruct (matches_3_9_dot _); cbn; naive_solver.
Qed.

(** The version sed prints when only the first line of Bison has one. *)
Lemma bison_version_first_line cmd line rest v :
  bison_output cmd = line :: rest -> sed_bison line = Some v -> omap sed_bison rest = [] ->
  bison_version cmd = v.
Proof.
  unfold bison_version, bison_version_of. intros -> Hv Hrest. cbn [omap list_omap].
  by rewrite Hv, Hrest.
Qed.

(** [[3-9].*] on a version [d1.d2]: [d1] is one digit from 3 to 9. *)
Lemma matches_3_9_dot_version d1 d2 :
  string_forall is_digit d1 = true ->
  matches_3_9_dot (d1 +:+ "." +:+ d2) = true <->
  exists c, d1 = String c EmptyString /\ (51 <= nat_of_ascii c <= 57)%nat.
Proof.
  intros Hd. rewrite matches_3_9_dot_spec. split.
  - intros (c & r & E & Hc). exists c. split; [|done].
    destruct d1 as [|c1 [|c2 d1]]; injection E; intros; subst.
    + vm_compute in Hc. lia.
    + done.
    + apply andb_true_iff in Hd as [_ [Hdot _]%andb_true_iff]. by vm_compute in Hdot.
  - intros (c & -> & Hc). by exists c, d2.
Qed.

(** C30. The test on the output of Bison.  When the first line Bison
    prints has [GNU Bison] and ends in a blank and a version [d1.d2], and
    sed prints nothing for the other lines, [BISON3_YES] is empty and
    [BISON3_NO] is [#] exactly when [d1] is one digit from 3 to 9. *)
Theorem bison3_reads_version st a b d1 d2 rest :
  expand "INTLBISON" st <> ":" ->
  bison_output (expand "INTLBISON" st) =
    ((a +:+ "GNU Bison" +:+ b) +:+ " " +:+ d1 +:+ "." +:+ d2) :: rest ->
  omap sed_bison rest = [] ->
  string_forall any_char (a +:+ "GNU Bison" +:+ b) = true ->
  string_forall is_digit d1 = true -> string_forall is_digit_or_dot d2 = true ->
  exists st', bison3 st = Ret tt st' /\
    (expand "BISON3_YES" st' = EmptyString /\ expand "BISON3_NO" st' = "#" <->
     exists c, d1 = String c EmptyString /\ (51 <= nat_of_ascii c <= 57)%nat).
Proof.
  intros Hcmd Hout Hrest Hab H1 H2.
  destruct (bison3_decides st) as (st' & Hrun & Hyes & Hno & _). exists st'. split; [done|].
  rewrite Hyes, Hno, <- (matches_3_9_dot_version d1 d2) by done. unfold bison3_of.
  rewrite (bison_version_first_line _ _ _ _ Hout (sed_bison_version a b d1 d2 Hab H1 H2) Hrest).
  rewrite bool_decide_eq_false_2 by done. destruct (matches_3_9_dot _); cbn; naive_solver.
Qed.

End Decisions.

(** ** The theorems at the sample runs *)

Lemma configure_decides_witness :
  exists out st', configure_ac sample_pie = Ret out st' /\
    out !! "MAINT" = Some (maint_of sample_pie) /\
    out !! "LIBINTL_DEP" =
      Some (if included sample_pie then "${top_builddir}/../intl/libintl.a" else EmptyString) /\
    out !! "INCINTL" =
      Some (if included sample_pie then "-I${top_builddir}/../intl" else EmptyString) /\
    out !! "BISON3_YES" = Some (if bison3_of sample_pie then EmptyString else "#") /\
    out !! "BISON3_NO" = Some (if bison3_of sample_pie then "#" else EmptyString) /\
    out !! "PICFLAG" = Some (picflag_of sample_pie) /\
    out !! "DEFS" = Some (DEFS_of st') /\
    expand "LIBINTL" st' =
      (if included sample_pie then relocated (expand "LIBINTL" sample_pie)
       else expand "LIBINTL" sample_pie) /\
    sh_defines st' = sh_defines sample_pie ++ intl_entries /\
    sh_config_headers st' = sh_config_headers sample_pie /\
    sh_config_files st' = sh_config_files sample_pie ++ ["Makefile"; "config.intl"].
Proof. apply (configure_decides sample_pie). vm_compute. reflexivity. Defined.

Lemma picflag_reads_directory_witness :
  exists out st', configure_ac sample_pattern = Ret out st' /\
    (out !! "PICFLAG" = Some "-fPIC" <-> "xyes" = "xyes").
Proof. apply (picflag_reads_directory sample_pattern "xye?" "xyes"); vm_compute; reflexivity. Defined.

Lemma bison3_reads_version_witness :
  exists st', bison3 sample_pie = Ret tt st' /\
    (expand "BISON3_YES" st' = EmptyString /\ expand "BISON3_NO" st' = "#" <->
     exists c, "3" = String c EmptyString /\ (51 <= nat_of_ascii c <= 57)%nat).
Proof.
  apply (bison3_reads_version sample_pie "bison (" ")" "3" "8.2"
           ["Written by Robert Corbett and Richard Stallman."; EmptyString;
            "Copyright (C) 2021 Free Software Foundation, Inc."]);
    by vm_compute.
Defined.

(** The decisions of the sample run, evaluated. *)
Example sample_pie_decisions :
  maint_of sample_pie = "#" /\ included sample_pie = true /\ bison3_of sample_pie = true /\
  picflag_of sample_pie = "-fPIE" /\
  relocated (expand "LIBINTL" sample_pie) = "-L${top_builddir}/../intl -lintl -liconv" /\
  tool_of "ACLOCAL" "aclocal" sample_pie = "aclocal" /\
  tool_of "AUTOHEADER" "autoheader" sample_pie = "/src/missing autoheader".
Proof. vm_compute. repeat split. Qed.

(** With the header of line 630 [DEFS] has no entry; without it, all of
    them. *)
Example sample_DEFS :
  DEFS_of (with_defines intl_entries sample_pie) = "-DHAVE_CONFIG_H" /\
  DEFS_of (with_defines intl_entries (with_config_headers [] sample_pie)) =
    "-DIN_LIBINTL=1 -DIN_LIBRARY=1 -DDEPENDS_ON_LIBICONV=1 -DENABLE_RELOCATABLE=1 " +:+
    "-DNO_XMALLOC=1 -Dset_relocation_prefix=libintl_set_relocation_prefix " +:+
    "-Drelocate=libintl_relocate".
Proof. split; vm_compute; reflexivity. Qed.

(** The values that are not words, on the sample host: with a blank
    [test] gets four operands and fails, so [PICFLAG] is empty though the
    value starts with [yes]; with a pattern the file [xyes] of the
    directory makes it [-fPIC]. *)
Example sample_unquoted :
  expand_unquoted ("x" +:+ expand "enable_host_shared" sample_blank) = ["xyes"; "please"] /\
  picflag_by sample_blank = EmptyString /\
  expand_unquoted ("x" +:+ expand "enable_host_shared" sample_pattern) = ["xyes"] /\
  picflag_by sample_pattern = "-fPIC" /\ picflag_of sample_pattern = EmptyString.
Proof. vm_compute. repeat split. Qed.

(** A Bison 10 is old. *)
Example sample_bison_10 :
  bison3_of (sample_sh_state [("INTLBISON", "bison-10")]) = false.
Proof. vm_compute. reflexivity. Qed.

(** The versions sed reads from the lines of the sample host. *)
Example sample_bison_versions :
  bison_version "bison" = "3.8.2" /\ bison_version "bison-10" = "10.1" /\
  bison_version "yacc" = EmptyString.
Proof. vm_compute. repeat split. Qed.
